(** * Lahar: window/swapchain lifecycle, frame state machine, device selection

    A shallow embedding of the core of [lahar.h]: the capability registry,
    physical-device scoring and selection, logical-device and swapchain
    construction, the default swapchain resizer, the per-window frame state
    machine and the attachment layout-transition helper.

    Conventions of the embedding.
    - C integers are [Z]; where the C code does arithmetic on a fixed-width
      type the wrap-around is written out ([wrap32], [wrap64]).
    - Handles, window pointers and function pointers are [Z]; [0] is
      [VK_NULL_HANDLE] / [NULL].
    - C arrays are lists.  Reading a slot that does not exist is undefined
      behaviour in C and is the outcome [Crash] here.
    - Every call that leaves the library (Vulkan entry points, the window
      backend, user callbacks, the heap) is a constructor of [extCall]; its
      reply comes from an arbitrary handler over an arbitrary world, and the
      call is appended to a log together with the library state at the time
      of the call.
    - A user callback is handed the library state and answers with values;
      it does not write the [Lahar] structure.  The one exception is the
      resize callback, whose job is to rebuild the window: it answers with
      the whole new library state.
    - The [Lahar*] argument is the state threaded through the monad [M]; it
      is taken to be a valid pointer.  The table of loaded Vulkan entry
      points is outside this development: entry points are taken as loaded.
    - The scratch arena ([lahar_temp_alloc]) holds only transient arrays,
      which are Rocq lists in the monadic code; its bookkeeping is described
      on its own ([Arena]). *)

From Stdlib Require Import ZArith String Bool Lia.
From Stdlib Require Import Floats.SpecFloat.
From stdpp Require Import base list.

Local Open Scope Z_scope.

(* ------------------------------------------------------------------ *)
(** ** Machine integers *)

Definition wrap32 (z : Z) : Z := z mod 2 ^ 32.
Definition wrap64 (z : Z) : Z := z mod 2 ^ 64.
Definition UINT64_MAX : Z := 2 ^ 64 - 1.
Definition NULL : Z := 0.
Definition VK_NULL_HANDLE : Z := 0.

(* ------------------------------------------------------------------ *)
(** ** Error codes (lahar.h, lines 195-210) *)

Definition LAHAR_ERR_SUCCESS : Z := 0.
Definition LAHAR_ERR_ILLEGAL_PARAMS : Z := 0x01000001.
Definition LAHAR_ERR_LOAD_FAILURE : Z := 0x01000002.
Definition LAHAR_ERR_INVALID_CONFIGURATION : Z := 0x01000003.
Definition LAHAR_ERR_MISSING_EXTENSION : Z := 0x01000004.
Definition LAHAR_ERR_NO_SUITABLE_DEVICE : Z := 0x01000005.
Definition LAHAR_ERR_DEPENDENCY_FAILED : Z := 0x01000006.
Definition LAHAR_ERR_ALLOC_FAILED : Z := 0x01000007.
Definition LAHAR_ERR_INVALID_STATE : Z := 0x01000008.
Definition LAHAR_ERR_VK_ERR : Z := 0x01000009.
Definition LAHAR_ERR_INVALID_WINDOW : Z := 0x0100000A.
Definition LAHAR_ERR_NO_COMMAND_BUFFER : Z := 0x0100000B.
Definition LAHAR_ERR_TIMEOUT : Z := 0x0100000C.
Definition LAHAR_ERR_SWAPCHAIN_OUT_OF_DATE : Z := 0x0100000D.
Definition LAHAR_ERR_INVALID_FRAME_STATE : Z := 0x0100000E.
Definition LAHAR_ERR_ATTACHMENT_WO_ALLOCATOR : Z := 0x0100000F.

Definition LAHAR_MAX_DEVICE_ENTRIES : Z := 16.
Definition LAHAR_ATT_COLOR_INDEX : nat := 0.
Definition LAHAR_ATT_STENCIL_DEPTH_INDEX : nat := 1.

(* ------------------------------------------------------------------ *)
(** ** Vulkan constants used by the library (vulkan_core.h values) *)

Definition VK_SUCCESS : Z := 0.
Definition VK_SUBOPTIMAL_KHR : Z := 1000001003.
Definition VK_ERROR_OUT_OF_DATE_KHR : Z := -1000001004.
Definition VK_TRUE : Z := 1.

Definition VK_PHYSICAL_DEVICE_TYPE_INTEGRATED_GPU : Z := 1.
Definition VK_PHYSICAL_DEVICE_TYPE_DISCRETE_GPU : Z := 2.
Definition VK_QUEUE_GRAPHICS_BIT : Z := 0x1.
Definition VK_MEMORY_HEAP_DEVICE_LOCAL_BIT : Z := 0x1.

Definition VK_FORMAT_B8G8R8A8_SRGB : Z := 50.
Definition VK_FORMAT_D16_UNORM : Z := 124.
Definition VK_FORMAT_D32_SFLOAT : Z := 126.
Definition VK_FORMAT_S8_UINT : Z := 127.
Definition VK_FORMAT_D24_UNORM_S8_UINT : Z := 129.
Definition VK_FORMAT_D32_SFLOAT_S8_UINT : Z := 130.
Definition VK_COLORSPACE_SRGB_NONLINEAR_KHR : Z := 0.
Definition VK_PRESENT_MODE_MAILBOX_KHR : Z := 1.
Definition VK_PRESENT_MODE_FIFO_KHR : Z := 2.
Definition VK_SHARING_MODE_EXCLUSIVE : Z := 0.
Definition VK_SHARING_MODE_CONCURRENT : Z := 1.
Definition VK_COMPOSITE_ALPHA_OPAQUE_BIT_KHR : Z := 0x1.
Definition VK_FENCE_CREATE_SIGNALED_BIT : Z := 0x1.
Definition VK_QUEUE_FAMILY_IGNORED : Z := 2 ^ 32 - 1.

Definition VK_STRUCTURE_TYPE_IMAGE_CREATE_INFO : Z := 14.
Definition VK_STRUCTURE_TYPE_IMAGE_VIEW_CREATE_INFO : Z := 15.
Definition VK_STRUCTURE_TYPE_IMAGE_MEMORY_BARRIER : Z := 45.
Definition VK_STRUCTURE_TYPE_SWAPCHAIN_CREATE_INFO_KHR : Z := 1000001000.
Definition VK_STRUCTURE_TYPE_PRESENT_INFO_KHR : Z := 1000001001.
Definition VK_IMAGE_VIEW_TYPE_2D : Z := 1.

Definition VK_IMAGE_USAGE_COLOR_ATTACHMENT_BIT : Z := 0x10.
Definition VK_IMAGE_USAGE_DEPTH_STENCIL_ATTACHMENT_BIT : Z := 0x20.
Definition VK_IMAGE_ASPECT_COLOR_BIT : Z := 0x1.
Definition VK_IMAGE_ASPECT_DEPTH_BIT : Z := 0x2.
Definition VK_IMAGE_ASPECT_STENCIL_BIT : Z := 0x4.

Definition VK_IMAGE_LAYOUT_UNDEFINED : Z := 0.
Definition VK_IMAGE_LAYOUT_COLOR_ATTACHMENT_OPTIMAL : Z := 2.
Definition VK_IMAGE_LAYOUT_DEPTH_STENCIL_ATTACHMENT_OPTIMAL : Z := 3.
Definition VK_IMAGE_LAYOUT_SHADER_READ_ONLY_OPTIMAL : Z := 5.
Definition VK_IMAGE_LAYOUT_TRANSFER_SRC_OPTIMAL : Z := 6.
Definition VK_IMAGE_LAYOUT_TRANSFER_DST_OPTIMAL : Z := 7.
Definition VK_IMAGE_LAYOUT_PRESENT_SRC_KHR : Z := 1000001002.

Definition VK_ACCESS_SHADER_READ_BIT : Z := 0x20.
Definition VK_ACCESS_COLOR_ATTACHMENT_READ_BIT : Z := 0x80.
Definition VK_ACCESS_COLOR_ATTACHMENT_WRITE_BIT : Z := 0x100.
Definition VK_ACCESS_DEPTH_STENCIL_ATTACHMENT_READ_BIT : Z := 0x200.
Definition VK_ACCESS_DEPTH_STENCIL_ATTACHMENT_WRITE_BIT : Z := 0x400.
Definition VK_ACCESS_TRANSFER_READ_BIT : Z := 0x800.
Definition VK_ACCESS_TRANSFER_WRITE_BIT : Z := 0x1000.

Definition VK_PIPELINE_STAGE_TOP_OF_PIPE_BIT : Z := 0x1.
Definition VK_PIPELINE_STAGE_FRAGMENT_SHADER_BIT : Z := 0x80.
Definition VK_PIPELINE_STAGE_EARLY_FRAGMENT_TESTS_BIT : Z := 0x100.
Definition VK_PIPELINE_STAGE_LATE_FRAGMENT_TESTS_BIT : Z := 0x200.
Definition VK_PIPELINE_STAGE_COLOR_ATTACHMENT_OUTPUT_BIT : Z := 0x400.
Definition VK_PIPELINE_STAGE_TRANSFER_BIT : Z := 0x1000.
Definition VK_PIPELINE_STAGE_BOTTOM_OF_PIPE_BIT : Z := 0x2000.
Definition VK_PIPELINE_STAGE_ALL_COMMANDS_BIT : Z := 0x10000.

Definition VK_KHR_SWAPCHAIN_EXTENSION_NAME : string := "VK_KHR_swapchain".
Definition VK_EXT_DEBUG_UTILS_EXTENSION_NAME : string := "VK_EXT_debug_utils".
Definition VK_API_VERSION_1_3 : Z := Z.lor (Z.shiftl 1 22) (Z.shiftl 3 12).
Definition VK_MAKE_VERSION (major minor patch : Z) : Z :=
  Z.lor (Z.lor (Z.shiftl major 22) (Z.shiftl minor 12)) patch.
(* ------------------------------------------------------------------ *)
(** ** Data model *)

(** [enum LaharFramePhase] (lahar.h, lines 272-276). *)
Inductive LaharFramePhase : Type :=
| LAHAR_FRAME_PHASE_BEGIN
| LAHAR_FRAME_PHASE_DRAW
| LAHAR_FRAME_PHASE_PRESENT.

(** Device memory heap ([VkMemoryHeap]). *)
Record VkMemoryHeap : Type := mkVkMemoryHeap {
  heap_size : Z;
  heap_flags : Z
}.

(** The heap table of a device; [memoryHeaps] is a fixed array in C, absent slots read as zero. *)
Record VkPhysicalDeviceMemoryProperties : Type := mkVkPhysicalDeviceMemoryProperties {
  memoryHeapCount : Z;
  memoryHeaps : list VkMemoryHeap
}.

(** The device properties the library reads; the rest is [props_other]. *)
Record VkPhysicalDeviceProperties : Type := mkVkPhysicalDeviceProperties {
  deviceType : Z;
  deviceName : string;
  props_other : Z
}.

(** [VkSurfaceFormatKHR]. *)
Record VkSurfaceFormatKHR : Type := mkVkSurfaceFormatKHR {
  sf_format : Z;
  sf_colorSpace : Z
}.

(** [VkSurfaceCapabilitiesKHR]. *)
Record VkSurfaceCapabilitiesKHR : Type := mkVkSurfaceCapabilitiesKHR {
  minImageCount : Z;
  maxImageCount : Z;
  minImageExtent_width : Z;
  minImageExtent_height : Z;
  maxImageExtent_width : Z;
  maxImageExtent_height : Z;
  currentTransform : Z
}.

(** [struct LaharAllocator]: two function pointers. *)
Record LaharAllocator : Type := mkLaharAllocator {
  alloc_image : Z;
  free_image : Z
}.

(** [struct LaharDeviceInfo] (lahar.h, lines 255-270). *)
Record LaharDeviceInfo : Type := mkLaharDeviceInfo {
  physdev : Z;
  properties : VkPhysicalDeviceProperties;
  features : Z;
  memprops : VkPhysicalDeviceMemoryProperties;
  surface_formats : list VkSurfaceFormatKHR;
  present_modes : list Z;
  surface_fmt_count : Z;
  present_mode_count : Z;
  graphics_queue_index : Z;
  present_queue_index : Z;
  has_graphics_queue : bool;
  has_present_queue : bool
}.

(** [VkAttachmentDescription]. *)
Record VkAttachmentDescription : Type := mkVkAttachmentDescription {
  ad_format : Z;
  ad_samples : Z;
  ad_loadOp : Z;
  ad_storeOp : Z;
  ad_stencilLoadOp : Z;
  ad_stencilStoreOp : Z;
  ad_initialLayout : Z;
  ad_finalLayout : Z
}.

(** [VkImageCreateInfo]. *)
Record VkImageCreateInfo : Type := mkVkImageCreateInfo {
  ici_sType : Z;
  ici_imageType : Z;
  ici_format : Z;
  ici_extent_width : Z;
  ici_extent_height : Z;
  ici_extent_depth : Z;
  ici_mipLevels : Z;
  ici_arrayLayers : Z;
  ici_samples : Z;
  ici_tiling : Z;
  ici_usage : Z;
  ici_sharingMode : Z;
  ici_initialLayout : Z
}.

(** [VkImageViewCreateInfo]. *)
Record VkImageViewCreateInfo : Type := mkVkImageViewCreateInfo {
  ivci_sType : Z;
  ivci_image : Z;
  ivci_viewType : Z;
  ivci_format : Z;
  ivci_aspectMask : Z;
  ivci_baseMipLevel : Z;
  ivci_levelCount : Z;
  ivci_baseArrayLayer : Z;
  ivci_layerCount : Z
}.

(** [struct LaharAttachmentConfig] (lahar.h, lines 278-283). *)
Record LaharAttachmentConfig : Type := mkLaharAttachmentConfig {
  usage : Z;
  description : VkAttachmentDescription;
  img_info : VkImageCreateInfo;
  view_info : VkImageViewCreateInfo
}.

(** [struct LaharWindowConfig] (lahar.h, lines 285-292). *)
Record LaharWindowConfig : Type := mkLaharWindowConfig {
  wc_attachment_count : Z;
  wc_attachments : list LaharAttachmentConfig;
  wc_desired_swap_size : Z;
  wc_max_in_flight : Z;
  wc_alpha : Z;
  wc_no_auto_swap_resize : bool
}.

(** [struct LaharAttachment] (lahar.h, lines 302-307). *)
Record LaharAttachment : Type := mkLaharAttachment {
  img_allocation : Z;
  image : Z;
  view : Z;
  layout : Z
}.

(** [struct LaharWindowState] (lahar.h, lines 309-335). *)
Record LaharWindowState : Type := mkLaharWindowState {
  window : Z;
  width : Z;
  height : Z;
  desired_img_count : Z;
  max_in_flight : Z;
  frame_phase : LaharFramePhase;
  alpha : Z;
  auto_recreate_swap : bool;
  resize_callback : Z;
  surface_format : VkSurfaceFormatKHR;
  surface : Z;
  swapchain : Z;
  swap_size : Z;
  image_available : list Z;
  render_finished : list Z;
  in_flight : list Z;
  flight_index : Z;
  frame_index : Z;
  attachment_count : Z;
  attachment_configs : list LaharAttachmentConfig;
  attachments : list (list LaharAttachment);
  commands : list Z
}.

(** The [extensions] member of [struct Lahar] (lahar.h, lines 368-382); each count is the length of its list. *)
Record LaharExtensions : Type := mkLaharExtensions {
  req_inst_exts : list string;
  rie_cap : Z;
  req_dev_exts : list string;
  rde_cap : Z;
  opt_inst_exts : list string;
  opt_inst_exts_present : list bool;
  oie_cap : Z;
  opt_dev_exts : list string;
  opt_dev_exts_present : list bool;
  ode_cap : Z
}.

(** [struct Lahar] (lahar.h, lines 337-388); [window_count] is the length of [windows]. *)
Record Lahar : Type := mkLahar {
  libvulkan : Z;
  vkresult : Z;
  vkversion : Z;
  appversion : Z;
  appname : option string;
  wantvalidation : bool;
  wantcommands : bool;
  vkalloc : Z;
  debug_callback : Z;
  user_data : Z;
  gpu_allocator : option LaharAllocator;
  device_name : option string;
  score_func : Z;
  format_chooser : Z;
  present_chooser : Z;
  instance : Z;
  debug_messenger : Z;
  physdev_info : LaharDeviceInfo;
  device : Z;
  graphicsQueue : Z;
  presentQueue : Z;
  pool : Z;
  windows : list LaharWindowState;
  window_cap : Z;
  extensions : LaharExtensions
}.

(** Field updates, one per member the library assigns. *)

Definition set_physdev (v : Z) (r : LaharDeviceInfo) : LaharDeviceInfo :=
  {| physdev := v; properties := properties r; features := features r;
     memprops := memprops r; surface_formats := surface_formats r;
     present_modes := present_modes r; surface_fmt_count := surface_fmt_count
     r; present_mode_count := present_mode_count r; graphics_queue_index :=
     graphics_queue_index r; present_queue_index := present_queue_index r;
     has_graphics_queue := has_graphics_queue r; has_present_queue :=
     has_present_queue r |}.
Definition set_properties (v : VkPhysicalDeviceProperties) (r : LaharDeviceInfo) : LaharDeviceInfo :=
  {| physdev := physdev r; properties := v; features := features r; memprops
     := memprops r; surface_formats := surface_formats r; present_modes :=
     present_modes r; surface_fmt_count := surface_fmt_count r;
     present_mode_count := present_mode_count r; graphics_queue_index :=
     graphics_queue_index r; present_queue_index := present_queue_index r;
     has_graphics_queue := has_graphics_queue r; has_present_queue :=
     has_present_queue r |}.
Definition set_features (v : Z) (r : LaharDeviceInfo) : LaharDeviceInfo :=
  {| physdev := physdev r; properties := properties r; features := v; memprops
     := memprops r; surface_formats := surface_formats r; present_modes :=
     present_modes r; surface_fmt_count := surface_fmt_count r;
     present_mode_count := present_mode_count r; graphics_queue_index :=
     graphics_queue_index r; present_queue_index := present_queue_index r;
     has_graphics_queue := has_graphics_queue r; has_present_queue :=
     has_present_queue r |}.
Definition set_surface_formats (v : list VkSurfaceFormatKHR) (r : LaharDeviceInfo) : LaharDeviceInfo :=
  {| physdev := physdev r; properties := properties r; features := features r;
     memprops := memprops r; surface_formats := v; present_modes :=
     present_modes r; surface_fmt_count := surface_fmt_count r;
     present_mode_count := present_mode_count r; graphics_queue_index :=
     graphics_queue_index r; present_queue_index := present_queue_index r;
     has_graphics_queue := has_graphics_queue r; has_present_queue :=
     has_present_queue r |}.
Definition set_present_modes (v : list Z) (r : LaharDeviceInfo) : LaharDeviceInfo :=
  {| physdev := physdev r; properties := properties r; features := features r;
     memprops := memprops r; surface_formats := surface_formats r;
     present_modes := v; surface_fmt_count := surface_fmt_count r;
     present_mode_count := present_mode_count r; graphics_queue_index :=
     graphics_queue_index r; present_queue_index := present_queue_index r;
     has_graphics_queue := has_graphics_queue r; has_present_queue :=
     has_present_queue r |}.
Definition set_graphics_queue_index (v : Z) (r : LaharDeviceInfo) : LaharDeviceInfo :=
  {| physdev := physdev r; properties := properties r; features := features r;
     memprops := memprops r; surface_formats := surface_formats r;
     present_modes := present_modes r; surface_fmt_count := surface_fmt_count
     r; present_mode_count := present_mode_count r; graphics_queue_index := v;
     present_queue_index := present_queue_index r; has_graphics_queue :=
     has_graphics_queue r; has_present_queue := has_present_queue r |}.
Definition set_present_queue_index (v : Z) (r : LaharDeviceInfo) : LaharDeviceInfo :=
  {| physdev := physdev r; properties := properties r; features := features r;
     memprops := memprops r; surface_formats := surface_formats r;
     present_modes := present_modes r; surface_fmt_count := surface_fmt_count
     r; present_mode_count := present_mode_count r; graphics_queue_index :=
     graphics_queue_index r; present_queue_index := v; has_graphics_queue :=
     has_graphics_queue r; has_present_queue := has_present_queue r |}.
Definition set_has_graphics_queue (v : bool) (r : LaharDeviceInfo) : LaharDeviceInfo :=
  {| physdev := physdev r; properties := properties r; features := features r;
     memprops := memprops r; surface_formats := surface_formats r;
     present_modes := present_modes r; surface_fmt_count := surface_fmt_count
     r; present_mode_count := present_mode_count r; graphics_queue_index :=
     graphics_queue_index r; present_queue_index := present_queue_index r;
     has_graphics_queue := v; has_present_queue := has_present_queue r |}.
Definition set_has_present_queue (v : bool) (r : LaharDeviceInfo) : LaharDeviceInfo :=
  {| physdev := physdev r; properties := properties r; features := features r;
     memprops := memprops r; surface_formats := surface_formats r;
     present_modes := present_modes r; surface_fmt_count := surface_fmt_count
     r; present_mode_count := present_mode_count r; graphics_queue_index :=
     graphics_queue_index r; present_queue_index := present_queue_index r;
     has_graphics_queue := has_graphics_queue r; has_present_queue := v |}.

Definition set_ici_sType (v : Z) (r : VkImageCreateInfo) : VkImageCreateInfo :=
  {| ici_sType := v; ici_imageType := ici_imageType r; ici_format :=
     ici_format r; ici_extent_width := ici_extent_width r; ici_extent_height
     := ici_extent_height r; ici_extent_depth := ici_extent_depth r;
     ici_mipLevels := ici_mipLevels r; ici_arrayLayers := ici_arrayLayers r;
     ici_samples := ici_samples r; ici_tiling := ici_tiling r; ici_usage :=
     ici_usage r; ici_sharingMode := ici_sharingMode r; ici_initialLayout :=
     ici_initialLayout r |}.
Definition set_ici_extent_width (v : Z) (r : VkImageCreateInfo) : VkImageCreateInfo :=
  {| ici_sType := ici_sType r; ici_imageType := ici_imageType r; ici_format :=
     ici_format r; ici_extent_width := v; ici_extent_height :=
     ici_extent_height r; ici_extent_depth := ici_extent_depth r;
     ici_mipLevels := ici_mipLevels r; ici_arrayLayers := ici_arrayLayers r;
     ici_samples := ici_samples r; ici_tiling := ici_tiling r; ici_usage :=
     ici_usage r; ici_sharingMode := ici_sharingMode r; ici_initialLayout :=
     ici_initialLayout r |}.
Definition set_ici_extent_height (v : Z) (r : VkImageCreateInfo) : VkImageCreateInfo :=
  {| ici_sType := ici_sType r; ici_imageType := ici_imageType r; ici_format :=
     ici_format r; ici_extent_width := ici_extent_width r; ici_extent_height
     := v; ici_extent_depth := ici_extent_depth r; ici_mipLevels :=
     ici_mipLevels r; ici_arrayLayers := ici_arrayLayers r; ici_samples :=
     ici_samples r; ici_tiling := ici_tiling r; ici_usage := ici_usage r;
     ici_sharingMode := ici_sharingMode r; ici_initialLayout :=
     ici_initialLayout r |}.
Definition set_ici_extent_depth (v : Z) (r : VkImageCreateInfo) : VkImageCreateInfo :=
  {| ici_sType := ici_sType r; ici_imageType := ici_imageType r; ici_format :=
     ici_format r; ici_extent_width := ici_extent_width r; ici_extent_height
     := ici_extent_height r; ici_extent_depth := v; ici_mipLevels :=
     ici_mipLevels r; ici_arrayLayers := ici_arrayLayers r; ici_samples :=
     ici_samples r; ici_tiling := ici_tiling r; ici_usage := ici_usage r;
     ici_sharingMode := ici_sharingMode r; ici_initialLayout :=
     ici_initialLayout r |}.

Definition set_ivci_image (v : Z) (r : VkImageViewCreateInfo) : VkImageViewCreateInfo :=
  {| ivci_sType := ivci_sType r; ivci_image := v; ivci_viewType :=
     ivci_viewType r; ivci_format := ivci_format r; ivci_aspectMask :=
     ivci_aspectMask r; ivci_baseMipLevel := ivci_baseMipLevel r;
     ivci_levelCount := ivci_levelCount r; ivci_baseArrayLayer :=
     ivci_baseArrayLayer r; ivci_layerCount := ivci_layerCount r |}.

Definition set_img_info (v : VkImageCreateInfo) (r : LaharAttachmentConfig) : LaharAttachmentConfig :=
  {| usage := usage r; description := description r; img_info := v; view_info
     := view_info r |}.
Definition set_view_info (v : VkImageViewCreateInfo) (r : LaharAttachmentConfig) : LaharAttachmentConfig :=
  {| usage := usage r; description := description r; img_info := img_info r;
     view_info := v |}.

Definition set_img_allocation (v : Z) (r : LaharAttachment) : LaharAttachment :=
  {| img_allocation := v; image := image r; view := view r; layout := layout r
     |}.
Definition set_image (v : Z) (r : LaharAttachment) : LaharAttachment :=
  {| img_allocation := img_allocation r; image := v; view := view r; layout :=
     layout r |}.
Definition set_view (v : Z) (r : LaharAttachment) : LaharAttachment :=
  {| img_allocation := img_allocation r; image := image r; view := v; layout
     := layout r |}.
Definition set_layout (v : Z) (r : LaharAttachment) : LaharAttachment :=
  {| img_allocation := img_allocation r; image := image r; view := view r;
     layout := v |}.

Definition set_window (v : Z) (r : LaharWindowState) : LaharWindowState :=
  {| window := v; width := width r; height := height r; desired_img_count :=
     desired_img_count r; max_in_flight := max_in_flight r; frame_phase :=
     frame_phase r; alpha := alpha r; auto_recreate_swap := auto_recreate_swap
     r; resize_callback := resize_callback r; surface_format := surface_format
     r; surface := surface r; swapchain := swapchain r; swap_size := swap_size
     r; image_available := image_available r; render_finished :=
     render_finished r; in_flight := in_flight r; flight_index := flight_index
     r; frame_index := frame_index r; attachment_count := attachment_count r;
     attachment_configs := attachment_configs r; attachments := attachments r;
     commands := commands r |}.
Definition set_width (v : Z) (r : LaharWindowState) : LaharWindowState :=
  {| window := window r; width := v; height := height r; desired_img_count :=
     desired_img_count r; max_in_flight := max_in_flight r; frame_phase :=
     frame_phase r; alpha := alpha r; auto_recreate_swap := auto_recreate_swap
     r; resize_callback := resize_callback r; surface_format := surface_format
     r; surface := surface r; swapchain := swapchain r; swap_size := swap_size
     r; image_available := image_available r; render_finished :=
     render_finished r; in_flight := in_flight r; flight_index := flight_index
     r; frame_index := frame_index r; attachment_count := attachment_count r;
     attachment_configs := attachment_configs r; attachments := attachments r;
     commands := commands r |}.
Definition set_height (v : Z) (r : LaharWindowState) : LaharWindowState :=
  {| window := window r; width := width r; height := v; desired_img_count :=
     desired_img_count r; max_in_flight := max_in_flight r; frame_phase :=
     frame_phase r; alpha := alpha r; auto_recreate_swap := auto_recreate_swap
     r; resize_callback := resize_callback r; surface_format := surface_format
     r; surface := surface r; swapchain := swapchain r; swap_size := swap_size
     r; image_available := image_available r; render_finished :=
     render_finished r; in_flight := in_flight r; flight_index := flight_index
     r; frame_index := frame_index r; attachment_count := attachment_count r;
     attachment_configs := attachment_configs r; attachments := attachments r;
     commands := commands r |}.
Definition set_desired_img_count (v : Z) (r : LaharWindowState) : LaharWindowState :=
  {| window := window r; width := width r; height := height r;
     desired_img_count := v; max_in_flight := max_in_flight r; frame_phase :=
     frame_phase r; alpha := alpha r; auto_recreate_swap := auto_recreate_swap
     r; resize_callback := resize_callback r; surface_format := surface_format
     r; surface := surface r; swapchain := swapchain r; swap_size := swap_size
     r; image_available := image_available r; render_finished :=
     render_finished r; in_flight := in_flight r; flight_index := flight_index
     r; frame_index := frame_index r; attachment_count := attachment_count r;
     attachment_configs := attachment_configs r; attachments := attachments r;
     commands := commands r |}.
Definition set_max_in_flight (v : Z) (r : LaharWindowState) : LaharWindowState :=
  {| window := window r; width := width r; height := height r;
     desired_img_count := desired_img_count r; max_in_flight := v; frame_phase
     := frame_phase r; alpha := alpha r; auto_recreate_swap :=
     auto_recreate_swap r; resize_callback := resize_callback r;
     surface_format := surface_format r; surface := surface r; swapchain :=
     swapchain r; swap_size := swap_size r; image_available := image_available
     r; render_finished := render_finished r; in_flight := in_flight r;
     flight_index := flight_index r; frame_index := frame_index r;
     attachment_count := attachment_count r; attachment_configs :=
     attachment_configs r; attachments := attachments r; commands := commands
     r |}.
Definition set_frame_phase (v : LaharFramePhase) (r : LaharWindowState) : LaharWindowState :=
  {| window := window r; width := width r; height := height r;
     desired_img_count := desired_img_count r; max_in_flight := max_in_flight
     r; frame_phase := v; alpha := alpha r; auto_recreate_swap :=
     auto_recreate_swap r; resize_callback := resize_callback r;
     surface_format := surface_format r; surface := surface r; swapchain :=
     swapchain r; swap_size := swap_size r; image_available := image_available
     r; render_finished := render_finished r; in_flight := in_flight r;
     flight_index := flight_index r; frame_index := frame_index r;
     attachment_count := attachment_count r; attachment_configs :=
     attachment_configs r; attachments := attachments r; commands := commands
     r |}.
Definition set_auto_recreate_swap (v : bool) (r : LaharWindowState) : LaharWindowState :=
  {| window := window r; width := width r; height := height r;
     desired_img_count := desired_img_count r; max_in_flight := max_in_flight
     r; frame_phase := frame_phase r; alpha := alpha r; auto_recreate_swap :=
     v; resize_callback := resize_callback r; surface_format := surface_format
     r; surface := surface r; swapchain := swapchain r; swap_size := swap_size
     r; image_available := image_available r; render_finished :=
     render_finished r; in_flight := in_flight r; flight_index := flight_index
     r; frame_index := frame_index r; attachment_count := attachment_count r;
     attachment_configs := attachment_configs r; attachments := attachments r;
     commands := commands r |}.
Definition set_surface_format (v : VkSurfaceFormatKHR) (r : LaharWindowState) : LaharWindowState :=
  {| window := window r; width := width r; height := height r;
     desired_img_count := desired_img_count r; max_in_flight := max_in_flight
     r; frame_phase := frame_phase r; alpha := alpha r; auto_recreate_swap :=
     auto_recreate_swap r; resize_callback := resize_callback r;
     surface_format := v; surface := surface r; swapchain := swapchain r;
     swap_size := swap_size r; image_available := image_available r;
     render_finished := render_finished r; in_flight := in_flight r;
     flight_index := flight_index r; frame_index := frame_index r;
     attachment_count := attachment_count r; attachment_configs :=
     attachment_configs r; attachments := attachments r; commands := commands
     r |}.
Definition set_surface (v : Z) (r : LaharWindowState) : LaharWindowState :=
  {| window := window r; width := width r; height := height r;
     desired_img_count := desired_img_count r; max_in_flight := max_in_flight
     r; frame_phase := frame_phase r; alpha := alpha r; auto_recreate_swap :=
     auto_recreate_swap r; resize_callback := resize_callback r;
     surface_format := surface_format r; surface := v; swapchain := swapchain
     r; swap_size := swap_size r; image_available := image_available r;
     render_finished := render_finished r; in_flight := in_flight r;
     flight_index := flight_index r; frame_index := frame_index r;
     attachment_count := attachment_count r; attachment_configs :=
     attachment_configs r; attachments := attachments r; commands := commands
     r |}.
Definition set_swapchain (v : Z) (r : LaharWindowState) : LaharWindowState :=
  {| window := window r; width := width r; height := height r;
     desired_img_count := desired_img_count r; max_in_flight := max_in_flight
     r; frame_phase := frame_phase r; alpha := alpha r; auto_recreate_swap :=
     auto_recreate_swap r; resize_callback := resize_callback r;
     surface_format := surface_format r; surface := surface r; swapchain := v;
     swap_size := swap_size r; image_available := image_available r;
     render_finished := render_finished r; in_flight := in_flight r;
     flight_index := flight_index r; frame_index := frame_index r;
     attachment_count := attachment_count r; attachment_configs :=
     attachment_configs r; attachments := attachments r; commands := commands
     r |}.
Definition set_swap_size (v : Z) (r : LaharWindowState) : LaharWindowState :=
  {| window := window r; width := width r; height := height r;
     desired_img_count := desired_img_count r; max_in_flight := max_in_flight
     r; frame_phase := frame_phase r; alpha := alpha r; auto_recreate_swap :=
     auto_recreate_swap r; resize_callback := resize_callback r;
     surface_format := surface_format r; surface := surface r; swapchain :=
     swapchain r; swap_size := v; image_available := image_available r;
     render_finished := render_finished r; in_flight := in_flight r;
     flight_index := flight_index r; frame_index := frame_index r;
     attachment_count := attachment_count r; attachment_configs :=
     attachment_configs r; attachments := attachments r; commands := commands
     r |}.
Definition set_image_available (v : list Z) (r : LaharWindowState) : LaharWindowState :=
  {| window := window r; width := width r; height := height r;
     desired_img_count := desired_img_count r; max_in_flight := max_in_flight
     r; frame_phase := frame_phase r; alpha := alpha r; auto_recreate_swap :=
     auto_recreate_swap r; resize_callback := resize_callback r;
     surface_format := surface_format r; surface := surface r; swapchain :=
     swapchain r; swap_size := swap_size r; image_available := v;
     render_finished := render_finished r; in_flight := in_flight r;
     flight_index := flight_index r; frame_index := frame_index r;
     attachment_count := attachment_count r; attachment_configs :=
     attachment_configs r; attachments := attachments r; commands := commands
     r |}.
Definition set_render_finished (v : list Z) (r : LaharWindowState) : LaharWindowState :=
  {| window := window r; width := width r; height := height r;
     desired_img_count := desired_img_count r; max_in_flight := max_in_flight
     r; frame_phase := frame_phase r; alpha := alpha r; auto_recreate_swap :=
     auto_recreate_swap r; resize_callback := resize_callback r;
     surface_format := surface_format r; surface := surface r; swapchain :=
     swapchain r; swap_size := swap_size r; image_available := image_available
     r; render_finished := v; in_flight := in_flight r; flight_index :=
     flight_index r; frame_index := frame_index r; attachment_count :=
     attachment_count r; attachment_configs := attachment_configs r;
     attachments := attachments r; commands := commands r |}.
Definition set_in_flight (v : list Z) (r : LaharWindowState) : LaharWindowState :=
  {| window := window r; width := width r; height := height r;
     desired_img_count := desired_img_count r; max_in_flight := max_in_flight
     r; frame_phase := frame_phase r; alpha := alpha r; auto_recreate_swap :=
     auto_recreate_swap r; resize_callback := resize_callback r;
     surface_format := surface_format r; surface := surface r; swapchain :=
     swapchain r; swap_size := swap_size r; image_available := image_available
     r; render_finished := render_finished r; in_flight := v; flight_index :=
     flight_index r; frame_index := frame_index r; attachment_count :=
     attachment_count r; attachment_configs := attachment_configs r;
     attachments := attachments r; commands := commands r |}.
Definition set_flight_index (v : Z) (r : LaharWindowState) : LaharWindowState :=
  {| window := window r; width := width r; height := height r;
     desired_img_count := desired_img_count r; max_in_flight := max_in_flight
     r; frame_phase := frame_phase r; alpha := alpha r; auto_recreate_swap :=
     auto_recreate_swap r; resize_callback := resize_callback r;
     surface_format := surface_format r; surface := surface r; swapchain :=
     swapchain r; swap_size := swap_size r; image_available := image_available
     r; render_finished := render_finished r; in_flight := in_flight r;
     flight_index := v; frame_index := frame_index r; attachment_count :=
     attachment_count r; attachment_configs := attachment_configs r;
     attachments := attachments r; commands := commands r |}.
Definition set_frame_index (v : Z) (r : LaharWindowState) : LaharWindowState :=
  {| window := window r; width := width r; height := height r;
     desired_img_count := desired_img_count r; max_in_flight := max_in_flight
     r; frame_phase := frame_phase r; alpha := alpha r; auto_recreate_swap :=
     auto_recreate_swap r; resize_callback := resize_callback r;
     surface_format := surface_format r; surface := surface r; swapchain :=
     swapchain r; swap_size := swap_size r; image_available := image_available
     r; render_finished := render_finished r; in_flight := in_flight r;
     flight_index := flight_index r; frame_index := v; attachment_count :=
     attachment_count r; attachment_configs := attachment_configs r;
     attachments := attachments r; commands := commands r |}.
Definition set_attachment_count (v : Z) (r : LaharWindowState) : LaharWindowState :=
  {| window := window r; width := width r; height := height r;
     desired_img_count := desired_img_count r; max_in_flight := max_in_flight
     r; frame_phase := frame_phase r; alpha := alpha r; auto_recreate_swap :=
     auto_recreate_swap r; resize_callback := resize_callback r;
     surface_format := surface_format r; surface := surface r; swapchain :=
     swapchain r; swap_size := swap_size r; image_available := image_available
     r; render_finished := render_finished r; in_flight := in_flight r;
     flight_index := flight_index r; frame_index := frame_index r;
     attachment_count := v; attachment_configs := attachment_configs r;
     attachments := attachments r; commands := commands r |}.
Definition set_attachment_configs (v : list LaharAttachmentConfig) (r : LaharWindowState) : LaharWindowState :=
  {| window := window r; width := width r; height := height r;
     desired_img_count := desired_img_count r; max_in_flight := max_in_flight
     r; frame_phase := frame_phase r; alpha := alpha r; auto_recreate_swap :=
     auto_recreate_swap r; resize_callback := resize_callback r;
     surface_format := surface_format r; surface := surface r; swapchain :=
     swapchain r; swap_size := swap_size r; image_available := image_available
     r; render_finished := render_finished r; in_flight := in_flight r;
     flight_index := flight_index r; frame_index := frame_index r;
     attachment_count := attachment_count r; attachment_configs := v;
     attachments := attachments r; commands := commands r |}.
Definition set_attachments (v : list (list LaharAttachment)) (r : LaharWindowState) : LaharWindowState :=
  {| window := window r; width := width r; height := height r;
     desired_img_count := desired_img_count r; max_in_flight := max_in_flight
     r; frame_phase := frame_phase r; alpha := alpha r; auto_recreate_swap :=
     auto_recreate_swap r; resize_callback := resize_callback r;
     surface_format := surface_format r; surface := surface r; swapchain :=
     swapchain r; swap_size := swap_size r; image_available := image_available
     r; render_finished := render_finished r; in_flight := in_flight r;
     flight_index := flight_index r; frame_index := frame_index r;
     attachment_count := attachment_count r; attachment_configs :=
     attachment_configs r; attachments := v; commands := commands r |}.
Definition set_commands (v : list Z) (r : LaharWindowState) : LaharWindowState :=
  {| window := window r; width := width r; height := height r;
     desired_img_count := desired_img_count r; max_in_flight := max_in_flight
     r; frame_phase := frame_phase r; alpha := alpha r; auto_recreate_swap :=
     auto_recreate_swap r; resize_callback := resize_callback r;
     surface_format := surface_format r; surface := surface r; swapchain :=
     swapchain r; swap_size := swap_size r; image_available := image_available
     r; render_finished := render_finished r; in_flight := in_flight r;
     flight_index := flight_index r; frame_index := frame_index r;
     attachment_count := attachment_count r; attachment_configs :=
     attachment_configs r; attachments := attachments r; commands := v |}.

Definition set_req_inst_exts (v : list string) (r : LaharExtensions) : LaharExtensions :=
  {| req_inst_exts := v; rie_cap := rie_cap r; req_dev_exts := req_dev_exts r;
     rde_cap := rde_cap r; opt_inst_exts := opt_inst_exts r;
     opt_inst_exts_present := opt_inst_exts_present r; oie_cap := oie_cap r;
     opt_dev_exts := opt_dev_exts r; opt_dev_exts_present :=
     opt_dev_exts_present r; ode_cap := ode_cap r |}.
Definition set_rie_cap (v : Z) (r : LaharExtensions) : LaharExtensions :=
  {| req_inst_exts := req_inst_exts r; rie_cap := v; req_dev_exts :=
     req_dev_exts r; rde_cap := rde_cap r; opt_inst_exts := opt_inst_exts r;
     opt_inst_exts_present := opt_inst_exts_present r; oie_cap := oie_cap r;
     opt_dev_exts := opt_dev_exts r; opt_dev_exts_present :=
     opt_dev_exts_present r; ode_cap := ode_cap r |}.
Definition set_req_dev_exts (v : list string) (r : LaharExtensions) : LaharExtensions :=
  {| req_inst_exts := req_inst_exts r; rie_cap := rie_cap r; req_dev_exts :=
     v; rde_cap := rde_cap r; opt_inst_exts := opt_inst_exts r;
     opt_inst_exts_present := opt_inst_exts_present r; oie_cap := oie_cap r;
     opt_dev_exts := opt_dev_exts r; opt_dev_exts_present :=
     opt_dev_exts_present r; ode_cap := ode_cap r |}.
Definition set_rde_cap (v : Z) (r : LaharExtensions) : LaharExtensions :=
  {| req_inst_exts := req_inst_exts r; rie_cap := rie_cap r; req_dev_exts :=
     req_dev_exts r; rde_cap := v; opt_inst_exts := opt_inst_exts r;
     opt_inst_exts_present := opt_inst_exts_present r; oie_cap := oie_cap r;
     opt_dev_exts := opt_dev_exts r; opt_dev_exts_present :=
     opt_dev_exts_present r; ode_cap := ode_cap r |}.
Definition set_opt_inst_exts (v : list string) (r : LaharExtensions) : LaharExtensions :=
  {| req_inst_exts := req_inst_exts r; rie_cap := rie_cap r; req_dev_exts :=
     req_dev_exts r; rde_cap := rde_cap r; opt_inst_exts := v;
     opt_inst_exts_present := opt_inst_exts_present r; oie_cap := oie_cap r;
     opt_dev_exts := opt_dev_exts r; opt_dev_exts_present :=
     opt_dev_exts_present r; ode_cap := ode_cap r |}.
Definition set_opt_inst_exts_present (v : list bool) (r : LaharExtensions) : LaharExtensions :=
  {| req_inst_exts := req_inst_exts r; rie_cap := rie_cap r; req_dev_exts :=
     req_dev_exts r; rde_cap := rde_cap r; opt_inst_exts := opt_inst_exts r;
     opt_inst_exts_present := v; oie_cap := oie_cap r; opt_dev_exts :=
     opt_dev_exts r; opt_dev_exts_present := opt_dev_exts_present r; ode_cap
     := ode_cap r |}.
Definition set_oie_cap (v : Z) (r : LaharExtensions) : LaharExtensions :=
  {| req_inst_exts := req_inst_exts r; rie_cap := rie_cap r; req_dev_exts :=
     req_dev_exts r; rde_cap := rde_cap r; opt_inst_exts := opt_inst_exts r;
     opt_inst_exts_present := opt_inst_exts_present r; oie_cap := v;
     opt_dev_exts := opt_dev_exts r; opt_dev_exts_present :=
     opt_dev_exts_present r; ode_cap := ode_cap r |}.
Definition set_opt_dev_exts (v : list string) (r : LaharExtensions) : LaharExtensions :=
  {| req_inst_exts := req_inst_exts r; rie_cap := rie_cap r; req_dev_exts :=
     req_dev_exts r; rde_cap := rde_cap r; opt_inst_exts := opt_inst_exts r;
     opt_inst_exts_present := opt_inst_exts_present r; oie_cap := oie_cap r;
     opt_dev_exts := v; opt_dev_exts_present := opt_dev_exts_present r;
     ode_cap := ode_cap r |}.
Definition set_opt_dev_exts_present (v : list bool) (r : LaharExtensions) : LaharExtensions :=
  {| req_inst_exts := req_inst_exts r; rie_cap := rie_cap r; req_dev_exts :=
     req_dev_exts r; rde_cap := rde_cap r; opt_inst_exts := opt_inst_exts r;
     opt_inst_exts_present := opt_inst_exts_present r; oie_cap := oie_cap r;
     opt_dev_exts := opt_dev_exts r; opt_dev_exts_present := v; ode_cap :=
     ode_cap r |}.
Definition set_ode_cap (v : Z) (r : LaharExtensions) : LaharExtensions :=
  {| req_inst_exts := req_inst_exts r; rie_cap := rie_cap r; req_dev_exts :=
     req_dev_exts r; rde_cap := rde_cap r; opt_inst_exts := opt_inst_exts r;
     opt_inst_exts_present := opt_inst_exts_present r; oie_cap := oie_cap r;
     opt_dev_exts := opt_dev_exts r; opt_dev_exts_present :=
     opt_dev_exts_present r; ode_cap := v |}.

Definition set_libvulkan (v : Z) (r : Lahar) : Lahar :=
  {| libvulkan := v; vkresult := vkresult r; vkversion := vkversion r;
     appversion := appversion r; appname := appname r; wantvalidation :=
     wantvalidation r; wantcommands := wantcommands r; vkalloc := vkalloc r;
     debug_callback := debug_callback r; user_data := user_data r;
     gpu_allocator := gpu_allocator r; device_name := device_name r;
     score_func := score_func r; format_chooser := format_chooser r;
     present_chooser := present_chooser r; instance := instance r;
     debug_messenger := debug_messenger r; physdev_info := physdev_info r;
     device := device r; graphicsQueue := graphicsQueue r; presentQueue :=
     presentQueue r; pool := pool r; windows := windows r; window_cap :=
     window_cap r; extensions := extensions r |}.
Definition set_vkresult (v : Z) (r : Lahar) : Lahar :=
  {| libvulkan := libvulkan r; vkresult := v; vkversion := vkversion r;
     appversion := appversion r; appname := appname r; wantvalidation :=
     wantvalidation r; wantcommands := wantcommands r; vkalloc := vkalloc r;
     debug_callback := debug_callback r; user_data := user_data r;
     gpu_allocator := gpu_allocator r; device_name := device_name r;
     score_func := score_func r; format_chooser := format_chooser r;
     present_chooser := present_chooser r; instance := instance r;
     debug_messenger := debug_messenger r; physdev_info := physdev_info r;
     device := device r; graphicsQueue := graphicsQueue r; presentQueue :=
     presentQueue r; pool := pool r; windows := windows r; window_cap :=
     window_cap r; extensions := extensions r |}.
Definition set_vkversion (v : Z) (r : Lahar) : Lahar :=
  {| libvulkan := libvulkan r; vkresult := vkresult r; vkversion := v;
     appversion := appversion r; appname := appname r; wantvalidation :=
     wantvalidation r; wantcommands := wantcommands r; vkalloc := vkalloc r;
     debug_callback := debug_callback r; user_data := user_data r;
     gpu_allocator := gpu_allocator r; device_name := device_name r;
     score_func := score_func r; format_chooser := format_chooser r;
     present_chooser := present_chooser r; instance := instance r;
     debug_messenger := debug_messenger r; physdev_info := physdev_info r;
     device := device r; graphicsQueue := graphicsQueue r; presentQueue :=
     presentQueue r; pool := pool r; windows := windows r; window_cap :=
     window_cap r; extensions := extensions r |}.
Definition set_wantvalidation (v : bool) (r : Lahar) : Lahar :=
  {| libvulkan := libvulkan r; vkresult := vkresult r; vkversion := vkversion
     r; appversion := appversion r; appname := appname r; wantvalidation := v;
     wantcommands := wantcommands r; vkalloc := vkalloc r; debug_callback :=
     debug_callback r; user_data := user_data r; gpu_allocator :=
     gpu_allocator r; device_name := device_name r; score_func := score_func
     r; format_chooser := format_chooser r; present_chooser := present_chooser
     r; instance := instance r; debug_messenger := debug_messenger r;
     physdev_info := physdev_info r; device := device r; graphicsQueue :=
     graphicsQueue r; presentQueue := presentQueue r; pool := pool r; windows
     := windows r; window_cap := window_cap r; extensions := extensions r |}.
Definition set_wantcommands (v : bool) (r : Lahar) : Lahar :=
  {| libvulkan := libvulkan r; vkresult := vkresult r; vkversion := vkversion
     r; appversion := appversion r; appname := appname r; wantvalidation :=
     wantvalidation r; wantcommands := v; vkalloc := vkalloc r; debug_callback
     := debug_callback r; user_data := user_data r; gpu_allocator :=
     gpu_allocator r; device_name := device_name r; score_func := score_func
     r; format_chooser := format_chooser r; present_chooser := present_chooser
     r; instance := instance r; debug_messenger := debug_messenger r;
     physdev_info := physdev_info r; device := device r; graphicsQueue :=
     graphicsQueue r; presentQueue := presentQueue r; pool := pool r; windows
     := windows r; window_cap := window_cap r; extensions := extensions r |}.
Definition set_debug_callback (v : Z) (r : Lahar) : Lahar :=
  {| libvulkan := libvulkan r; vkresult := vkresult r; vkversion := vkversion
     r; appversion := appversion r; appname := appname r; wantvalidation :=
     wantvalidation r; wantcommands := wantcommands r; vkalloc := vkalloc r;
     debug_callback := v; user_data := user_data r; gpu_allocator :=
     gpu_allocator r; device_name := device_name r; score_func := score_func
     r; format_chooser := format_chooser r; present_chooser := present_chooser
     r; instance := instance r; debug_messenger := debug_messenger r;
     physdev_info := physdev_info r; device := device r; graphicsQueue :=
     graphicsQueue r; presentQueue := presentQueue r; pool := pool r; windows
     := windows r; window_cap := window_cap r; extensions := extensions r |}.
Definition set_user_data (v : Z) (r : Lahar) : Lahar :=
  {| libvulkan := libvulkan r; vkresult := vkresult r; vkversion := vkversion
     r; appversion := appversion r; appname := appname r; wantvalidation :=
     wantvalidation r; wantcommands := wantcommands r; vkalloc := vkalloc r;
     debug_callback := debug_callback r; user_data := v; gpu_allocator :=
     gpu_allocator r; device_name := device_name r; score_func := score_func
     r; format_chooser := format_chooser r; present_chooser := present_chooser
     r; instance := instance r; debug_messenger := debug_messenger r;
     physdev_info := physdev_info r; device := device r; graphicsQueue :=
     graphicsQueue r; presentQueue := presentQueue r; pool := pool r; windows
     := windows r; window_cap := window_cap r; extensions := extensions r |}.
Definition set_gpu_allocator (v : option LaharAllocator) (r : Lahar) : Lahar :=
  {| libvulkan := libvulkan r; vkresult := vkresult r; vkversion := vkversion
     r; appversion := appversion r; appname := appname r; wantvalidation :=
     wantvalidation r; wantcommands := wantcommands r; vkalloc := vkalloc r;
     debug_callback := debug_callback r; user_data := user_data r;
     gpu_allocator := v; device_name := device_name r; score_func :=
     score_func r; format_chooser := format_chooser r; present_chooser :=
     present_chooser r; instance := instance r; debug_messenger :=
     debug_messenger r; physdev_info := physdev_info r; device := device r;
     graphicsQueue := graphicsQueue r; presentQueue := presentQueue r; pool :=
     pool r; windows := windows r; window_cap := window_cap r; extensions :=
     extensions r |}.
Definition set_device_name (v : option string) (r : Lahar) : Lahar :=
  {| libvulkan := libvulkan r; vkresult := vkresult r; vkversion := vkversion
     r; appversion := appversion r; appname := appname r; wantvalidation :=
     wantvalidation r; wantcommands := wantcommands r; vkalloc := vkalloc r;
     debug_callback := debug_callback r; user_data := user_data r;
     gpu_allocator := gpu_allocator r; device_name := v; score_func :=
     score_func r; format_chooser := format_chooser r; present_chooser :=
     present_chooser r; instance := instance r; debug_messenger :=
     debug_messenger r; physdev_info := physdev_info r; device := device r;
     graphicsQueue := graphicsQueue r; presentQueue := presentQueue r; pool :=
     pool r; windows := windows r; window_cap := window_cap r; extensions :=
     extensions r |}.
Definition set_score_func (v : Z) (r : Lahar) : Lahar :=
  {| libvulkan := libvulkan r; vkresult := vkresult r; vkversion := vkversion
     r; appversion := appversion r; appname := appname r; wantvalidation :=
     wantvalidation r; wantcommands := wantcommands r; vkalloc := vkalloc r;
     debug_callback := debug_callback r; user_data := user_data r;
     gpu_allocator := gpu_allocator r; device_name := device_name r;
     score_func := v; format_chooser := format_chooser r; present_chooser :=
     present_chooser r; instance := instance r; debug_messenger :=
     debug_messenger r; physdev_info := physdev_info r; device := device r;
     graphicsQueue := graphicsQueue r; presentQueue := presentQueue r; pool :=
     pool r; windows := windows r; window_cap := window_cap r; extensions :=
     extensions r |}.
Definition set_instance (v : Z) (r : Lahar) : Lahar :=
  {| libvulkan := libvulkan r; vkresult := vkresult r; vkversion := vkversion
     r; appversion := appversion r; appname := appname r; wantvalidation :=
     wantvalidation r; wantcommands := wantcommands r; vkalloc := vkalloc r;
     debug_callback := debug_callback r; user_data := user_data r;
     gpu_allocator := gpu_allocator r; device_name := device_name r;
     score_func := score_func r; format_chooser := format_chooser r;
     present_chooser := present_chooser r; instance := v; debug_messenger :=
     debug_messenger r; physdev_info := physdev_info r; device := device r;
     graphicsQueue := graphicsQueue r; presentQueue := presentQueue r; pool :=
     pool r; windows := windows r; window_cap := window_cap r; extensions :=
     extensions r |}.
Definition set_debug_messenger (v : Z) (r : Lahar) : Lahar :=
  {| libvulkan := libvulkan r; vkresult := vkresult r; vkversion := vkversion
     r; appversion := appversion r; appname := appname r; wantvalidation :=
     wantvalidation r; wantcommands := wantcommands r; vkalloc := vkalloc r;
     debug_callback := debug_callback r; user_data := user_data r;
     gpu_allocator := gpu_allocator r; device_name := device_name r;
     score_func := score_func r; format_chooser := format_chooser r;
     present_chooser := present_chooser r; instance := instance r;
     debug_messenger := v; physdev_info := physdev_info r; device := device r;
     graphicsQueue := graphicsQueue r; presentQueue := presentQueue r; pool :=
     pool r; windows := windows r; window_cap := window_cap r; extensions :=
     extensions r |}.
Definition set_physdev_info (v : LaharDeviceInfo) (r : Lahar) : Lahar :=
  {| libvulkan := libvulkan r; vkresult := vkresult r; vkversion := vkversion
     r; appversion := appversion r; appname := appname r; wantvalidation :=
     wantvalidation r; wantcommands := wantcommands r; vkalloc := vkalloc r;
     debug_callback := debug_callback r; user_data := user_data r;
     gpu_allocator := gpu_allocator r; device_name := device_name r;
     score_func := score_func r; format_chooser := format_chooser r;
     present_chooser := present_chooser r; instance := instance r;
     debug_messenger := debug_messenger r; physdev_info := v; device := device
     r; graphicsQueue := graphicsQueue r; presentQueue := presentQueue r; pool
     := pool r; windows := windows r; window_cap := window_cap r; extensions
     := extensions r |}.
Definition set_device (v : Z) (r : Lahar) : Lahar :=
  {| libvulkan := libvulkan r; vkresult := vkresult r; vkversion := vkversion
     r; appversion := appversion r; appname := appname r; wantvalidation :=
     wantvalidation r; wantcommands := wantcommands r; vkalloc := vkalloc r;
     debug_callback := debug_callback r; user_data := user_data r;
     gpu_allocator := gpu_allocator r; device_name := device_name r;
     score_func := score_func r; format_chooser := format_chooser r;
     present_chooser := present_chooser r; instance := instance r;
     debug_messenger := debug_messenger r; physdev_info := physdev_info r;
     device := v; graphicsQueue := graphicsQueue r; presentQueue :=
     presentQueue r; pool := pool r; windows := windows r; window_cap :=
     window_cap r; extensions := extensions r |}.
Definition set_graphicsQueue (v : Z) (r : Lahar) : Lahar :=
  {| libvulkan := libvulkan r; vkresult := vkresult r; vkversion := vkversion
     r; appversion := appversion r; appname := appname r; wantvalidation :=
     wantvalidation r; wantcommands := wantcommands r; vkalloc := vkalloc r;
     debug_callback := debug_callback r; user_data := user_data r;
     gpu_allocator := gpu_allocator r; device_name := device_name r;
     score_func := score_func r; format_chooser := format_chooser r;
     present_chooser := present_chooser r; instance := instance r;
     debug_messenger := debug_messenger r; physdev_info := physdev_info r;
     device := device r; graphicsQueue := v; presentQueue := presentQueue r;
     pool := pool r; windows := windows r; window_cap := window_cap r;
     extensions := extensions r |}.
Definition set_presentQueue (v : Z) (r : Lahar) : Lahar :=
  {| libvulkan := libvulkan r; vkresult := vkresult r; vkversion := vkversion
     r; appversion := appversion r; appname := appname r; wantvalidation :=
     wantvalidation r; wantcommands := wantcommands r; vkalloc := vkalloc r;
     debug_callback := debug_callback r; user_data := user_data r;
     gpu_allocator := gpu_allocator r; device_name := device_name r;
     score_func := score_func r; format_chooser := format_chooser r;
     present_chooser := present_chooser r; instance := instance r;
     debug_messenger := debug_messenger r; physdev_info := physdev_info r;
     device := device r; graphicsQueue := graphicsQueue r; presentQueue := v;
     pool := pool r; windows := windows r; window_cap := window_cap r;
     extensions := extensions r |}.
Definition set_pool (v : Z) (r : Lahar) : Lahar :=
  {| libvulkan := libvulkan r; vkresult := vkresult r; vkversion := vkversion
     r; appversion := appversion r; appname := appname r; wantvalidation :=
     wantvalidation r; wantcommands := wantcommands r; vkalloc := vkalloc r;
     debug_callback := debug_callback r; user_data := user_data r;
     gpu_allocator := gpu_allocator r; device_name := device_name r;
     score_func := score_func r; format_chooser := format_chooser r;
     present_chooser := present_chooser r; instance := instance r;
     debug_messenger := debug_messenger r; physdev_info := physdev_info r;
     device := device r; graphicsQueue := graphicsQueue r; presentQueue :=
     presentQueue r; pool := v; windows := windows r; window_cap := window_cap
     r; extensions := extensions r |}.
Definition set_windows (v : list LaharWindowState) (r : Lahar) : Lahar :=
  {| libvulkan := libvulkan r; vkresult := vkresult r; vkversion := vkversion
     r; appversion := appversion r; appname := appname r; wantvalidation :=
     wantvalidation r; wantcommands := wantcommands r; vkalloc := vkalloc r;
     debug_callback := debug_callback r; user_data := user_data r;
     gpu_allocator := gpu_allocator r; device_name := device_name r;
     score_func := score_func r; format_chooser := format_chooser r;
     present_chooser := present_chooser r; instance := instance r;
     debug_messenger := debug_messenger r; physdev_info := physdev_info r;
     device := device r; graphicsQueue := graphicsQueue r; presentQueue :=
     presentQueue r; pool := pool r; windows := v; window_cap := window_cap r;
     extensions := extensions r |}.
Definition set_window_cap (v : Z) (r : Lahar) : Lahar :=
  {| libvulkan := libvulkan r; vkresult := vkresult r; vkversion := vkversion
     r; appversion := appversion r; appname := appname r; wantvalidation :=
     wantvalidation r; wantcommands := wantcommands r; vkalloc := vkalloc r;
     debug_callback := debug_callback r; user_data := user_data r;
     gpu_allocator := gpu_allocator r; device_name := device_name r;
     score_func := score_func r; format_chooser := format_chooser r;
     present_chooser := present_chooser r; instance := instance r;
     debug_messenger := debug_messenger r; physdev_info := physdev_info r;
     device := device r; graphicsQueue := graphicsQueue r; presentQueue :=
     presentQueue r; pool := pool r; windows := windows r; window_cap := v;
     extensions := extensions r |}.
Definition set_extensions (v : LaharExtensions) (r : Lahar) : Lahar :=
  {| libvulkan := libvulkan r; vkresult := vkresult r; vkversion := vkversion
     r; appversion := appversion r; appname := appname r; wantvalidation :=
     wantvalidation r; wantcommands := wantcommands r; vkalloc := vkalloc r;
     debug_callback := debug_callback r; user_data := user_data r;
     gpu_allocator := gpu_allocator r; device_name := device_name r;
     score_func := score_func r; format_chooser := format_chooser r;
     present_chooser := present_chooser r; instance := instance r;
     debug_messenger := debug_messenger r; physdev_info := physdev_info r;
     device := device r; graphicsQueue := graphicsQueue r; presentQueue :=
     presentQueue r; pool := pool r; windows := windows r; window_cap :=
     window_cap r; extensions := v |}.

(** The all-zero values left by [memset(p, 0, sizeof *p)]. *)

Definition surface_format_zero : VkSurfaceFormatKHR :=
  {| sf_format := 0; sf_colorSpace := 0 |}.

Definition devinfo_zero : LaharDeviceInfo :=
  {| physdev := 0;
     properties := {| deviceType := 0; deviceName := ""; props_other := 0 |};
     features := 0;
     memprops := {| memoryHeapCount := 0; memoryHeaps := [] |};
     surface_formats := []; present_modes := [];
     surface_fmt_count := 0; present_mode_count := 0;
     graphics_queue_index := 0; present_queue_index := 0;
     has_graphics_queue := false; has_present_queue := false |}.

Definition attachment_zero : LaharAttachment :=
  {| img_allocation := 0; image := 0; view := 0; layout := 0 |}.

Definition window_zero : LaharWindowState :=
  {| window := 0; width := 0; height := 0; desired_img_count := 0;
     max_in_flight := 0; frame_phase := LAHAR_FRAME_PHASE_BEGIN; alpha := 0;
     auto_recreate_swap := false; resize_callback := 0;
     surface_format := surface_format_zero; surface := 0; swapchain := 0;
     swap_size := 0; image_available := []; render_finished := [];
     in_flight := []; flight_index := 0; frame_index := 0;
     attachment_count := 0; attachment_configs := []; attachments := [];
     commands := [] |}.

Definition extensions_zero : LaharExtensions :=
  {| req_inst_exts := []; rie_cap := 0; req_dev_exts := []; rde_cap := 0;
     opt_inst_exts := []; opt_inst_exts_present := []; oie_cap := 0;
     opt_dev_exts := []; opt_dev_exts_present := []; ode_cap := 0 |}.

Definition lahar_zero : Lahar :=
  {| libvulkan := 0; vkresult := 0; vkversion := 0; appversion := 0;
     appname := None; wantvalidation := false; wantcommands := false;
     vkalloc := 0; debug_callback := 0; user_data := 0;
     gpu_allocator := None; device_name := None; score_func := 0;
     format_chooser := 0; present_chooser := 0; instance := 0;
     debug_messenger := 0; physdev_info := devinfo_zero; device := 0;
     graphicsQueue := 0; presentQueue := 0; pool := 0; windows := [];
     window_cap := 0; extensions := extensions_zero |}.

(* ------------------------------------------------------------------ *)
(** ** Arguments of the Vulkan calls *)

Record VkQueueFamilyProperties : Type := mkVkQueueFamilyProperties {
  queueFlags : Z;
  queueCount : Z
}.

Record VkInstanceCreateInfo : Type := mkVkInstanceCreateInfo {
  pApplicationName : string;
  applicationVersion : Z;
  engineVersion : Z;
  apiVersion : Z;
  inst_enabledExtensionCount : Z;
  inst_ppEnabledExtensionNames : list string;
  inst_ppEnabledLayerNames : list string
}.

Record VkDeviceCreateInfo : Type := mkVkDeviceCreateInfo {
  queueCreateInfoCount : Z;
  pQueueCreateInfos : list Z;     (* the queueFamilyIndex of each entry *)
  enabledLayerCount : Z;
  dev_ppEnabledLayerNames : list string;
  dev_ppEnabledExtensionNames : list string
}.

Record VkSwapchainCreateInfoKHR : Type := mkVkSwapchainCreateInfoKHR {
  sci_sType : Z;
  sci_surface : Z;
  sci_minImageCount : Z;
  sci_imageFormat : Z;
  sci_imageColorSpace : Z;
  sci_imageExtent_width : Z;
  sci_imageExtent_height : Z;
  sci_imageArrayLayers : Z;
  sci_imageUsage : Z;
  sci_imageSharingMode : Z;
  sci_queueFamilyIndexCount : Z;
  sci_pQueueFamilyIndices : list Z;
  sci_preTransform : Z;
  sci_compositeAlpha : Z;
  sci_presentMode : Z;
  sci_clipped : Z;
  sci_oldSwapchain : Z
}.

Record VkSubmitInfo : Type := mkVkSubmitInfo {
  pWaitSemaphores : list Z;
  pWaitDstStageMask : list Z;
  commandBufferCount : Z;
  pCommandBuffers : list Z;
  pSignalSemaphores : list Z
}.

Record VkPresentInfoKHR : Type := mkVkPresentInfoKHR {
  pi_sType : Z;
  pi_pWaitSemaphores : list Z;
  pi_pSwapchains : list Z;
  pi_pImageIndices : list Z
}.

Record VkImageMemoryBarrier : Type := mkVkImageMemoryBarrier {
  imb_sType : Z;
  srcAccessMask : Z;
  dstAccessMask : Z;
  oldLayout : Z;
  newLayout : Z;
  srcQueueFamilyIndex : Z;
  dstQueueFamilyIndex : Z;
  imb_image : Z;
  imb_aspectMask : Z;
  imb_baseMipLevel : Z;
  imb_levelCount : Z;
  imb_baseArrayLayer : Z;
  imb_layerCount : Z
}.

(** What a heap request is for; stands for the [sizeof] factor. *)
Inductive CType : Type :=
| ty_char | ty_ptr | ty_bool
| ty_LaharWindowState | ty_LaharAttachmentConfig | ty_LaharAttachment
| ty_VkSemaphore | ty_VkFence | ty_VkCommandBuffer.

(* ------------------------------------------------------------------ *)
(** ** Calls that leave the library

    One constructor per external function, named after it, carrying the
    arguments the library passes.  An enumeration that C performs as
    "ask for the count, then fill the array" is two calls; the first is
    suffixed [_count]. *)

Inductive extCall : Type :=
(* heap *)
| lahar_malloc (n : Z) (t : CType)
| lahar_alloc_or_resize (n : Z) (t : CType)
(* platform and window backend *)
| backend_init
| backend_destroy_window (window : Z)
| backend_terminate
| open_libvk
| load_loader
| printf (msg : string)
| lahar_window_get_size (window : Z)
| lahar_window_surface_create (inst window : Z)
| lahar_window_get_extensions_count (window : Z)
| lahar_window_get_extensions (window : Z) (count : Z)
(* user callbacks, by function pointer *)
| call_debug_callback (fp : Z) (msg : string)
| call_score_func (fp : Z) (info : LaharDeviceInfo)
| call_format_chooser (fp : Z) (l : Lahar) (widx : nat)
| call_present_chooser (fp : Z) (l : Lahar) (widx : nat)
| call_resize_callback (fp : Z) (l : Lahar) (window : Z)
| call_alloc_image (fp : Z) (l : Lahar) (info : VkImageCreateInfo)
| call_free_image (fp : Z) (l : Lahar) (img alloc : Z)
(* instance level *)
| vkEnumerateInstanceExtensionProperties_count
| vkEnumerateInstanceExtensionProperties (count : Z)
| vkEnumerateInstanceLayerProperties_count
| vkEnumerateInstanceLayerProperties (count : Z)
| vkCreateInstance (ci : VkInstanceCreateInfo)
| vkEnumerateInstanceVersion
| vkCreateDebugUtilsMessengerEXT (inst : Z) (callback : Z)
| vkEnumeratePhysicalDevices_count (inst : Z)
| vkEnumeratePhysicalDevices (inst : Z) (count : Z)
| vkGetPhysicalDeviceProperties (pd : Z)
| vkGetPhysicalDeviceFeatures (pd : Z)
| vkGetPhysicalDeviceQueueFamilyProperties_count (pd : Z)
| vkGetPhysicalDeviceQueueFamilyProperties (pd : Z) (count : Z)
| vkGetPhysicalDeviceSurfaceSupportKHR (pd : Z) (family : Z) (surf : Z)
| vkGetPhysicalDeviceSurfaceFormatsKHR_count (pd surf : Z)
| vkGetPhysicalDeviceSurfaceFormatsKHR (pd surf : Z) (count : Z)
| vkGetPhysicalDeviceSurfacePresentModesKHR_count (pd surf : Z)
| vkGetPhysicalDeviceSurfacePresentModesKHR (pd surf : Z) (count : Z)
| vkGetPhysicalDeviceSurfaceCapabilitiesKHR (pd surf : Z)
| vkEnumerateDeviceLayerProperties_count (pd : Z)
| vkEnumerateDeviceLayerProperties (pd : Z) (count : Z)
| vkCreateDevice (pd : Z) (ci : VkDeviceCreateInfo)
(* device level *)
| vkGetDeviceQueue (dev : Z) (family : Z) (index : Z)
| vkCreateCommandPool (dev : Z) (flags : Z) (family : Z)
| vkCreateSwapchainKHR (dev : Z) (ci : VkSwapchainCreateInfoKHR)
| vkGetSwapchainImagesKHR_count (dev swap : Z)
| vkGetSwapchainImagesKHR (dev swap : Z) (count : Z)
| vkCreateImageView (dev : Z) (ci : VkImageViewCreateInfo)
| vkAllocateCommandBuffers (dev : Z) (cmdpool : Z) (count : Z)
| vkCreateSemaphore (dev : Z)
| vkCreateFence (dev : Z) (flags : Z)
| vkWaitForFences (dev : Z) (fences : list Z) (waitAll : Z) (timeout : Z)
| vkAcquireNextImageKHR (dev swap : Z) (timeout : Z) (sem fence : Z) (old_index : Z)
| vkResetFences (dev : Z) (fences : list Z)
| vkQueueSubmit (queue : Z) (info : VkSubmitInfo) (fence : Z)
| vkQueuePresentKHR (queue : Z) (info : VkPresentInfoKHR)
| vkCmdPipelineBarrier (cmd : Z) (srcStage dstStage : Z) (depFlags : Z)
    (barrier : VkImageMemoryBarrier)
| vkDeviceWaitIdle (dev : Z)
| vkDestroyImageView (dev : Z) (v : Z)
| vkDestroySwapchainKHR (dev : Z) (swap : Z)
| vkDestroySemaphore (dev : Z) (sem : Z)
| vkDestroyFence (dev : Z) (fence : Z)
| vkDestroySurfaceKHR (inst : Z) (surf : Z)
| vkDestroyCommandPool (dev : Z) (cmdpool : Z)
| vkDestroyDevice (dev : Z)
| vkDestroyDebugUtilsMessengerEXT (inst : Z) (messenger : Z)
| vkDestroyInstance (inst : Z).

(** What each call hands back: its return value and the values it writes
    through its out-parameters. *)
Definition reply (c : extCall) : Type :=
  match c with
  | lahar_malloc _ _ | lahar_alloc_or_resize _ _ => bool   (* non-NULL? *)
  | backend_init => bool
  | open_libvk => Z                                        (* module handle *)
  | load_loader => Z
  | lahar_window_get_size _ => Z * (Z * Z)                 (* err, width, height *)
  | lahar_window_surface_create _ _ => Z * Z               (* err, surface *)
  | lahar_window_get_extensions_count _ => Z * Z           (* err, count *)
  | lahar_window_get_extensions _ _ => Z * list string
  | call_score_func _ _ => Z
  | call_format_chooser _ _ _ => Z * VkSurfaceFormatKHR
  | call_present_chooser _ _ _ => Z * Z
  | call_resize_callback _ _ _ => Z * Lahar
  | call_alloc_image _ _ _ => Z * (Z * Z)                  (* err, image, allocation *)
  | vkEnumerateInstanceExtensionProperties_count => Z * Z  (* VkResult, count *)
  | vkEnumerateInstanceExtensionProperties _ => Z * list string
  | vkEnumerateInstanceLayerProperties_count => Z * Z
  | vkEnumerateInstanceLayerProperties _ => Z * list string
  | vkCreateInstance _ => Z * Z                            (* VkResult, handle *)
  | vkEnumerateInstanceVersion => Z * Z
  | vkCreateDebugUtilsMessengerEXT _ _ => Z * Z
  | vkEnumeratePhysicalDevices_count _ => Z * Z
  | vkEnumeratePhysicalDevices _ _ => Z * list Z
  | vkGetPhysicalDeviceProperties _ => VkPhysicalDeviceProperties
  | vkGetPhysicalDeviceFeatures _ => Z
  | vkGetPhysicalDeviceQueueFamilyProperties_count _ => Z
  | vkGetPhysicalDeviceQueueFamilyProperties _ _ => list VkQueueFamilyProperties
  | vkGetPhysicalDeviceSurfaceSupportKHR _ _ _ => bool
  | vkGetPhysicalDeviceSurfaceFormatsKHR_count _ _ => Z
  | vkGetPhysicalDeviceSurfaceFormatsKHR _ _ _ => list VkSurfaceFormatKHR
  | vkGetPhysicalDeviceSurfacePresentModesKHR_count _ _ => Z
  | vkGetPhysicalDeviceSurfacePresentModesKHR _ _ _ => list Z
  | vkGetPhysicalDeviceSurfaceCapabilitiesKHR _ _ => Z * VkSurfaceCapabilitiesKHR
  | vkEnumerateDeviceLayerProperties_count _ => Z
  | vkEnumerateDeviceLayerProperties _ _ => list string
  | vkCreateDevice _ _ => Z * Z
  | vkGetDeviceQueue _ _ _ => Z
  | vkCreateCommandPool _ _ _ => Z * Z
  | vkCreateSwapchainKHR _ _ => Z * Z
  | vkGetSwapchainImagesKHR_count _ _ => Z
  | vkGetSwapchainImagesKHR _ _ _ => list Z
  | vkCreateImageView _ _ => Z * Z
  | vkAllocateCommandBuffers _ _ _ => Z * list Z
  | vkCreateSemaphore _ => Z * Z
  | vkCreateFence _ _ => Z * Z
  | vkWaitForFences _ _ _ _ => Z
  | vkAcquireNextImageKHR _ _ _ _ _ _ => Z * Z             (* VkResult, image index *)
  | vkQueueSubmit _ _ _ => Z
  | vkQueuePresentKHR _ _ => Z
  | _ => unit
  end.

(** A log entry: the library state when the call was made, and the call. *)
Definition Logged : Type := Lahar * extCall.

(* ------------------------------------------------------------------ *)
(** ** IEEE binary64 arithmetic of the memory rescaling

    [__lahar_default_scorer] rescales the device-local memory in double
    precision.  The operations are those of the IEEE 754 binary64 format as
    specified by [SpecFloat] (53-bit significand, round to nearest even). *)

Definition prec : Z := 53.
Definition emax : Z := 1024.

(** Conversion of an unsigned integer to [double]. *)
Definition double_of_Z (z : Z) : spec_float := binary_normalize prec emax z 0 false.

(** Conversion of a [double] to an unsigned integer: truncation toward zero.
    The conversion is undefined in C for NaN, infinities and negative values
    below -1; none of them arises from [remap_memory], and they read 0. *)
Definition double_to_size_t (f : spec_float) : Z :=
  match f with
  | S754_finite false m e =>
      if 0 <=? e then Z.pos m * 2 ^ e else Z.pos m / 2 ^ (- e)
  | _ => 0
  end.

(** [(local_memory / 107374182400.0) * 1000], stored into a [size_t]. *)
Definition remap_memory (local_memory : Z) : Z :=
  double_to_size_t
    (SFmul prec emax
       (SFdiv prec emax (double_of_Z local_memory) (double_of_Z 107374182400))
       (double_of_Z 1000)).

(* ------------------------------------------------------------------ *)
(** ** Pure helpers *)

Definition heap_zero : VkMemoryHeap := {| heap_size := 0; heap_flags := 0 |}.

(** The loop of [__lahar_default_scorer] over [memoryHeaps[0 .. count)],
    accumulating into a [size_t]. *)
Fixpoint sum_local_memory (heaps : list VkMemoryHeap) (n : nat) (i : nat)
    (local_memory : Z) : Z :=
  match n with
  | O => local_memory
  | S n' =>
      let h := default heap_zero (heaps !! i) in
      let local_memory' :=
        if Z.land (heap_flags h) VK_MEMORY_HEAP_DEVICE_LOCAL_BIT =? 0
        then local_memory
        else wrap64 (local_memory + heap_size h) in
      sum_local_memory heaps n' (S i) local_memory'
  end.

Definition device_local_memory (devinfo : LaharDeviceInfo) : Z :=
  sum_local_memory (memoryHeaps (memprops devinfo))
                   (Z.to_nat (memoryHeapCount (memprops devinfo))) 0 0.

(** Reinterpretation of a 64-bit pattern as [int64_t]. *)
Definition to_int64 (z : Z) : Z :=
  let u := wrap64 z in if u <? 2 ^ 63 then u else u - 2 ^ 64.

(** [__lahar_default_scorer] (lahar.h, lines 2266-2298). *)
Definition __lahar_default_scorer (devinfo : LaharDeviceInfo) : Z :=
  if negb (has_graphics_queue devinfo) || negb (has_present_queue devinfo)
  then -1
  else
    let score := 0 in
    let score :=
      if deviceType (properties devinfo) =? VK_PHYSICAL_DEVICE_TYPE_DISCRETE_GPU
      then score + 1000
      else if deviceType (properties devinfo) =? VK_PHYSICAL_DEVICE_TYPE_INTEGRATED_GPU
      then score + 100
      else score in
    let score :=
      if present_queue_index devinfo =? graphics_queue_index devinfo
      then score + 50 else score in
    let local_memory := device_local_memory devinfo in
    let remapped_memory := remap_memory local_memory in
    to_int64 (score + remapped_memory).

(** The selection loop of [__lahar_build_physdev] (lines 3377-3382):
    [i] is the index of the head of [scores]. *)
Fixpoint pick_best_from (scores : list Z) (i : Z) (best_dev best_score : Z) : Z :=
  match scores with
  | [] => best_dev
  | s :: rest =>
      if best_score <? s
      then pick_best_from rest (i + 1) i s
      else pick_best_from rest (i + 1) best_dev best_score
  end.

Definition pick_best (scores : list Z) : Z := pick_best_from scores 0 (-1) (-1).

(** [__lahar_access_mask] (lines 3881-3900). *)
Definition __lahar_access_mask (layout : Z) : Z :=
  if layout =? VK_IMAGE_LAYOUT_UNDEFINED then 0
  else if layout =? VK_IMAGE_LAYOUT_PRESENT_SRC_KHR then 0
  else if layout =? VK_IMAGE_LAYOUT_COLOR_ATTACHMENT_OPTIMAL then
    Z.lor VK_ACCESS_COLOR_ATTACHMENT_READ_BIT VK_ACCESS_COLOR_ATTACHMENT_WRITE_BIT
  else if layout =? VK_IMAGE_LAYOUT_DEPTH_STENCIL_ATTACHMENT_OPTIMAL then
    Z.lor VK_ACCESS_DEPTH_STENCIL_ATTACHMENT_READ_BIT
          VK_ACCESS_DEPTH_STENCIL_ATTACHMENT_WRITE_BIT
  else if layout =? VK_IMAGE_LAYOUT_SHADER_READ_ONLY_OPTIMAL then
    VK_ACCESS_SHADER_READ_BIT
  else if layout =? VK_IMAGE_LAYOUT_TRANSFER_SRC_OPTIMAL then
    VK_ACCESS_TRANSFER_READ_BIT
  else if layout =? VK_IMAGE_LAYOUT_TRANSFER_DST_OPTIMAL then
    VK_ACCESS_TRANSFER_WRITE_BIT
  else 0.

(** [__lahar_pipeline_stage] (lines 3902-3920). *)
Definition __lahar_pipeline_stage (layout : Z) : Z :=
  if layout =? VK_IMAGE_LAYOUT_UNDEFINED then VK_PIPELINE_STAGE_TOP_OF_PIPE_BIT
  else if layout =? VK_IMAGE_LAYOUT_PRESENT_SRC_KHR then
    VK_PIPELINE_STAGE_BOTTOM_OF_PIPE_BIT
  else if layout =? VK_IMAGE_LAYOUT_COLOR_ATTACHMENT_OPTIMAL then
    VK_PIPELINE_STAGE_COLOR_ATTACHMENT_OUTPUT_BIT
  else if layout =? VK_IMAGE_LAYOUT_DEPTH_STENCIL_ATTACHMENT_OPTIMAL then
    Z.lor VK_PIPELINE_STAGE_EARLY_FRAGMENT_TESTS_BIT
          VK_PIPELINE_STAGE_LATE_FRAGMENT_TESTS_BIT
  else if layout =? VK_IMAGE_LAYOUT_SHADER_READ_ONLY_OPTIMAL then
    VK_PIPELINE_STAGE_FRAGMENT_SHADER_BIT
  else if (layout =? VK_IMAGE_LAYOUT_TRANSFER_SRC_OPTIMAL)
          || (layout =? VK_IMAGE_LAYOUT_TRANSFER_DST_OPTIMAL) then
    VK_PIPELINE_STAGE_TRANSFER_BIT
  else VK_PIPELINE_STAGE_ALL_COMMANDS_BIT.

(** [__lahar_aspect_mask_from_usage] (lines 3922-3939). *)
Definition __lahar_aspect_mask_from_usage (usage format : Z) : Z :=
  if negb (Z.land usage VK_IMAGE_USAGE_DEPTH_STENCIL_ATTACHMENT_BIT =? 0) then
    if (format =? VK_FORMAT_D24_UNORM_S8_UINT)
       || (format =? VK_FORMAT_D32_SFLOAT_S8_UINT) then
      Z.lor VK_IMAGE_ASPECT_DEPTH_BIT VK_IMAGE_ASPECT_STENCIL_BIT
    else if (format =? VK_FORMAT_D16_UNORM) || (format =? VK_FORMAT_D32_SFLOAT) then
      VK_IMAGE_ASPECT_DEPTH_BIT
    else if format =? VK_FORMAT_S8_UINT then VK_IMAGE_ASPECT_STENCIL_BIT
    else VK_IMAGE_ASPECT_DEPTH_BIT
  else VK_IMAGE_ASPECT_COLOR_BIT.

(** The search loop of [lahar_window_state] (lines 3750-3758): the index of
    the first registered window whose handle is [w]. *)
Fixpoint find_window (ws : list LaharWindowState) (w : Z) (i : nat) : option nat :=
  match ws with
  | [] => None
  | ws0 :: rest => if window ws0 =? w then Some i else find_window rest w (S i)
  end.

Definition lahar_window_state (lahar : Lahar) (w : Z) : option nat :=
  find_window (windows lahar) w 0.

(** The first index at which [strcmp(extension, names[i]) == 0]. *)
Fixpoint find_extension (extension : string) (names : list string) (i : nat)
    : option nat :=
  match names with
  | [] => None
  | n :: rest =>
      if String.eqb extension n then Some i else find_extension extension rest (S i)
  end.

(** [lahar_extension_has_instance] (lines 2874-2890); [None] is a NULL name. *)
Definition lahar_extension_has_instance (lahar : Lahar) (extension : option string)
    : bool :=
  match extension with
  | None => false
  | Some e =>
      match find_extension e (opt_inst_exts (extensions lahar)) 0 with
      | Some i => default false (opt_inst_exts_present (extensions lahar) !! i)
      | None =>
          match find_extension e (req_inst_exts (extensions lahar)) 0 with
          | Some _ => true
          | None => false
          end
      end
  end.

(** [lahar_extension_has_device] (lines 2892-2908). *)
Definition lahar_extension_has_device (lahar : Lahar) (extension : option string)
    : bool :=
  match extension with
  | None => false
  | Some e =>
      match find_extension e (opt_dev_exts (extensions lahar)) 0 with
      | Some i => default false (opt_dev_exts_present (extensions lahar) !! i)
      | None =>
          match find_extension e (req_dev_exts (extensions lahar)) 0 with
          | Some _ => true
          | None => false
          end
      end
  end.

(** The clamp of the requested image count (lines 3571-3578, 2433-2440). *)
Definition clamp_image_count (caps : VkSurfaceCapabilitiesKHR) (image_count : Z) : Z :=
  if (0 <? maxImageCount caps) && (maxImageCount caps <? image_count)
  then maxImageCount caps
  else if (0 <? minImageCount caps) && (image_count <? minImageCount caps)
  then minImageCount caps
  else image_count.

(** The clamp of one dimension of the extent (lines 3553-3565, 2415-2427). *)
Definition clamp_extent (lo hi v : Z) : Z :=
  if hi <? v then hi else if v <? lo then lo else v.

(** [__lahar_default_surface_format_chooser] (lines 2300-2313).  The loop
    runs over [surface_fmt_count] slots of the fixed array. *)
Fixpoint choose_format_from (fmts : list VkSurfaceFormatKHR) (n : nat) (i : nat)
    : option VkSurfaceFormatKHR :=
  match n with
  | O => None
  | S n' =>
      let fmt := default surface_format_zero (fmts !! i) in
      if (sf_format fmt =? VK_FORMAT_B8G8R8A8_SRGB)
         && (sf_colorSpace fmt =? VK_COLORSPACE_SRGB_NONLINEAR_KHR)
      then Some fmt
      else choose_format_from fmts n' (S i)
  end.

Definition __lahar_default_surface_format_chooser (physdev_info : LaharDeviceInfo)
    : Z * VkSurfaceFormatKHR :=
  match choose_format_from (surface_formats physdev_info)
          (Z.to_nat (surface_fmt_count physdev_info)) 0 with
  | Some fmt => (LAHAR_ERR_SUCCESS, fmt)
  | None =>
      (LAHAR_ERR_SUCCESS,
       default surface_format_zero (surface_formats physdev_info !! 0%nat))
  end.

(** [__lahar_default_surface_present_mode_chooser] (lines 2315-2327). *)
Fixpoint has_mailbox (modes : list Z) (n : nat) (i : nat) : bool :=
  match n with
  | O => false
  | S n' =>
      if default 0 (modes !! i) =? VK_PRESENT_MODE_MAILBOX_KHR then true
      else has_mailbox modes n' (S i)
  end.

Definition __lahar_default_surface_present_mode_chooser
    (physdev_info : LaharDeviceInfo) : Z * Z :=
  if has_mailbox (present_modes physdev_info)
       (Z.to_nat (present_mode_count physdev_info)) 0
  then (LAHAR_ERR_SUCCESS, VK_PRESENT_MODE_MAILBOX_KHR)
  else (LAHAR_ERR_SUCCESS, VK_PRESENT_MODE_FIFO_KHR).

(* ------------------------------------------------------------------ *)
(** ** The monad of library operations

    A computation runs from a state made of the outside world, the [Lahar]
    instance and the log of external calls.  It ends with a result and a new
    state, or crashes (undefined behaviour, or [LAHAR_ASSERT] raising
    [SIGTRAP]), or exhausts the recursion budget it was given. *)

Record St (W : Type) : Type := mkSt {
  st_world : W;
  st_lahar : Lahar;
  st_log : list Logged
}.
Arguments mkSt {W} _ _ _.
Arguments st_world {W} _.
Arguments st_lahar {W} _.
Arguments st_log {W} _.

Inductive Outcome (W A : Type) : Type :=
| Ok (a : A) (s : St W)
| Crash
| OutOfFuel.
Arguments Ok {W A} _ _.
Arguments Crash {W A}.
Arguments OutOfFuel {W A}.

Definition M (W A : Type) : Type := St W -> Outcome W A.

#[global] Instance M_ret {W} : MRet (M W) := fun A a s => Ok a s.

#[global] Instance M_bind {W} : MBind (M W) := fun A B f m s =>
  match m s with
  | Ok a s' => f a s'
  | Crash => Crash
  | OutOfFuel => OutOfFuel
  end.

Definition get_lahar {W} : M W Lahar := fun s => Ok (st_lahar s) s.

Definition modify {W} (f : Lahar -> Lahar) : M W unit :=
  fun s => Ok tt (mkSt (st_world s) (f (st_lahar s)) (st_log s)).

Definition put_lahar {W} (l : Lahar) : M W unit := modify (fun _ => l).

Definition crash {W A} : M W A := fun _ => Crash.

Definition out_of_fuel {W A} : M W A := fun _ => OutOfFuel.

(** [arr[i]] for a read. *)
Definition read_slot {W A} (arr : list A) (i : nat) : M W A :=
  match arr !! i with
  | Some x => mret x
  | None => crash
  end.

(** [arr[i]] with [i] a C integer. *)
Definition read_slot_Z {W A} (arr : list A) (i : Z) : M W A :=
  if i <? 0 then crash else read_slot arr (Z.to_nat i).

(** The window state behind a pointer returned by [lahar_window_state]. *)
Definition get_window {W} (i : nat) : M W LaharWindowState :=
  l ← get_lahar; read_slot (windows l) i.

Definition modify_window {W} (i : nat) (f : LaharWindowState -> LaharWindowState)
    : M W unit :=
  modify (fun l => set_windows (alter f i (windows l)) l).

(** [winstate->attachments[a][k]] as an lvalue: the write crashes when the
    slot does not exist. *)
Definition modify_attachment {W} (i a k : nat) (f : LaharAttachment -> LaharAttachment)
    : M W unit :=
  ws ← get_window i;
  row ← read_slot (attachments ws) a;
  _ ← read_slot row k;
  modify_window i (fun ws => set_attachments (alter (alter f k) a (attachments ws)) ws).

Definition modify_attachment_config {W} (i a : nat)
    (f : LaharAttachmentConfig -> LaharAttachmentConfig) : M W unit :=
  ws ← get_window i;
  _ ← read_slot (attachment_configs ws) a;
  modify_window i (fun ws => set_attachment_configs (alter f a (attachment_configs ws)) ws).

(** Sequencing on the error code: [if ((err = m)) goto end;]. *)
Definition on_success {W} (m : M W Z) (k : M W Z) : M W Z :=
  err ← m; if err =? LAHAR_ERR_SUCCESS then k else mret err.

Notation "m ;;! k" := (on_success m k) (at level 100, k at level 200, right associativity).

(** [for (size_t j = i; j < i + n; j++) { if ((err = body(j))) goto end; }] *)
Fixpoint for_loop {W} (n : nat) (i : nat) (body : nat -> M W Z) : M W Z :=
  match n with
  | O => mret LAHAR_ERR_SUCCESS
  | S n' => body i ;;! for_loop n' (S i) body
  end.

(** A loop whose body cannot fail. *)
Definition for_each {W} (n : nat) (i : nat) (body : nat -> M W unit) : M W unit :=
  for_loop n i (fun j => body j;; mret LAHAR_ERR_SUCCESS);; mret tt.

Section Model.
Context {W : Type}.
Variable ext : forall c : extCall, W -> reply c * W.

(** An external call: the handler answers, the world moves on, the call is
    logged with the library state it was made in. *)
Definition call (c : extCall) : M W (reply c) := fun s =>
  let (r, w') := ext c (st_world s) in
  Ok r (mkSt w' (st_lahar s) (st_log s ++ [(st_lahar s, c)])).

(** [lahar_strdup] (lines 1916-1925): [true] when the copy was made. *)
Definition lahar_strdup (str : string) : M W bool :=
  call (lahar_malloc (Z.of_nat (String.length str) + 1) ty_char).

(** [lahar_vec_expand] (lines 1945-1951): the new capacity, or [None] when
    the reallocation failed. *)
Definition lahar_vec_expand (cap : Z) (t : CType) : M W (option Z) :=
  let tgt := if cap =? 0 then 10 else wrap64 (cap * 2) in
  newm ← call (lahar_alloc_or_resize tgt t);
  mret (if newm : bool then Some tgt else None).

(** [lahar_init] (lines 2575-2610), with a window backend that the
    library initialises itself. *)
Definition lahar_init : M W Z :=
  put_lahar lahar_zero;;
  ok ← call backend_init;
  if negb ok then mret LAHAR_ERR_DEPENDENCY_FAILED else
  module ← call open_libvk;
  modify (set_libvulkan module);;
  if module =? NULL then mret LAHAR_ERR_LOAD_FAILURE else
  (call load_loader ;;!
   mret LAHAR_ERR_SUCCESS).

(** [lahar_builder_allocator_set] (lines 2612-2619). *)
Definition lahar_builder_allocator_set (allocator : option LaharAllocator) : M W Z :=
  match allocator with
  | None => mret LAHAR_ERR_ILLEGAL_PARAMS
  | Some a =>
      if (alloc_image a =? NULL) || (free_image a =? NULL)
      then mret LAHAR_ERR_ILLEGAL_PARAMS
      else modify (set_gpu_allocator (Some a));; mret LAHAR_ERR_SUCCESS
  end.

(** [lahar_builder_set_vulkan_version] (lines 2621-2625). *)
Definition lahar_builder_set_vulkan_version (version : Z) : M W unit :=
  l ← get_lahar;
  if instance l =? VK_NULL_HANDLE then modify (set_vkversion version) else mret tt.

(** [lahar_builder_request_validation_layers] (lines 2627-2629). *)
Definition lahar_builder_request_validation_layers : M W unit :=
  modify (set_wantvalidation true).

Definition modify_extensions (f : LaharExtensions -> LaharExtensions) : M W unit :=
  modify (fun l => set_extensions (f (extensions l)) l).

(** [lahar_builder_extension_add_required_instance] (lines 2631-2646). *)
Definition lahar_builder_extension_add_required_instance
    (extension : option string) : M W Z :=
  match extension with
  | None => mret LAHAR_ERR_ILLEGAL_PARAMS
  | Some e =>
      l ← get_lahar;
      let x := extensions l in
      (if rie_cap x <=? Z.of_nat (length (req_inst_exts x)) then
         r ← lahar_vec_expand (rie_cap x) ty_ptr;
         match r with
         | Some tgt => modify_extensions (set_rie_cap tgt);; mret LAHAR_ERR_SUCCESS
         | None => mret LAHAR_ERR_ALLOC_FAILED
         end
       else mret LAHAR_ERR_SUCCESS) ;;!
      cpy ← lahar_strdup e;
      if negb cpy then mret LAHAR_ERR_ALLOC_FAILED else
      modify_extensions (fun x => set_req_inst_exts (req_inst_exts x ++ [e]) x);;
      mret LAHAR_ERR_SUCCESS
  end.

(** [lahar_builder_extension_add_required_device] (lines 2648-2663). *)
Definition lahar_builder_extension_add_required_device
    (extension : option string) : M W Z :=
  match extension with
  | None => mret LAHAR_ERR_ILLEGAL_PARAMS
  | Some e =>
      l ← get_lahar;
      let x := extensions l in
      (if rde_cap x <=? Z.of_nat (length (req_dev_exts x)) then
         r ← lahar_vec_expand (rde_cap x) ty_ptr;
         match r with
         | Some tgt => modify_extensions (set_rde_cap tgt);; mret LAHAR_ERR_SUCCESS
         | None => mret LAHAR_ERR_ALLOC_FAILED
         end
       else mret LAHAR_ERR_SUCCESS) ;;!
      cpy ← lahar_strdup e;
      if negb cpy then mret LAHAR_ERR_ALLOC_FAILED else
      modify_extensions (fun x => set_req_dev_exts (req_dev_exts x ++ [e]) x);;
      mret LAHAR_ERR_SUCCESS
  end.

(** [lahar_builder_extension_add_optional_instance] (lines 2665-2695).
    The first expansion updates only the local [current_cap]; the second
    one stores the new capacity. *)
Definition lahar_builder_extension_add_optional_instance
    (extension : option string) : M W Z :=
  match extension with
  | None => mret LAHAR_ERR_ILLEGAL_PARAMS
  | Some e =>
      l ← get_lahar;
      let x := extensions l in
      (if oie_cap x <=? Z.of_nat (length (opt_inst_exts x)) then
         let current_cap := oie_cap x in
         r1 ← lahar_vec_expand current_cap ty_ptr;
         match r1 with
         | None => mret LAHAR_ERR_ALLOC_FAILED
         | Some _ =>
             r2 ← lahar_vec_expand (oie_cap x) ty_bool;
             match r2 with
             | Some tgt => modify_extensions (set_oie_cap tgt);; mret LAHAR_ERR_SUCCESS
             | None => mret LAHAR_ERR_ALLOC_FAILED
             end
         end
       else mret LAHAR_ERR_SUCCESS) ;;!
      cpy ← lahar_strdup e;
      if negb cpy then mret LAHAR_ERR_ALLOC_FAILED else
      modify_extensions (fun x =>
        set_opt_inst_exts_present (opt_inst_exts_present x ++ [false])
          (set_opt_inst_exts (opt_inst_exts x ++ [e]) x));;
      mret LAHAR_ERR_SUCCESS
  end.

(** [lahar_builder_extension_add_optional_device] (lines 2697-2727). *)
Definition lahar_builder_extension_add_optional_device
    (extension : option string) : M W Z :=
  match extension with
  | None => mret LAHAR_ERR_ILLEGAL_PARAMS
  | Some e =>
      l ← get_lahar;
      let x := extensions l in
      (if ode_cap x <=? Z.of_nat (length (opt_dev_exts x)) then
         let current_cap := ode_cap x in
         r1 ← lahar_vec_expand current_cap ty_ptr;
         match r1 with
         | None => mret LAHAR_ERR_ALLOC_FAILED
         | Some _ =>
             r2 ← lahar_vec_expand (ode_cap x) ty_bool;
             match r2 with
             | Some tgt => modify_extensions (set_ode_cap tgt);; mret LAHAR_ERR_SUCCESS
             | None => mret LAHAR_ERR_ALLOC_FAILED
             end
         end
       else mret LAHAR_ERR_SUCCESS) ;;!
      cpy ← lahar_strdup e;
      if negb cpy then mret LAHAR_ERR_ALLOC_FAILED else
      modify_extensions (fun x =>
        set_opt_dev_exts_present (opt_dev_exts_present x ++ [false])
          (set_opt_dev_exts (opt_dev_exts x ++ [e]) x));;
      mret LAHAR_ERR_SUCCESS
  end.

(** [lahar_builder_set_debug_callback] (lines 2729-2731). *)
Definition lahar_builder_set_debug_callback (callback : Z) : M W unit :=
  modify (set_debug_callback callback).

(** [lahar_builder_device_use] (lines 2733-2741). *)
Definition lahar_builder_device_use (name : option string) : M W Z :=
  match name with
  | None => mret LAHAR_ERR_ILLEGAL_PARAMS
  | Some n =>
      if String.eqb n ""%string then mret LAHAR_ERR_ILLEGAL_PARAMS else
      cpy ← lahar_strdup n;
      if negb cpy then mret LAHAR_ERR_ALLOC_FAILED else
      modify (set_device_name (Some n));; mret LAHAR_ERR_SUCCESS
  end.

(** [lahar_builder_device_set_scoring] (lines 2743-2748). *)
Definition lahar_builder_device_set_scoring (scorefunc : Z) : M W Z :=
  if scorefunc =? NULL then mret LAHAR_ERR_ILLEGAL_PARAMS
  else modify (set_score_func scorefunc);; mret LAHAR_ERR_SUCCESS.

(** [lahar_builder_request_command_buffers] (lines 2750-2752). *)
Definition lahar_builder_request_command_buffers : M W unit :=
  modify (set_wantcommands true).

(** [lahar_builder_window_register_ex] (lines 2754-2796).  The two
    [lahar_malloc] results are used unchecked. *)
Definition lahar_builder_window_register_ex (w : Z)
    (winconf : option LaharWindowConfig) : M W Z :=
  match winconf with
  | None => mret LAHAR_ERR_ILLEGAL_PARAMS
  | Some conf =>
      if (w =? NULL) || (wc_attachment_count conf =? 0)
      then mret LAHAR_ERR_ILLEGAL_PARAMS else
      l ← get_lahar;
      (if window_cap l <=? Z.of_nat (length (windows l)) then
         r ← lahar_vec_expand (window_cap l) ty_LaharWindowState;
         match r with
         | Some tgt => modify (set_window_cap tgt);; mret LAHAR_ERR_SUCCESS
         | None => mret LAHAR_ERR_ALLOC_FAILED
         end
       else mret LAHAR_ERR_SUCCESS) ;;!
      let i := length (windows l) in
      modify (fun l => set_windows (windows l ++ [set_window w window_zero]) l);;
      '(err, (wd, ht)) ← call (lahar_window_get_size w);
      modify_window i (fun ws => set_height ht (set_width wd ws));;
      if negb (err =? LAHAR_ERR_SUCCESS) then mret err else
      modify_window i (set_attachment_count (wc_attachment_count conf));;
      cfgs ← call (lahar_malloc (wc_attachment_count conf) ty_LaharAttachmentConfig);
      if negb cfgs then crash else
      let n := Z.to_nat (wc_attachment_count conf) in
      if negb (n <=? length (wc_attachments conf))%nat then crash else
      modify_window i (set_attachment_configs (take n (wc_attachments conf)));;
      modify_window i (set_desired_img_count
        (if wc_desired_swap_size conf =? 0 then 2 else wc_desired_swap_size conf));;
      modify_window i (set_max_in_flight
        (if wc_max_in_flight conf =? 0 then 2 else wc_max_in_flight conf));;
      rows ← call (lahar_malloc (wc_attachment_count conf) ty_ptr);
      if negb rows then crash else
      modify_window i (set_auto_recreate_swap (negb (wc_no_auto_swap_resize conf)));;
      modify_window i (set_attachments (replicate n []));;
      mret LAHAR_ERR_SUCCESS
  end.

(** *** Building the environment *)

(** [__lahar_temp_extensions] (lines 3075-3121): the error code, the count
    and the instance extension list.  The array is sized with the first
    answer of the backend and filled with the second; the embedding takes
    the two answers to agree, as anything else reads or writes outside the
    arrays. *)
Definition __lahar_temp_extensions : M W (Z * (Z * list string)) :=
  l ← get_lahar;
  ws0 ← read_slot (windows l) 0;
  let rie := req_inst_exts (extensions l) in
  let ext_count := wrap32 (Z.of_nat (length rie)) in
  let ext_count := if wantvalidation l then wrap32 (ext_count + 1) else ext_count in
  '(err, win_count) ← call (lahar_window_get_extensions_count (window ws0));
  if negb (err =? LAHAR_ERR_SUCCESS) then mret (err, (0, [])) else
  let ext_count := wrap32 (ext_count + win_count) in
  '(err, win_exts) ← call (lahar_window_get_extensions (window ws0) win_count);
  if negb (err =? LAHAR_ERR_SUCCESS) then mret (err, (0, [])) else
  if negb (Z.of_nat (length win_exts) =? win_count) then crash else
  let extensions :=
    rie ++ win_exts ++
    (if wantvalidation l then [VK_EXT_DEBUG_UTILS_EXTENSION_NAME] else []) in
  mret (LAHAR_ERR_SUCCESS, (ext_count, extensions)).

(** The callers of [__lahar_temp_extensions] ignore its error code and read
    the outputs, which are uninitialised when it failed. *)
Definition temp_extensions_unchecked : M W (Z * list string) :=
  '(err, r) ← __lahar_temp_extensions;
  if err =? LAHAR_ERR_SUCCESS then mret r else crash.

Definition name_in (names : list string) (n : string) : bool :=
  existsb (String.eqb n) names.

(** [__lahar_build_inst_extensions] (lines 3124-3170). *)
Definition __lahar_build_inst_extensions : M W Z :=
  '(ext_count, extensions) ← temp_extensions_unchecked;
  '(res, prop_count) ← call vkEnumerateInstanceExtensionProperties_count;
  modify (set_vkresult res);;
  if negb (res =? VK_SUCCESS) then mret LAHAR_ERR_VK_ERR else
  '(res, props) ← call (vkEnumerateInstanceExtensionProperties prop_count);
  if negb (res =? VK_SUCCESS) then mret LAHAR_ERR_VK_ERR else
  if negb (Z.of_nat (length props) <=? prop_count) then crash else
  if forallb (name_in props) extensions
  then mret LAHAR_ERR_SUCCESS
  else mret LAHAR_ERR_MISSING_EXTENSION.

Definition dbg_layer_name : string := "VK_LAYER_KHRONOS_validation".

(** [__lahar_build_instance] (lines 3172-3268). *)
Definition __lahar_build_instance : M W Z :=
  '(ext_count, extensions) ← temp_extensions_unchecked;
  l ← get_lahar;
  '(res, avail_layer_count) ← call vkEnumerateInstanceLayerProperties_count;
  modify (set_vkresult res);;
  if negb (res =? VK_SUCCESS) then mret LAHAR_ERR_VK_ERR else
  '(res, layer_props) ← call (vkEnumerateInstanceLayerProperties avail_layer_count);
  modify (set_vkresult res);;
  if negb (res =? VK_SUCCESS) then mret LAHAR_ERR_VK_ERR else
  if negb (Z.of_nat (length layer_props) <=? avail_layer_count) then crash else
  let dbg_layer_found := wantvalidation l && name_in layer_props dbg_layer_name in
  let createinfo :=
    {| pApplicationName := default "Lahar"%string (appname l);
       applicationVersion :=
         if negb (appversion l =? 0) then appversion l else VK_MAKE_VERSION 1 0 0;
       engineVersion := VK_MAKE_VERSION 1 0 0;
       apiVersion := if negb (vkversion l =? 0) then vkversion l else VK_API_VERSION_1_3;
       inst_enabledExtensionCount := ext_count;
       inst_ppEnabledExtensionNames := extensions;
       inst_ppEnabledLayerNames := if dbg_layer_found then [dbg_layer_name] else [] |} in
  '(res, inst) ← call (vkCreateInstance createinfo);
  modify (set_vkresult res);;
  modify (set_instance inst);;
  if negb (res =? VK_SUCCESS) then mret LAHAR_ERR_VK_ERR else
  (* lahar_load_instance always returns LAHAR_ERR_SUCCESS *)
  '(res, version) ← call vkEnumerateInstanceVersion;
  modify (set_vkresult res);;
  modify (set_vkversion version);;
  if negb (res =? VK_SUCCESS) then mret LAHAR_ERR_SUCCESS else
  if wantvalidation l then
    if negb dbg_layer_found then
      call (printf "Lahar: failed to find vulkan validation layers. Available layers:");;
      for_each (length layer_props) 0 (fun i =>
        name ← read_slot layer_props i; call (printf name));;
      mret LAHAR_ERR_SUCCESS
    else
      '(res, messenger) ← call (vkCreateDebugUtilsMessengerEXT inst (debug_callback l));
      modify (set_vkresult res);;
      modify (set_debug_messenger messenger);;
      if negb (res =? VK_SUCCESS) then mret LAHAR_ERR_VK_ERR
      else mret LAHAR_ERR_SUCCESS
  else mret LAHAR_ERR_SUCCESS.

(** [__lahar_build_early_surface] (lines 3270-3282). *)
Definition __lahar_build_early_surface : M W Z :=
  l ← get_lahar;
  for_loop (length (windows l)) 0 (fun i =>
    l ← get_lahar;
    winstate ← get_window i;
    '(err, surf) ← call (lahar_window_surface_create (instance l) (window winstate));
    modify_window i (set_surface surf);;
    mret err).

(** The inner loop of [__lahar_build_physdev] over the windows
    (lines 3333-3338): does queue family [j] present on every surface? *)
Fixpoint present_support (pd : Z) (j : Z) (surfaces : list Z) : M W bool :=
  match surfaces with
  | [] => mret true
  | surf :: rest =>
      thisWin ← call (vkGetPhysicalDeviceSurfaceSupportKHR pd j surf);
      if thisWin : bool then present_support pd j rest else mret false
  end.

(** The loop over the queue families (lines 3325-3348); [j] is the index of
    the head of [queue_fams]. *)
Fixpoint scan_queue_families (surfaces : list Z)
    (queue_fams : list VkQueueFamilyProperties) (j : Z)
    (devinfo : LaharDeviceInfo) : M W LaharDeviceInfo :=
  match queue_fams with
  | [] => mret devinfo
  | fam :: rest =>
      let devinfo :=
        if negb (Z.land (queueFlags fam) VK_QUEUE_GRAPHICS_BIT =? 0)
        then set_has_graphics_queue true (set_graphics_queue_index j devinfo)
        else devinfo in
      presentSupport ← present_support (physdev devinfo) j surfaces;
      let devinfo :=
        if presentSupport : bool
        then set_present_queue_index j (set_has_present_queue true devinfo)
        else devinfo in
      if has_graphics_queue devinfo && has_present_queue devinfo
      then mret devinfo
      else scan_queue_families surfaces rest (wrap32 (j + 1)) devinfo
  end.

(** The body of the first loop of [__lahar_build_physdev]
    (lines 3310-3369) for one device. *)
Definition gather_device_info (pd : Z) : M W LaharDeviceInfo :=
  l ← get_lahar;
  let devinfo := set_physdev pd devinfo_zero in
  props ← call (vkGetPhysicalDeviceProperties pd);
  let devinfo := set_properties props devinfo in
  feats ← call (vkGetPhysicalDeviceFeatures pd);
  let devinfo := set_features feats devinfo in
  queue_fam_ct ← call (vkGetPhysicalDeviceQueueFamilyProperties_count pd);
  queue_fams ← call (vkGetPhysicalDeviceQueueFamilyProperties pd queue_fam_ct);
  if negb (Z.of_nat (length queue_fams) <=? queue_fam_ct) then crash else
  devinfo ← scan_queue_families (map surface (windows l)) queue_fams 0 devinfo;
  match windows l with
  | [] => mret devinfo
  | ws0 :: _ =>
      format_ct ← call (vkGetPhysicalDeviceSurfaceFormatsKHR_count pd (surface ws0));
      present_ct ← call (vkGetPhysicalDeviceSurfacePresentModesKHR_count pd (surface ws0));
      formats ← call (vkGetPhysicalDeviceSurfaceFormatsKHR pd (surface ws0) format_ct);
      if negb (Z.of_nat (length formats) <=? format_ct) then crash else
      modes ← call (vkGetPhysicalDeviceSurfacePresentModesKHR pd (surface ws0) present_ct);
      if negb (Z.of_nat (length modes) <=? present_ct) then crash else
      let to_copy := Z.to_nat (Z.min (Z.of_nat (length formats)) LAHAR_MAX_DEVICE_ENTRIES) in
      let devinfo := set_surface_formats (take to_copy formats) devinfo in
      let to_copy := Z.to_nat (Z.min (Z.of_nat (length modes)) LAHAR_MAX_DEVICE_ENTRIES) in
      mret (set_present_modes (take to_copy modes) devinfo)
  end.

Fixpoint gather_device_infos (devices : list Z) : M W (list LaharDeviceInfo) :=
  match devices with
  | [] => mret []
  | pd :: rest =>
      info ← gather_device_info pd;
      infos ← gather_device_infos rest;
      mret (info :: infos)
  end.

(** [scorer(&dev_infos[i])]: the default scorer, or the user's. *)
Definition run_scorer (scorer : Z) (info : LaharDeviceInfo) : M W Z :=
  if scorer =? NULL then mret (__lahar_default_scorer info)
  else call (call_score_func scorer info).

Fixpoint score_devices (scorer : Z) (infos : list LaharDeviceInfo) : M W (list Z) :=
  match infos with
  | [] => mret []
  | info :: rest =>
      s ← run_scorer scorer info;
      ss ← score_devices scorer rest;
      mret (s :: ss)
  end.

(** [__lahar_default_dbgcallback] (lines 2240-2264) at INFO severity. *)
Definition __lahar_default_dbgcallback_info (msg : string) : M W unit :=
  call (printf ("[VKINFO] " ++ msg)%string).

(** [__lahar_build_physdev] (lines 3284-3412). *)
Definition __lahar_build_physdev : M W Z :=
  l ← get_lahar;
  let scorer := score_func l in
  '(res, dev_count) ← call (vkEnumeratePhysicalDevices_count (instance l));
  modify (set_vkresult res);;
  if negb (res =? VK_SUCCESS) then mret LAHAR_ERR_VK_ERR else
  '(res, devices) ← call (vkEnumeratePhysicalDevices (instance l) dev_count);
  modify (set_vkresult res);;
  if negb (res =? VK_SUCCESS) then mret LAHAR_ERR_VK_ERR else
  if negb (Z.of_nat (length devices) <=? dev_count) then crash else
  dev_infos ← gather_device_infos devices;
  dev_scores ← score_devices scorer dev_infos;
  let best_dev := pick_best dev_scores in
  if best_dev =? -1 then mret LAHAR_ERR_NO_SUITABLE_DEVICE else
  info ← read_slot_Z dev_infos best_dev;
  (if wantvalidation l then
     let msgbuf :=
       String.substring 0 511 ("Selected Device: " ++ deviceName (properties info))%string in
     if negb (debug_callback l =? NULL)
     then call (call_debug_callback (debug_callback l) msgbuf)
     else __lahar_default_dbgcallback_info msgbuf
   else mret tt);;
  modify (set_physdev_info info);;
  mret LAHAR_ERR_SUCCESS.

(** [__lahar_build_device] (lines 3414-3496).  A failing [vkCreateDevice]
    leaves [err] at success. *)
Definition __lahar_build_device : M W Z :=
  l ← get_lahar;
  let pdi := physdev_info l in
  has_dbg_layer ←
    (if wantvalidation l then
       layer_count ← call (vkEnumerateDeviceLayerProperties_count (physdev pdi));
       layer_props ← call (vkEnumerateDeviceLayerProperties (physdev pdi) layer_count);
       if negb (Z.of_nat (length layer_props) <=? layer_count) then crash else
       mret (name_in layer_props dbg_layer_name)
     else mret false);
  let queue_create_count :=
    if graphics_queue_index pdi =? present_queue_index pdi then 1 else 2 in
  let create_info :=
    {| queueCreateInfoCount := queue_create_count;
       pQueueCreateInfos := [graphics_queue_index pdi; present_queue_index pdi];
       enabledLayerCount := if has_dbg_layer : bool then 1 else 0;
       dev_ppEnabledLayerNames := [dbg_layer_name];
       dev_ppEnabledExtensionNames := [VK_KHR_SWAPCHAIN_EXTENSION_NAME] |} in
  '(res, dev) ← call (vkCreateDevice (physdev pdi) create_info);
  modify (set_vkresult res);;
  modify (set_device dev);;
  if negb (res =? VK_SUCCESS) then mret LAHAR_ERR_SUCCESS else
  (* lahar_load_device always returns LAHAR_ERR_SUCCESS *)
  gq ← call (vkGetDeviceQueue dev (graphics_queue_index pdi) 0);
  modify (set_graphicsQueue gq);;
  pq ← call (vkGetDeviceQueue dev (present_queue_index pdi) 0);
  modify (set_presentQueue pq);;
  if wantcommands l then
    '(res, cmdpool) ← call (vkCreateCommandPool dev 0x2 (graphics_queue_index pdi));
    modify (set_vkresult res);;
    modify (set_pool cmdpool);;
    if negb (res =? VK_SUCCESS) then mret LAHAR_ERR_VK_ERR else mret LAHAR_ERR_SUCCESS
  else mret LAHAR_ERR_SUCCESS.

(** *** Swapchains *)

(** [choose_format(lahar, winstate, &lahar->physdev_info,
    &winstate->surface_format)]: the default chooser, or the user's. *)
Definition run_format_chooser (i : nat) : M W Z :=
  l ← get_lahar;
  '(err, fmt) ←
    (if format_chooser l =? NULL
     then mret (__lahar_default_surface_format_chooser (physdev_info l))
     else call (call_format_chooser (format_chooser l) l i));
  modify_window i (set_surface_format fmt);;
  mret err.

Definition run_present_chooser (i : nat) : M W (Z * Z) :=
  l ← get_lahar;
  if present_chooser l =? NULL
  then mret (__lahar_default_surface_present_mode_chooser (physdev_info l))
  else call (call_present_chooser (present_chooser l) l i).

(** The [VkSwapchainCreateInfoKHR] that both [__lahar_build_swapchain]
    (lines 3533-3580) and [__lahar_default_resizer] (lines 2397-2442)
    fill in. *)
Definition swapchain_create_info (l : Lahar) (winstate : LaharWindowState)
    (color_conf : LaharAttachmentConfig) (surface_caps : VkSurfaceCapabilitiesKHR)
    (wd ht : Z) (presentMode : Z) : VkSwapchainCreateInfoKHR :=
  let q0 := graphics_queue_index (physdev_info l) in
  let q1 := present_queue_index (physdev_info l) in
  {| sci_sType := VK_STRUCTURE_TYPE_SWAPCHAIN_CREATE_INFO_KHR;
     sci_surface := surface winstate;
     sci_minImageCount := clamp_image_count surface_caps (desired_img_count winstate);
     sci_imageFormat := sf_format (surface_format winstate);
     sci_imageColorSpace := sf_colorSpace (surface_format winstate);
     sci_imageExtent_width :=
       clamp_extent (minImageExtent_width surface_caps)
                    (maxImageExtent_width surface_caps) wd;
     sci_imageExtent_height :=
       clamp_extent (minImageExtent_height surface_caps)
                    (maxImageExtent_height surface_caps) ht;
     sci_imageArrayLayers := 1;
     sci_imageUsage :=
       if negb (usage color_conf =? 0) then usage color_conf
       else VK_IMAGE_USAGE_COLOR_ATTACHMENT_BIT;
     sci_imageSharingMode :=
       if q0 =? q1 then VK_SHARING_MODE_EXCLUSIVE else VK_SHARING_MODE_CONCURRENT;
     sci_queueFamilyIndexCount := if q0 =? q1 then 0 else 2;
     sci_pQueueFamilyIndices := [q0; q1];
     sci_preTransform := currentTransform surface_caps;
     sci_compositeAlpha :=
       if negb (alpha winstate =? 0) then alpha winstate
       else VK_COMPOSITE_ALPHA_OPAQUE_BIT_KHR;
     sci_presentMode := presentMode;
     sci_clipped := VK_TRUE;
     sci_oldSwapchain := VK_NULL_HANDLE |}.

(** The [VkImageViewCreateInfo] of a colour view (lines 3601-3619). *)
Definition color_view_create_info (img fmt : Z) : VkImageViewCreateInfo :=
  {| ivci_sType := VK_STRUCTURE_TYPE_IMAGE_VIEW_CREATE_INFO;
     ivci_image := img;
     ivci_viewType := VK_IMAGE_VIEW_TYPE_2D;
     ivci_format := fmt;
     ivci_aspectMask := VK_IMAGE_ASPECT_COLOR_BIT;
     ivci_baseMipLevel := 0; ivci_levelCount := 1;
     ivci_baseArrayLayer := 0; ivci_layerCount := 1 |}.

(** The loop creating the colour views (lines 3600-3628, 2458-2487);
    [reset_layout] is the extra assignment of the resizer. *)
Definition create_color_views (i : nat) (swap_imgs : list Z) (reset_layout : bool)
    : M W Z :=
  for_loop (length swap_imgs) 0 (fun j =>
    l ← get_lahar;
    winstate ← get_window i;
    img ← read_slot swap_imgs j;
    '(res, v) ← call (vkCreateImageView (device l)
                        (color_view_create_info img (sf_format (surface_format winstate))));
    modify (set_vkresult res);;
    if negb (res =? VK_SUCCESS) then mret LAHAR_ERR_VK_ERR else
    modify_attachment i LAHAR_ATT_COLOR_INDEX j (set_image img);;
    modify_attachment i LAHAR_ATT_COLOR_INDEX j (set_view v);;
    (if reset_layout
     then modify_attachment i LAHAR_ATT_COLOR_INDEX j (set_layout VK_IMAGE_LAYOUT_UNDEFINED)
     else mret tt);;
    mret LAHAR_ERR_SUCCESS).

(** The loop allocating the extra attachments (lines 3635-3670,
    2494-2532), entered with an allocator in place. *)
Definition create_extra_attachments (i : nat) (allocator : LaharAllocator)
    (reset_layout : bool) : M W Z :=
  winstate ← get_window i;
  for_loop (Z.to_nat (attachment_count winstate) - 1) 1 (fun j =>
    winstate ← get_window i;
    _ ← read_slot (attachments winstate) j;
    modify_attachment_config i j (fun c =>
      let info := img_info c in
      let info :=
        if negb (ici_sType info =? VK_STRUCTURE_TYPE_IMAGE_CREATE_INFO)
        then set_ici_sType VK_STRUCTURE_TYPE_IMAGE_CREATE_INFO info else info in
      let info := set_ici_extent_width (width winstate) info in
      let info := set_ici_extent_height (height winstate) info in
      let info :=
        if ici_extent_depth info =? 0 then set_ici_extent_depth 1 info else info in
      set_img_info info c);;
    for_loop (Z.to_nat (swap_size winstate)) 0 (fun k =>
      l ← get_lahar;
      winstate ← get_window i;
      attachment_config ← read_slot (attachment_configs winstate) j;
      '(err, (img, alloc)) ←
        call (call_alloc_image (alloc_image allocator) l (img_info attachment_config));
      modify_attachment i j k (set_image img);;
      modify_attachment i j k (set_img_allocation alloc);;
      if negb (err =? LAHAR_ERR_SUCCESS) then mret err else
      modify_attachment_config i j (fun c => set_view_info (set_ivci_image img (view_info c)) c);;
      winstate ← get_window i;
      attachment_config ← read_slot (attachment_configs winstate) j;
      '(res, v) ← call (vkCreateImageView (device l) (view_info attachment_config));
      modify (set_vkresult res);;
      modify_attachment i j k (set_view v);;
      if negb (res =? VK_SUCCESS) then mret LAHAR_ERR_VK_ERR else
      (if reset_layout
       then modify_attachment i j k (set_layout VK_IMAGE_LAYOUT_UNDEFINED)
       else mret tt);;
      mret LAHAR_ERR_SUCCESS)).

(** The body of the loop of [__lahar_build_swapchain] for the window at
    index [i], from the capability query on (lines 3519-3686). *)
Definition build_swapchain_window_create (i : nat) : M W Z :=
  winstate ← get_window i;
  l ← get_lahar;
  '(res, surface_caps) ←
    call (vkGetPhysicalDeviceSurfaceCapabilitiesKHR (physdev (physdev_info l))
            (surface winstate));
  modify (set_vkresult res);;
  if negb (res =? VK_SUCCESS) then mret LAHAR_ERR_VK_ERR else
  (run_format_chooser i ;;!
  winstate ← get_window i;
  color_conf ← read_slot (attachment_configs winstate) LAHAR_ATT_COLOR_INDEX;
  '(err, (wd, ht)) ← call (lahar_window_get_size (window winstate));
  if negb (err =? LAHAR_ERR_SUCCESS) then mret err else
  '(err, presentMode) ← run_present_chooser i;
  if negb (err =? LAHAR_ERR_SUCCESS) then mret err else
  l ← get_lahar;
  winstate ← get_window i;
  let create_info := swapchain_create_info l winstate color_conf surface_caps wd ht presentMode in
  '(res, swap) ← call (vkCreateSwapchainKHR (device l) create_info);
  modify (set_vkresult res);;
  modify_window i (set_swapchain swap);;
  if negb (res =? VK_SUCCESS) then mret LAHAR_ERR_VK_ERR else
  count ← call (vkGetSwapchainImagesKHR_count (device l) swap);
  modify_window i (set_swap_size count);;
  for_each (Z.to_nat (attachment_count winstate)) 0 (fun j =>
    row ← call (lahar_malloc count ty_LaharAttachment);
    if negb row then crash else
    ws ← get_window i;
    _ ← read_slot (attachments ws) j;
    modify_window i (fun ws =>
      set_attachments (<[j := replicate (Z.to_nat count) attachment_zero]> (attachments ws)) ws));;
  swap_imgs ← call (vkGetSwapchainImagesKHR (device l) swap count);
  if negb (Z.of_nat (length swap_imgs) <=? count) then crash else
  modify_window i (set_swap_size (Z.of_nat (length swap_imgs)));;
  (create_color_views i swap_imgs false ;;!
  l ← get_lahar;
  winstate ← get_window i;
  match gpu_allocator l with
  | None =>
      if 1 <? attachment_count winstate
      then mret LAHAR_ERR_INVALID_CONFIGURATION
      else mret LAHAR_ERR_SUCCESS
  | Some allocator => create_extra_attachments i allocator false
  end ;;!
  if wantcommands l then
    buf ← call (lahar_malloc (swap_size winstate) ty_VkCommandBuffer);
    if negb buf then crash else
    '(res, cmds) ← call (vkAllocateCommandBuffers (device l) (pool l) (swap_size winstate));
    modify (set_vkresult res);;
    modify_window i (set_commands cmds);;
    if negb (res =? VK_SUCCESS) then mret LAHAR_ERR_VK_ERR else mret LAHAR_ERR_SUCCESS
  else mret LAHAR_ERR_SUCCESS)).

(** The body of the loop of [__lahar_build_swapchain] (lines 3511-3687)
    for the window at index [i]: the image count is defaulted, then the
    swapchain is created. *)
Definition build_swapchain_window (i : nat) : M W Z :=
  winstate ← get_window i;
  (if desired_img_count winstate =? 0
   then modify_window i (set_desired_img_count 2) else mret tt);;
  build_swapchain_window_create i.

(** [__lahar_build_swapchain] (lines 3498-3692), built without VMA. *)
Definition __lahar_build_swapchain : M W Z :=
  l ← get_lahar;
  for_loop (length (windows l)) 0 build_swapchain_window.

(** The body of the loop of [__lahar_build_sync] (lines 3706-3726) for the
    window at index [i].  The three arrays come from unchecked
    [lahar_malloc]s; a slot exists in the embedding once it was written. *)
Definition build_sync_window (i : nat) : M W Z :=
  winstate ← get_window i;
  a ← call (lahar_malloc (max_in_flight winstate) ty_VkSemaphore);
  b ← call (lahar_malloc (max_in_flight winstate) ty_VkSemaphore);
  c ← call (lahar_malloc (max_in_flight winstate) ty_VkFence);
  modify_window i (fun ws =>
    set_in_flight [] (set_render_finished [] (set_image_available [] ws)));;
  for_loop (Z.to_nat (max_in_flight winstate)) 0 (fun j =>
    if negb a then crash else
    l ← get_lahar;
    '(res, sem) ← call (vkCreateSemaphore (device l));
    modify (set_vkresult res);;
    modify_window i (fun ws => set_image_available (image_available ws ++ [sem]) ws);;
    if negb (res =? VK_SUCCESS) then mret LAHAR_ERR_VK_ERR else
    if negb b then crash else
    '(res, sem) ← call (vkCreateSemaphore (device l));
    modify (set_vkresult res);;
    modify_window i (fun ws => set_render_finished (render_finished ws ++ [sem]) ws);;
    if negb (res =? VK_SUCCESS) then mret LAHAR_ERR_VK_ERR else
    if negb c then crash else
    '(res, fence) ← call (vkCreateFence (device l) VK_FENCE_CREATE_SIGNALED_BIT);
    modify (set_vkresult res);;
    modify_window i (fun ws => set_in_flight (in_flight ws ++ [fence]) ws);;
    if negb (res =? VK_SUCCESS) then mret LAHAR_ERR_VK_ERR else
    mret LAHAR_ERR_SUCCESS).

(** [__lahar_build_sync] (lines 3694-3729). *)
Definition __lahar_build_sync : M W Z :=
  l ← get_lahar;
  for_loop (length (windows l)) 0 build_sync_window.

(** *** Tear-down and [lahar_build] *)

(** A call whose return value is dropped. *)
Definition call_ (c : extCall) : M W unit := call c;; mret tt.

(** Destruction of [sems[0 .. max_in_flight)] when the array pointer is
    not NULL (lines 2929-2957).  The pointer is NULL here when the list is
    empty: an array that [__lahar_build_sync] has allocated and not begun to
    fill reads as NULL, where the code hands [max_in_flight] slots it never
    wrote to the destroy function; an array filled in part is read beyond
    what was written, which is [Crash]. *)
Definition destroy_sync_array (destroy : Z -> Z -> extCall) (dev : Z)
    (arr : list Z) (n : Z) : M W unit :=
  match arr with
  | [] => mret tt
  | _ => for_each (Z.to_nat n) 0 (fun j => h ← read_slot arr j; call_ (destroy dev h))
  end.

(** The body of the loop of [lahar_deinit] (lines 2922-3012) for the
    window at index [i]. *)
Definition deinit_window (i : nat) : M W unit :=
  l ← get_lahar;
  state ← get_window i;
  destroy_sync_array vkDestroySemaphore (device l) (image_available state) (max_in_flight state);;
  destroy_sync_array vkDestroySemaphore (device l) (render_finished state) (max_in_flight state);;
  destroy_sync_array vkDestroyFence (device l) (in_flight state) (max_in_flight state);;
  for_each (Z.to_nat (swap_size state)) 0 (fun j =>
    row ← read_slot (attachments state) LAHAR_ATT_COLOR_INDEX;
    attachment ← read_slot row j;
    if negb (view attachment =? VK_NULL_HANDLE)
    then call_ (vkDestroyImageView (device l) (view attachment))
    else mret tt);;
  _ ← read_slot (attachments state) LAHAR_ATT_COLOR_INDEX;
  for_each (Z.to_nat (attachment_count state) - 1) 1 (fun j =>
    attachment_list ← read_slot (attachments state) j;
    for_each (Z.to_nat (swap_size state)) 0 (fun k =>
      attachment ← read_slot attachment_list k;
      (if negb (view attachment =? VK_NULL_HANDLE)
       then call_ (vkDestroyImageView (device l) (view attachment))
       else mret tt);;
      match gpu_allocator l with
      | Some allocator =>
          if negb (image attachment =? VK_NULL_HANDLE)
          then call_ (call_free_image (free_image allocator) l
                       (image attachment) (img_allocation attachment))
          else mret tt
      | None => mret tt
      end));;
  (if negb (swapchain state =? VK_NULL_HANDLE)
   then call_ (vkDestroySwapchainKHR (device l) (swapchain state))
   else mret tt);;
  (if negb (surface state =? VK_NULL_HANDLE)
   then call_ (vkDestroySurfaceKHR (instance l) (surface state))
   else mret tt);;
  call (backend_destroy_window (window state));;
  mret tt.

(** [lahar_deinit] (lines 2917-3070).  The entry points are taken as
    loaded, so that the tests [if (vkDeviceWaitIdle)], [&& vkDestroy...] of
    the code are true: where an entry point is not loaded the code skips
    the call that is made here. *)
Definition lahar_deinit : M W unit :=
  l ← get_lahar;
  call (vkDeviceWaitIdle (device l));;
  for_each (length (windows l)) 0 deinit_window;;
  (if negb (pool l =? VK_NULL_HANDLE)
   then call_ (vkDestroyCommandPool (device l) (pool l)) else mret tt);;
  (if negb (device l =? VK_NULL_HANDLE)
   then call_ (vkDestroyDevice (device l)) else mret tt);;
  (if negb (debug_messenger l =? VK_NULL_HANDLE)
   then call_ (vkDestroyDebugUtilsMessengerEXT (instance l) (debug_messenger l))
   else mret tt);;
  (if negb (instance l =? VK_NULL_HANDLE)
   then call_ (vkDestroyInstance (instance l)) else mret tt);;
  call backend_terminate;;
  put_lahar lahar_zero.

(** [lahar_build] (lines 3731-3748). *)
Definition lahar_build : M W Z :=
  err ← (__lahar_build_inst_extensions ;;!
         __lahar_build_instance ;;!
         __lahar_build_early_surface ;;!
         __lahar_build_physdev ;;!
         __lahar_build_device ;;!
         __lahar_build_swapchain ;;!
         __lahar_build_sync);
  (if negb (err =? LAHAR_ERR_SUCCESS) then lahar_deinit else mret tt);;
  mret err.

(** *** Swapchain recreation *)

(** [lahar_window_wait_inactive] (lines 3989-3998).  The fence array is
    handed over with [max_in_flight] as its length. *)
Definition lahar_window_wait_inactive (w : Z) : M W Z :=
  l ← get_lahar;
  match lahar_window_state l w with
  | None => mret LAHAR_ERR_INVALID_WINDOW
  | Some i =>
      winstate ← get_window i;
      if Z.of_nat (length (in_flight winstate)) <? max_in_flight winstate then crash else
      res ← call (vkWaitForFences (device l)
                    (take (Z.to_nat (max_in_flight winstate)) (in_flight winstate))
                    VK_TRUE UINT64_MAX);
      modify (set_vkresult res);;
      if negb (res =? VK_SUCCESS) then mret LAHAR_ERR_VK_ERR
      else mret LAHAR_ERR_SUCCESS
  end.

(** The two destruction loops of [__lahar_default_resizer]
    (lines 2357-2379). *)
Definition resizer_destroy_attachments (i : nat) : M W unit :=
  l ← get_lahar;
  winstate ← get_window i;
  for_each (Z.to_nat (swap_size winstate)) 0 (fun k =>
    row ← read_slot (attachments winstate) LAHAR_ATT_COLOR_INDEX;
    attachment ← read_slot row k;
    if negb (view attachment =? VK_NULL_HANDLE)
    then call_ (vkDestroyImageView (device l) (view attachment))
    else mret tt);;
  for_each (Z.to_nat (attachment_count winstate) - 1) 1 (fun j =>
    attachment_list ← read_slot (attachments winstate) j;
    for_each (Z.to_nat (swap_size winstate)) 0 (fun k =>
      attachment ← read_slot attachment_list k;
      (if negb (view attachment =? VK_NULL_HANDLE)
       then call_ (vkDestroyImageView (device l) (view attachment))
       else mret tt);;
      if negb (image attachment =? VK_NULL_HANDLE) then
        match gpu_allocator l with
        | Some allocator =>
            call_ (call_free_image (free_image allocator) l
                    (image attachment) (img_allocation attachment))
        | None => crash
        end
      else mret tt)).

(** [__lahar_default_resizer] from the capability query on
    (lines 2387-2532).  A failing [vkCreateSwapchainKHR] leaves [err] at
    success; a failing format chooser is reported as [LAHAR_ERR_VK_ERR]. *)
Definition resizer_create (i : nat) (old_swap_size : Z) : M W Z :=
  winstate ← get_window i;
  l ← get_lahar;
  '(res, surface_caps) ←
    call (vkGetPhysicalDeviceSurfaceCapabilitiesKHR (physdev (physdev_info l))
            (surface winstate));
  modify (set_vkresult res);;
  if negb (res =? VK_SUCCESS) then mret LAHAR_ERR_VK_ERR else
  err ← run_format_chooser i;
  if negb (err =? LAHAR_ERR_SUCCESS) then mret LAHAR_ERR_VK_ERR else
  winstate ← get_window i;
  color_conf ← read_slot (attachment_configs winstate) LAHAR_ATT_COLOR_INDEX;
  '(err, (wd, ht)) ← call (lahar_window_get_size (window winstate));
  if negb (err =? LAHAR_ERR_SUCCESS) then mret err else
  '(err, presentMode) ← run_present_chooser i;
  if negb (err =? LAHAR_ERR_SUCCESS) then mret err else
  l ← get_lahar;
  winstate ← get_window i;
  let create_info :=
    swapchain_create_info l winstate color_conf surface_caps wd ht presentMode in
  '(res, swap) ← call (vkCreateSwapchainKHR (device l) create_info);
  modify (set_vkresult res);;
  modify_window i (set_swapchain swap);;
  if negb (res =? VK_SUCCESS) then mret LAHAR_ERR_SUCCESS else
  count ← call (vkGetSwapchainImagesKHR_count (device l) swap);
  modify_window i (set_swap_size count);;
  if negb (old_swap_size =? count) then crash else
  swap_imgs ← call (vkGetSwapchainImagesKHR (device l) swap count);
  if negb (Z.of_nat (length swap_imgs) <=? count) then crash else
  modify_window i (set_swap_size (Z.of_nat (length swap_imgs)));;
  (create_color_views i swap_imgs true ;;!
  l ← get_lahar;
  winstate ← get_window i;
  match gpu_allocator l with
  | None =>
      if 1 <? attachment_count winstate
      then mret LAHAR_ERR_INVALID_CONFIGURATION
      else mret LAHAR_ERR_SUCCESS
  | Some allocator => create_extra_attachments i allocator true
  end).

(** [__lahar_default_resizer] (lines 2329-2537): wait, tear down, default
    the image count, create again. *)
Definition __lahar_default_resizer (w : Z) : M W Z :=
  l ← get_lahar;
  match lahar_window_state l w with
  | None => mret LAHAR_ERR_INVALID_WINDOW
  | Some i =>
      winstate ← get_window i;
      let old_swap_size := swap_size winstate in
      (lahar_window_wait_inactive w ;;!
      if (1 <? attachment_count winstate)
         && (match gpu_allocator l with None => true | Some _ => false end)
      then mret LAHAR_ERR_INVALID_STATE else
      resizer_destroy_attachments i;;
      call_ (vkDestroySwapchainKHR (device l) (swapchain winstate));;
      (if desired_img_count winstate =? 0
       then modify_window i (set_desired_img_count 2) else mret tt);;
      resizer_create i old_swap_size)
  end.

(** [lahar_window_swapchain_resize] (lines 3760-3767). *)
Definition lahar_window_swapchain_resize (w : Z) : M W Z :=
  l ← get_lahar;
  match lahar_window_state l w with
  | None => mret LAHAR_ERR_INVALID_WINDOW
  | Some i =>
      winstate ← get_window i;
      if negb (resize_callback winstate =? NULL) then
        '(err, l') ← call (call_resize_callback (resize_callback winstate) l w);
        put_lahar l';;
        mret err
      else __lahar_default_resizer w
  end.

(** *** The frame state machine *)

(** [lahar_window_frame_begin] (lines 3769-3807).  The function calls
    itself after a successful swapchain recreation; [fuel] bounds the
    depth of that recursion. *)
Fixpoint lahar_window_frame_begin (fuel : nat) (w : Z) : M W Z :=
  match fuel with
  | O => out_of_fuel
  | S fuel' =>
      if w =? NULL then mret LAHAR_ERR_ILLEGAL_PARAMS else
      l ← get_lahar;
      match lahar_window_state l w with
      | None => mret LAHAR_ERR_INVALID_WINDOW
      | Some i =>
          winstate ← get_window i;
          match frame_phase winstate with
          | LAHAR_FRAME_PHASE_BEGIN =>
              fence ← read_slot_Z (in_flight winstate) (flight_index winstate);
              call (vkWaitForFences (device l) [fence] VK_TRUE UINT64_MAX);;
              sem ← read_slot_Z (image_available winstate) (flight_index winstate);
              '(res, idx) ←
                call (vkAcquireNextImageKHR (device l) (swapchain winstate) UINT64_MAX
                        sem VK_NULL_HANDLE (frame_index winstate));
              modify_window i (set_frame_index idx);;
              if (res =? VK_SUBOPTIMAL_KHR) || (res =? VK_ERROR_OUT_OF_DATE_KHR) then
                if auto_recreate_swap winstate then
                  (lahar_window_swapchain_resize w ;;!
                   lahar_window_frame_begin fuel' w)
                else mret LAHAR_ERR_SWAPCHAIN_OUT_OF_DATE
              else if negb (res =? VK_SUCCESS) then
                modify (set_vkresult res);;
                mret LAHAR_ERR_VK_ERR
              else
                call (vkResetFences (device l) [fence]);;
                modify_window i (set_frame_phase LAHAR_FRAME_PHASE_DRAW);;
                mret LAHAR_ERR_SUCCESS
          | _ => mret LAHAR_ERR_INVALID_FRAME_STATE
          end
      end
  end.

(** [lahar_window_submit_all] (lines 3809-3840); [cmds = None] is a NULL
    array pointer. *)
Definition lahar_window_submit_all (w : Z) (cmds : option (list Z)) (cmd_count : Z)
    : M W Z :=
  match cmds with
  | None => mret LAHAR_ERR_ILLEGAL_PARAMS
  | Some cmds =>
      if (w =? NULL) || (cmd_count =? 0) then mret LAHAR_ERR_ILLEGAL_PARAMS else
      l ← get_lahar;
      match lahar_window_state l w with
      | None => mret LAHAR_ERR_INVALID_WINDOW
      | Some i =>
          winstate ← get_window i;
          match frame_phase winstate with
          | LAHAR_FRAME_PHASE_DRAW =>
              wait ← read_slot_Z (image_available winstate) (flight_index winstate);
              signal ← read_slot_Z (render_finished winstate) (flight_index winstate);
              fence ← read_slot_Z (in_flight winstate) (flight_index winstate);
              let submit_info :=
                {| pWaitSemaphores := [wait];
                   pWaitDstStageMask := [VK_PIPELINE_STAGE_COLOR_ATTACHMENT_OUTPUT_BIT];
                   commandBufferCount := cmd_count;
                   pCommandBuffers := cmds;
                   pSignalSemaphores := [signal] |} in
              res ← call (vkQueueSubmit (graphicsQueue l) submit_info fence);
              modify (set_vkresult res);;
              if negb (res =? VK_SUCCESS) then mret LAHAR_ERR_VK_ERR else
              modify_window i (set_frame_phase LAHAR_FRAME_PHASE_PRESENT);;
              mret LAHAR_ERR_SUCCESS
          | _ => mret LAHAR_ERR_INVALID_FRAME_STATE
          end
      end
  end.

(** [lahar_window_submit] (lines 3842-3844). *)
Definition lahar_window_submit (w : Z) (cmd : Z) : M W Z :=
  lahar_window_submit_all w (Some [cmd]) 1.

(** [lahar_window_present] (lines 3847-3878).  The remainder by a zero
    [max_in_flight] is undefined. *)
Definition lahar_window_present (w : Z) : M W Z :=
  l ← get_lahar;
  match lahar_window_state l w with
  | None => mret LAHAR_ERR_INVALID_WINDOW
  | Some i =>
      winstate ← get_window i;
      match frame_phase winstate with
      | LAHAR_FRAME_PHASE_BEGIN => mret LAHAR_ERR_INVALID_FRAME_STATE
      | LAHAR_FRAME_PHASE_DRAW => mret LAHAR_ERR_NO_COMMAND_BUFFER
      | LAHAR_FRAME_PHASE_PRESENT =>
          wait ← read_slot_Z (render_finished winstate) (flight_index winstate);
          let present_info :=
            {| pi_sType := VK_STRUCTURE_TYPE_PRESENT_INFO_KHR;
               pi_pWaitSemaphores := [wait];
               pi_pSwapchains := [swapchain winstate];
               pi_pImageIndices := [frame_index winstate] |} in
          res ← call (vkQueuePresentKHR (presentQueue l) present_info);
          modify (set_vkresult res);;
          if negb (res =? VK_SUCCESS) then mret LAHAR_ERR_VK_ERR else
          if max_in_flight winstate =? 0 then crash else
          modify_window i (set_flight_index
            (wrap32 (flight_index winstate + 1) mod max_in_flight winstate));;
          modify_window i (set_frame_phase LAHAR_FRAME_PHASE_BEGIN);;
          mret LAHAR_ERR_SUCCESS
      end
  end.

(** *** Attachment layout transitions *)

(** [lahar_window_attachment_transition] (lines 3941-3987). *)
Definition lahar_window_attachment_transition (w : Z) (attachment_index : Z)
    (layout' : Z) (cmd : Z) : M W Z :=
  if (w =? NULL) || (cmd =? VK_NULL_HANDLE) then mret LAHAR_ERR_ILLEGAL_PARAMS else
  l ← get_lahar;
  match lahar_window_state l w with
  | None => mret LAHAR_ERR_INVALID_WINDOW
  | Some i =>
      winstate ← get_window i;
      if attachment_count winstate <=? attachment_index
      then mret LAHAR_ERR_ILLEGAL_PARAMS else
      row ← read_slot_Z (attachments winstate) attachment_index;
      attachment ← read_slot_Z row (frame_index winstate);
      if negb (layout attachment =? layout') then
        conf ← read_slot_Z (attachment_configs winstate) attachment_index;
        let barrier :=
          {| imb_sType := VK_STRUCTURE_TYPE_IMAGE_MEMORY_BARRIER;
             srcAccessMask := __lahar_access_mask (layout attachment);
             dstAccessMask := __lahar_access_mask (layout attachment);
             oldLayout := layout attachment;
             newLayout := layout';
             srcQueueFamilyIndex := VK_QUEUE_FAMILY_IGNORED;
             dstQueueFamilyIndex := VK_QUEUE_FAMILY_IGNORED;
             imb_image := image attachment;
             imb_aspectMask :=
               __lahar_aspect_mask_from_usage (usage conf)
                 (sf_format (surface_format winstate));
             imb_baseMipLevel := 0; imb_levelCount := 1;
             imb_baseArrayLayer := 0; imb_layerCount := 1 |} in
        let srcStage := __lahar_pipeline_stage (layout attachment) in
        let dstStage := __lahar_pipeline_stage (layout attachment) in
        call (vkCmdPipelineBarrier cmd srcStage dstStage 0 barrier);;
        modify_attachment i (Z.to_nat attachment_index)
          (Z.to_nat (frame_index winstate)) (set_layout layout');;
        mret LAHAR_ERR_SUCCESS
      else mret LAHAR_ERR_SUCCESS
  end.

(** *** Window profiles *)

Definition VK_SAMPLE_COUNT_1_BIT : Z := 0x1.
Definition VK_ATTACHMENT_LOAD_OP_CLEAR : Z := 1.
Definition VK_ATTACHMENT_LOAD_OP_DONT_CARE : Z := 2.
Definition VK_ATTACHMENT_STORE_OP_DONT_CARE : Z := 1.
Definition VK_IMAGE_TYPE_2D : Z := 1.
Definition VK_IMAGE_TILING_OPTIMAL : Z := 0.
Definition LAHAR_WINPROF_COLOR : Z := 0.
Definition LAHAR_WINPROF_COLOR_DEPTH : Z := 1.

(** The attachment configuration [{0}]. *)
Definition attachment_config_zero : LaharAttachmentConfig :=
  {| usage := 0;
     description :=
       {| ad_format := 0; ad_samples := 0; ad_loadOp := 0; ad_storeOp := 0;
          ad_stencilLoadOp := 0; ad_stencilStoreOp := 0; ad_initialLayout := 0;
          ad_finalLayout := 0 |};
     img_info :=
       {| ici_sType := 0; ici_imageType := 0; ici_format := 0; ici_extent_width := 0;
          ici_extent_height := 0; ici_extent_depth := 0; ici_mipLevels := 0;
          ici_arrayLayers := 0; ici_samples := 0; ici_tiling := 0; ici_usage := 0;
          ici_sharingMode := 0; ici_initialLayout := 0 |};
     view_info :=
       {| ivci_sType := 0; ivci_image := 0; ivci_viewType := 0; ivci_format := 0;
          ivci_aspectMask := 0; ivci_baseMipLevel := 0; ivci_levelCount := 0;
          ivci_baseArrayLayer := 0; ivci_layerCount := 0 |} |}.

(** The depth attachment of [LAHAR_WINPROF_COLOR_DEPTH] (lines 2819-2855). *)
Definition depth_attachment_config : LaharAttachmentConfig :=
  {| usage := VK_IMAGE_USAGE_DEPTH_STENCIL_ATTACHMENT_BIT;
     description :=
       {| ad_format := VK_FORMAT_D32_SFLOAT; ad_samples := VK_SAMPLE_COUNT_1_BIT;
          ad_loadOp := VK_ATTACHMENT_LOAD_OP_CLEAR;
          ad_storeOp := VK_ATTACHMENT_STORE_OP_DONT_CARE;
          ad_stencilLoadOp := VK_ATTACHMENT_LOAD_OP_DONT_CARE;
          ad_stencilStoreOp := VK_ATTACHMENT_STORE_OP_DONT_CARE;
          ad_initialLayout := VK_IMAGE_LAYOUT_UNDEFINED;
          ad_finalLayout := VK_IMAGE_LAYOUT_DEPTH_STENCIL_ATTACHMENT_OPTIMAL |};
     img_info :=
       {| ici_sType := VK_STRUCTURE_TYPE_IMAGE_CREATE_INFO;
          ici_imageType := VK_IMAGE_TYPE_2D; ici_format := VK_FORMAT_D32_SFLOAT;
          ici_extent_width := 0; ici_extent_height := 0; ici_extent_depth := 0;
          ici_mipLevels := 1; ici_arrayLayers := 1; ici_samples := VK_SAMPLE_COUNT_1_BIT;
          ici_tiling := VK_IMAGE_TILING_OPTIMAL;
          ici_usage := VK_IMAGE_USAGE_DEPTH_STENCIL_ATTACHMENT_BIT;
          ici_sharingMode := VK_SHARING_MODE_EXCLUSIVE;
          ici_initialLayout := VK_IMAGE_LAYOUT_UNDEFINED |};
     view_info :=
       {| ivci_sType := VK_STRUCTURE_TYPE_IMAGE_VIEW_CREATE_INFO; ivci_image := 0;
          ivci_viewType := VK_IMAGE_VIEW_TYPE_2D; ivci_format := VK_FORMAT_D32_SFLOAT;
          ivci_aspectMask := VK_IMAGE_ASPECT_DEPTH_BIT; ivci_baseMipLevel := 0;
          ivci_levelCount := 1; ivci_baseArrayLayer := 0; ivci_layerCount := 1 |} |}.

(** [lahar_builder_window_register] (lines 2798-2871). *)
Definition lahar_builder_window_register (w : Z) (winprof : Z) : M W Z :=
  if w =? NULL then mret LAHAR_ERR_ILLEGAL_PARAMS else
  if winprof =? LAHAR_WINPROF_COLOR then
    lahar_builder_window_register_ex w
      (Some {| wc_attachment_count := 1; wc_attachments := [attachment_config_zero];
               wc_desired_swap_size := 0; wc_max_in_flight := 0; wc_alpha := 0;
               wc_no_auto_swap_resize := false |})
  else if winprof =? LAHAR_WINPROF_COLOR_DEPTH then
    lahar_builder_window_register_ex w
      (Some {| wc_attachment_count := 2;
               wc_attachments := [attachment_config_zero; depth_attachment_config];
               wc_desired_swap_size := 0; wc_max_in_flight := 0; wc_alpha := 0;
               wc_no_auto_swap_resize := false |})
  else mret LAHAR_ERR_ILLEGAL_PARAMS.

End Model.

Arguments call {W} ext c _.

(* ------------------------------------------------------------------ *)
(** ** A simulated machine

    A concrete world and handler on which the model runs: a list of
    physical devices, a window backend of fixed size, a swapchain with a
    fixed number of images, fresh handles drawn from a counter, and a script
    of replies for [vkAcquireNextImageKHR] (success with image 0 once the
    script is used up).  Every other call succeeds. *)

Record SimDevice : Type := mkSimDevice {
  sd_handle : Z;
  sd_props : VkPhysicalDeviceProperties;
  sd_queues : list (Z * bool)       (* queueFlags, presents on every surface *)
}.

Record SimWorld : Type := mkSimWorld {
  sim_next : Z;
  sim_devices : list SimDevice;
  sim_inst_exts : list string;
  sim_win_exts : list string;
  sim_size : Z * Z;
  sim_caps : VkSurfaceCapabilitiesKHR;
  sim_swap_images : Z;
  sim_acquire : list (Z * Z)
}.

Definition sim_fresh (w : SimWorld) : Z * SimWorld :=
  (sim_next w,
   {| sim_next := sim_next w + 1; sim_devices := sim_devices w;
      sim_inst_exts := sim_inst_exts w; sim_win_exts := sim_win_exts w;
      sim_size := sim_size w; sim_caps := sim_caps w;
      sim_swap_images := sim_swap_images w; sim_acquire := sim_acquire w |}).

Definition sim_fresh_many (n : Z) (w : SimWorld) : list Z * SimWorld :=
  (map (fun k => sim_next w + Z.of_nat k) (seq 0 (Z.to_nat n)),
   {| sim_next := sim_next w + n; sim_devices := sim_devices w;
      sim_inst_exts := sim_inst_exts w; sim_win_exts := sim_win_exts w;
      sim_size := sim_size w; sim_caps := sim_caps w;
      sim_swap_images := sim_swap_images w; sim_acquire := sim_acquire w |}).

Definition sim_pop_acquire (w : SimWorld) : (Z * Z) * SimWorld :=
  match sim_acquire w with
  | [] => ((VK_SUCCESS, 0), w)
  | r :: rest =>
      (r, {| sim_next := sim_next w; sim_devices := sim_devices w;
             sim_inst_exts := sim_inst_exts w; sim_win_exts := sim_win_exts w;
             sim_size := sim_size w; sim_caps := sim_caps w;
             sim_swap_images := sim_swap_images w; sim_acquire := rest |})
  end.

Definition sim_device (w : SimWorld) (pd : Z) : option SimDevice :=
  find (fun d => sd_handle d =? pd) (sim_devices w).

Definition sim_props_zero : VkPhysicalDeviceProperties :=
  {| deviceType := 0; deviceName := ""; props_other := 0 |}.

Definition sim_ext (c : extCall) : SimWorld -> reply c * SimWorld :=
  match c as c0 return SimWorld -> reply c0 * SimWorld with
  | lahar_malloc _ _ => fun w => (true, w)
  | lahar_alloc_or_resize _ _ => fun w => (true, w)
  | backend_init => fun w => (true, w)
  | open_libvk => fun w => (1, w)
  | load_loader => fun w => (LAHAR_ERR_SUCCESS, w)
  | lahar_window_get_size _ => fun w => ((LAHAR_ERR_SUCCESS, sim_size w), w)
  | lahar_window_surface_create _ _ => fun w =>
      let (h, w') := sim_fresh w in ((LAHAR_ERR_SUCCESS, h), w')
  | lahar_window_get_extensions_count _ => fun w =>
      ((LAHAR_ERR_SUCCESS, Z.of_nat (length (sim_win_exts w))), w)
  | lahar_window_get_extensions _ _ => fun w => ((LAHAR_ERR_SUCCESS, sim_win_exts w), w)
  | call_score_func _ _ => fun w => (0, w)
  | call_format_chooser _ _ _ => fun w => ((LAHAR_ERR_SUCCESS, surface_format_zero), w)
  | call_present_chooser _ _ _ => fun w => ((LAHAR_ERR_SUCCESS, VK_PRESENT_MODE_FIFO_KHR), w)
  | call_resize_callback _ l _ => fun w => ((LAHAR_ERR_SUCCESS, l), w)
  | call_alloc_image _ _ _ => fun w =>
      let (hs, w') := sim_fresh_many 2 w in
      ((LAHAR_ERR_SUCCESS, (default 0 (hs !! 0%nat), default 0 (hs !! 1%nat))), w')
  | vkEnumerateInstanceExtensionProperties_count => fun w =>
      ((VK_SUCCESS, Z.of_nat (length (sim_inst_exts w))), w)
  | vkEnumerateInstanceExtensionProperties _ => fun w => ((VK_SUCCESS, sim_inst_exts w), w)
  | vkEnumerateInstanceLayerProperties_count => fun w => ((VK_SUCCESS, 0), w)
  | vkEnumerateInstanceLayerProperties _ => fun w => ((VK_SUCCESS, []), w)
  | vkCreateInstance _ => fun w => let (h, w') := sim_fresh w in ((VK_SUCCESS, h), w')
  | vkEnumerateInstanceVersion => fun w => ((VK_SUCCESS, VK_API_VERSION_1_3), w)
  | vkCreateDebugUtilsMessengerEXT _ _ => fun w =>
      let (h, w') := sim_fresh w in ((VK_SUCCESS, h), w')
  | vkEnumeratePhysicalDevices_count _ => fun w =>
      ((VK_SUCCESS, Z.of_nat (length (sim_devices w))), w)
  | vkEnumeratePhysicalDevices _ _ => fun w =>
      ((VK_SUCCESS, map sd_handle (sim_devices w)), w)
  | vkGetPhysicalDeviceProperties pd => fun w =>
      (default sim_props_zero (sd_props <$> sim_device w pd), w)
  | vkGetPhysicalDeviceFeatures _ => fun w => (0, w)
  | vkGetPhysicalDeviceQueueFamilyProperties_count pd => fun w =>
      (Z.of_nat (length (default [] (sd_queues <$> sim_device w pd))), w)
  | vkGetPhysicalDeviceQueueFamilyProperties pd _ => fun w =>
      (map (fun q => {| queueFlags := fst q; queueCount := 1 |})
           (default [] (sd_queues <$> sim_device w pd)), w)
  | vkGetPhysicalDeviceSurfaceSupportKHR pd family _ => fun w =>
      (default false
         (snd <$> (default [] (sd_queues <$> sim_device w pd)) !! Z.to_nat family), w)
  | vkGetPhysicalDeviceSurfaceFormatsKHR_count _ _ => fun w => (1, w)
  | vkGetPhysicalDeviceSurfaceFormatsKHR _ _ _ => fun w =>
      ([{| sf_format := VK_FORMAT_B8G8R8A8_SRGB;
           sf_colorSpace := VK_COLORSPACE_SRGB_NONLINEAR_KHR |}], w)
  | vkGetPhysicalDeviceSurfacePresentModesKHR_count _ _ => fun w => (1, w)
  | vkGetPhysicalDeviceSurfacePresentModesKHR _ _ _ => fun w =>
      ([VK_PRESENT_MODE_FIFO_KHR], w)
  | vkGetPhysicalDeviceSurfaceCapabilitiesKHR _ _ => fun w => ((VK_SUCCESS, sim_caps w), w)
  | vkEnumerateDeviceLayerProperties_count _ => fun w => (0, w)
  | vkEnumerateDeviceLayerProperties _ _ => fun w => ([], w)
  | vkCreateDevice _ _ => fun w => let (h, w') := sim_fresh w in ((VK_SUCCESS, h), w')
  | vkGetDeviceQueue _ _ _ => fun w => sim_fresh w
  | vkCreateCommandPool _ _ _ => fun w =>
      let (h, w') := sim_fresh w in ((VK_SUCCESS, h), w')
  | vkCreateSwapchainKHR _ _ => fun w =>
      let (h, w') := sim_fresh w in ((VK_SUCCESS, h), w')
  | vkGetSwapchainImagesKHR_count _ _ => fun w => (sim_swap_images w, w)
  | vkGetSwapchainImagesKHR _ _ _ => fun w => sim_fresh_many (sim_swap_images w) w
  | vkCreateImageView _ _ => fun w => let (h, w') := sim_fresh w in ((VK_SUCCESS, h), w')
  | vkAllocateCommandBuffers _ _ n => fun w =>
      let (hs, w') := sim_fresh_many n w in ((VK_SUCCESS, hs), w')
  | vkCreateSemaphore _ => fun w => let (h, w') := sim_fresh w in ((VK_SUCCESS, h), w')
  | vkCreateFence _ _ => fun w => let (h, w') := sim_fresh w in ((VK_SUCCESS, h), w')
  | vkWaitForFences _ _ _ _ => fun w => (VK_SUCCESS, w)
  | vkAcquireNextImageKHR _ _ _ _ _ _ => fun w => sim_pop_acquire w
  | vkQueueSubmit _ _ _ => fun w => (VK_SUCCESS, w)
  | vkQueuePresentKHR _ _ => fun w => (VK_SUCCESS, w)
  | _ => fun w => (tt, w)
  end.

(** Two devices: a discrete GPU and an integrated one, each with one queue
    family doing graphics and presentation; and a CPU device that cannot
    present. *)
Definition sim_world0 : SimWorld :=
  {| sim_next := 1000;
     sim_devices :=
       [ {| sd_handle := 101;
            sd_props := {| deviceType := VK_PHYSICAL_DEVICE_TYPE_INTEGRATED_GPU;
                           deviceName := "Integrated B"; props_other := 0 |};
            sd_queues := [(VK_QUEUE_GRAPHICS_BIT, true)] |};
         {| sd_handle := 102;
            sd_props := {| deviceType := VK_PHYSICAL_DEVICE_TYPE_DISCRETE_GPU;
                           deviceName := "Discrete A"; props_other := 0 |};
            sd_queues := [(VK_QUEUE_GRAPHICS_BIT, true)] |};
         {| sd_handle := 103;
            sd_props := {| deviceType := 4; deviceName := "CPU C"; props_other := 0 |};
            sd_queues := [(VK_QUEUE_GRAPHICS_BIT, false)] |} ];
     sim_inst_exts := ["VK_KHR_surface"; "VK_KHR_xcb_surface"; "VK_EXT_debug_utils"]%string;
     sim_win_exts := ["VK_KHR_surface"; "VK_KHR_xcb_surface"]%string;
     sim_size := (800, 600);
     sim_caps := {| minImageCount := 2; maxImageCount := 8;
                    minImageExtent_width := 1; minImageExtent_height := 1;
                    maxImageExtent_width := 4096; maxImageExtent_height := 4096;
                    currentTransform := 1 |};
     sim_swap_images := 3;
     sim_acquire := [] |}.

Definition sim_state0 : St SimWorld :=
  {| st_world := sim_world0; st_lahar := lahar_zero; st_log := [] |}.

(** The state a computation ends in ([s] itself when it does not end). *)
Definition state_after {W A} (m : M W A) (s : St W) : St W :=
  match m s with
  | Ok _ s' => s'
  | _ => s
  end.

(** The result of a computation, when it ends. *)
Definition result_of {W A} (m : M W A) (s : St W) : option A :=
  match m s with
  | Ok a _ => Some a
  | _ => None
  end.

(* ------------------------------------------------------------------ *)
(** ** Specification vocabulary *)

(** Partial correctness: from a state satisfying [P], if [m] ends, its
    result and final state satisfy [Q]. *)
Definition hoare {W A} (P : St W -> Prop) (m : M W A) (Q : A -> St W -> Prop) : Prop :=
  forall s, P s -> match m s with Ok a s' => Q a s' | _ => True end.

Definition inv {W A} (I : St W -> Prop) (m : M W A) : Prop := hoare I m (fun _ => I).

(** The usual shape of an invariant: the projection [g] of the library
    state keeps the value [v], and every call logged since [log0]
    satisfies [P]. *)
Definition sinv {W X} (g : Lahar -> X) (v : X) (P : Logged -> Prop)
    (log0 : list Logged) (s : St W) : Prop :=
  g (st_lahar s) = v /\ exists new, st_log s = log0 ++ new /\ Forall P new.

(** What the frame state machine of each window consists of. *)
Definition frame_key (l : Lahar) : list (Z * LaharFramePhase * Z * Z * Z) :=
  map (fun ws => (window ws, frame_phase ws, flight_index ws, max_in_flight ws,
                  resize_callback ws)) (windows l).

Definition max_in_flight_key (l : Lahar) : list Z := map max_in_flight (windows l).

(** The defaulting of [desired_img_count]. *)
Definition norm_image_count (d : Z) : Z := if d =? 0 then 2 else d.

(** The image count and the surface of the window at index [i]. *)
Definition window_image_request (i : nat) (l : Lahar) : option (Z * Z) :=
  (fun ws => (desired_img_count ws, surface ws)) <$> windows l !! i.

(** A logged [vkCreateSwapchainKHR] was made for the surface [surf] while
    the window at index [i] asked for [nd] images, and requests the clamp of
    [nd]. *)
Definition creation_uses (i : nat) (nd surf : Z) (e : Logged) : Prop :=
  match e.2 with
  | vkCreateSwapchainKHR _ ci =>
      window_image_request i e.1 = Some (nd, surf) /\ sci_surface ci = surf /\
      exists caps, sci_minImageCount ci = clamp_image_count caps nd
  | _ => True
  end.

(** A logged [vkCreateSwapchainKHR] was made for a window whose
    [desired_img_count] was not zero at that moment. *)
Definition creation_normalized (e : Logged) : Prop :=
  match e.2 with
  | vkCreateSwapchainKHR _ ci =>
      exists i ws, windows e.1 !! i = Some ws /\ surface ws = sci_surface ci /\
                   desired_img_count ws <> 0
  | _ => True
  end.

(** The attachment instance [attachments[idx][frame_index]] of window [w]. *)
Definition current_attachment (l : Lahar) (w idx : Z) : option LaharAttachment :=
  i ← lahar_window_state l w;
  ws ← windows l !! i;
  row ← attachments ws !! Z.to_nat idx;
  row !! Z.to_nat (frame_index ws).

(** The three summands of the default score. *)
Definition type_bonus (d : LaharDeviceInfo) : Z :=
  if deviceType (properties d) =? VK_PHYSICAL_DEVICE_TYPE_DISCRETE_GPU then 1000
  else if deviceType (properties d) =? VK_PHYSICAL_DEVICE_TYPE_INTEGRATED_GPU then 100
  else 0.

Definition shared_queue_bonus (d : LaharDeviceInfo) : Z :=
  if present_queue_index d =? graphics_queue_index d then 50 else 0.

Definition memory_bonus (d : LaharDeviceInfo) : Z :=
  remap_memory (device_local_memory d).

(** Every call logged since [log0] satisfies [P]. *)
Definition logged_since {W} (P : Logged -> Prop) (log0 : list Logged) (s : St W) : Prop :=
  exists new, st_log s = log0 ++ new /\ Forall P new.

(** The barrier [lahar_window_attachment_transition] records (lines
    3952-3977) for the attachment [att], configured by [conf], of a window
    whose colour format is [fmt]. *)
Definition transition_barrier (att : LaharAttachment) (conf : LaharAttachmentConfig)
    (fmt : Z) (layout' : Z) : VkImageMemoryBarrier :=
  {| imb_sType := VK_STRUCTURE_TYPE_IMAGE_MEMORY_BARRIER;
     srcAccessMask := __lahar_access_mask (layout att);
     dstAccessMask := __lahar_access_mask (layout att);
     oldLayout := layout att;
     newLayout := layout';
     srcQueueFamilyIndex := VK_QUEUE_FAMILY_IGNORED;
     dstQueueFamilyIndex := VK_QUEUE_FAMILY_IGNORED;
     imb_image := image att;
     imb_aspectMask := __lahar_aspect_mask_from_usage (usage conf) fmt;
     imb_baseMipLevel := 0; imb_levelCount := 1;
     imb_baseArrayLayer := 0; imb_layerCount := 1 |}.

(** The steps of [lahar_build] in front of [__lahar_build_sync]. *)
Definition build_until_sync {W} (ext : forall c : extCall, W -> reply c * W) : M W Z :=
  __lahar_build_inst_extensions ext ;;! __lahar_build_instance ext ;;!
  __lahar_build_early_surface ext ;;! __lahar_build_physdev ext ;;!
  __lahar_build_device ext ;;! __lahar_build_swapchain ext.

(** The error codes of the guards of the frame operations. *)
Definition guard_code (e : Z) : Prop :=
  e = LAHAR_ERR_INVALID_FRAME_STATE \/ e = LAHAR_ERR_NO_COMMAND_BUFFER \/
  e = LAHAR_ERR_INVALID_WINDOW \/ e = LAHAR_ERR_ILLEGAL_PARAMS.

(* ------------------------------------------------------------------ *)
(** ** Sessions on the simulated machine *)

Definition example_window : Z := 7.
Definition example_cmd : Z := 55.

(** One window with the colour profile. *)
Definition example_register : M SimWorld Z :=
  lahar_init sim_ext ;;!
  lahar_builder_window_register sim_ext example_window LAHAR_WINPROF_COLOR.

Definition example_session : M SimWorld Z :=
  example_register ;;!
  (lahar_builder_request_command_buffers;; lahar_build sim_ext).

Definition example_built : St SimWorld :=
  Eval vm_compute in state_after example_session sim_state0.

(** One frame: begin, transition of the colour attachment, submit, present. *)
Definition example_drawing : St SimWorld :=
  Eval vm_compute in
    state_after (lahar_window_frame_begin sim_ext 1 example_window) example_built.

Definition example_transitioned : St SimWorld :=
  Eval vm_compute in
    state_after (lahar_window_attachment_transition sim_ext example_window 0
                   VK_IMAGE_LAYOUT_COLOR_ATTACHMENT_OPTIMAL example_cmd) example_drawing.

Definition example_submitted : St SimWorld :=
  Eval vm_compute in
    state_after (lahar_window_submit sim_ext example_window example_cmd) example_drawing.

Definition example_presented : St SimWorld :=
  Eval vm_compute in state_after (lahar_window_present sim_ext example_window) example_submitted.

(** Registration with every count left unset. *)
Definition example_config : LaharWindowConfig :=
  {| wc_attachment_count := 1; wc_attachments := [attachment_config_zero];
     wc_desired_swap_size := 0; wc_max_in_flight := 0; wc_alpha := 0;
     wc_no_auto_swap_resize := false |}.

Definition example_inited : St SimWorld :=
  Eval vm_compute in state_after (lahar_init sim_ext) sim_state0.

Definition example_registered : St SimWorld :=
  Eval vm_compute in
    state_after (lahar_builder_window_register_ex sim_ext example_window
                   (Some example_config)) example_inited.

(** The state [__lahar_build_swapchain] starts in. *)
Definition example_before_swapchain : St SimWorld :=
  Eval vm_compute in
    state_after (__lahar_build_inst_extensions sim_ext ;;! __lahar_build_instance sim_ext ;;!
                 __lahar_build_early_surface sim_ext ;;! __lahar_build_physdev sim_ext ;;!
                 __lahar_build_device sim_ext) example_registered.

(** A build with a device name pinned. *)
Definition pinned_session (name : string) : M SimWorld Z :=
  example_register ;;!
  lahar_builder_device_use sim_ext (Some name) ;;!
  lahar_build sim_ext.

(** A window with a depth attachment, without and with an allocator. *)
Definition depth_session : M SimWorld Z :=
  lahar_init sim_ext ;;!
  lahar_builder_window_register sim_ext example_window LAHAR_WINPROF_COLOR_DEPTH ;;!
  lahar_build sim_ext.

Definition example_allocator : LaharAllocator := {| alloc_image := 11; free_image := 12 |}.

Definition depth_session_with_allocator : M SimWorld Z :=
  lahar_init sim_ext ;;!
  lahar_builder_allocator_set (Some example_allocator) ;;!
  lahar_builder_window_register sim_ext example_window LAHAR_WINPROF_COLOR_DEPTH ;;!
  lahar_build sim_ext.

(** The allocator taken away after the build, by a write to the public
    structure: the interface cannot unset it. *)
Definition example_depth_no_allocator : St SimWorld :=
  Eval vm_compute in
    (let s := state_after depth_session_with_allocator sim_state0 in
     mkSt (st_world s) (set_gpu_allocator None (st_lahar s)) (st_log s)).

(** A build with device extensions requested. *)
Definition extension_session : M SimWorld Z :=
  example_register ;;!
  lahar_builder_extension_add_required_device sim_ext (Some "VK_KHR_maintenance1"%string) ;;!
  lahar_builder_extension_add_optional_device sim_ext (Some "VK_KHR_ray_query"%string) ;;!
  lahar_builder_extension_add_required_device sim_ext (Some "VK_KHR_multiview"%string) ;;!
  lahar_builder_extension_add_optional_device sim_ext (Some "VK_KHR_multiview"%string) ;;!
  lahar_build sim_ext.

Definition example_extensions_built : St SimWorld :=
  Eval vm_compute in state_after extension_session sim_state0.

(** Device descriptions for the scorer. *)
Definition example_gpu (ty gq pq : Z) (local : Z) : LaharDeviceInfo :=
  {| physdev := 0;
     properties := {| deviceType := ty; deviceName := ""; props_other := 0 |};
     features := 0;
     memprops :=
       {| memoryHeapCount := 2;
          memoryHeaps :=
            [ {| heap_size := local; heap_flags := VK_MEMORY_HEAP_DEVICE_LOCAL_BIT |};
              {| heap_size := 2 ^ 34; heap_flags := 0 |} ] |};
     surface_formats := []; present_modes := [];
     surface_fmt_count := 0; present_mode_count := 0;
     graphics_queue_index := gq; present_queue_index := pq;
     has_graphics_queue := true; has_present_queue := true |}.

(** An integrated GPU, a discrete GPU with 8 GiB, a bigger discrete GPU that
    cannot present, and a twin of the second. *)
Definition example_devices : list LaharDeviceInfo :=
  [ example_gpu VK_PHYSICAL_DEVICE_TYPE_INTEGRATED_GPU 0 0 (2 ^ 33);
    example_gpu VK_PHYSICAL_DEVICE_TYPE_DISCRETE_GPU 0 0 (2 ^ 33);
    set_has_present_queue false
      (example_gpu VK_PHYSICAL_DEVICE_TYPE_DISCRETE_GPU 0 0 (3 * 2 ^ 33));
    example_gpu VK_PHYSICAL_DEVICE_TYPE_DISCRETE_GPU 0 0 (2 ^ 33) ].

(** The last call of a log. *)
Definition last_call {W} (s : St W) : option extCall := snd <$> last (st_log s).

(** The extension lists of the devices created in a log. *)
Definition device_creations (log : list Logged) : list (list string) :=
  omap (fun e => match e.2 with
                 | vkCreateDevice _ ci => Some (dev_ppEnabledExtensionNames ci)
                 | _ => None
                 end) log.

(** The state of the first window. *)
Definition first_window {W} (s : St W) : LaharWindowState :=
  default window_zero (windows (st_lahar s) !! 0%nat).

(* ------------------------------------------------------------------ *)
(** * The rest of the interface *)

(* ------------------------------------------------------------------ *)
(** ** Error names, the user pointer and the scratch arena *)

(** [lahar_err_name] (lines 2542-2562). *)
Definition lahar_err_name (code : Z) : string :=
  if code =? LAHAR_ERR_SUCCESS then "LAHAR_ERR_SUCCESS"
  else if code =? LAHAR_ERR_ILLEGAL_PARAMS then "LAHAR_ERR_ILLEGAL_PARAMS"
  else if code =? LAHAR_ERR_LOAD_FAILURE then "LAHAR_ERR_LOAD_FAILURE"
  else if code =? LAHAR_ERR_INVALID_CONFIGURATION then "LAHAR_ERR_INVALID_CONFIGURATION"
  else if code =? LAHAR_ERR_MISSING_EXTENSION then "LAHAR_ERR_MISSING_EXTENSION"
  else if code =? LAHAR_ERR_NO_SUITABLE_DEVICE then "LAHAR_ERR_NO_SUITABLE_DEVICE"
  else if code =? LAHAR_ERR_DEPENDENCY_FAILED then "LAHAR_ERR_DEPENDENCY_FAILED"
  else if code =? LAHAR_ERR_ALLOC_FAILED then "LAHAR_ERR_ALLOC_FAILED"
  else if code =? LAHAR_ERR_INVALID_STATE then "LAHAR_ERR_INVALID_STATE"
  else if code =? LAHAR_ERR_VK_ERR then "LAHAR_ERR_VK_ERR"
  else if code =? LAHAR_ERR_INVALID_WINDOW then "LAHAR_ERR_INVALID_WINDOW"
  else if code =? LAHAR_ERR_NO_COMMAND_BUFFER then "LAHAR_ERR_NO_COMMAND_BUFFER"
  else if code =? LAHAR_ERR_TIMEOUT then "LAHAR_ERR_TIMEOUT"
  else if code =? LAHAR_ERR_SWAPCHAIN_OUT_OF_DATE then "LAHAR_ERR_SWAPCHAIN_OUT_OF_DATE"
  else if code =? LAHAR_ERR_INVALID_FRAME_STATE then "LAHAR_ERR_INVALID_FRAME_STATE"
  else if code =? LAHAR_ERR_ATTACHMENT_WO_ALLOCATOR then "LAHAR_ERR_ATTACHMENT_WO_ALLOCATOR"
  else "LAHAR_UNKNOWN_ERROR".

(** The error codes of lahar.h, lines 195-210. *)
Definition lahar_error_codes : list Z :=
  [ LAHAR_ERR_SUCCESS; LAHAR_ERR_ILLEGAL_PARAMS; LAHAR_ERR_LOAD_FAILURE;
    LAHAR_ERR_INVALID_CONFIGURATION; LAHAR_ERR_MISSING_EXTENSION;
    LAHAR_ERR_NO_SUITABLE_DEVICE; LAHAR_ERR_DEPENDENCY_FAILED; LAHAR_ERR_ALLOC_FAILED;
    LAHAR_ERR_INVALID_STATE; LAHAR_ERR_VK_ERR; LAHAR_ERR_INVALID_WINDOW;
    LAHAR_ERR_NO_COMMAND_BUFFER; LAHAR_ERR_TIMEOUT; LAHAR_ERR_SWAPCHAIN_OUT_OF_DATE;
    LAHAR_ERR_INVALID_FRAME_STATE; LAHAR_ERR_ATTACHMENT_WO_ALLOCATOR ].

(** The name of a code tells the code. *)
Definition lahar_err_code (name : string) : option Z :=
  find (fun c => String.eqb (lahar_err_name c) name) lahar_error_codes.

(** [lahar_get_user_data] and [lahar_set_user_data] (lines 2566-2572). *)
Definition lahar_get_user_data {W} : M W Z := l ← get_lahar; mret (user_data l).

Definition lahar_set_user_data {W} (v : Z) : M W unit := modify (set_user_data v).

(** The scratch arena (lines 2205-2237): the position in [__marena], the
    array of [LAHAR_M_CHECK_CT] checkpoints and the number of them in use.
    The bytes of the arena are not part of this description; the two sizes
    are the defaults of lines 1891-1897. *)
Definition LAHAR_M_ARENA_SIZE : Z := 32768.
Definition LAHAR_M_CHECK_CT : Z := 16.

Record Arena : Type := mkArena {
  __mpos : Z;
  __mcheck : list Z;
  __mchkct : Z
}.

(** The statics as the program starts. *)
Definition arena_zero : Arena :=
  {| __mpos := 0; __mcheck := replicate (Z.to_nat LAHAR_M_CHECK_CT) 0; __mchkct := 0 |}.

(** [lahar_temp_mcheck] (lines 2211-2214); [None] is a failed
    [LAHAR_ASSERT]. *)
Definition lahar_temp_mcheck (a : Arena) : option Arena :=
  if negb (__mchkct a <? LAHAR_M_CHECK_CT) then None else
  Some {| __mpos := __mpos a;
          __mcheck := <[Z.to_nat (__mchkct a) := __mpos a]> (__mcheck a);
          __mchkct := wrap64 (__mchkct a + 1) |}.

(** [lahar_temp_mpop] (lines 2216-2221). *)
Definition lahar_temp_mpop (a : Arena) : Arena :=
  if 0 <? __mchkct a then
    let n := __mchkct a - 1 in
    {| __mpos := default 0 (__mcheck a !! Z.to_nat n);
       __mcheck := __mcheck a;
       __mchkct := n |}
  else a.

(** [lahar_temp_alloc] (lines 2223-2230): the offset of the block in
    [__marena], and the arena after it. *)
Definition lahar_temp_alloc (bytes : Z) (a : Arena) : option (Z * Arena) :=
  let remain := wrap64 (LAHAR_M_ARENA_SIZE - __mpos a) in
  if negb (bytes <=? remain) then None else
  Some (__mpos a,
        {| __mpos := wrap64 (__mpos a + bytes);
           __mcheck := __mcheck a;
           __mchkct := __mchkct a |}).

(** [lahar_temp_strdup] (lines 2232-2237), as far as the arena goes. *)
Definition lahar_temp_strdup (str : string) (a : Arena) : option (Z * Arena) :=
  lahar_temp_alloc (Z.of_nat (String.length str) + 1) a.

(** A run of allocations, as a function makes them between its checkpoint
    and its pop. *)
Fixpoint temp_allocs (sizes : list Z) (a : Arena) : option (list Z * Arena) :=
  match sizes with
  | [] => Some ([], a)
  | n :: rest =>
      match lahar_temp_alloc n a with
      | None => None
      | Some (p, a') =>
          match temp_allocs rest a' with
          | None => None
          | Some (ps, a'') => Some (p :: ps, a'')
          end
      end
  end.

(** The arena is in order: the position is inside the arena, and the
    checkpoints in use are positions in ascending order, none beyond the
    current one. *)
Definition arena_ok (a : Arena) : Prop :=
  0 <= __mpos a <= LAHAR_M_ARENA_SIZE /\
  0 <= __mchkct a <= LAHAR_M_CHECK_CT /\
  Z.of_nat (length (__mcheck a)) = LAHAR_M_CHECK_CT /\
  (forall i p, (i < Z.to_nat (__mchkct a))%nat -> __mcheck a !! i = Some p ->
     0 <= p <= __mpos a) /\
  (forall i j p q, (i <= j)%nat -> (j < Z.to_nat (__mchkct a))%nat ->
     __mcheck a !! i = Some p -> __mcheck a !! j = Some q -> p <= q).

(** The total of a list of sizes. *)
Definition total_size (sizes : list Z) : Z := foldr Z.add 0 sizes.

(* ------------------------------------------------------------------ *)
(** ** Registration *)

(** The window state [lahar_builder_window_register_ex] leaves behind for
    the handle [w] and the configuration [conf] when the backend reported
    the size [wd] x [ht] (lines 2768-2791): the zeroed state with the
    assignments of the function made. *)
Definition registered_window (w : Z) (conf : LaharWindowConfig) (wd ht : Z)
    : LaharWindowState :=
  {| window := w; width := wd; height := ht;
     desired_img_count :=
       if wc_desired_swap_size conf =? 0 then 2 else wc_desired_swap_size conf;
     max_in_flight := if wc_max_in_flight conf =? 0 then 2 else wc_max_in_flight conf;
     frame_phase := LAHAR_FRAME_PHASE_BEGIN; alpha := 0;
     auto_recreate_swap := negb (wc_no_auto_swap_resize conf); resize_callback := 0;
     surface_format := surface_format_zero; surface := 0; swapchain := 0;
     swap_size := 0; image_available := []; render_finished := [];
     in_flight := []; flight_index := 0; frame_index := 0;
     attachment_count := wc_attachment_count conf;
     attachment_configs := take (Z.to_nat (wc_attachment_count conf)) (wc_attachments conf);
     attachments := replicate (Z.to_nat (wc_attachment_count conf)) [];
     commands := [] |}.

(** The window state left behind when the backend failed to report the
    size (lines 2768-2775). *)
Definition unsized_window (w : Z) (wd ht : Z) : LaharWindowState :=
  set_height ht (set_width wd (set_window w window_zero)).

(** The configurations of the two window profiles (lines 2806-2866). *)
Definition profile_config (winprof : Z) : LaharWindowConfig :=
  if winprof =? LAHAR_WINPROF_COLOR then
    {| wc_attachment_count := 1; wc_attachments := [attachment_config_zero];
       wc_desired_swap_size := 0; wc_max_in_flight := 0; wc_alpha := 0;
       wc_no_auto_swap_resize := false |}
  else
    {| wc_attachment_count := 2;
       wc_attachments := [attachment_config_zero; depth_attachment_config];
       wc_desired_swap_size := 0; wc_max_in_flight := 0; wc_alpha := 0;
       wc_no_auto_swap_resize := false |}.

(** The simulated machine with a backend that cannot tell the size of a
    window. *)
Definition sim_ext_no_size (c : extCall) : SimWorld -> reply c * SimWorld :=
  match c as c0 return SimWorld -> reply c0 * SimWorld with
  | lahar_window_get_size _ => fun w => ((LAHAR_ERR_DEPENDENCY_FAILED, (0, 0)), w)
  | c0 => sim_ext c0
  end.

(** A configuration with every field set. *)
Definition example_full_config : LaharWindowConfig :=
  {| wc_attachment_count := 1; wc_attachments := [attachment_config_zero];
     wc_desired_swap_size := 3; wc_max_in_flight := 3; wc_alpha := 2;
     wc_no_auto_swap_resize := true |}.

(** The example window registered a second time. *)
Definition example_registered_twice : St SimWorld :=
  Eval vm_compute in
    state_after (lahar_builder_window_register_ex sim_ext example_window
                   (Some example_full_config)) example_registered.

(* ------------------------------------------------------------------ *)
(** ** The extension tables *)

(** The tables are in step: one flag per optional name. *)
Definition tables_in_step (x : LaharExtensions) : Prop :=
  length (opt_inst_exts_present x) = length (opt_inst_exts x) /\
  length (opt_dev_exts_present x) = length (opt_dev_exts x).

(** A device extension asked for as required, then as optional. *)
Definition example_required_added : St SimWorld :=
  Eval vm_compute in
    state_after (lahar_builder_extension_add_required_device sim_ext
                   (Some "VK_KHR_multiview"%string)) example_inited.

Definition example_optional_added : St SimWorld :=
  Eval vm_compute in
    state_after (lahar_builder_extension_add_optional_device sim_ext
                   (Some "VK_KHR_multiview"%string)) example_required_added.

(* ------------------------------------------------------------------ *)
(** ** What a build and a tear-down are about *)

(** What identifies the registered windows and their frame state. *)
Definition registration_key (l : Lahar)
    : list (Z * Z * Z * bool * Z * LaharFramePhase * Z) :=
  map (fun ws => (window ws, max_in_flight ws, attachment_count ws, auto_recreate_swap ws,
                  resize_callback ws, frame_phase ws, flight_index ws)) (windows l).

(** The settings of the builder functions, apart from the Vulkan version,
    which [__lahar_build_instance] replaces (line 3235), and the user
    pointer. *)
Definition settings_key (l : Lahar) :=
  (user_data l, gpu_allocator l, device_name l, score_func l, format_chooser l,
   present_chooser l, wantvalidation l, wantcommands l, debug_callback l,
   appname l, appversion l, libvulkan l, extensions l).

(** The projection that keeps nothing. *)
Definition no_key (l : Lahar) : unit := tt.

(** The seven steps of [lahar_build]. *)
Definition build_steps {W} (ext : forall c : extCall, W -> reply c * W) : M W Z :=
  __lahar_build_inst_extensions ext ;;! __lahar_build_instance ext ;;!
  __lahar_build_early_surface ext ;;! __lahar_build_physdev ext ;;!
  __lahar_build_device ext ;;! __lahar_build_swapchain ext ;;!
  __lahar_build_sync ext.

(** A logged destruction, or a logged [free_image], is given a handle that
    is not [VK_NULL_HANDLE]; semaphores and fences apart, which
    [lahar_deinit] guards by their array. *)
Definition destroys_live (e : Logged) : Prop :=
  match e.2 with
  | vkDestroyImageView _ v => v <> VK_NULL_HANDLE
  | vkDestroySwapchainKHR _ swap => swap <> VK_NULL_HANDLE
  | vkDestroySurfaceKHR _ surf => surf <> VK_NULL_HANDLE
  | vkDestroyCommandPool _ cmdpool => cmdpool <> VK_NULL_HANDLE
  | vkDestroyDevice dev => dev <> VK_NULL_HANDLE
  | vkDestroyDebugUtilsMessengerEXT _ messenger => messenger <> VK_NULL_HANDLE
  | vkDestroyInstance inst => inst <> VK_NULL_HANDLE
  | call_free_image _ _ img _ => img <> VK_NULL_HANDLE
  | _ => True
  end.

(** The depth profile registered, without an allocator. *)
Definition example_depth_registered : St SimWorld :=
  Eval vm_compute in
    state_after (lahar_init sim_ext ;;!
                 lahar_builder_window_register sim_ext example_window
                   LAHAR_WINPROF_COLOR_DEPTH) sim_state0.

(** A registration that failed in the backend. *)
Definition example_unsized : St SimWorld :=
  Eval vm_compute in
    state_after (lahar_builder_window_register_ex sim_ext_no_size example_window
                   (Some example_config)) example_inited.

(** The example session with a user pointer set before the build. *)
Definition example_user_data_set : St SimWorld :=
  Eval vm_compute in
    state_after (lahar_builder_request_command_buffers;; lahar_set_user_data 4242)
      example_registered.

Definition example_user_data_built : St SimWorld :=
  Eval vm_compute in state_after (lahar_build sim_ext) example_user_data_set.

(** A device description as the loop of [__lahar_build_physdev] leaves it
    (lines 3310-3369): the counts and the memory table are never written. *)
Definition gathered (d : LaharDeviceInfo) : Prop :=
  surface_fmt_count d = 0 /\ present_mode_count d = 0 /\
  memprops d = memprops devinfo_zero /\
  Z.of_nat (length (surface_formats d)) <= LAHAR_MAX_DEVICE_ENTRIES /\
  Z.of_nat (length (present_modes d)) <= LAHAR_MAX_DEVICE_ENTRIES.

(** The state [__lahar_build_physdev] starts in on the simulated machine,
    and the one it ends in. *)
Definition example_before_physdev : St SimWorld :=
  Eval vm_compute in
    state_after (__lahar_build_inst_extensions sim_ext ;;! __lahar_build_instance sim_ext ;;!
                 __lahar_build_early_surface sim_ext) example_registered.

Definition example_after_physdev : St SimWorld :=
  Eval vm_compute in state_after (__lahar_build_physdev sim_ext) example_before_physdev.

(* ------------------------------------------------------------------ *)
(** ** Synchronisation objects and the frame loop *)

(** A window has its synchronisation objects: [max_in_flight] semaphores of
    each kind and as many fences. *)
Definition good_sync (ws : LaharWindowState) : Prop :=
  length (image_available ws) = Z.to_nat (max_in_flight ws) /\
  length (render_finished ws) = Z.to_nat (max_in_flight ws) /\
  length (in_flight ws) = Z.to_nat (max_in_flight ws).

(** A window is ready for the frame loop: it has its synchronisation
    objects, its flight index points at one of them, and swapchain
    recreation is left to the library. *)
Definition frame_ready (ws : LaharWindowState) : Prop :=
  good_sync ws /\ 0 <= flight_index ws < max_in_flight ws /\ resize_callback ws = NULL.

Definition frames_ready (l : Lahar) : Prop := Forall frame_ready (windows l).

(** What [frame_ready] reads. *)
Definition ready_key (l : Lahar) : list (nat * nat * nat * Z * Z * Z) :=
  map (fun ws => (length (image_available ws), length (render_finished ws),
                  length (in_flight ws), max_in_flight ws, flight_index ws,
                  resize_callback ws)) (windows l).

(** The same on a key. *)
Definition ready_entry (k : nat * nat * nat * Z * Z * Z) : Prop :=
  (k.1.1.1.1.1 = Z.to_nat k.1.1.2 /\ k.1.1.1.1.2 = Z.to_nat k.1.1.2 /\
   k.1.1.1.2 = Z.to_nat k.1.1.2) /\
  0 <= k.1.2 < k.1.1.2 /\ k.2 = NULL.

(** The state of the arrays of the window at index [i] after [j] rounds of
    the loop of [build_sync_window], the windows in front of it being
    done; [n0] is the number of windows and [m] the number of rounds to
    make. *)
Definition sync_rounds {W} (n0 i : nat) (m : Z) (j : nat) (s : St W) : Prop :=
  length (windows (st_lahar s)) = n0 /\
  (forall i' ws, (i' < i)%nat -> windows (st_lahar s) !! i' = Some ws -> good_sync ws) /\
  exists ws, windows (st_lahar s) !! i = Some ws /\ max_in_flight ws = m /\
    length (image_available ws) = j /\ length (render_finished ws) = j /\
    length (in_flight ws) = j.

(** The windows in front of index [k] have their synchronisation
    objects. *)
Definition sync_done {W} (n0 k : nat) (s : St W) : Prop :=
  length (windows (st_lahar s)) = n0 /\
  forall i' ws, (i' < k)%nat -> windows (st_lahar s) !! i' = Some ws -> good_sync ws.

(** The state of the window at index [j], and the handle and the resize
    callback of every window. *)
Definition other_key (j : nat) (l : Lahar) : option LaharWindowState * list (Z * Z) :=
  (windows l !! j, map (fun ws => (window ws, resize_callback ws)) (windows l)).

(** A second window beside the example window, and the session built with
    both. *)
Definition example_window2 : Z := 8.

Definition example_two_built : St SimWorld :=
  Eval vm_compute in
    state_after (example_register ;;!
                 lahar_builder_window_register sim_ext example_window2 LAHAR_WINPROF_COLOR ;;!
                 lahar_build sim_ext) sim_state0.

Definition example_two_drawing : St SimWorld :=
  Eval vm_compute in
    state_after (lahar_window_frame_begin sim_ext 1 example_window) example_two_built.

Definition example_second_window : LaharWindowState :=
  Eval vm_compute in default window_zero (windows (st_lahar example_two_built) !! 1%nat).

(* ------------------------------------------------------------------ *)
(** ** The Vulkan version across the build *)




(* ------------------------------------------------------------------ *)
(** ** Two discrete GPUs that differ in memory *)

(** A machine like the simulated one, with two discrete GPUs, each with one
    queue family doing graphics and presentation. *)
Definition two_gpu_world : SimWorld :=
  {| sim_next := sim_next sim_world0;
     sim_devices :=
       [ {| sd_handle := 201;
            sd_props := {| deviceType := VK_PHYSICAL_DEVICE_TYPE_DISCRETE_GPU;
                           deviceName := "Discrete 8 GiB"; props_other := 0 |};
            sd_queues := [(VK_QUEUE_GRAPHICS_BIT, true)] |};
         {| sd_handle := 202;
            sd_props := {| deviceType := VK_PHYSICAL_DEVICE_TYPE_DISCRETE_GPU;
                           deviceName := "Discrete 100 GiB"; props_other := 0 |};
            sd_queues := [(VK_QUEUE_GRAPHICS_BIT, true)] |} ];
     sim_inst_exts := sim_inst_exts sim_world0;
     sim_win_exts := sim_win_exts sim_world0;
     sim_size := sim_size sim_world0;
     sim_caps := sim_caps sim_world0;
     sim_swap_images := sim_swap_images sim_world0;
     sim_acquire := sim_acquire sim_world0 |}.

(** The memory of the two devices: what [vkGetPhysicalDeviceMemoryProperties]
    reports for them.  The library loads that entry point (line 5252) and
    never calls it, so the handler has no such call. *)
Definition two_gpu_memory (pd : Z) : VkPhysicalDeviceMemoryProperties :=
  {| memoryHeapCount := 1;
     memoryHeaps :=
       [ {| heap_size := if pd =? 201 then 8 * 2 ^ 30 else 100 * 2 ^ 30;
            heap_flags := VK_MEMORY_HEAP_DEVICE_LOCAL_BIT |} ] |}.

(** The description [d] with the memory table [m] in it. *)
Definition with_memprops (m : VkPhysicalDeviceMemoryProperties) (d : LaharDeviceInfo)
    : LaharDeviceInfo :=
  {| physdev := physdev d; properties := properties d; features := features d;
     memprops := m;
     surface_formats := surface_formats d; present_modes := present_modes d;
     surface_fmt_count := surface_fmt_count d; present_mode_count := present_mode_count d;
     graphics_queue_index := graphics_queue_index d;
     present_queue_index := present_queue_index d;
     has_graphics_queue := has_graphics_queue d;
     has_present_queue := has_present_queue d |}.

Definition two_gpu_state0 : St SimWorld :=
  {| st_world := two_gpu_world; st_lahar := lahar_zero; st_log := [] |}.

(** One window registered, then the build, with the default scorer. *)
Definition two_gpu_session : M SimWorld Z := example_register ;;! lahar_build sim_ext.

Definition two_gpu_built : St SimWorld :=
  Eval vm_compute in state_after two_gpu_session two_gpu_state0.

(** The state in which [__lahar_build_physdev] gathers the descriptions of
    the two devices, and the descriptions it gathers. *)
Definition two_gpu_before_physdev : St SimWorld :=
  Eval vm_compute in
    state_after (example_register ;;!
                 __lahar_build_inst_extensions sim_ext ;;! __lahar_build_instance sim_ext ;;!
                 __lahar_build_early_surface sim_ext) two_gpu_state0.

Definition two_gpu_infos : list LaharDeviceInfo :=
  Eval vm_compute in
    default [] (result_of (gather_device_infos sim_ext [201; 202]) two_gpu_before_physdev).

(* ------------------------------------------------------------------ *)
(** ** The selection of the physical device *)

(** The sizes of the device-local heaps among the first [memoryHeapCount]
    heaps of a description, added up. *)
Definition local_heap_total (d : LaharDeviceInfo) : Z :=
  foldr Z.add 0
    (map heap_size
       (filter (fun h => Z.land (heap_flags h) VK_MEMORY_HEAP_DEVICE_LOCAL_BIT <> 0)
          (take (Z.to_nat (memoryHeapCount (memprops d))) (memoryHeaps (memprops d))))).

(** The state of [__lahar_build_physdev] after its two calls of
    [vkEnumeratePhysicalDevices] (lines 3296-3307), when both succeeded, the
    first replied the count [cnt] and the second left the machine in the
    state [w]. *)
Definition after_enumeration {W} (s : St W) (cnt : Z) (w : W) : St W :=
  let l := st_lahar s in
  {| st_world := w;
     st_lahar := set_vkresult VK_SUCCESS (set_vkresult VK_SUCCESS l);
     st_log := (st_log s ++ [(l, vkEnumeratePhysicalDevices_count (instance l))]) ++
               [(set_vkresult VK_SUCCESS l, vkEnumeratePhysicalDevices (instance l) cnt)] |}.

(* ------------------------------------------------------------------ *)
(** * Properties *)

(** ** Lists *)

Lemma map_alter_same {A B} (h : A -> B) (f : A -> A) (i : nat) (l : list A) :
  (forall x, h (f x) = h x) -> map h (alter f i l) = map h l.
Proof.
  intros Hf. revert i. induction l as [|x l IH]; intros [|i]; simpl; try reflexivity.
  - rewrite Hf. reflexivity.
  - f_equal. apply IH.
Qed.

Lemma fmap_lookup_alter_same {A B} (h : A -> B) (f : A -> A) (i j : nat) (l : list A) :
  (forall x, h (f x) = h x) -> h <$> alter f i l !! j = h <$> l !! j.
Proof.
  intros Hf. destruct (decide (i = j)) as [->|Hne].
  - rewrite list_lookup_alter_eq. destruct (l !! j); simpl; [rewrite Hf|]; reflexivity.
  - rewrite list_lookup_alter_ne by exact Hne. reflexivity.
Qed.

(** ** The program logic *)
Section Logic.
Context {W : Type}.
Implicit Types (s : St W).

Lemma bind_Ok {A B} (m : M W A) (f : A -> M W B) s b s' :
  (m ≫= f) s = Ok b s' -> exists a s1, m s = Ok a s1 /\ f a s1 = Ok b s'.
Proof.
  unfold mbind, M_bind. destruct (m s) as [a s1| |]; try discriminate.
  intros H. exists a, s1. split; [reflexivity|exact H].
Qed.

Lemma hoare_conseq {A} (P P' : St W -> Prop) (Q Q' : A -> St W -> Prop) (m : M W A) :
  hoare P' m Q' -> (forall s, P s -> P' s) -> (forall a s, Q' a s -> Q a s) ->
  hoare P m Q.
Proof.
  intros H HP HQ s Hs. specialize (H s (HP s Hs)).
  destruct (m s); auto.
Qed.

Lemma hoare_ret {A} (P : St W -> Prop) (Q : A -> St W -> Prop) (a : A) :
  (forall s, P s -> Q a s) -> hoare P (mret a) Q.
Proof. intros H s Hs. apply H, Hs. Qed.

Lemma hoare_bind {A B} (P : St W -> Prop) (R : A -> St W -> Prop)
    (Q : B -> St W -> Prop) (m : M W A) (f : A -> M W B) :
  hoare P m R -> (forall a, hoare (R a) (f a) Q) -> hoare P (m ≫= f) Q.
Proof.
  intros Hm Hf s Hs. specialize (Hm s Hs). unfold mbind, M_bind.
  destruct (m s) as [a s1| |]; [|exact I|exact I].
  apply (Hf a s1 Hm).
Qed.

(** A bind whose first part keeps the assertion and teaches a fact
    about its result. *)
Lemma hoare_bind_learn {A B} (P : St W -> Prop) (phi : A -> Prop)
    (Q : B -> St W -> Prop) (m : M W A) (f : A -> M W B) :
  hoare P m (fun a s => P s /\ phi a) -> (forall a, phi a -> hoare P (f a) Q) ->
  hoare P (m ≫= f) Q.
Proof.
  intros Hm Hf. apply (hoare_bind P (fun a s => P s /\ phi a)); [exact Hm|].
  intros a s [Hs Ha]. apply (Hf a Ha s Hs).
Qed.

Lemma hoare_bind_inv {A B} (P : St W -> Prop) (Q : B -> St W -> Prop)
    (m : M W A) (f : A -> M W B) :
  inv P m -> (forall a, hoare P (f a) Q) -> hoare P (m ≫= f) Q.
Proof. intros Hm Hf. apply (hoare_bind P (fun _ => P)); assumption. Qed.

Lemma hoare_crash {A} (P : St W -> Prop) (Q : A -> St W -> Prop) : hoare P crash Q.
Proof. intros s _. exact I. Qed.

Lemma hoare_out_of_fuel {A} (P : St W -> Prop) (Q : A -> St W -> Prop) :
  hoare P out_of_fuel Q.
Proof. intros s _. exact I. Qed.

Lemma hoare_on_success (P : St W -> Prop) (Q : Z -> St W -> Prop) (m k : M W Z) :
  hoare P m (fun e s => if e =? LAHAR_ERR_SUCCESS then P s else Q e s) ->
  hoare P k Q -> hoare P (m ;;! k) Q.
Proof.
  intros Hm Hk. unfold on_success. eapply hoare_bind; [exact Hm|].
  intros e. cbv beta. destruct (e =? LAHAR_ERR_SUCCESS).
  - exact Hk.
  - apply hoare_ret. auto.
Qed.

Lemma inv_ret {A} (I : St W -> Prop) (a : A) : inv I (mret a).
Proof. apply hoare_ret. auto. Qed.

Lemma inv_bind {A B} (I : St W -> Prop) (m : M W A) (f : A -> M W B) :
  inv I m -> (forall a, inv I (f a)) -> inv I (m ≫= f).
Proof. intros. apply hoare_bind_inv; assumption. Qed.

Lemma inv_crash {A} (I : St W -> Prop) : inv I (crash : M W A).
Proof. apply hoare_crash. Qed.

Lemma inv_out_of_fuel {A} (I : St W -> Prop) : inv I (out_of_fuel : M W A).
Proof. apply hoare_out_of_fuel. Qed.

Lemma inv_get_lahar (I : St W -> Prop) : inv I (@get_lahar W).
Proof. intros s Hs. exact Hs. Qed.

Lemma inv_read_slot {A} (I : St W -> Prop) (arr : list A) i : inv I (read_slot arr i).
Proof. unfold read_slot. destruct (arr !! i); [apply inv_ret|apply inv_crash]. Qed.

Lemma inv_read_slot_Z {A} (I : St W -> Prop) (arr : list A) i : inv I (read_slot_Z arr i).
Proof. unfold read_slot_Z. destruct (i <? 0); [apply inv_crash|apply inv_read_slot]. Qed.

Lemma inv_get_window (I : St W -> Prop) i : inv I (@get_window W i).
Proof. unfold get_window. apply inv_bind; [apply inv_get_lahar|intros; apply inv_read_slot]. Qed.

Lemma inv_on_success (I : St W -> Prop) (m k : M W Z) :
  inv I m -> inv I k -> inv I (m ;;! k).
Proof.
  intros Hm Hk. unfold on_success. apply inv_bind; [exact Hm|].
  intros e. destruct (e =? LAHAR_ERR_SUCCESS); [exact Hk|apply inv_ret].
Qed.

Lemma inv_for_loop (I : St W -> Prop) (body : nat -> M W Z) n i :
  (forall j, inv I (body j)) -> inv I (for_loop n i body).
Proof.
  intros Hb. revert i. induction n as [|n IH]; intros i; simpl.
  - apply inv_ret.
  - apply inv_on_success; [apply Hb|apply IH].
Qed.

Lemma inv_for_each (I : St W -> Prop) (body : nat -> M W unit) n i :
  (forall j, inv I (body j)) -> inv I (for_each n i body).
Proof.
  intros Hb. unfold for_each. apply inv_bind; [|intros; apply inv_ret].
  apply inv_for_loop. intros j. apply inv_bind; [apply Hb|intros; apply inv_ret].
Qed.

Section Sinv.
Context {X : Type} (g : Lahar -> X) (v : X) (P : Logged -> Prop) (log0 : list Logged).
Variable ext : forall c : extCall, W -> reply c * W.

Lemma sinv_start s : g (st_lahar s) = v -> log0 = st_log s -> sinv g v P log0 s.
Proof.
  intros H ->. split; [exact H|]. exists []. rewrite app_nil_r. split; [reflexivity|constructor].
Qed.

Lemma sinv_call (c : extCall) :
  (forall l, g l = v -> P (l, c)) -> inv (sinv g v P log0) (call ext c).
Proof.
  intros HP s [Hg (new & Hlog & Hall)]. unfold call.
  destruct (ext c (st_world s)) as [r w']. split; [exact Hg|].
  exists (new ++ [(st_lahar s, c)]). cbn. split.
  - rewrite Hlog, app_assoc. reflexivity.
  - apply Forall_app. split; [exact Hall|]. constructor; [apply HP, Hg|constructor].
Qed.

Lemma sinv_call_ (c : extCall) :
  (forall l, g l = v -> P (l, c)) -> inv (sinv g v P log0) (call_ ext c).
Proof.
  intros HP. unfold call_. apply inv_bind; [apply sinv_call, HP|intros; apply inv_ret].
Qed.

Lemma sinv_modify (f : Lahar -> Lahar) :
  (forall l, g l = v -> g (f l) = v) -> inv (sinv g v P log0) (@modify W f).
Proof.
  intros Hf s [Hg Hlog]. split; [cbn; apply Hf, Hg|exact Hlog].
Qed.

Lemma sinv_modify_window i (f : LaharWindowState -> LaharWindowState) :
  (forall l, g l = v -> g (set_windows (alter f i (windows l)) l) = v) ->
  inv (sinv g v P log0) (@modify_window W i f).
Proof. intros Hf. unfold modify_window. apply sinv_modify. exact Hf. Qed.

Lemma sinv_modify_attachment i a k f :
  (forall l h, g l = v -> g (set_windows (alter (fun ws => set_attachments (h (attachments ws)) ws) i (windows l)) l) = v) ->
  inv (sinv g v P log0) (@modify_attachment W i a k f).
Proof.
  intros Hf. unfold modify_attachment.
  apply inv_bind; [apply inv_get_window|intros ws].
  apply inv_bind; [apply inv_read_slot|intros row].
  apply inv_bind; [apply inv_read_slot|intros _].
  apply sinv_modify_window. intros l Hl. apply (Hf l (alter (alter f k) a) Hl).
Qed.

Lemma sinv_modify_attachment_config i a f :
  (forall l h, g l = v -> g (set_windows (alter (fun ws => set_attachment_configs (h (attachment_configs ws)) ws) i (windows l)) l) = v) ->
  inv (sinv g v P log0) (@modify_attachment_config W i a f).
Proof.
  intros Hf. unfold modify_attachment_config.
  apply inv_bind; [apply inv_get_window|intros ws].
  apply inv_bind; [apply inv_read_slot|intros _].
  apply sinv_modify_window. intros l Hl. apply (Hf l (alter f a) Hl).
Qed.
End Sinv.
End Logic.

(** ** Invariants by structure *)

Ltac head_of t :=
  lazymatch t with
  | ?f _ => head_of f
  | _ => t
  end.

(** Side conditions: a logged call satisfies the event predicate; an
    update keeps the projection. *)
Ltac sinv_side :=
  intros;
  lazymatch goal with
  | H : ?g ?l = ?v |- ?g _ = ?v =>
      rewrite <- H; clear H;
      let h := head_of g in
      cbv beta delta [h];
      first [ reflexivity
            | apply map_alter_same; intros ?; reflexivity
            | apply fmap_lookup_alter_same; intros ?; reflexivity
            | cbn;
              first [ reflexivity
                    | apply map_alter_same; intros ?; reflexivity
                    | apply fmap_lookup_alter_same; intros ?; reflexivity ] ]
  | |- _ => first [ exact I | cbn; exact I ]
  end.

(** One step of a structural proof that a computation keeps an
    invariant. *)
Ltac inv_step :=
  lazymatch goal with
  | |- inv _ (mret _) => apply inv_ret
  | |- inv _ (_ ≫= _) => apply inv_bind; [|intros ?]
  | |- inv _ (on_success _ _) => apply inv_on_success
  | |- inv _ crash => apply inv_crash
  | |- inv _ out_of_fuel => apply inv_out_of_fuel
  | |- inv _ get_lahar => apply inv_get_lahar
  | |- inv _ (get_window _) => apply inv_get_window
  | |- inv _ (read_slot _ _) => apply inv_read_slot
  | |- inv _ (read_slot_Z _ _) => apply inv_read_slot_Z
  | |- inv _ (for_loop _ _ _) => apply inv_for_loop; intros ?
  | |- inv _ (for_each _ _ _) => apply inv_for_each; intros ?
  | |- inv (sinv ?g ?v ?P ?log0) (call ?ext ?c) => apply (sinv_call g v P log0 ext c); sinv_side
  | |- inv (sinv ?g ?v ?P ?log0) (call_ ?ext ?c) => apply (sinv_call_ g v P log0 ext c); sinv_side
  | |- inv _ (modify _) => apply sinv_modify; sinv_side
  | |- inv _ (modify_window _ _) => apply sinv_modify_window; sinv_side
  | |- inv _ (modify_attachment _ _ _ _) => apply sinv_modify_attachment; sinv_side
  | |- inv _ (modify_attachment_config _ _ _) => apply sinv_modify_attachment_config; sinv_side
  | |- inv _ (if ?b then _ else _) => destruct b
  | |- inv _ (match ?x with _ => _ end) => destruct x
  | |- inv _ (let _ := _ in _) => cbv zeta
  | |- inv _ ((fun _ => _) _) => cbv beta
  | |- inv _ ?m => let h := head_of m in unfold h
  end.

Ltac inv_auto := repeat inv_step.

(** ** Looking up a window *)

Lemma find_window_Some ws w k i :
  find_window ws w k = Some i ->
  (k <= i)%nat /\ exists ws0, ws !! (i - k)%nat = Some ws0 /\ window ws0 = w.
Proof.
  revert k. induction ws as [|x ws IH]; intros k; simpl; [discriminate|].
  destruct (window x =? w) eqn:E.
  - intros [= <-]. split; [lia|]. exists x. rewrite Nat.sub_diag. split; [reflexivity|].
    apply Z.eqb_eq, E.
  - intros H. destruct (IH _ H) as (Hle & ws0 & Hl & Hw). split; [lia|].
    exists ws0. split; [|exact Hw].
    replace (i - k)%nat with (S (i - S k)) by lia. exact Hl.
Qed.

Lemma lahar_window_state_Some l w i :
  lahar_window_state l w = Some i -> exists ws, windows l !! i = Some ws /\ window ws = w.
Proof.
  intros H. destruct (find_window_Some _ _ _ _ H) as (_ & ws & Hl & Hw).
  rewrite Nat.sub_0_r in Hl. eauto.
Qed.

Lemma find_window_map ws ws' w k :
  map window ws = map window ws' -> find_window ws w k = find_window ws' w k.
Proof.
  revert ws' k. induction ws as [|x ws IH]; intros [|x' ws'] k; simpl; try discriminate; auto.
  intros [= Hx Hr]. rewrite Hx. destruct (window x' =? w); [reflexivity|]. apply IH, Hr.
Qed.

(** ** Symbolic execution *)

Lemma Ok_inj {W A} (a b : A) (s s' : St W) : Ok a s = Ok b s' -> a = b /\ s = s'.
Proof. intros [= -> ->]. split; reflexivity. Qed.

Ltac munfold :=
  unfold get_window, read_slot_Z, read_slot, call_, call, modify_window, put_lahar,
         on_success in *;
  unfold mbind, M_bind, mret, M_ret, get_lahar, modify, crash, out_of_fuel in *.

Ltac mrun :=
  repeat first
    [ progress cbv beta iota zeta in *
    | progress cbn [st_lahar st_world st_log] in *
    | match goal with
      | H : ?x = _ |- context [match ?x with _ => _ end] => rewrite H
      | |- context [match ?x with _ => _ end] =>
          lazymatch x with
          | context [match _ with _ => _ end] => fail
          | _ => destruct x eqn:?
          end
      end ].


(** An equation between two distinct error codes. *)
Ltac err_discr H :=
  exfalso; revert H; clear;
  unfold LAHAR_ERR_SUCCESS, LAHAR_ERR_ILLEGAL_PARAMS, LAHAR_ERR_LOAD_FAILURE,
    LAHAR_ERR_INVALID_CONFIGURATION, LAHAR_ERR_MISSING_EXTENSION,
    LAHAR_ERR_NO_SUITABLE_DEVICE, LAHAR_ERR_DEPENDENCY_FAILED, LAHAR_ERR_ALLOC_FAILED,
    LAHAR_ERR_INVALID_STATE, LAHAR_ERR_VK_ERR, LAHAR_ERR_INVALID_WINDOW,
    LAHAR_ERR_NO_COMMAND_BUFFER, LAHAR_ERR_TIMEOUT, LAHAR_ERR_SWAPCHAIN_OUT_OF_DATE,
    LAHAR_ERR_INVALID_FRAME_STATE, LAHAR_ERR_ATTACHMENT_WO_ALLOCATOR;
  discriminate.

(** A leaf of a symbolic run: the run ended with [Ok a s1]. *)
Ltac leaf H :=
  apply Ok_inj in H; destruct H as [?He ?Hs].

(** ** The frame state machine *)

Section Frame.
Context {W : Type} (ext : forall c : extCall, W -> reply c * W).
Implicit Types (s : St W).

(** The default resizer leaves the frame state machine of every window
    alone. *)
Lemma resizer_keeps_frame_key w k log0 :
  inv (sinv frame_key k (fun _ => True) log0) (__lahar_default_resizer ext w).
Proof. inv_auto. Qed.

Lemma window_state_alter (l : Lahar) (f : LaharWindowState -> LaharWindowState) i w :
  (forall x, window (f x) = window x) ->
  lahar_window_state (set_windows (alter f i (windows l)) l) w = lahar_window_state l w.
Proof.
  intros Hf. unfold lahar_window_state. cbn. apply find_window_map.
  apply map_alter_same, Hf.
Qed.

Lemma window_state_windows (l l' : Lahar) w :
  map window (windows l') = map window (windows l) ->
  lahar_window_state l' w = lahar_window_state l w.
Proof. intros H. unfold lahar_window_state. apply find_window_map, H. Qed.

(** *** Guards of the frame operations *)

Lemma submit_all_guard s w i ws cmds n :
  w <> NULL -> n <> 0 ->
  lahar_window_state (st_lahar s) w = Some i -> windows (st_lahar s) !! i = Some ws ->
  frame_phase ws <> LAHAR_FRAME_PHASE_DRAW ->
  lahar_window_submit_all ext w (Some cmds) n s = Ok LAHAR_ERR_INVALID_FRAME_STATE s.
Proof.
  intros Hw Hn Hi Hws Hph. unfold lahar_window_submit_all.
  apply Z.eqb_neq in Hw, Hn. rewrite Hw, Hn. cbn [orb]. munfold. cbv beta iota zeta.
  rewrite Hi. cbv beta iota. rewrite Hws. cbv beta iota.
  destruct (frame_phase ws); [reflexivity|contradiction|reflexivity].
Qed.

Lemma present_guard s w i ws :
  lahar_window_state (st_lahar s) w = Some i -> windows (st_lahar s) !! i = Some ws ->
  lahar_window_present ext w s =
    match frame_phase ws with
    | LAHAR_FRAME_PHASE_BEGIN => Ok LAHAR_ERR_INVALID_FRAME_STATE s
    | LAHAR_FRAME_PHASE_DRAW => Ok LAHAR_ERR_NO_COMMAND_BUFFER s
    | LAHAR_FRAME_PHASE_PRESENT => lahar_window_present ext w s
    end.
Proof.
  intros Hi Hws. destruct (frame_phase ws) eqn:Hph; [| |reflexivity].
  all: unfold lahar_window_present; munfold; cbv beta iota zeta;
    rewrite Hi; cbv beta iota; rewrite Hws; cbv beta iota; rewrite Hph; reflexivity.
Qed.

Lemma frame_begin_null fuel s :
  lahar_window_frame_begin ext (S fuel) NULL s = Ok LAHAR_ERR_ILLEGAL_PARAMS s.
Proof. reflexivity. Qed.

Lemma frame_begin_unknown fuel s w :
  w <> NULL -> lahar_window_state (st_lahar s) w = None ->
  lahar_window_frame_begin ext (S fuel) w s = Ok LAHAR_ERR_INVALID_WINDOW s.
Proof.
  intros Hw Hi. cbn [lahar_window_frame_begin]. apply Z.eqb_neq in Hw. rewrite Hw.
  munfold. cbv beta iota zeta. rewrite Hi. reflexivity.
Qed.

Lemma frame_begin_wrong_phase fuel s w i ws :
  w <> NULL ->
  lahar_window_state (st_lahar s) w = Some i -> windows (st_lahar s) !! i = Some ws ->
  frame_phase ws <> LAHAR_FRAME_PHASE_BEGIN ->
  lahar_window_frame_begin ext (S fuel) w s = Ok LAHAR_ERR_INVALID_FRAME_STATE s.
Proof.
  intros Hw Hi Hws Hph. cbn [lahar_window_frame_begin]. apply Z.eqb_neq in Hw. rewrite Hw.
  munfold. cbv beta iota zeta. rewrite Hi. cbv beta iota. rewrite Hws. cbv beta iota.
  destruct (frame_phase ws); [contradiction|reflexivity|reflexivity].
Qed.

Lemma submit_all_by_code s w cmds n e s' :
  lahar_window_submit_all ext w cmds n s = Ok e s' ->
  e = LAHAR_ERR_INVALID_FRAME_STATE \/ e = LAHAR_ERR_NO_COMMAND_BUFFER \/
  e = LAHAR_ERR_INVALID_WINDOW \/ e = LAHAR_ERR_ILLEGAL_PARAMS ->
  s' = s.
Proof.
  unfold lahar_window_submit_all. munfold.
  intros H Hc. revert H. mrun.
  all: try discriminate.
  all: intros H; leaf H; subst; try reflexivity.
  all: destruct Hc as [Hc|[Hc|[Hc|Hc]]]; err_discr Hc.
Qed.

Lemma present_by_code s w e s' :
  lahar_window_present ext w s = Ok e s' ->
  e = LAHAR_ERR_INVALID_FRAME_STATE \/ e = LAHAR_ERR_NO_COMMAND_BUFFER \/
  e = LAHAR_ERR_INVALID_WINDOW \/ e = LAHAR_ERR_ILLEGAL_PARAMS ->
  s' = s.
Proof.
  unfold lahar_window_present. munfold.
  intros H Hc. revert H. mrun.
  all: try discriminate.
  all: intros H; leaf H; subst; try reflexivity.
  all: destruct Hc as [Hc|[Hc|[Hc|Hc]]]; err_discr Hc.
Qed.

(** Without automatic recreation the guard codes of
    [lahar_window_frame_begin] come from its guards alone. *)
Lemma frame_begin_by_code fuel s w e s' :
  (forall i ws, lahar_window_state (st_lahar s) w = Some i ->
                windows (st_lahar s) !! i = Some ws -> auto_recreate_swap ws = false) ->
  lahar_window_frame_begin ext fuel w s = Ok e s' -> guard_code e -> s' = s.
Proof.
  intros Hauto. destruct fuel as [|fuel]; [discriminate|].
  cbn [lahar_window_frame_begin]. munfold.
  destruct (w =? NULL); [intros H _; leaf H; congruence|].
  cbv beta iota.
  destruct (lahar_window_state (st_lahar s) w) as [i|] eqn:Hi; [|intros H _; leaf H; congruence].
  cbv beta iota.
  destruct (windows (st_lahar s) !! i) as [ws|] eqn:Hws; [|discriminate].
  specialize (Hauto i ws eq_refl Hws).
  cbv beta iota. rewrite Hauto.
  intros H Hc. revert H. mrun.
  all: try discriminate.
  all: intros H; leaf H; subst; try reflexivity.
  all: destruct Hc as [Hc|[Hc|[Hc|Hc]]]; err_discr Hc.
Qed.

(** *** Successful steps of the frame state machine *)

Lemma submit_all_success s w cmds n s' i ws :
  lahar_window_state (st_lahar s) w = Some i -> windows (st_lahar s) !! i = Some ws ->
  lahar_window_submit_all ext w cmds n s = Ok LAHAR_ERR_SUCCESS s' ->
  frame_phase ws = LAHAR_FRAME_PHASE_DRAW /\
  lahar_window_state (st_lahar s') w = Some i /\
  windows (st_lahar s') !! i = Some (set_frame_phase LAHAR_FRAME_PHASE_PRESENT ws).
Proof.
  intros Hi Hws. unfold lahar_window_submit_all. munfold. mrun.
  all: try discriminate.
  all: intros H; leaf H; try (err_discr He); subst s'.
  split; [reflexivity|]. split.
  - rewrite <- Hi. apply window_state_windows.
    cbn [st_lahar windows set_windows set_vkresult].
    apply map_alter_same. reflexivity.
  - cbn [st_lahar windows set_windows set_vkresult].
    rewrite list_lookup_alter_eq, Hws. reflexivity.
Qed.

Lemma present_success s w s' i ws :
  lahar_window_state (st_lahar s) w = Some i -> windows (st_lahar s) !! i = Some ws ->
  lahar_window_present ext w s = Ok LAHAR_ERR_SUCCESS s' ->
  frame_phase ws = LAHAR_FRAME_PHASE_PRESENT /\ max_in_flight ws <> 0 /\
  lahar_window_state (st_lahar s') w = Some i /\
  windows (st_lahar s') !! i =
    Some (set_frame_phase LAHAR_FRAME_PHASE_BEGIN
            (set_flight_index (wrap32 (flight_index ws + 1) mod max_in_flight ws) ws)).
Proof.
  intros Hi Hws. unfold lahar_window_present. munfold. mrun.
  all: try discriminate.
  all: intros H; leaf H; try (err_discr He); subst s'.
  split; [reflexivity|]. split; [apply Z.eqb_neq; assumption|]. split.
  - rewrite <- Hi. apply window_state_windows.
    cbn [st_lahar windows set_windows set_vkresult].
    rewrite !map_alter_same by reflexivity. reflexivity.
  - cbn [st_lahar windows set_windows set_vkresult].
    rewrite !list_lookup_alter_eq, Hws. reflexivity.
Qed.

Lemma frame_key_lookup (l l' : Lahar) w i ws :
  frame_key l' = frame_key l ->
  lahar_window_state l w = Some i -> windows l !! i = Some ws ->
  lahar_window_state l' w = Some i /\
  exists ws', windows l' !! i = Some ws' /\
    frame_phase ws' = frame_phase ws /\ flight_index ws' = flight_index ws /\
    max_in_flight ws' = max_in_flight ws /\ resize_callback ws' = resize_callback ws.
Proof.
  intros Hk Hi Hws. unfold frame_key in Hk. split.
  - rewrite <- Hi. apply window_state_windows.
    apply (f_equal (map (fun k => k.1.1.1.1))) in Hk.
    rewrite !map_map in Hk. exact Hk.
  - apply (f_equal (fun ks => ks !! i)) in Hk. rewrite !list_lookup_fmap, Hws in Hk.
    destruct (windows l' !! i) as [ws'|]; [|discriminate Hk].
    exists ws'. split; [reflexivity|]. cbn in Hk. injection Hk as _ H1 H2 H3 H4.
    auto.
Qed.

Lemma swapchain_resize_default s w i ws e s' :
  lahar_window_state (st_lahar s) w = Some i -> windows (st_lahar s) !! i = Some ws ->
  resize_callback ws = NULL ->
  lahar_window_swapchain_resize ext w s = Ok e s' ->
  frame_key (st_lahar s') = frame_key (st_lahar s).
Proof.
  intros Hi Hws Hcb. unfold lahar_window_swapchain_resize. munfold.
  cbv beta iota. rewrite Hi. cbv beta iota. rewrite Hws. cbv beta iota.
  rewrite Hcb. change (NULL =? NULL) with true. cbn [negb]. intros H.
  pose proof (resizer_keeps_frame_key w (frame_key (st_lahar s)) (st_log s) s
                (sinv_start _ _ _ _ _ eq_refl eq_refl)) as Hinv.
  rewrite H in Hinv. apply Hinv.
Qed.

Lemma frame_begin_success fuel : forall s w i ws s',
  lahar_window_state (st_lahar s) w = Some i -> windows (st_lahar s) !! i = Some ws ->
  (fuel <= 1)%nat \/ resize_callback ws = NULL ->
  lahar_window_frame_begin ext fuel w s = Ok LAHAR_ERR_SUCCESS s' ->
  frame_phase ws = LAHAR_FRAME_PHASE_BEGIN /\ 0 <= flight_index ws /\
  lahar_window_state (st_lahar s') w = Some i /\
  exists ws', windows (st_lahar s') !! i = Some ws' /\
    frame_phase ws' = LAHAR_FRAME_PHASE_DRAW /\ flight_index ws' = flight_index ws /\
    max_in_flight ws' = max_in_flight ws /\ resize_callback ws' = resize_callback ws.
Proof.
  induction fuel as [|fuel IH]; intros s w i ws s' Hi Hws Hcb; [discriminate|].
  cbn [lahar_window_frame_begin].
  unfold get_window, read_slot_Z, read_slot, call, modify_window.
  unfold mbind, M_bind, mret, M_ret, get_lahar, modify, crash.
  destruct (w =? NULL); [intros H; leaf H; err_discr He|].
  cbv beta iota. rewrite Hi. cbv beta iota. rewrite Hws. cbv beta iota.
  destruct (frame_phase ws) eqn:Hph; [|intros H; leaf H; err_discr He..].
  destruct (flight_index ws <? 0) eqn:Hf0; [discriminate|]. apply Z.ltb_ge in Hf0.
  destruct (in_flight ws !! Z.to_nat (flight_index ws)) as [fence|]; [|discriminate].
  cbv beta iota.
  destruct (ext (vkWaitForFences (device (st_lahar s)) [fence] VK_TRUE UINT64_MAX) (st_world s))
    as [r1 w1].
  cbv beta iota. cbn [st_lahar st_world st_log].
  destruct (image_available ws !! Z.to_nat (flight_index ws)) as [sem|]; [|discriminate].
  cbv beta iota. cbn [st_lahar st_world st_log].
  match goal with |- context [ext ?c w1] => destruct (ext c w1) as [[res idx] w2] end.
  cbv beta iota. cbn [st_lahar st_world st_log].
  set (sA := mkSt w2 _ _).
  assert (HiA : lahar_window_state (st_lahar sA) w = Some i).
  { rewrite <- Hi. apply window_state_windows. subst sA. cbn [st_lahar windows set_windows].
    apply map_alter_same. reflexivity. }
  assert (HwsA : windows (st_lahar sA) !! i = Some (set_frame_index idx ws)).
  { subst sA. cbn [st_lahar windows set_windows]. rewrite list_lookup_alter_eq, Hws. reflexivity. }
  destruct ((res =? VK_SUBOPTIMAL_KHR) || (res =? VK_ERROR_OUT_OF_DATE_KHR)).
  - destruct (auto_recreate_swap ws); [|intros H; leaf H; err_discr He].
    unfold on_success, mbind, M_bind, mret, M_ret.
    destruct (lahar_window_swapchain_resize ext w sA) as [e sB| |] eqn:Hres; [|discriminate..].
    destruct (e =? LAHAR_ERR_SUCCESS) eqn:He0; [|intros H; leaf H; subst e; discriminate He0].
    intros Hrec.
    destruct Hcb as [Hfuel|Hcb].
    { destruct fuel; [discriminate Hrec|lia]. }
    pose proof (swapchain_resize_default sA w i _ e sB HiA HwsA Hcb Hres) as Hk.
    destruct (frame_key_lookup _ _ w i _ Hk HiA HwsA) as (HiB & wsB & HwsB & H1 & H2 & H3 & H4).
    cbn in H4. rewrite Hcb in H4.
    destruct (IH sB w i wsB s' HiB HwsB (or_intror H4) Hrec)
      as (_ & _ & Hi' & ws' & Hws' & P1 & P2 & P3 & P4).
    split; [reflexivity|]. split; [exact Hf0|]. split; [exact Hi'|]. exists ws'. split; [exact Hws'|].
    cbn in H2, H3. repeat split; congruence.
  - destruct (negb (res =? VK_SUCCESS)); [intros H; leaf H; err_discr He|].
    match goal with |- context [ext ?c ?w0] => destruct (ext c w0) as [r3 w3] end.
    cbv beta iota. cbn [st_lahar st_world st_log].
    intros H; leaf H. subst s'. split; [reflexivity|]. split; [exact Hf0|]. split.
    + rewrite <- HiA. apply window_state_windows. cbn [st_lahar windows set_windows].
      apply map_alter_same. reflexivity.
    + cbn [st_lahar windows set_windows].
      eexists. split; [rewrite list_lookup_alter_eq, HwsA; reflexivity|].
      repeat split.
Qed.

(** More fuel does not change a result. *)
Lemma frame_begin_fuel_mono fuel : forall s w e s',
  lahar_window_frame_begin ext fuel w s = Ok e s' ->
  lahar_window_frame_begin ext (S fuel) w s = Ok e s'.
Proof.
  induction fuel as [|fuel IH]; intros s w e s'; [discriminate|].
  remember (S fuel) as n eqn:Hn.
  rewrite Hn at 1. cbn [lahar_window_frame_begin].
  specialize (IH).
  assert (IH' : forall s e s', lahar_window_frame_begin ext fuel w s = Ok e s' ->
                               lahar_window_frame_begin ext n w s = Ok e s')
    by (intros; apply IH; assumption).
  clear IH Hn. revert IH'.
  generalize (lahar_window_frame_begin ext fuel w) (lahar_window_frame_begin ext n w).
  intros r1 r2 IH'.
  generalize (lahar_window_swapchain_resize ext w). intros rz.
  munfold. mrun.
  all: try discriminate.
  all: try exact (fun H => H).
  all: repeat match goal with
       | E1 : ?f ?x = Ok _ _, E2 : ?g ?x = _ |- _ =>
           rewrite (IH' _ _ _ E1) in E2; try discriminate E2;
           apply Ok_inj in E2; destruct E2; subst
       end.
  all: try exact (fun H => H).
  all: apply IH'.
Qed.
End Frame.

(** ** Attachment layout transitions *)

Section Transition.
Context {W : Type} (ext : forall c : extCall, W -> reply c * W).
Implicit Types (s : St W).

Lemma current_attachment_unfold l w idx i ws :
  lahar_window_state l w = Some i -> windows l !! i = Some ws ->
  current_attachment l w idx =
    row ← attachments ws !! Z.to_nat idx; row !! Z.to_nat (frame_index ws).
Proof. intros Hi Hws. unfold current_attachment. rewrite Hi. cbn. rewrite Hws. reflexivity. Qed.

(** What one call does: nothing, or one barrier and one layout update. *)
Lemma transition_cases s w idx lay cmd e s1 :
  lahar_window_attachment_transition ext w idx lay cmd s = Ok e s1 ->
  (s1 = s /\ (e <> LAHAR_ERR_SUCCESS \/
              exists att, current_attachment (st_lahar s) w idx = Some att /\ layout att = lay)) \/
  (e = LAHAR_ERR_SUCCESS /\ w <> NULL /\ cmd <> VK_NULL_HANDLE /\
   exists i ws row att conf w',
     lahar_window_state (st_lahar s) w = Some i /\ windows (st_lahar s) !! i = Some ws /\
     0 <= idx < attachment_count ws /\ 0 <= frame_index ws /\
     attachments ws !! Z.to_nat idx = Some row /\
     row !! Z.to_nat (frame_index ws) = Some att /\
     attachment_configs ws !! Z.to_nat idx = Some conf /\
     layout att <> lay /\
     s1 = mkSt w'
            (set_windows
               (alter (fun ws => set_attachments
                                   (alter (alter (set_layout lay) (Z.to_nat (frame_index ws)))
                                      (Z.to_nat idx) (attachments ws)) ws)
                  i (windows (st_lahar s))) (st_lahar s))
            (st_log s ++
             [(st_lahar s,
               vkCmdPipelineBarrier cmd (__lahar_pipeline_stage (layout att))
                 (__lahar_pipeline_stage (layout att)) 0
                 (transition_barrier att conf (sf_format (surface_format ws)) lay))])).
Proof.
  unfold lahar_window_attachment_transition, modify_attachment. munfold.
  destruct ((w =? NULL) || (cmd =? VK_NULL_HANDLE)) eqn:Hg.
  { intros H; leaf H. subst. left. split; [reflexivity|]. left. intros E. err_discr E. }
  apply orb_false_elim in Hg. destruct Hg as [Hw Hc]. apply Z.eqb_neq in Hw, Hc.
  cbv beta iota.
  destruct (lahar_window_state (st_lahar s) w) as [i|] eqn:Hi.
  2:{ intros H; leaf H. subst. left. split; [reflexivity|]. left. intros E. err_discr E. }
  cbv beta iota. destruct (windows (st_lahar s) !! i) as [ws|] eqn:Hws; [|discriminate].
  cbv beta iota.
  destruct (attachment_count ws <=? idx) eqn:Hcnt.
  { intros H; leaf H. subst. left. split; [reflexivity|]. left. intros E. err_discr E. }
  apply Z.leb_gt in Hcnt.
  destruct (idx <? 0) eqn:Hneg; [discriminate|]. apply Z.ltb_ge in Hneg.
  destruct (attachments ws !! Z.to_nat idx) as [row|] eqn:Hrow; [|discriminate].
  cbv beta iota.
  destruct (frame_index ws <? 0) eqn:Hfneg; [discriminate|]. apply Z.ltb_ge in Hfneg.
  destruct (row !! Z.to_nat (frame_index ws)) as [att|] eqn:Hatt; [|discriminate].
  cbv beta iota.
  destruct (layout att =? lay) eqn:Hlay; cbn [negb].
  { intros H; leaf H. subst. left. split; [reflexivity|]. right. exists att.
    split; [|apply Z.eqb_eq, Hlay].
    rewrite (current_attachment_unfold _ _ _ _ _ Hi Hws), Hrow. cbn. exact Hatt. }
  apply Z.eqb_neq in Hlay.
  destruct (attachment_configs ws !! Z.to_nat idx) as [conf|] eqn:Hconf; [|discriminate].
  cbv beta iota zeta.
  match goal with |- context [ext ?c ?w0] => destruct (ext c w0) as [[] w'] end.
  cbv beta iota. cbn [st_lahar st_world st_log].
  rewrite Hws. cbv beta iota. rewrite Hrow. cbv beta iota. rewrite Hatt. cbv beta iota.
  cbn [st_lahar st_world st_log].
  intros H; leaf H. subst e s1. right. split; [reflexivity|]. split; [exact Hw|].
  split; [exact Hc|]. exists i, ws, row, att, conf, w'.
  repeat (split; [first [assumption|lia|reflexivity]|]).
  f_equal. f_equal. apply list_alter_ext; [|reflexivity..].
  intros ws' Hws'. rewrite Hws in Hws'. injection Hws' as <-. reflexivity.
Qed.

(** After the update the stored layout is the target. *)
Lemma transition_second s w idx lay cmd i ws row att w' log' :
  w <> NULL -> cmd <> VK_NULL_HANDLE ->
  lahar_window_state (st_lahar s) w = Some i -> windows (st_lahar s) !! i = Some ws ->
  0 <= idx < attachment_count ws -> 0 <= frame_index ws ->
  attachments ws !! Z.to_nat idx = Some row ->
  row !! Z.to_nat (frame_index ws) = Some att ->
  let s1 := mkSt w'
            (set_windows
               (alter (fun ws => set_attachments
                                   (alter (alter (set_layout lay) (Z.to_nat (frame_index ws)))
                                      (Z.to_nat idx) (attachments ws)) ws)
                  i (windows (st_lahar s))) (st_lahar s)) log' in
  lahar_window_attachment_transition ext w idx lay cmd s1 = Ok LAHAR_ERR_SUCCESS s1 /\
  current_attachment (st_lahar s1) w idx = Some (set_layout lay att).
Proof.
  intros Hw Hc Hi Hws Hidx Hfi Hrow Hatt s1.
  assert (Hi1 : lahar_window_state (st_lahar s1) w = Some i).
  { rewrite <- Hi. apply window_state_windows. subst s1. cbn [st_lahar windows set_windows].
    apply map_alter_same. reflexivity. }
  assert (Hws1 : windows (st_lahar s1) !! i =
                 Some (set_attachments
                         (alter (alter (set_layout lay) (Z.to_nat (frame_index ws)))
                            (Z.to_nat idx) (attachments ws)) ws)).
  { subst s1. cbn [st_lahar windows set_windows]. rewrite list_lookup_alter_eq, Hws. reflexivity. }
  assert (Hcur : current_attachment (st_lahar s1) w idx = Some (set_layout lay att)).
  { rewrite (current_attachment_unfold _ _ _ _ _ Hi1 Hws1). cbn [attachments set_attachments frame_index].
    rewrite list_lookup_alter_eq, Hrow. cbn. rewrite list_lookup_alter_eq, Hatt. reflexivity. }
  split; [|exact Hcur].
  unfold lahar_window_attachment_transition. munfold.
  apply Z.eqb_neq in Hw, Hc. rewrite Hw, Hc. cbn [orb]. cbv beta iota.
  rewrite Hi1. cbv beta iota. rewrite Hws1. cbv beta iota.
  cbn [attachment_count set_attachments attachments frame_index].
  destruct (attachment_count ws <=? idx) eqn:E; [apply Z.leb_le in E; lia|].
  destruct (idx <? 0) eqn:E2; [apply Z.ltb_lt in E2; lia|].
  rewrite list_lookup_alter_eq, Hrow. cbn [fmap option_fmap option_map]. cbv beta iota.
  destruct (frame_index ws <? 0) eqn:E3; [apply Z.ltb_lt in E3; lia|].
  rewrite list_lookup_alter_eq, Hatt. cbn [fmap option_fmap option_map]. cbv beta iota.
  cbn [layout set_layout]. rewrite Z.eqb_refl. reflexivity.
Qed.
End Transition.

(** ** Selection of the best score *)

Lemma pick_best_from_spec scores : forall i bd bs,
  (pick_best_from scores i bd bs = bd /\ Forall (fun s => s <= bs) scores) \/
  (exists k sk, pick_best_from scores i bd bs = i + Z.of_nat k /\
     scores !! k = Some sk /\ bs < sk /\ Forall (fun s => s <= sk) scores /\
     forall j sj, (j < k)%nat -> scores !! j = Some sj -> sj < sk).
Proof.
  induction scores as [|s rest IH]; intros i bd bs; simpl.
  - left. split; [reflexivity|constructor].
  - destruct (bs <? s) eqn:E.
    + apply Z.ltb_lt in E. right.
      destruct (IH (i + 1) i s) as [[Hr Hall]|(k & sk & Hr & Hk & Hlt & Hall & Hfirst)].
      * exists 0%nat, s. rewrite Hr. split; [lia|]. split; [reflexivity|]. split; [exact E|].
        split; [constructor; [lia|exact Hall]|]. intros j sj Hj. lia.
      * exists (S k), sk. rewrite Hr. split; [lia|]. split; [exact Hk|]. split; [lia|].
        split; [constructor; [lia|exact Hall]|].
        intros [|j] sj Hj Hsj; simpl in Hsj.
        -- injection Hsj as <-. exact Hlt.
        -- apply (Hfirst j sj); [lia|exact Hsj].
    + apply Z.ltb_ge in E.
      destruct (IH (i + 1) bd bs) as [[Hr Hall]|(k & sk & Hr & Hk & Hlt & Hall & Hfirst)].
      * left. split; [exact Hr|]. constructor; [exact E|exact Hall].
      * right. exists (S k), sk. rewrite Hr. split; [lia|]. split; [exact Hk|].
        split; [exact Hlt|]. split; [constructor; [lia|exact Hall]|].
        intros [|j] sj Hj Hsj; simpl in Hsj.
        -- injection Hsj as <-. lia.
        -- apply (Hfirst j sj); [lia|exact Hsj].
Qed.

Lemma pick_best_spec scores :
  (pick_best scores = -1 /\ Forall (fun s => s <= -1) scores) \/
  (exists k sk, pick_best scores = Z.of_nat k /\ scores !! k = Some sk /\ 0 <= sk /\
     Forall (fun s => s <= sk) scores /\
     forall j sj, (j < k)%nat -> scores !! j = Some sj -> sj < sk).
Proof.
  unfold pick_best.
  destruct (pick_best_from_spec scores 0 (-1) (-1)) as [H|(k & sk & Hr & Hk & Hlt & Hall & Hf)].
  - left. exact H.
  - right. exists k, sk. rewrite Hr. split; [lia|]. split; [exact Hk|]. split; [lia|].
    split; assumption.
Qed.

(** ** The default score *)

Lemma default_scorer_disqualified d :
  has_graphics_queue d = false \/ has_present_queue d = false ->
  __lahar_default_scorer d = -1.
Proof.
  intros [H|H]; unfold __lahar_default_scorer; rewrite H; cbn [negb orb]; [reflexivity|].
  rewrite orb_true_r. reflexivity.
Qed.

Lemma default_scorer_formula d :
  has_graphics_queue d = true -> has_present_queue d = true ->
  __lahar_default_scorer d = to_int64 (type_bonus d + shared_queue_bonus d + memory_bonus d).
Proof.
  intros Hg Hp. unfold __lahar_default_scorer, type_bonus, shared_queue_bonus, memory_bonus.
  rewrite Hg, Hp. cbn [negb orb].
  destruct (deviceType (properties d) =? VK_PHYSICAL_DEVICE_TYPE_DISCRETE_GPU);
    [|destruct (deviceType (properties d) =? VK_PHYSICAL_DEVICE_TYPE_INTEGRATED_GPU)];
    destruct (present_queue_index d =? graphics_queue_index d); reflexivity.
Qed.

Lemma type_bonus_range d : 0 <= type_bonus d <= 1000.
Proof. unfold type_bonus. repeat case_match; lia. Qed.

Lemma shared_queue_bonus_range d : 0 <= shared_queue_bonus d <= 50.
Proof. unfold shared_queue_bonus. case_match; lia. Qed.

Lemma to_int64_small z : 0 <= z < 2 ^ 63 -> to_int64 z = z.
Proof.
  intros H. unfold to_int64, wrap64. rewrite Z.mod_small by lia.
  destruct (z <? 2 ^ 63) eqn:E; [reflexivity|]. apply Z.ltb_ge in E. lia.
Qed.

Lemma sum_local_memory_range heaps n : forall i acc,
  0 <= acc < 2 ^ 64 -> 0 <= sum_local_memory heaps n i acc < 2 ^ 64.
Proof.
  induction n as [|n IH]; intros i acc Hacc; simpl; [exact Hacc|].
  apply IH. case_match; [exact Hacc|]. unfold wrap64. apply Z.mod_pos_bound. lia.
Qed.

Lemma device_local_memory_range d : 0 <= device_local_memory d < 2 ^ 64.
Proof. unfold device_local_memory. apply sum_local_memory_range. lia. Qed.

(** ** Magnitude of the results of the floating-point operations *)

Lemma digits2_pos_bounds p :
  2 ^ (Z.pos (digits2_pos p) - 1) <= Z.pos p < 2 ^ Z.pos (digits2_pos p).
Proof.
  induction p as [p IH|p IH|]; cbn [digits2_pos].
  - rewrite Pos2Z.inj_succ, Z.pow_succ_r by lia.
    replace (Z.succ (Z.pos (digits2_pos p)) - 1) with (Z.succ (Z.pos (digits2_pos p) - 1)) by lia.
    rewrite Z.pow_succ_r by lia. lia.
  - rewrite Pos2Z.inj_succ, Z.pow_succ_r by lia.
    replace (Z.succ (Z.pos (digits2_pos p)) - 1) with (Z.succ (Z.pos (digits2_pos p) - 1)) by lia.
    rewrite Z.pow_succ_r by lia. lia.
  - cbn. lia.
Qed.

Lemma Zdigits2_nonneg m : 0 <= Zdigits2 m.
Proof. destruct m; cbn; lia. Qed.

Lemma Zdigits2_bounds m : 0 < m -> 2 ^ (Zdigits2 m - 1) <= m < 2 ^ Zdigits2 m.
Proof. destruct m as [|p|p]; try lia. intros _. apply digits2_pos_bounds. Qed.

Lemma Zdigits2_lt_pow m : 0 <= m -> m < 2 ^ Zdigits2 m.
Proof.
  intros H. destruct (Z.eq_dec m 0) as [->|Hne]; [cbn; lia|].
  apply Zdigits2_bounds. lia.
Qed.

Lemma Zdigits2_le m k : 0 <= m < 2 ^ k -> 0 <= k -> Zdigits2 m <= k.
Proof.
  intros [H0 Hk] K. destruct (Z.eq_dec m 0) as [->|Hne]; [cbn; lia|].
  destruct (Zdigits2_bounds m ltac:(lia)) as [Hl _].
  destruct (Z_lt_le_dec k (Zdigits2 m)) as [Hlt|]; [|lia].
  exfalso. assert (2 ^ k <= 2 ^ (Zdigits2 m - 1)) by (apply Z.pow_le_mono_r; lia). lia.
Qed.

Lemma Zdigits2_div m n :
  0 <= m -> 0 <= n -> 0 < m / 2 ^ n -> Zdigits2 (m / 2 ^ n) + n <= Zdigits2 m.
Proof.
  intros Hm Hn Hq.
  destruct (Zdigits2_bounds _ Hq) as [Hl _].
  pose proof (Zdigits2_lt_pow m Hm) as Hu.
  pose proof (Zdigits2_nonneg m) as Hd.
  assert (Hd' : 1 <= Zdigits2 (m / 2 ^ n)).
  { destruct (m / 2 ^ n) as [|p|p]; try lia. cbn. lia. }
  assert (Hp : 0 < 2 ^ n) by (apply Z.pow_pos_nonneg; lia).
  pose proof (Z.mul_div_le m (2 ^ n) Hp) as Hle.
  assert (2 ^ (Zdigits2 (m / 2 ^ n) - 1 + n) <= m).
  { rewrite Z.pow_add_r by lia. nia. }
  destruct (Z_lt_le_dec (Zdigits2 m) (Zdigits2 (m / 2 ^ n) + n)) as [Hlt|]; [|lia].
  exfalso.
  assert (2 ^ Zdigits2 m <= 2 ^ (Zdigits2 (m / 2 ^ n) - 1 + n)) by (apply Z.pow_le_mono_r; lia).
  lia.
Qed.

Lemma shr_1_m mrs : 0 <= shr_m mrs -> shr_m (shr_1 mrs) = shr_m mrs / 2.
Proof.
  destruct mrs as [m r s]. cbn [shr_m]. intros H. rewrite <- Z.div2_div.
  destruct m as [|[p|p|]|p]; try reflexivity. lia.
Qed.

Lemma iter_pos_shr_1_m p : forall mrs,
  0 <= shr_m mrs -> shr_m (SpecFloat.iter_pos shr_1 p mrs) = shr_m mrs / 2 ^ Z.pos p.
Proof.
  assert (Hpos : forall q, 0 < 2 ^ Z.pos q) by (intros; apply Z.pow_pos_nonneg; lia).
  induction p as [p IH|p IH|]; intros mrs H; cbn [SpecFloat.iter_pos].
  - assert (H1 : 0 <= shr_m (shr_1 mrs)) by (rewrite shr_1_m by exact H; apply Z.div_pos; lia).
    assert (H2 : 0 <= shr_m (SpecFloat.iter_pos shr_1 p (shr_1 mrs))).
    { rewrite IH by exact H1. apply Z.div_pos; [lia|apply Hpos]. }
    rewrite IH by exact H2. rewrite IH by exact H1. rewrite shr_1_m by exact H.
    rewrite !Z.div_div by (try apply Hpos; lia).
    f_equal. rewrite Pos2Z.inj_xI. rewrite <- Z.pow_add_r by lia.
    change 2 with (2 ^ 1) at 1. rewrite <- Z.pow_add_r by lia. f_equal. lia.
  - assert (H2 : 0 <= shr_m (SpecFloat.iter_pos shr_1 p mrs)).
    { rewrite IH by exact H. apply Z.div_pos; [lia|apply Hpos]. }
    rewrite IH by exact H2. rewrite IH by exact H.
    rewrite !Z.div_div by (try apply Hpos; lia).
    f_equal. rewrite Pos2Z.inj_xO. rewrite <- Z.pow_add_r by lia. f_equal. lia.
  - rewrite shr_1_m by exact H. reflexivity.
Qed.

Section Magnitude.
Variables prec emax : Z.
Hypothesis prec_nonneg : 0 <= prec.

Lemma shr_fexp_spec m e l :
  0 <= m ->
  exists n, 0 <= n /\ shr_m (shr_fexp prec emax m e l).1 = m / 2 ^ n /\
            (shr_fexp prec emax m e l).2 = e + n /\
            (n = 0 \/ e + n = fexp prec emax (Zdigits2 m + e)).
Proof.
  intros Hm. unfold shr_fexp, shr.
  assert (Hrec : shr_m (shr_record_of_loc m l) = m) by (destruct l as [|[]]; reflexivity).
  destruct (fexp prec emax (Zdigits2 m + e) - e) as [|p|p] eqn:E.
  - exists 0. cbn [fst snd]. rewrite Hrec, Z.div_1_r. repeat split; lia.
  - exists (Z.pos p). cbn [fst snd]. rewrite iter_pos_shr_1_m by (rewrite Hrec; exact Hm).
    rewrite Hrec. repeat split; lia.
  - exists 0. cbn [fst snd]. rewrite Hrec, Z.div_1_r. repeat split; lia.
Qed.

Lemma round_nearest_even_range m l :
  m <= round_nearest_even m l <= m + 1.
Proof. unfold round_nearest_even. destruct l as [|[]]; try destruct (Z.even m); lia. Qed.

(** Rounding raises the magnitude by at most one binade. *)
Lemma binary_round_aux_mag sx mx ex lx s m e :
  0 <= mx ->
  binary_round_aux prec emax sx mx ex lx = S754_finite s m e ->
  Zdigits2 (Z.pos m) + e <= Z.max (Zdigits2 mx + ex + 1) (emin prec emax + 1).
Proof.
  intros Hmx. unfold binary_round_aux.
  destruct (shr_fexp_spec mx ex lx Hmx) as (n1 & Hn1 & Hm1 & He1 & Hc1).
  destruct (shr_fexp prec emax mx ex lx) as [mrs1 e1]. cbn [fst snd] in *.
  set (mr := round_nearest_even (shr_m mrs1) (loc_of_shr_record mrs1)).
  assert (H1 : 0 <= shr_m mrs1).
  { rewrite Hm1. apply Z.div_pos; [lia|apply Z.pow_pos_nonneg; lia]. }
  pose proof (round_nearest_even_range (shr_m mrs1) (loc_of_shr_record mrs1)) as Hr.
  fold mr in Hr.
  destruct (shr_fexp_spec mr e1 loc_Exact ltac:(lia)) as (n2 & Hn2 & Hm2 & He2 & _).
  destruct (shr_fexp prec emax mr e1 loc_Exact) as [mrs2 e2]. cbn [fst snd] in *.
  destruct (shr_m mrs2) as [|m2|m2] eqn:E2; [discriminate| |discriminate].
  destruct (e2 <=? emax - prec); [|discriminate].
  intros [= _ -> ->].
  assert (Hq : 0 < mr / 2 ^ n2) by lia.
  pose proof (Zdigits2_div mr n2 ltac:(lia) Hn2 Hq) as Hd2. rewrite <- Hm2 in Hd2.
  pose proof (Zdigits2_lt_pow (shr_m mrs1) H1) as Hu1.
  pose proof (Zdigits2_nonneg (shr_m mrs1)) as Hd1.
  assert (Hdr : Zdigits2 mr <= Zdigits2 (shr_m mrs1) + 1).
  { apply Zdigits2_le; [|lia]. rewrite Z.pow_add_r by lia. lia. }
  pose proof (Zdigits2_nonneg mx) as Hdx.
  destruct (Z.eq_dec (shr_m mrs1) 0) as [Hz|Hnz].
  - rewrite Hz in Hdr. cbn [Zdigits2] in Hdr.
    destruct Hc1 as [->|Hc1]; [lia|]. unfold fexp in Hc1. lia.
  - assert (Hq1 : 0 < mx / 2 ^ n1) by lia.
    pose proof (Zdigits2_div mx n1 Hmx Hn1 Hq1) as Hd. rewrite <- Hm1 in Hd. lia.
Qed.
End Magnitude.

Lemma Pos_iter_xO p d : Z.pos (Pos.iter xO p d) = Z.pos p * 2 ^ Z.pos d.
Proof.
  induction d as [|d IH] using Pos.peano_ind.
  - cbn. lia.
  - rewrite Pos.iter_succ, Pos2Z.inj_succ, Z.pow_succ_r by lia.
    rewrite Pos2Z.inj_xO, IH. lia.
Qed.

Lemma Zdigits2_mul_pow m k :
  0 <= m -> 0 <= k -> Zdigits2 (m * 2 ^ k) <= Zdigits2 m + k.
Proof.
  intros Hm Hk. pose proof (Zdigits2_lt_pow m Hm). pose proof (Zdigits2_nonneg m).
  assert (0 < 2 ^ k) by (apply Z.pow_pos_nonneg; lia).
  apply Zdigits2_le; [|lia]. rewrite Z.pow_add_r by lia. nia.
Qed.

Lemma Zdigits2_mul a b :
  0 <= a -> 0 <= b -> Zdigits2 (a * b) <= Zdigits2 a + Zdigits2 b.
Proof.
  intros Ha Hb. pose proof (Zdigits2_lt_pow a Ha). pose proof (Zdigits2_lt_pow b Hb).
  pose proof (Zdigits2_nonneg a). pose proof (Zdigits2_nonneg b).
  apply Zdigits2_le; [|lia]. rewrite Z.pow_add_r by lia. nia.
Qed.

(** The two constants of [remap_memory]. *)
Lemma double_100GB :
  double_of_Z 107374182400 = S754_finite false 7036874417766400 (-16).
Proof. reflexivity. Qed.

Lemma double_1000 : double_of_Z 1000 = S754_finite false 8796093022208000 (-43).
Proof. reflexivity. Qed.

Lemma double_of_Z_mag x s m e :
  0 <= x < 2 ^ 64 -> double_of_Z x = S754_finite s m e -> Zdigits2 (Z.pos m) + e <= 65.
Proof.
  intros Hx. unfold double_of_Z, binary_normalize.
  destruct x as [|p|p]; [discriminate| |lia].
  unfold binary_round, shl_align.
  assert (Hd : Zdigits2 (Z.pos p) <= 64) by (apply Zdigits2_le; lia).
  cbn [Zdigits2] in Hd.
  destruct (fexp prec emax (Z.pos (digits2_pos p) + 0) - 0) as [|d|d] eqn:E.
  - intros H. apply binary_round_aux_mag in H; [|unfold prec; lia|lia].
    cbn [Zdigits2] in *. unfold emin, prec, emax in *. lia.
  - intros H. apply binary_round_aux_mag in H; [|unfold prec; lia|lia].
    cbn [Zdigits2] in *. unfold emin, prec, emax in *. lia.
  - intros H. apply binary_round_aux_mag in H; [|unfold prec; lia|lia].
    rewrite Pos_iter_xO in H.
    pose proof (Zdigits2_mul_pow (Z.pos p) (Z.pos d) ltac:(lia) ltac:(lia)) as Hm.
    cbn [Zdigits2] in *. unfold emin, prec, emax in *. lia.
Qed.

Lemma SFdiv_mag sa ma ea s m e :
  Zdigits2 (Z.pos ma) + ea <= 65 ->
  SFdiv prec emax (S754_finite sa ma ea) (S754_finite false 7036874417766400 (-16)) =
    S754_finite s m e ->
  Zdigits2 (Z.pos m) + e <= 30.
Proof.
  intros Ha. unfold SFdiv, SFdiv_core_binary.
  change (Zdigits2 (Z.pos 7036874417766400)) with 53.
  set (d1 := Zdigits2 (Z.pos ma)) in *.
  set (e' := Z.min (fexp prec emax (d1 + ea - (53 + -16))) (ea - -16)).
  set (m' := match ea - -16 - e' with
             | 0 => Z.pos ma
             | Z.pos _ => Z.shiftl (Z.pos ma) (ea - -16 - e')
             | Z.neg _ => 0
             end).
  assert (Hs : 0 <= ea - -16 - e') by (subst e'; lia).
  assert (Hm' : m' = Z.pos ma * 2 ^ (ea - -16 - e')).
  { subst m'. destruct (ea - -16 - e') as [|q|q] eqn:E; [cbn; lia| |lia].
    rewrite Z.shiftl_mul_pow2 by lia. reflexivity. }
  assert (H0 : 0 <= m').
  { rewrite Hm'. apply Z.mul_nonneg_nonneg; [lia|]. apply Z.pow_nonneg. lia. }
  pose proof (Z_div_mod m' (Z.pos 7036874417766400) ltac:(lia)) as Hdiv.
  destruct (Z.div_eucl m' (Z.pos 7036874417766400)) as [q r].
  destruct Hdiv as [Hq Hr].
  intros H. apply binary_round_aux_mag in H; [|unfold prec; lia|nia].
  assert (Hq0 : 0 <= q) by nia.
  assert (Hdm : Zdigits2 m' <= d1 + (ea - -16 - e')).
  { rewrite Hm'. apply Zdigits2_mul_pow; lia. }
  pose proof (Zdigits2_lt_pow m' H0) as Hu.
  pose proof (Zdigits2_nonneg m') as Hn.
  assert (Hdq : Zdigits2 q <= Z.max (Zdigits2 m' - 52) 0).
  { apply Zdigits2_le; [|lia]. split; [exact Hq0|].
    destruct (Z_lt_le_dec (Zdigits2 m') 52) as [Hlt|Hge].
    - rewrite Z.max_r by lia. cbn.
      assert (2 ^ Zdigits2 m' <= 2 ^ 52) by (apply Z.pow_le_mono_r; lia).
      assert (q < 1); [|lia]. nia.
    - rewrite Z.max_l by lia.
      assert (Hp : 2 ^ Zdigits2 m' = 2 ^ (Zdigits2 m' - 52) * 2 ^ 52).
      { rewrite <- Z.pow_add_r by lia. f_equal. lia. }
      assert (0 < 2 ^ (Zdigits2 m' - 52)) by (apply Z.pow_pos_nonneg; lia).
      change (2 ^ 52) with 4503599627370496 in Hp. nia. }
  assert (He' : e' <= Z.max (d1 + ea - 90) (-1074)).
  { subst e'. unfold fexp, emin, prec, emax. lia. }
  unfold emin, prec, emax in H. lia.
Qed.

Lemma SFmul_mag sq mq eq s m e :
  Zdigits2 (Z.pos mq) + eq <= 30 ->
  SFmul prec emax (S754_finite sq mq eq) (S754_finite false 8796093022208000 (-43)) =
    S754_finite s m e ->
  Zdigits2 (Z.pos m) + e <= 41.
Proof.
  intros Hq. unfold SFmul. intros H.
  apply binary_round_aux_mag in H; [|unfold prec; lia|lia].
  rewrite Pos2Z.inj_mul in H.
  pose proof (Zdigits2_mul (Z.pos mq) (Z.pos 8796093022208000) ltac:(lia) ltac:(lia)) as Hm.
  change (Zdigits2 (Z.pos 8796093022208000)) with 53 in Hm.
  unfold emin, prec, emax in H. lia.
Qed.

Lemma double_to_size_t_range f k :
  0 <= k ->
  (forall s m e, f = S754_finite s m e -> Zdigits2 (Z.pos m) + e <= k) ->
  0 <= double_to_size_t f < 2 ^ k.
Proof.
  intros Hk H. assert (Hp : 0 < 2 ^ k) by (apply Z.pow_pos_nonneg; lia).
  destruct f as [| | |s m e]; cbn [double_to_size_t]; try lia.
  destruct s; [lia|]. specialize (H false m e eq_refl).
  pose proof (Zdigits2_lt_pow (Z.pos m) ltac:(lia)) as Hu.
  pose proof (Zdigits2_nonneg (Z.pos m)) as Hn.
  destruct (0 <=? e) eqn:E.
  - apply Z.leb_le in E. assert (0 < 2 ^ e) by (apply Z.pow_pos_nonneg; lia).
    split; [nia|].
    assert (2 ^ (Zdigits2 (Z.pos m) + e) <= 2 ^ k) by (apply Z.pow_le_mono_r; lia).
    rewrite Z.pow_add_r in * by lia. nia.
  - apply Z.leb_gt in E. assert (0 < 2 ^ (- e)) by (apply Z.pow_pos_nonneg; lia).
    split; [apply Z.div_pos; lia|].
    apply Z.div_lt_upper_bound; [lia|].
    assert (2 ^ Zdigits2 (Z.pos m) <= 2 ^ (k + - e)) by (apply Z.pow_le_mono_r; lia).
    rewrite Z.pow_add_r in * by lia. nia.
Qed.

(** The bonus of any 64-bit amount of memory fits in 41 bits. *)
Lemma remap_memory_range x : 0 <= x < 2 ^ 64 -> 0 <= remap_memory x < 2 ^ 41.
Proof.
  intros Hx. unfold remap_memory. rewrite double_100GB, double_1000.
  apply double_to_size_t_range; [lia|]. intros s m e.
  destruct (double_of_Z x) as [| | |sa ma ea] eqn:Ea; try discriminate.
  pose proof (double_of_Z_mag x sa ma ea Hx Ea) as Ha.
  destruct (SFdiv prec emax (S754_finite sa ma ea) _) as [| | |sq mq eq] eqn:Eq;
    try discriminate.
  apply SFmul_mag. eapply SFdiv_mag; [exact Ha|exact Eq].
Qed.

Lemma memory_bonus_range d : 0 <= memory_bonus d < 2 ^ 41.
Proof. apply remap_memory_range, device_local_memory_range. Qed.

Lemma default_scorer_sum d :
  has_graphics_queue d = true -> has_present_queue d = true ->
  __lahar_default_scorer d = type_bonus d + shared_queue_bonus d + memory_bonus d.
Proof.
  intros Hg Hp. rewrite default_scorer_formula by assumption.
  pose proof (type_bonus_range d). pose proof (shared_queue_bonus_range d).
  pose proof (memory_bonus_range d) as Hm. change (2 ^ 41) with 2199023255552 in Hm.
  apply to_int64_small. change (2 ^ 63) with 9223372036854775808. lia.
Qed.

Lemma remap_memory_100GB : remap_memory 107374182400 = 1000.
Proof. reflexivity. Qed.

(** ** The device loops of [__lahar_build_physdev] *)

Section Build.
Context {W : Type} (ext : forall c : extCall, W -> reply c * W).
Implicit Types (s : St W).

Section Projection.
Context {X : Type} (g : Lahar -> X) (v : X) (log0 : list Logged).

Lemma inv_present_support pd j surfaces :
  inv (sinv (W := W) g v (fun _ => True) log0) (present_support ext pd j surfaces).
Proof.
  induction surfaces as [|surf rest IH]; simpl; [apply inv_ret|].
  apply inv_bind; [inv_step|]. intros [|]; [exact IH|apply inv_ret].
Qed.

Lemma inv_scan_queue_families surfaces fams : forall j d,
  inv (sinv (W := W) g v (fun _ => True) log0)
      (scan_queue_families ext surfaces fams j d).
Proof.
  induction fams as [|fam rest IH]; intros j d; simpl; [apply inv_ret|].
  apply inv_bind; [apply inv_present_support|]. intros b.
  match goal with |- inv _ (if ?c then _ else _) => destruct c end;
    [apply inv_ret|apply IH].
Qed.

Lemma inv_gather_device_info pd :
  inv (sinv (W := W) g v (fun _ => True) log0) (gather_device_info ext pd).
Proof.
  unfold gather_device_info.
  repeat first [ apply inv_scan_queue_families | inv_step ].
Qed.

Lemma inv_gather_device_infos devices :
  inv (sinv (W := W) g v (fun _ => True) log0) (gather_device_infos ext devices).
Proof.
  induction devices as [|pd rest IH]; simpl; [apply inv_ret|].
  apply inv_bind; [apply inv_gather_device_info|]. intros info.
  apply inv_bind; [exact IH|]. intros infos. apply inv_ret.
Qed.

Lemma inv_score_devices scorer infos :
  inv (sinv (W := W) g v (fun _ => True) log0) (score_devices ext scorer infos).
Proof.
  induction infos as [|info rest IH]; simpl; [apply inv_ret|].
  apply inv_bind.
  - unfold run_scorer. inv_auto.
  - intros sc. apply inv_bind; [exact IH|]. intros. apply inv_ret.
Qed.
End Projection.

Lemma score_devices_default infos s :
  score_devices ext NULL infos s = Ok (map __lahar_default_scorer infos) s.
Proof.
  induction infos as [|info rest IH]; simpl; [reflexivity|].
  unfold mbind, M_bind, run_scorer. change (NULL =? NULL) with true. cbv beta iota.
  unfold mret at 1, M_ret at 1. cbv beta iota. rewrite IH. reflexivity.
Qed.
End Build.

(** ** What [lahar_build] leaves alone *)

Ltac inv_step_build :=
  lazymatch goal with
  | |- inv _ (gather_device_infos _ _) => apply inv_gather_device_infos
  | |- inv _ (score_devices _ _ _) => apply inv_score_devices
  | |- _ => inv_step
  end.

Section Counts.
Context {W : Type} (ext : forall c : extCall, W -> reply c * W).
Implicit Types (s : St W).

Lemma build_inst_extensions_max_in_flight k log0 :
  inv (sinv (W := W) max_in_flight_key k (fun _ => True) log0) (__lahar_build_inst_extensions ext).
Proof. repeat inv_step_build. Qed.

Lemma build_instance_max_in_flight k log0 :
  inv (sinv (W := W) max_in_flight_key k (fun _ => True) log0) (__lahar_build_instance ext).
Proof. repeat inv_step_build. Qed.

Lemma build_early_surface_max_in_flight k log0 :
  inv (sinv (W := W) max_in_flight_key k (fun _ => True) log0) (__lahar_build_early_surface ext).
Proof. repeat inv_step_build. Qed.

Lemma build_physdev_max_in_flight k log0 :
  inv (sinv (W := W) max_in_flight_key k (fun _ => True) log0) (__lahar_build_physdev ext).
Proof. repeat inv_step_build. Qed.

Lemma build_device_max_in_flight k log0 :
  inv (sinv (W := W) max_in_flight_key k (fun _ => True) log0) (__lahar_build_device ext).
Proof. repeat inv_step_build. Qed.

Lemma build_swapchain_max_in_flight k log0 :
  inv (sinv (W := W) max_in_flight_key k (fun _ => True) log0) (__lahar_build_swapchain ext).
Proof. repeat inv_step_build. Qed.

(** The first six steps of [lahar_build] keep every [max_in_flight]. *)
Lemma build_prefix_max_in_flight k log0 :
  inv (sinv (W := W) max_in_flight_key k (fun _ => True) log0) (build_until_sync ext).
Proof.
  unfold build_until_sync.
  repeat first
    [ apply inv_on_success
    | apply build_inst_extensions_max_in_flight | apply build_instance_max_in_flight
    | apply build_early_surface_max_in_flight | apply build_physdev_max_in_flight
    | apply build_device_max_in_flight | apply build_swapchain_max_in_flight ].
Qed.

Lemma on_success_assoc (a b c : M W Z) s :
  ((a ;;! b) ;;! c) s = (a ;;! (b ;;! c)) s.
Proof.
  unfold on_success, mbind, M_bind, mret, M_ret.
  destruct (a s) as [e s1| |]; [|reflexivity..].
  destruct (e =? LAHAR_ERR_SUCCESS) eqn:E; [reflexivity|]. rewrite E. reflexivity.
Qed.

Lemma on_success_ext (a b c : M W Z) s :
  (forall s1, b s1 = c s1) -> (a ;;! b) s = (a ;;! c) s.
Proof.
  intros H. unfold on_success, mbind, M_bind.
  destruct (a s) as [e s1| |]; [|reflexivity..].
  destruct (e =? LAHAR_ERR_SUCCESS); [apply H|reflexivity].
Qed.

(** [lahar_build] is its first six steps, then [__lahar_build_sync], then
    the tear-down on failure. *)
Lemma lahar_build_split s :
  lahar_build ext s =
  (err ← (build_until_sync ext ;;! __lahar_build_sync ext);
   (if negb (err =? LAHAR_ERR_SUCCESS) then lahar_deinit ext else mret tt);;
   mret err) s.
Proof.
  unfold lahar_build, build_until_sync.
  unfold mbind at 1 3, M_bind at 1 3.
  match goal with
  | |- match ?a s with _ => _ end = match ?b s with _ => _ end =>
      assert (E : b s = a s); [|rewrite E; reflexivity]
  end.
  revert s.
  repeat (intros ?; rewrite on_success_assoc; apply on_success_ext).
  reflexivity.
Qed.

Lemma build_keeps_extensions x log0 :
  inv (sinv (W := W) extensions x (fun _ => True) log0)
      (__lahar_build_inst_extensions ext ;;! __lahar_build_instance ext ;;!
       __lahar_build_early_surface ext ;;! __lahar_build_physdev ext ;;!
       __lahar_build_device ext ;;! __lahar_build_swapchain ext ;;!
       __lahar_build_sync ext).
Proof. repeat inv_step_build. Qed.

(** A successful [lahar_build] leaves the extension tables as they were. *)
Lemma lahar_build_extensions s s' :
  lahar_build ext s = Ok LAHAR_ERR_SUCCESS s' ->
  extensions (st_lahar s') = extensions (st_lahar s).
Proof.
  unfold lahar_build. unfold mbind at 1, M_bind at 1.
  pose proof (build_keeps_extensions (extensions (st_lahar s)) (st_log s) s
                (sinv_start _ _ _ _ _ eq_refl eq_refl)) as Hinv.
  match type of Hinv with match ?m with _ => _ end => destruct m as [e s1| |] end;
    [|discriminate..].
  destruct (e =? LAHAR_ERR_SUCCESS) eqn:E; cbn [negb].
  - unfold mbind, M_bind, mret, M_ret. intros H; leaf H. subst s'. apply Hinv.
  - unfold mbind, M_bind, mret, M_ret.
    destruct (lahar_deinit ext s1); [|discriminate..].
    intros H; leaf H. subst e. discriminate E.
Qed.
End Counts.

(** ** Registration and swapchain creation *)

Lemma alter_app_last {A} (f : A -> A) (l : list A) (x : A) :
  alter f (length l) (l ++ [x]) = l ++ [f x].
Proof. induction l as [|y l IH]; simpl; [reflexivity|]. f_equal. exact IH. Qed.

Lemma norm_image_count_nonzero d : norm_image_count d <> 0.
Proof. unfold norm_image_count. destruct (d =? 0) eqn:E; [lia|]. apply Z.eqb_neq, E. Qed.

Lemma norm_image_count_idem d : norm_image_count (norm_image_count d) = norm_image_count d.
Proof.
  unfold norm_image_count at 1. pose proof (norm_image_count_nonzero d) as H.
  apply Z.eqb_neq in H. rewrite H. reflexivity.
Qed.

Section Register.
Context {W : Type} (ext : forall c : extCall, W -> reply c * W).
Implicit Types (s : St W).

Lemma lahar_vec_expand_state cap ty s r s1 :
  lahar_vec_expand ext cap ty s = Ok r s1 -> st_lahar s1 = st_lahar s.
Proof.
  unfold lahar_vec_expand. munfold. mrun.
  all: try discriminate.
  all: intros H; leaf H; subst; reflexivity.
Qed.

Lemma register_ex_success s w conf s' :
  lahar_builder_window_register_ex ext w (Some conf) s = Ok LAHAR_ERR_SUCCESS s' ->
  exists ws,
    windows (st_lahar s') = windows (st_lahar s) ++ [ws] /\ window ws = w /\
    max_in_flight ws = (if wc_max_in_flight conf =? 0 then 2 else wc_max_in_flight conf) /\
    desired_img_count ws = norm_image_count (wc_desired_swap_size conf) /\
    frame_phase ws = LAHAR_FRAME_PHASE_BEGIN /\ flight_index ws = 0.
Proof.
  unfold lahar_builder_window_register_ex.
  destruct ((w =? NULL) || (wc_attachment_count conf =? 0)); [intros H; leaf H; err_discr He|].
  unfold on_success. unfold mbind at 1, M_bind at 1. unfold get_lahar at 1.
  unfold mbind at 1, M_bind at 1.
  assert (Hpre : forall r s1,
    (if window_cap (st_lahar s) <=? Z.of_nat (length (windows (st_lahar s)))
     then r ← lahar_vec_expand ext (window_cap (st_lahar s)) ty_LaharWindowState;
          match r with
          | Some tgt => modify (set_window_cap tgt);; mret LAHAR_ERR_SUCCESS
          | None => mret LAHAR_ERR_ALLOC_FAILED
          end
     else mret LAHAR_ERR_SUCCESS) s = Ok r s1 ->
    windows (st_lahar s1) = windows (st_lahar s)).
  { intros r s1. destruct (_ <=? _).
    - unfold mbind, M_bind.
      destruct (lahar_vec_expand ext _ _ s) as [r0 s0| |] eqn:Hexp; [|discriminate..].
      apply lahar_vec_expand_state in Hexp. destruct r0.
      + unfold modify, mret, M_ret. intros H; leaf H. subst s1. cbn. rewrite Hexp. reflexivity.
      + unfold mret, M_ret. intros H; leaf H. subst s1. rewrite Hexp. reflexivity.
    - unfold mret, M_ret. intros H; leaf H. subst. reflexivity. }
  match goal with
  | |- match ?m with _ => _ end = _ -> _ => destruct m as [r s1| |] eqn:Hm; [|discriminate..]
  end.
  specialize (Hpre r s1 eq_refl). clear Hm. rename Hpre into Hm.
  destruct (r =? LAHAR_ERR_SUCCESS) eqn:Er; [|intros H; leaf H; subst r; discriminate Er].
  munfold. cbv beta iota zeta. cbn [st_lahar st_world st_log windows set_windows].
  match goal with |- context [ext ?c ?w0] => destruct (ext c w0) as [[err [wd ht]] w1] end.
  cbv beta iota. cbn [st_lahar st_world st_log windows set_windows].
  destruct (err =? LAHAR_ERR_SUCCESS) eqn:Ee; cbn [negb];
    [|intros H; leaf H; subst err; discriminate Ee].
  match goal with |- context [ext ?c ?w0] => destruct (ext c w0) as [cfgs w2] end.
  cbv beta iota. cbn [st_lahar st_world st_log windows set_windows].
  destruct (negb cfgs); [discriminate|].
  destruct (negb _); [discriminate|].
  cbv beta iota. cbn [st_lahar st_world st_log windows set_windows].
  match goal with |- context [ext ?c ?w0] => destruct (ext c w0) as [rows w3] end.
  cbv beta iota. cbn [st_lahar st_world st_log windows set_windows].
  destruct (negb rows); [discriminate|].
  cbv beta iota. cbn [st_lahar st_world st_log windows set_windows].
  intros H; leaf H. subst s'. cbn [st_lahar windows set_windows].
  rewrite Hm. rewrite !alter_app_last.
  eexists. split; [reflexivity|]. cbn. repeat split; reflexivity.
Qed.
(** The builder functions other than the registration of a window leave
    the windows as they are. *)
Lemma builder_keeps_windows k log0 :
  let I := sinv (W := W) windows k (fun _ => True) log0 in
  (forall a, inv I (lahar_builder_allocator_set a)) /\
  (forall v, inv I (lahar_builder_set_vulkan_version v)) /\
  inv I lahar_builder_request_validation_layers /\
  (forall e, inv I (lahar_builder_extension_add_required_instance ext e)) /\
  (forall e, inv I (lahar_builder_extension_add_required_device ext e)) /\
  (forall e, inv I (lahar_builder_extension_add_optional_instance ext e)) /\
  (forall e, inv I (lahar_builder_extension_add_optional_device ext e)) /\
  (forall c, inv I (lahar_builder_set_debug_callback c)) /\
  (forall n, inv I (lahar_builder_device_use ext n)) /\
  (forall f, inv I (lahar_builder_device_set_scoring f)) /\
  inv I lahar_builder_request_command_buffers.
Proof.
  cbv zeta. repeat match goal with |- _ /\ _ => split end; intros; inv_auto.
Qed.
End Register.

Section Creation.
Context {W : Type} (ext : forall c : extCall, W -> reply c * W).
Implicit Types (s : St W).

Lemma sinv_logged {X} (g : Lahar -> X) v P log0 s :
  sinv g v P log0 s -> logged_since P log0 s.
Proof. intros [_ H]. exact H. Qed.

Lemma logged_since_refl P s : logged_since P (st_log s) s.
Proof. exists []. rewrite app_nil_r. split; [reflexivity|constructor]. Qed.

Lemma logged_since_trans P log0 s1 s2 :
  logged_since P log0 s1 -> logged_since P (st_log s1) s2 -> logged_since P log0 s2.
Proof.
  intros (n1 & H1 & F1) (n2 & H2 & F2). exists (n1 ++ n2). split.
  - rewrite H2, H1, app_assoc. reflexivity.
  - apply Forall_app. split; assumption.
Qed.

Lemma logged_since_impl (P Q : Logged -> Prop) log0 s :
  (forall e, P e -> Q e) -> logged_since P log0 s -> logged_since Q log0 s.
Proof.
  intros H (n & Hn & F). exists n. split; [exact Hn|]. eapply Forall_impl; eauto.
Qed.

Lemma get_window_request i nd surf P log0 :
  hoare (sinv (W := W) (window_image_request i) (Some (nd, surf)) P log0) (get_window i)
    (fun ws s => sinv (window_image_request i) (Some (nd, surf)) P log0 s /\
                 (desired_img_count ws = nd /\ surface ws = surf)).
Proof.
  intros s Hs. pose proof Hs as [Hg _]. unfold window_image_request in Hg.
  unfold get_window, read_slot. munfold.
  destruct (windows (st_lahar s) !! i) as [ws|]; [|exact I].
  cbn in Hg. injection Hg as H1 H2. auto.
Qed.

Lemma creation_uses_create i nd surf (l l0 : Lahar) ws dev cc caps wd ht pm :
  desired_img_count ws = nd -> surface ws = surf ->
  window_image_request i l = Some (nd, surf) ->
  creation_uses i nd surf
    (l, vkCreateSwapchainKHR dev (swapchain_create_info l0 ws cc caps wd ht pm)).
Proof.
  intros Hd Hs Hl. unfold creation_uses. cbn. split; [exact Hl|]. split; [exact Hs|].
  exists caps. rewrite Hd. reflexivity.
Qed.

Ltac inv_step3 :=
  lazymatch goal with
  | |- inv (sinv (window_image_request ?i) (Some (?nd, ?surf)) ?P ?log0) (get_window ?i ≫= ?f) =>
      apply (hoare_bind_learn _ (fun ws => desired_img_count ws = nd /\ surface ws = surf)
               _ (get_window i) f);
      [ apply get_window_request
      | intros ? [? ?];
        match goal with |- hoare ?I ?m _ => change (inv I m) end; cbv beta ]
  | |- inv (sinv ?g ?v ?P ?log0) (call ?e (vkCreateSwapchainKHR ?dev ?ci)) =>
      apply (sinv_call g v P log0 e (vkCreateSwapchainKHR dev ci));
      intros; apply creation_uses_create; assumption
  | |- _ => inv_step_build
  end.

Lemma create_uses i nd surf log0 :
  inv (sinv (window_image_request i) (Some (nd, surf)) (creation_uses i nd surf) log0)
      (build_swapchain_window_create ext i).
Proof. unfold build_swapchain_window_create. repeat inv_step3. Qed.

Lemma resizer_create_uses i old nd surf log0 :
  inv (sinv (window_image_request i) (Some (nd, surf)) (creation_uses i nd surf) log0)
      (resizer_create ext i old).
Proof. unfold resizer_create. repeat inv_step3. Qed.

(** The defaulting step in front of both creations. *)
Lemma default_image_count_step i d surf P log0 ws :
  desired_img_count ws = d ->
  hoare (sinv (W := W) (window_image_request i) (Some (d, surf)) P log0)
    (if desired_img_count ws =? 0
     then modify_window i (set_desired_img_count 2) else mret tt)
    (fun _ => sinv (window_image_request i) (Some (norm_image_count d, surf)) P log0).
Proof.
  intros Hd s [Hg Hlog]. rewrite Hd. unfold norm_image_count.
  destruct (d =? 0).
  - split; [|exact Hlog]. cbn. unfold window_image_request in *. cbn.
    rewrite list_lookup_alter_eq. destruct (windows (st_lahar s) !! i); [|discriminate].
    cbn in *. injection Hg as _ ->. reflexivity.
  - split; assumption.
Qed.

(** First build: whatever [desired_img_count] was, the swapchain of the
    window is created from its normalised value. *)
Lemma build_swapchain_window_uses i d surf log0 :
  hoare (fun s => window_image_request i (st_lahar s) = Some (d, surf) /\ st_log s = log0)
    (build_swapchain_window ext i)
    (fun _ => sinv (window_image_request i) (Some (norm_image_count d, surf))
                (creation_uses i (norm_image_count d) surf) log0).
Proof.
  eapply hoare_conseq with
    (P' := sinv (window_image_request i) (Some (d, surf))
             (creation_uses i (norm_image_count d) surf) log0);
    [|intros s [Hg Hl]; apply sinv_start; [exact Hg|symmetry; exact Hl]
     |intros a s H; exact H].
  unfold build_swapchain_window.
  apply (hoare_bind_learn _ (fun ws => desired_img_count ws = d /\ surface ws = surf));
    [apply get_window_request|].
  intros ws [Hd Hs].
  eapply hoare_bind; [apply default_image_count_step, Hd|].
  intros []. apply create_uses.
Qed.

Lemma default_resizer_body_uses w i d surf log0 (l : Lahar) :
  hoare (sinv (W := W) (window_image_request i) (Some (d, surf))
           (creation_uses i (norm_image_count d) surf) log0)
    (winstate ← get_window i;
     (lahar_window_wait_inactive ext w ;;!
      if (1 <? attachment_count winstate)
         && (match gpu_allocator l with None => true | Some _ => false end)
      then mret LAHAR_ERR_INVALID_STATE else
      resizer_destroy_attachments ext i;;
      call_ ext (vkDestroySwapchainKHR (device l) (swapchain winstate));;
      (if desired_img_count winstate =? 0
       then modify_window i (set_desired_img_count 2) else mret tt);;
      resizer_create ext i (swap_size winstate)))
    (fun _ => logged_since (creation_uses i (norm_image_count d) surf) log0).
Proof.
  apply (hoare_bind_learn _ (fun ws => desired_img_count ws = d /\ surface ws = surf));
    [apply get_window_request|].
  intros ws [Hd Hs].
  apply hoare_on_success.
  { eapply hoare_conseq with (Q' := fun _ => _); [|intros s H; exact H|].
    - assert (H : inv (sinv (W := W) (window_image_request i) (Some (d, surf))
                         (creation_uses i (norm_image_count d) surf) log0)
                    (lahar_window_wait_inactive ext w)) by (repeat inv_step3).
      exact H.
    - intros e s H. cbv beta in H. destruct (e =? LAHAR_ERR_SUCCESS); [exact H|].
      eapply sinv_logged, H. }
  destruct (_ && _).
  { apply hoare_ret. intros s H. eapply sinv_logged, H. }
  apply hoare_bind_inv; [repeat inv_step3|intros []].
  apply hoare_bind_inv; [repeat inv_step3|intros []].
  eapply hoare_bind; [apply default_image_count_step, Hd|intros []].
  eapply hoare_conseq; [apply resizer_create_uses|intros s H; exact H|].
  intros e s H. eapply sinv_logged, H.
Qed.

(** Recreation: the same, whatever path is taken. *)
Lemma default_resizer_uses w i d surf log0 :
  hoare (fun s => lahar_window_state (st_lahar s) w = Some i /\
                  window_image_request i (st_lahar s) = Some (d, surf) /\ st_log s = log0)
    (__lahar_default_resizer ext w)
    (fun _ => logged_since (creation_uses i (norm_image_count d) surf) log0).
Proof.
  intros s (Hi & Hg & Hl). unfold __lahar_default_resizer.
  unfold mbind at 1, M_bind at 1, get_lahar at 1. rewrite Hi.
  apply (default_resizer_body_uses w i d surf log0 (st_lahar s) s).
  apply sinv_start; [exact Hg|symmetry; exact Hl].
Qed.

Lemma creation_uses_normalized i d surf e :
  creation_uses i (norm_image_count d) surf e -> creation_normalized e.
Proof.
  unfold creation_uses, creation_normalized. destruct e.2; auto.
  intros (Hreq & Hs & _). unfold window_image_request in Hreq.
  destruct (windows e.1 !! i) as [ws|] eqn:Hws; [|discriminate].
  cbn in Hreq. injection Hreq as H1 H2. exists i, ws.
  split; [exact Hws|]. split; [congruence|]. rewrite H1. apply norm_image_count_nonzero.
Qed.

(** The whole loop of [__lahar_build_swapchain]. *)
Lemma build_swapchain_normalized log0 :
  inv (logged_since (W := W) creation_normalized log0) (__lahar_build_swapchain ext).
Proof.
  unfold __lahar_build_swapchain. apply inv_bind; [apply inv_get_lahar|intros l].
  apply inv_for_loop. intros i s Hs.
  destruct (windows (st_lahar s) !! i) as [ws|] eqn:Hws.
  - pose proof (build_swapchain_window_uses i (desired_img_count ws) (surface ws) (st_log s) s)
      as H.
    destruct (build_swapchain_window ext i s) as [e s1| |]; [|exact I..].
    apply (logged_since_trans _ _ s); [exact Hs|].
    eapply logged_since_impl; [apply creation_uses_normalized|].
    eapply sinv_logged, H. split; [|reflexivity].
    unfold window_image_request. rewrite Hws. reflexivity.
  - unfold build_swapchain_window, get_window, read_slot. munfold. rewrite Hws. exact I.
Qed.

(** [__lahar_default_resizer], for any window. *)
Lemma default_resizer_normalized w log0 :
  inv (logged_since (W := W) creation_normalized log0) (__lahar_default_resizer ext w).
Proof.
  intros s Hs.
  destruct (lahar_window_state (st_lahar s) w) as [i|] eqn:Hi.
  - destruct (lahar_window_state_Some _ _ _ Hi) as (ws & Hws & _).
    pose proof (default_resizer_uses w i (desired_img_count ws) (surface ws) (st_log s) s)
      as H.
    destruct (__lahar_default_resizer ext w s) as [e s1| |]; [|exact I..].
    apply (logged_since_trans _ _ s); [exact Hs|].
    eapply logged_since_impl; [apply creation_uses_normalized|].
    apply H. split; [exact Hi|]. split; [|reflexivity].
    unfold window_image_request. rewrite Hws. reflexivity.
  - unfold __lahar_default_resizer. munfold. rewrite Hi. exact Hs.
Qed.
End Creation.

(** ** Selection of the physical device *)

Section Selection.
Context {W : Type} (ext : forall c : extCall, W -> reply c * W).
Implicit Types (s : St W).

(** What [__lahar_build_physdev] returns under the default scorer. *)
Lemma build_physdev_default s e s' :
  score_func (st_lahar s) = NULL ->
  __lahar_build_physdev ext s = Ok e s' ->
  e = LAHAR_ERR_VK_ERR \/
  exists devices sa infos sb,
    gather_device_infos ext devices sa = Ok infos sb /\
    let best := pick_best (map __lahar_default_scorer infos) in
    (e = LAHAR_ERR_NO_SUITABLE_DEVICE /\ best = -1) \/
    (e = LAHAR_ERR_SUCCESS /\ 0 <= best /\
     infos !! Z.to_nat best = Some (physdev_info (st_lahar s'))).
Proof.
  intros Hsc. unfold __lahar_build_physdev, __lahar_default_dbgcallback_info.
  unfold read_slot_Z, read_slot, call.
  unfold mbind, M_bind, mret, M_ret, get_lahar, modify, crash.
  rewrite Hsc.
  match goal with |- context [ext ?c ?w0] => destruct (ext c w0) as [[res dev_count] w1] end.
  cbv beta iota. cbn [st_lahar st_world st_log].
  destruct (negb (res =? VK_SUCCESS)); [intros H; leaf H; left; congruence|].
  match goal with |- context [ext ?c ?w0] => destruct (ext c w0) as [[res2 devices] w2] end.
  cbv beta iota. cbn [st_lahar st_world st_log].
  destruct (negb (res2 =? VK_SUCCESS)); [intros H; leaf H; left; congruence|].
  destruct (negb _); [discriminate|].
  match goal with
  | |- context [gather_device_infos ext devices ?sa] =>
      destruct (gather_device_infos ext devices sa) as [infos sb| |] eqn:Hg; [|discriminate..]
  end.
  rewrite score_devices_default.
  intros H. right. eexists devices, _, infos, sb. split; [exact Hg|]. cbv zeta.
  revert H.
  destruct (pick_best (map __lahar_default_scorer infos) =? -1) eqn:Hb.
  { intros H; leaf H. left. split; [congruence|]. apply Z.eqb_eq, Hb. }
  destruct (pick_best (map __lahar_default_scorer infos) <? 0) eqn:Hneg; [discriminate|].
  apply Z.ltb_ge in Hneg.
  destruct (infos !! Z.to_nat (pick_best (map __lahar_default_scorer infos))) as [info|] eqn:Hinfo;
    [|discriminate].
  cbv beta iota.
  destruct (wantvalidation (st_lahar s)).
  - destruct (negb (debug_callback (st_lahar s) =? NULL)).
    all: match goal with |- context [ext ?c ?w0] => destruct (ext c w0) as [r3 w3] end.
    all: cbv beta iota; cbn [st_lahar st_world st_log].
    all: intros H; leaf H; right; subst s'; cbn [st_lahar physdev_info set_physdev_info].
    all: split; [congruence|]; split; [exact Hneg|reflexivity].
  - intros H; leaf H. right. subst s'. cbn [st_lahar physdev_info set_physdev_info].
    split; [congruence|]. split; [exact Hneg|reflexivity].
Qed.
End Selection.

(** The index [pick_best] returns, read on the devices. *)
Lemma pick_best_devices (score : LaharDeviceInfo -> Z) (infos : list LaharDeviceInfo) :
  (pick_best (map score infos) = -1 /\ Forall (fun d => score d <= -1) infos) \/
  (exists k d, pick_best (map score infos) = Z.of_nat k /\ infos !! k = Some d /\
     0 <= score d /\
     forall j dj, infos !! j = Some dj ->
       score dj <= score d /\ ((j < k)%nat -> score dj < score d)).
Proof.
  destruct (pick_best_spec (map score infos)) as [[H F]|(k & sk & Hk & Hl & H0 & F & Hfirst)].
  - left. split; [exact H|]. rewrite Forall_lookup in F. apply Forall_lookup.
    intros j dj Hj. apply (F j). rewrite list_lookup_fmap, Hj. reflexivity.
  - right. rewrite list_lookup_fmap in Hl.
    destruct (infos !! k) as [d|] eqn:Hd; [|discriminate]. cbn in Hl. injection Hl as <-.
    change (list_lookup k infos) with (infos !! k) in Hd.
    exists k, d. split; [exact Hk|]. split; [exact Hd|]. split; [exact H0|].
    intros j dj Hj. split.
    + rewrite Forall_lookup in F. apply (F j). rewrite list_lookup_fmap, Hj. reflexivity.
    + intros Hlt. apply (Hfirst j); [exact Hlt|]. rewrite list_lookup_fmap, Hj. reflexivity.
Qed.

(** ** Further facts on the scorer and the resizer *)

Lemma default_scorer_cases d :
  (__lahar_default_scorer d = -1 /\
   (has_graphics_queue d = false \/ has_present_queue d = false)) \/
  (0 <= __lahar_default_scorer d /\
   has_graphics_queue d = true /\ has_present_queue d = true).
Proof.
  destruct (has_graphics_queue d) eqn:Hg; [destruct (has_present_queue d) eqn:Hp|].
  - right. rewrite default_scorer_sum by assumption.
    pose proof (type_bonus_range d). pose proof (shared_queue_bonus_range d).
    pose proof (memory_bonus_range d). split; [lia|auto].
  - left. split; [apply default_scorer_disqualified|]; auto.
  - left. split; [apply default_scorer_disqualified|]; auto.
Qed.

Lemma remap_memory_whole_GiB k :
  (k <= 1024)%nat ->
  10 * Z.of_nat k - 1 <= remap_memory (Z.of_nat k * 2 ^ 30) <= 10 * Z.of_nat k.
Proof.
  intros Hk.
  assert (H : forallb (fun k => (10 * Z.of_nat k - 1 <=? remap_memory (Z.of_nat k * 2 ^ 30))
                                && (remap_memory (Z.of_nat k * 2 ^ 30) <=? 10 * Z.of_nat k))
                (seq 0 1025) = true) by (vm_compute; reflexivity).
  rewrite forallb_forall in H. specialize (H k).
  assert (Hin : In k (seq 0 1025)) by (apply in_seq; lia).
  apply H in Hin. apply andb_true_iff in Hin. destruct Hin as [H1 H2].
  apply Z.leb_le in H1, H2. lia.
Qed.

Section Departures.
Context {W : Type} (ext : forall c : extCall, W -> reply c * W).
Implicit Types (s : St W).

(** With more than one attachment and no allocator the default resizer
    stops right after the wait. *)
Lemma default_resizer_without_allocator s w i ws e s' :
  lahar_window_state (st_lahar s) w = Some i -> windows (st_lahar s) !! i = Some ws ->
  1 < attachment_count ws -> gpu_allocator (st_lahar s) = None ->
  __lahar_default_resizer ext w s = Ok e s' ->
  e = LAHAR_ERR_INVALID_STATE \/ e = LAHAR_ERR_VK_ERR.
Proof.
  intros Hi Hws Hc Ha. unfold __lahar_default_resizer, lahar_window_wait_inactive.
  munfold. cbv beta iota zeta. rewrite Hi. cbv beta iota. rewrite Hws. cbv beta iota.
  rewrite Hi. cbv beta iota. rewrite Hws. cbv beta iota.
  rewrite Ha. apply Z.ltb_lt in Hc. rewrite Hc. cbn [andb].
  mrun.
  all: try discriminate.
  all: intros H; leaf H; subst; auto.
Qed.

(** Whenever a transition changes the state, it logged one barrier, built
    from the stored layout alone on both sides. *)
Lemma transition_records s w idx lay cmd e s1 :
  lahar_window_attachment_transition ext w idx lay cmd s = Ok e s1 -> s1 <> s ->
  exists att conf fmt,
    current_attachment (st_lahar s) w idx = Some att /\ layout att <> lay /\
    st_log s1 =
      st_log s ++
      [(st_lahar s,
        vkCmdPipelineBarrier cmd (__lahar_pipeline_stage (layout att))
          (__lahar_pipeline_stage (layout att)) 0
          (transition_barrier att conf fmt lay))].
Proof.
  intros H Hne.
  destruct (transition_cases ext s w idx lay cmd e s1 H)
    as [[-> _]|(_ & _ & _ & i & ws & row & att & conf & w' & Hi & Hws & _ & _ &
                Hrow & Hatt & _ & Hlay & ->)]; [contradiction|].
  exists att, conf, (sf_format (surface_format ws)).
  split; [|split; [exact Hlay|reflexivity]].
  rewrite (current_attachment_unfold _ _ _ _ _ Hi Hws), Hrow. cbn. exact Hatt.
Qed.
End Departures.

(* ------------------------------------------------------------------ *)
(** * Main results *)

Section FrameResults.
Context {W : Type} (ext : forall c : extCall, W -> reply c * W).
Implicit Types (s : St W).

(** C4.  For a registered window [w] (a non-NULL handle that
    [lahar_window_state] finds, with state [ws]): while the frame phase is
    BEGIN or PRESENT, [lahar_window_submit] with any command buffer and
    [lahar_window_submit_all] with any non-NULL array and non-zero count
    return [LAHAR_ERR_INVALID_FRAME_STATE]; while the phase is DRAW,
    [lahar_window_present] returns [LAHAR_ERR_NO_COMMAND_BUFFER]; while it is
    BEGIN, [lahar_window_present] returns [LAHAR_ERR_INVALID_FRAME_STATE].
    Each of these calls returns, and leaves the state as it was. *)
Theorem frame_phase_errors s w i ws :
  w <> NULL ->
  lahar_window_state (st_lahar s) w = Some i ->
  windows (st_lahar s) !! i = Some ws ->
  (frame_phase ws = LAHAR_FRAME_PHASE_BEGIN \/ frame_phase ws = LAHAR_FRAME_PHASE_PRESENT ->
   (forall cmd, lahar_window_submit ext w cmd s = Ok LAHAR_ERR_INVALID_FRAME_STATE s) /\
   (forall cmds n, n <> 0 ->
      lahar_window_submit_all ext w (Some cmds) n s = Ok LAHAR_ERR_INVALID_FRAME_STATE s)) /\
  (frame_phase ws = LAHAR_FRAME_PHASE_DRAW ->
   lahar_window_present ext w s = Ok LAHAR_ERR_NO_COMMAND_BUFFER s) /\
  (frame_phase ws = LAHAR_FRAME_PHASE_BEGIN ->
   lahar_window_present ext w s = Ok LAHAR_ERR_INVALID_FRAME_STATE s).
Proof.
  intros Hw Hi Hws. split; [|split].
  - intros Hph.
    assert (Hnd : frame_phase ws <> LAHAR_FRAME_PHASE_DRAW)
      by (destruct Hph as [-> | ->]; discriminate).
    split.
    + intros cmd. unfold lahar_window_submit.
      apply (submit_all_guard ext s w i ws); auto.
    + intros cmds n Hn. apply (submit_all_guard ext s w i ws); auto.
  - intros Hph. rewrite (present_guard ext s w i ws Hi Hws), Hph. reflexivity.
  - intros Hph. rewrite (present_guard ext s w i ws Hi Hws), Hph. reflexivity.
Qed.

(** C5.  For a registered window in phase BEGIN with flight index [f]
    (a [uint32_t] below its maximum): when [lahar_window_frame_begin]
    succeeds, then a submit succeeds, then [lahar_window_present] succeeds,
    the window is in phase BEGIN again, its flight index is
    [(f + 1) mod max_in_flight], and [max_in_flight] is what it was.  The
    begin is one whose image acquisition succeeded at once ([fuel <= 1]:
    no swapchain recreation), or any successful one of a window recreated
    by the default resizer. *)
Theorem frame_cycle fuel s w i ws cmds n s1 s2 s3 :
  lahar_window_state (st_lahar s) w = Some i ->
  windows (st_lahar s) !! i = Some ws ->
  frame_phase ws = LAHAR_FRAME_PHASE_BEGIN ->
  (fuel <= 1)%nat \/ resize_callback ws = NULL ->
  flight_index ws + 1 < 2 ^ 32 ->
  lahar_window_frame_begin ext fuel w s = Ok LAHAR_ERR_SUCCESS s1 ->
  lahar_window_submit_all ext w cmds n s1 = Ok LAHAR_ERR_SUCCESS s2 ->
  lahar_window_present ext w s2 = Ok LAHAR_ERR_SUCCESS s3 ->
  exists ws3,
    lahar_window_state (st_lahar s3) w = Some i /\
    windows (st_lahar s3) !! i = Some ws3 /\
    frame_phase ws3 = LAHAR_FRAME_PHASE_BEGIN /\
    flight_index ws3 = (flight_index ws + 1) mod max_in_flight ws /\
    max_in_flight ws3 = max_in_flight ws.
Proof.
  intros Hi Hws _ Hcb Hf Hb Hs Hp.
  destruct (frame_begin_success ext fuel s w i ws s1 Hi Hws Hcb Hb)
    as (_ & Hf0 & Hi1 & ws1 & Hws1 & _ & Hfl1 & Hm1 & _).
  destruct (submit_all_success ext s1 w cmds n s2 i ws1 Hi1 Hws1 Hs) as (_ & Hi2 & Hws2).
  destruct (present_success ext s2 w s3 i _ Hi2 Hws2 Hp) as (_ & _ & Hi3 & Hws3).
  eexists. split; [exact Hi3|]. split; [exact Hws3|].
  cbn [frame_phase flight_index max_in_flight set_frame_phase set_flight_index].
  rewrite Hfl1, Hm1. unfold wrap32.
  rewrite (Z.mod_small (flight_index ws + 1) (2 ^ 32)) by lia. auto.
Qed.

(** C10.  The guards of the three frame operations leave the whole state,
    and so the [frame_phase], [flight_index] and [frame_index] of every
    window, as it was.  [lahar_window_frame_begin] called with a NULL
    window, an unknown window, or a window whose phase is not BEGIN returns
    [LAHAR_ERR_ILLEGAL_PARAMS], [LAHAR_ERR_INVALID_WINDOW],
    [LAHAR_ERR_INVALID_FRAME_STATE] in the state it was called in; and
    whenever [lahar_window_submit_all] or [lahar_window_present] returns
    one of the four guard codes, the state is the one it was called in.
    The same holds by code for [lahar_window_frame_begin] when the window
    does not recreate its swapchain by itself; with automatic recreation
    the codes of the recreation callbacks are passed on as they are. *)
Theorem guard_errors_keep_state s w :
  (forall fuel, w = NULL ->
     lahar_window_frame_begin ext (S fuel) w s = Ok LAHAR_ERR_ILLEGAL_PARAMS s) /\
  (forall fuel, w <> NULL -> lahar_window_state (st_lahar s) w = None ->
     lahar_window_frame_begin ext (S fuel) w s = Ok LAHAR_ERR_INVALID_WINDOW s) /\
  (forall fuel i ws, w <> NULL ->
     lahar_window_state (st_lahar s) w = Some i -> windows (st_lahar s) !! i = Some ws ->
     frame_phase ws <> LAHAR_FRAME_PHASE_BEGIN ->
     lahar_window_frame_begin ext (S fuel) w s = Ok LAHAR_ERR_INVALID_FRAME_STATE s) /\
  (forall cmds n e s',
     lahar_window_submit_all ext w cmds n s = Ok e s' -> guard_code e -> s' = s) /\
  (forall e s', lahar_window_present ext w s = Ok e s' -> guard_code e -> s' = s) /\
  (forall fuel e s',
     (forall i ws, lahar_window_state (st_lahar s) w = Some i ->
                   windows (st_lahar s) !! i = Some ws -> auto_recreate_swap ws = false) ->
     lahar_window_frame_begin ext fuel w s = Ok e s' -> guard_code e -> s' = s).
Proof.
  repeat split.
  - intros fuel ->. apply frame_begin_null.
  - intros fuel Hw Hi. apply frame_begin_unknown; assumption.
  - intros fuel i ws Hw Hi Hws Hph. apply (frame_begin_wrong_phase ext fuel s w i ws); assumption.
  - intros cmds n e s' H Hc. apply (submit_all_by_code ext s w cmds n e s' H Hc).
  - intros e s' H Hc. apply (present_by_code ext s w e s' H Hc).
  - intros fuel e s' Hauto H Hc. apply (frame_begin_by_code ext fuel s w e s' Hauto H Hc).
Qed.

(** C9.  Two calls of [lahar_window_attachment_transition] in a row with
    the same arguments: when the first one returns [e] in state [s1], the
    second one returns [e] too and leaves [s1] as it is, log included (no
    barrier, no update).  The first one either changed nothing (it failed,
    or the stored layout was the target already), or it succeeded after
    logging exactly one [vkCmdPipelineBarrier] and setting the stored
    layout of the attachment instance of the current frame to the target. *)
Theorem transition_idempotent s w idx lay cmd e s1 :
  lahar_window_attachment_transition ext w idx lay cmd s = Ok e s1 ->
  lahar_window_attachment_transition ext w idx lay cmd s1 = Ok e s1 /\
  ((s1 = s /\
    (e <> LAHAR_ERR_SUCCESS \/
     exists att, current_attachment (st_lahar s) w idx = Some att /\ layout att = lay)) \/
   (e = LAHAR_ERR_SUCCESS /\
    exists att conf fmt,
      current_attachment (st_lahar s) w idx = Some att /\ layout att <> lay /\
      current_attachment (st_lahar s1) w idx = Some (set_layout lay att) /\
      st_log s1 =
        st_log s ++
        [(st_lahar s,
          vkCmdPipelineBarrier cmd (__lahar_pipeline_stage (layout att))
            (__lahar_pipeline_stage (layout att)) 0
            (transition_barrier att conf fmt lay))])).
Proof.
  intros H.
  destruct (transition_cases ext s w idx lay cmd e s1 H)
    as [[-> Hc]|(-> & Hw & Hcmd & i & ws & row & att & conf & w' & Hi & Hws & Hidx & Hfi &
                 Hrow & Hatt & Hconf & Hlay & ->)].
  - split; [exact H|]. left. split; [reflexivity|exact Hc].
  - destruct (transition_second ext s w idx lay cmd i ws row att w'
                (st_log s ++
                 [(st_lahar s,
                   vkCmdPipelineBarrier cmd (__lahar_pipeline_stage (layout att))
                     (__lahar_pipeline_stage (layout att)) 0
                     (transition_barrier att conf (sf_format (surface_format ws)) lay))])
                Hw Hcmd Hi Hws Hidx Hfi Hrow Hatt) as [H2 Hcur].
    split; [exact H2|]. right. split; [reflexivity|].
    exists att, conf, (sf_format (surface_format ws)).
    split; [|split; [exact Hlay|split; [exact Hcur|reflexivity]]].
    rewrite (current_attachment_unfold _ _ _ _ _ Hi Hws), Hrow. cbn. exact Hatt.
Qed.
End FrameResults.

(** The guards on the example session: a built window (phase BEGIN), the
    same window after a begin (DRAW) and after a submit (PRESENT). *)
Lemma frame_phase_errors_witness :
  (forall cmd,
     lahar_window_submit sim_ext example_window cmd example_built =
     Ok LAHAR_ERR_INVALID_FRAME_STATE example_built) /\
  lahar_window_present sim_ext example_window example_built =
    Ok LAHAR_ERR_INVALID_FRAME_STATE example_built /\
  lahar_window_present sim_ext example_window example_drawing =
    Ok LAHAR_ERR_NO_COMMAND_BUFFER example_drawing /\
  (forall cmds n, n <> 0 ->
     lahar_window_submit_all sim_ext example_window (Some cmds) n example_submitted =
     Ok LAHAR_ERR_INVALID_FRAME_STATE example_submitted).
Proof.
  assert (Hw : example_window <> NULL) by (unfold example_window, NULL; lia).
  destruct (frame_phase_errors sim_ext example_built example_window 0%nat
              (first_window example_built) Hw eq_refl eq_refl) as (Hb1 & _ & Hb3).
  destruct (frame_phase_errors sim_ext example_drawing example_window 0%nat
              (first_window example_drawing) Hw eq_refl eq_refl) as (_ & Hd2 & _).
  destruct (frame_phase_errors sim_ext example_submitted example_window 0%nat
              (first_window example_submitted) Hw eq_refl eq_refl) as (Hs1 & _ & _).
  split; [exact (proj1 (Hb1 (or_introl eq_refl)))|].
  split; [exact (Hb3 eq_refl)|].
  split; [exact (Hd2 eq_refl)|].
  exact (proj2 (Hs1 (or_intror eq_refl))).
Defined.

(** One frame of the example session: the flight index goes from 0 to 1 of 2. *)
Lemma frame_cycle_witness :
  exists ws3,
    lahar_window_state (st_lahar example_presented) example_window = Some 0%nat /\
    windows (st_lahar example_presented) !! 0%nat = Some ws3 /\
    frame_phase ws3 = LAHAR_FRAME_PHASE_BEGIN /\
    flight_index ws3 =
      (flight_index (first_window example_built) + 1) mod
      max_in_flight (first_window example_built) /\
    max_in_flight ws3 = max_in_flight (first_window example_built).
Proof.
  apply (frame_cycle sim_ext 1 example_built example_window 0%nat (first_window example_built)
           (Some [example_cmd]) 1 example_drawing example_submitted example_presented).
  - reflexivity.
  - reflexivity.
  - reflexivity.
  - left. lia.
  - vm_compute. reflexivity.
  - reflexivity.
  - reflexivity.
  - reflexivity.
Defined.

(** The guarded errors on the example session. *)
Lemma guard_errors_keep_state_witness :
  lahar_window_frame_begin sim_ext 1 NULL example_built =
    Ok LAHAR_ERR_ILLEGAL_PARAMS example_built /\
  lahar_window_frame_begin sim_ext 1 8 example_built =
    Ok LAHAR_ERR_INVALID_WINDOW example_built /\
  lahar_window_frame_begin sim_ext 1 example_window example_drawing =
    Ok LAHAR_ERR_INVALID_FRAME_STATE example_drawing /\
  state_after (lahar_window_present sim_ext example_window) example_drawing = example_drawing /\
  state_after (lahar_window_submit_all sim_ext example_window None 1) example_built =
    example_built.
Proof.
  destruct (guard_errors_keep_state sim_ext example_built NULL) as (H1 & _).
  destruct (guard_errors_keep_state sim_ext example_built 8) as (_ & H2 & _).
  destruct (guard_errors_keep_state sim_ext example_drawing example_window)
    as (_ & _ & H3 & _ & H5 & _).
  destruct (guard_errors_keep_state sim_ext example_built example_window)
    as (_ & _ & _ & H4 & _).
  split; [exact (H1 0%nat eq_refl)|].
  split; [apply (H2 0%nat); [unfold NULL; lia|reflexivity]|].
  split.
  { apply (H3 0%nat 0%nat (first_window example_drawing));
      [unfold example_window, NULL; lia|reflexivity|reflexivity|discriminate]. }
  split.
  - apply (H5 LAHAR_ERR_NO_COMMAND_BUFFER); [reflexivity|right; left; reflexivity].
  - apply (H4 None 1 LAHAR_ERR_ILLEGAL_PARAMS); [reflexivity|right; right; right; reflexivity].
Defined.

(** The colour attachment of the example session, taken to
    [VK_IMAGE_LAYOUT_COLOR_ATTACHMENT_OPTIMAL] twice. *)
Lemma transition_idempotent_witness :
  lahar_window_attachment_transition sim_ext example_window 0
    VK_IMAGE_LAYOUT_COLOR_ATTACHMENT_OPTIMAL example_cmd example_transitioned =
  Ok LAHAR_ERR_SUCCESS example_transitioned /\
  example_transitioned <> example_drawing.
Proof.
  split.
  - apply (transition_idempotent sim_ext example_drawing example_window 0
             VK_IMAGE_LAYOUT_COLOR_ATTACHMENT_OPTIMAL example_cmd LAHAR_ERR_SUCCESS
             example_transitioned).
    reflexivity.
  - intros H. apply (f_equal (fun s => length (st_log s))) in H. vm_compute in H.
    discriminate H.
Defined.

(** C7.  Registration stores [max_in_flight] and [desired_img_count] with 0
    replaced by 2, in a window appended to the others.  The other builder
    functions leave the windows alone, and the steps of [lahar_build] in
    front of [__lahar_build_sync] keep the [max_in_flight] of every window,
    so that it is 2 when synchronisation objects are created if the caller
    left it unset.  Every [vkCreateSwapchainKHR] made
    for the window at index [i] by the first build or by the default
    resizer is made while [desired_img_count] holds the normalised value
    (never 0) and requests the clamp of that value, whatever the count was
    when the function was entered. *)
Theorem counts_default_to_two (W : Type) (ext : forall c : extCall, W -> reply c * W) :
  (forall (s : St W) w conf s',
     lahar_builder_window_register_ex ext w (Some conf) s = Ok LAHAR_ERR_SUCCESS s' ->
     exists ws,
       windows (st_lahar s') = windows (st_lahar s) ++ [ws] /\ window ws = w /\
       max_in_flight ws = (if wc_max_in_flight conf =? 0 then 2 else wc_max_in_flight conf) /\
       desired_img_count ws = norm_image_count (wc_desired_swap_size conf)) /\
  (forall (s : St W),
     lahar_build ext s =
     (err ← (build_until_sync ext ;;! __lahar_build_sync ext);
      (if negb (err =? LAHAR_ERR_SUCCESS) then lahar_deinit ext else mret tt);;
      mret err) s) /\
  (forall k log0,
     inv (sinv (W := W) max_in_flight_key k (fun _ => True) log0) (build_until_sync ext)) /\
  (forall i d surf log0,
     hoare (fun s : St W =>
              window_image_request i (st_lahar s) = Some (d, surf) /\ st_log s = log0)
       (build_swapchain_window ext i)
       (fun _ => sinv (window_image_request i) (Some (norm_image_count d, surf))
                   (creation_uses i (norm_image_count d) surf) log0)) /\
  (forall w i d surf log0,
     hoare (fun s : St W =>
              lahar_window_state (st_lahar s) w = Some i /\
              window_image_request i (st_lahar s) = Some (d, surf) /\ st_log s = log0)
       (__lahar_default_resizer ext w)
       (fun _ => logged_since (creation_uses i (norm_image_count d) surf) log0)) /\
  (forall log0,
     inv (logged_since (W := W) creation_normalized log0) (__lahar_build_swapchain ext)) /\
  (forall w log0,
     inv (logged_since (W := W) creation_normalized log0) (__lahar_default_resizer ext w)) /\
  (forall d, norm_image_count d = (if d =? 0 then 2 else d) /\ norm_image_count d <> 0) /\
  (forall k log0,
     let I := sinv (W := W) windows k (fun _ => True) log0 in
     (forall a, inv I (lahar_builder_allocator_set a)) /\
     (forall v, inv I (lahar_builder_set_vulkan_version v)) /\
     inv I lahar_builder_request_validation_layers /\
     (forall e, inv I (lahar_builder_extension_add_required_instance ext e)) /\
     (forall e, inv I (lahar_builder_extension_add_required_device ext e)) /\
     (forall e, inv I (lahar_builder_extension_add_optional_instance ext e)) /\
     (forall e, inv I (lahar_builder_extension_add_optional_device ext e)) /\
     (forall c, inv I (lahar_builder_set_debug_callback c)) /\
     (forall n, inv I (lahar_builder_device_use ext n)) /\
     (forall f, inv I (lahar_builder_device_set_scoring f)) /\
     inv I lahar_builder_request_command_buffers).
Proof.
  split.
  { intros s w conf s' H.
    destruct (register_ex_success ext s w conf s' H) as (ws & H1 & H2 & H3 & H4 & _).
    exists ws. auto. }
  split; [exact (lahar_build_split ext)|].
  split; [exact (build_prefix_max_in_flight ext)|].
  split; [exact (build_swapchain_window_uses ext)|].
  split; [exact (default_resizer_uses ext)|].
  split; [exact (build_swapchain_normalized ext)|].
  split; [exact (default_resizer_normalized ext)|].
  split; [intros d; split; [reflexivity|apply norm_image_count_nonzero]|].
  exact (builder_keeps_windows ext).
Qed.

(** The example session: registration with both counts unset, the build up
    to the synchronisation objects, and the swapchain loop. *)
Lemma counts_default_to_two_witness :
  (exists ws,
     windows (st_lahar example_registered) = windows (st_lahar example_inited) ++ [ws] /\
     max_in_flight ws = 2 /\ desired_img_count ws = 2) /\
  max_in_flight_key (st_lahar (state_after (build_until_sync sim_ext) example_registered)) = [2] /\
  logged_since creation_normalized (st_log example_before_swapchain)
    (state_after (__lahar_build_swapchain sim_ext) example_before_swapchain) /\
  result_of (__lahar_build_swapchain sim_ext) example_before_swapchain = Some LAHAR_ERR_SUCCESS.
Proof.
  destruct (counts_default_to_two SimWorld sim_ext) as (Ha & _ & Hc & _ & _ & Hf & _).
  split; [|split; [|split]].
  - destruct (Ha example_inited example_window example_config example_registered eq_refl)
      as (ws & H1 & _ & H2 & H3).
    exists ws. split; [exact H1|]. split; [exact H2|exact H3].
  - pose proof (Hc [2] [] example_registered) as H.
    unfold state_after.
    destruct (build_until_sync sim_ext example_registered) as [e s1| |] eqn:E;
      [|vm_compute in E; discriminate E..].
    apply H. split; [reflexivity|]. exists (st_log example_registered).
    split; [reflexivity|]. apply Forall_forall. intros; exact I.
  - pose proof (Hf (st_log example_before_swapchain) example_before_swapchain) as H.
    unfold state_after.
    destruct (__lahar_build_swapchain sim_ext example_before_swapchain) as [e s1| |] eqn:E;
      [|vm_compute in E; discriminate E..].
    apply H. exists []. split; [symmetry; apply app_nil_r|constructor].
  - vm_compute. reflexivity.
Defined.

(** C1.  [lahar_build] does not read the pinned device name.  On a machine
    with the devices "Integrated B", "Discrete A" and "CPU C", a build with
    "Integrated B" pinned succeeds and selects "Discrete A"; a build with a
    name that no device has succeeds too, where
    [LAHAR_ERR_NO_SUITABLE_DEVICE] is promised. *)
Theorem device_pin_is_ignored :
  result_of (pinned_session "Integrated B") sim_state0 = Some LAHAR_ERR_SUCCESS /\
  device_name (st_lahar (state_after (pinned_session "Integrated B") sim_state0)) =
    Some "Integrated B"%string /\
  deviceName (properties (physdev_info
    (st_lahar (state_after (pinned_session "Integrated B") sim_state0)))) =
    "Discrete A"%string /\
  result_of (pinned_session "No such device") sim_state0 = Some LAHAR_ERR_SUCCESS /\
  deviceName (properties (physdev_info
    (st_lahar (state_after (pinned_session "No such device") sim_state0)))) =
    "Discrete A"%string.
Proof. vm_compute. repeat split; reflexivity. Qed.

(** C2.  A window with a depth attachment and no allocator: [lahar_build]
    fails in [__lahar_build_swapchain] with
    [LAHAR_ERR_INVALID_CONFIGURATION], and [__lahar_default_resizer] fails
    with [LAHAR_ERR_INVALID_STATE]; neither is
    [LAHAR_ERR_ATTACHMENT_WO_ALLOCATOR].  On any machine, the default
    resizer called for such a window returns [LAHAR_ERR_INVALID_STATE], or
    [LAHAR_ERR_VK_ERR] when the wait for the fences failed. *)
Theorem missing_allocator_codes :
  result_of depth_session sim_state0 = Some LAHAR_ERR_INVALID_CONFIGURATION /\
  result_of depth_session_with_allocator sim_state0 = Some LAHAR_ERR_SUCCESS /\
  (attachment_count <$> windows (st_lahar example_depth_no_allocator) !! 0%nat) = Some 2 /\
  gpu_allocator (st_lahar example_depth_no_allocator) = None /\
  result_of (__lahar_default_resizer sim_ext example_window) example_depth_no_allocator =
    Some LAHAR_ERR_INVALID_STATE /\
  LAHAR_ERR_INVALID_CONFIGURATION <> LAHAR_ERR_ATTACHMENT_WO_ALLOCATOR /\
  LAHAR_ERR_INVALID_STATE <> LAHAR_ERR_ATTACHMENT_WO_ALLOCATOR /\
  LAHAR_ERR_VK_ERR <> LAHAR_ERR_ATTACHMENT_WO_ALLOCATOR /\
  (forall (W : Type) (ext : forall c : extCall, W -> reply c * W) (s : St W) w i ws e s',
     lahar_window_state (st_lahar s) w = Some i -> windows (st_lahar s) !! i = Some ws ->
     1 < attachment_count ws -> gpu_allocator (st_lahar s) = None ->
     __lahar_default_resizer ext w s = Ok e s' ->
     e = LAHAR_ERR_INVALID_STATE \/ e = LAHAR_ERR_VK_ERR).
Proof.
  split; [vm_compute; reflexivity|]. split; [vm_compute; reflexivity|].
  split; [vm_compute; reflexivity|]. split; [vm_compute; reflexivity|].
  split; [vm_compute; reflexivity|].
  split; [unfold LAHAR_ERR_INVALID_CONFIGURATION, LAHAR_ERR_ATTACHMENT_WO_ALLOCATOR; lia|].
  split; [unfold LAHAR_ERR_INVALID_STATE, LAHAR_ERR_ATTACHMENT_WO_ALLOCATOR; lia|].
  split; [unfold LAHAR_ERR_VK_ERR, LAHAR_ERR_ATTACHMENT_WO_ALLOCATOR; lia|].
  intros W ext s w i ws e s'. apply default_resizer_without_allocator.
Qed.

(** C3.  The barrier recorded for the transition of the colour attachment
    from [VK_IMAGE_LAYOUT_UNDEFINED] to
    [VK_IMAGE_LAYOUT_COLOR_ATTACHMENT_OPTIMAL] has the destination access
    mask and the destination stage of the old layout (0 and
    [VK_PIPELINE_STAGE_TOP_OF_PIPE_BIT]), not those of the target (0x180 and
    [VK_PIPELINE_STAGE_COLOR_ATTACHMENT_OUTPUT_BIT]).  On any machine, a
    transition that changes the state logs a barrier whose four masks and
    stages are all looked up from the stored layout. *)
Theorem transition_destination_from_old_layout :
  (forall (W : Type) (ext : forall c : extCall, W -> reply c * W) (s : St W)
          w idx lay cmd e s1,
     lahar_window_attachment_transition ext w idx lay cmd s = Ok e s1 -> s1 <> s ->
     exists att conf fmt,
       current_attachment (st_lahar s) w idx = Some att /\ layout att <> lay /\
       st_log s1 =
         st_log s ++
         [(st_lahar s,
           vkCmdPipelineBarrier cmd (__lahar_pipeline_stage (layout att))
             (__lahar_pipeline_stage (layout att)) 0
             (transition_barrier att conf fmt lay))] /\
       dstAccessMask (transition_barrier att conf fmt lay) =
         __lahar_access_mask (layout att)) /\
  exists att conf fmt,
    current_attachment (st_lahar example_drawing) example_window 0 = Some att /\
    layout att = VK_IMAGE_LAYOUT_UNDEFINED /\
    last_call example_transitioned =
      Some (vkCmdPipelineBarrier example_cmd
              (__lahar_pipeline_stage VK_IMAGE_LAYOUT_UNDEFINED)
              (__lahar_pipeline_stage VK_IMAGE_LAYOUT_UNDEFINED) 0
              (transition_barrier att conf fmt VK_IMAGE_LAYOUT_COLOR_ATTACHMENT_OPTIMAL)) /\
    dstAccessMask (transition_barrier att conf fmt VK_IMAGE_LAYOUT_COLOR_ATTACHMENT_OPTIMAL) =
      0 /\
    __lahar_access_mask VK_IMAGE_LAYOUT_COLOR_ATTACHMENT_OPTIMAL = 0x180 /\
    __lahar_pipeline_stage VK_IMAGE_LAYOUT_UNDEFINED = VK_PIPELINE_STAGE_TOP_OF_PIPE_BIT /\
    __lahar_pipeline_stage VK_IMAGE_LAYOUT_COLOR_ATTACHMENT_OPTIMAL =
      VK_PIPELINE_STAGE_COLOR_ATTACHMENT_OUTPUT_BIT.
Proof.
  split.
  { intros W ext s w idx lay cmd e s1 H Hne.
    destruct (transition_records ext s w idx lay cmd e s1 H Hne)
      as (att & conf & fmt & H1 & H2 & H3).
    exists att, conf, fmt. auto. }
  eexists _, attachment_config_zero, VK_FORMAT_B8G8R8A8_SRGB.
  split; [vm_compute; reflexivity|]. vm_compute. repeat split; reflexivity.
Qed.

(** C8.  After a successful build that asked for the optional device
    extensions "VK_KHR_ray_query" and "VK_KHR_multiview" and the required
    ones "VK_KHR_maintenance1" and "VK_KHR_multiview": the device was
    created with [VK_KHR_swapchain] alone, no granted flag was set, and
    [lahar_extension_has_device] answers false for both optional names,
    the one that is required as well included.  On any machine, a
    successful [lahar_build] leaves the extension tables, granted flags
    included, as they were. *)
Theorem optional_device_extensions_never_granted :
  result_of extension_session sim_state0 = Some LAHAR_ERR_SUCCESS /\
  opt_dev_exts (extensions (st_lahar example_extensions_built)) =
    ["VK_KHR_ray_query"; "VK_KHR_multiview"]%string /\
  opt_dev_exts_present (extensions (st_lahar example_extensions_built)) = [false; false] /\
  lahar_extension_has_device (st_lahar example_extensions_built)
    (Some "VK_KHR_ray_query"%string) = false /\
  lahar_extension_has_device (st_lahar example_extensions_built)
    (Some "VK_KHR_multiview"%string) = false /\
  lahar_extension_has_device (st_lahar example_extensions_built)
    (Some "VK_KHR_maintenance1"%string) = true /\
  device_creations (st_log example_extensions_built) = [[VK_KHR_SWAPCHAIN_EXTENSION_NAME]] /\
  (forall (W : Type) (ext : forall c : extCall, W -> reply c * W) (s s' : St W),
     lahar_build ext s = Ok LAHAR_ERR_SUCCESS s' ->
     extensions (st_lahar s') = extensions (st_lahar s)).
Proof.
  split; [vm_compute; reflexivity|]. split; [vm_compute; reflexivity|].
  split; [vm_compute; reflexivity|]. split; [vm_compute; reflexivity|].
  split; [vm_compute; reflexivity|]. split; [vm_compute; reflexivity|].
  split; [vm_compute; reflexivity|].
  intros W ext s s'. apply lahar_build_extensions.
Qed.

(* ------------------------------------------------------------------ *)
(** * Further properties *)

(** ** Error names *)

(** X1.  [lahar_err_name] gives the sixteen error codes of the header
    sixteen different names, from which the code can be read back, and
    gives ["LAHAR_UNKNOWN_ERROR"], which is none of them, to every other
    number and to no code. *)
Theorem lahar_err_name_round_trip code :
  (In code lahar_error_codes ->
   lahar_err_code (lahar_err_name code) = Some code /\
   lahar_err_name code <> "LAHAR_UNKNOWN_ERROR"%string) /\
  (~ In code lahar_error_codes -> lahar_err_name code = "LAHAR_UNKNOWN_ERROR"%string) /\
  NoDup (map lahar_err_name lahar_error_codes).
Proof.
  split; [|split].
  - intros Hin. unfold lahar_error_codes in Hin. cbn [In] in Hin.
    repeat (destruct Hin as [<-|Hin]; [split; [vm_compute; reflexivity|discriminate]|]).
    destruct Hin.
  - intros Hnot. unfold lahar_err_name.
    repeat match goal with
    | |- context [?a =? ?b] =>
        destruct (Z.eqb_spec a b) as [->|_];
        [exfalso; apply Hnot; unfold lahar_error_codes; cbn [In]; tauto|]
    end.
    reflexivity.
  - apply NoDup_ListNoDup. vm_compute.
    repeat (constructor; [cbn [In]; intros H;
              repeat (destruct H as [H|H]; [discriminate H|]); exact H|]).
    constructor.
Qed.

Lemma lahar_err_name_round_trip_witness :
  lahar_err_code (lahar_err_name LAHAR_ERR_VK_ERR) = Some LAHAR_ERR_VK_ERR /\
  lahar_err_name 77 = "LAHAR_UNKNOWN_ERROR"%string.
Proof.
  split.
  - apply (lahar_err_name_round_trip LAHAR_ERR_VK_ERR). vm_compute. tauto.
  - apply (lahar_err_name_round_trip 77). vm_compute. intuition discriminate.
Defined.

(** ** The scratch arena *)

Lemma arena_zero_ok : arena_ok arena_zero.
Proof.
  unfold arena_ok, arena_zero, LAHAR_M_ARENA_SIZE, LAHAR_M_CHECK_CT. cbn.
  repeat split; try lia.
Qed.

Lemma lahar_temp_alloc_Some n a p a' :
  arena_ok a -> 0 <= n -> lahar_temp_alloc n a = Some (p, a') ->
  p = __mpos a /\ __mpos a' = __mpos a + n /\ __mcheck a' = __mcheck a /\
  __mchkct a' = __mchkct a /\ arena_ok a'.
Proof.
  intros (Hp & Hc & Hl & Hk & Hs) Hn.
  unfold lahar_temp_alloc, wrap64, LAHAR_M_ARENA_SIZE in *.
  rewrite (Z.mod_small (32768 - __mpos a)) by lia.
  destruct (n <=? 32768 - __mpos a) eqn:E; [|discriminate]. apply Z.leb_le in E.
  cbn [negb]. intros [= <- <-]. unfold arena_ok, LAHAR_M_ARENA_SIZE. cbn.
  rewrite Z.mod_small by lia.
  split; [reflexivity|]. split; [reflexivity|]. split; [reflexivity|].
  split; [reflexivity|].
  split; [lia|]. split; [lia|]. split; [exact Hl|]. split.
  - intros i q Hi Hq. specialize (Hk i q Hi Hq). lia.
  - exact Hs.
Qed.

Lemma lahar_temp_alloc_fits n a :
  arena_ok a -> 0 <= n ->
  (lahar_temp_alloc n a <> None <-> n <= LAHAR_M_ARENA_SIZE - __mpos a).
Proof.
  intros (Hp & _) Hn. unfold lahar_temp_alloc, wrap64, LAHAR_M_ARENA_SIZE in *.
  rewrite (Z.mod_small (32768 - __mpos a)) by lia.
  destruct (n <=? 32768 - __mpos a) eqn:E; cbn [negb].
  - apply Z.leb_le in E. split; [intros _; exact E|intros _; discriminate].
  - apply Z.leb_gt in E. split; [intros H; exfalso; apply H; reflexivity|lia].
Qed.

Lemma temp_allocs_Some sizes : forall a ps a',
  arena_ok a -> Forall (fun n => 0 <= n) sizes -> temp_allocs sizes a = Some (ps, a') ->
  __mpos a' = __mpos a + total_size sizes /\ __mcheck a' = __mcheck a /\
  __mchkct a' = __mchkct a /\ arena_ok a' /\ length ps = length sizes /\
  forall i p, ps !! i = Some p -> p = __mpos a + total_size (take i sizes).
Proof.
  induction sizes as [|n rest IH]; intros a ps a' Ha Hs; cbn [temp_allocs].
  - intros [= <- <-]. cbn. split; [lia|]. split; [reflexivity|]. split; [reflexivity|].
    split; [exact Ha|]. split; [reflexivity|].
    intros i p Hp. destruct i; discriminate Hp.
  - apply Forall_cons in Hs. destruct Hs as [Hn Hrest].
    destruct (lahar_temp_alloc n a) as [[p a1]|] eqn:E1; [|discriminate].
    destruct (lahar_temp_alloc_Some n a p a1 Ha Hn E1) as (-> & Hp1 & Hc1 & Hk1 & Ha1).
    destruct (temp_allocs rest a1) as [[ps1 a2]|] eqn:E2; [|discriminate].
    destruct (IH a1 ps1 a2 Ha1 Hrest E2) as (Hp2 & Hc2 & Hk2 & Ha2 & Hlen & Hpos).
    intros [= <- <-]. unfold total_size in *. cbn [foldr length].
    split; [lia|]. split; [congruence|]. split; [congruence|]. split; [exact Ha2|].
    split; [lia|].
    intros [|i] p; cbn.
    + intros [= <-]. lia.
    + intros Hp. rewrite (Hpos i p Hp). lia.
Qed.

Lemma total_size_nonneg sizes : Forall (fun n => 0 <= n) sizes -> 0 <= total_size sizes.
Proof.
  induction 1 as [|n rest Hn _ IH]; unfold total_size in *; cbn; lia.
Qed.

Lemma total_size_app xs ys : total_size (xs ++ ys) = total_size xs + total_size ys.
Proof. unfold total_size. induction xs as [|x xs IH]; cbn; lia. Qed.

Lemma total_size_take_le sizes i :
  Forall (fun n => 0 <= n) sizes -> 0 <= total_size (take i sizes) <= total_size sizes.
Proof.
  intros H. rewrite <- (take_drop i sizes) at 3. rewrite total_size_app.
  assert (0 <= total_size (take i sizes)) by (apply total_size_nonneg, Forall_take, H).
  assert (0 <= total_size (drop i sizes)) by (apply total_size_nonneg, Forall_drop, H).
  lia.
Qed.

Lemma total_size_take_S sizes i n :
  sizes !! i = Some n -> total_size (take (S i) sizes) = total_size (take i sizes) + n.
Proof.
  intros H. rewrite (take_S_r _ _ _ H), total_size_app. unfold total_size. cbn. lia.
Qed.

Lemma total_size_take_mono sizes i j :
  Forall (fun n => 0 <= n) sizes -> (i <= j)%nat ->
  total_size (take i sizes) <= total_size (take j sizes).
Proof.
  intros H Hij. replace (take i sizes) with (take i (take j sizes)).
  - apply total_size_take_le, Forall_take, H.
  - rewrite take_take. f_equal. lia.
Qed.

Lemma temp_allocs_fits sizes : forall a,
  arena_ok a -> Forall (fun n => 0 <= n) sizes ->
  (temp_allocs sizes a <> None <-> total_size sizes <= LAHAR_M_ARENA_SIZE - __mpos a).
Proof.
  induction sizes as [|n rest IH]; intros a Ha Hs; cbn [temp_allocs].
  - unfold total_size. cbn. destruct Ha as (Hp & _).
    split; [intros _; lia|intros _; discriminate].
  - apply Forall_cons in Hs. destruct Hs as [Hn Hrest].
    pose proof (total_size_nonneg rest Hrest) as Hnn.
    pose proof (lahar_temp_alloc_fits n a Ha Hn) as Hfit.
    change (total_size (n :: rest)) with (n + total_size rest).
    destruct (lahar_temp_alloc n a) as [[p a1]|] eqn:E1.
    + destruct (lahar_temp_alloc_Some n a p a1 Ha Hn E1) as (-> & Hp1 & _ & _ & Ha1).
      specialize (IH a1 Ha1 Hrest). rewrite Hp1 in IH.
      destruct (temp_allocs rest a1) as [[ps1 a2]|].
      * split; [intros _|intros _; discriminate].
        assert (total_size rest <= LAHAR_M_ARENA_SIZE - (__mpos a + n))
          by (apply IH; discriminate).
        lia.
      * split; [intros H; exfalso; apply H; reflexivity|].
        intros H. exfalso. assert (Hx : @None (list Z * Arena) <> None) by (apply IH; lia).
        apply Hx. reflexivity.
    + split; [intros H; exfalso; apply H; reflexivity|].
      intros H. exfalso.
      assert (Hx : @None (Z * Arena) <> None) by (apply Hfit; lia).
      apply Hx. reflexivity.
Qed.

Lemma lahar_temp_mcheck_Some a :
  arena_ok a -> __mchkct a < LAHAR_M_CHECK_CT ->
  exists a1, lahar_temp_mcheck a = Some a1 /\
    __mpos a1 = __mpos a /\ __mchkct a1 = __mchkct a + 1 /\
    __mcheck a1 = <[Z.to_nat (__mchkct a) := __mpos a]> (__mcheck a) /\ arena_ok a1.
Proof.
  intros (Hp & Hc & Hl & Hk & Hs) Hlt.
  unfold lahar_temp_mcheck, wrap64, LAHAR_M_CHECK_CT in *.
  destruct (__mchkct a <? 16) eqn:E; [|apply Z.ltb_ge in E; lia].
  cbn [negb]. eexists. split; [reflexivity|]. unfold arena_ok, LAHAR_M_CHECK_CT. cbn.
  rewrite Z.mod_small by lia.
  assert (Hin : (Z.to_nat (__mchkct a) < length (__mcheck a))%nat) by lia.
  split; [reflexivity|]. split; [reflexivity|]. split; [reflexivity|].
  split; [lia|]. split; [lia|]. rewrite length_insert. split; [exact Hl|]. split.
  - intros i q Hi Hq.
    destruct (decide (i = Z.to_nat (__mchkct a))) as [->|Hne].
    + rewrite list_lookup_insert_eq in Hq by exact Hin. injection Hq as <-. lia.
    + rewrite list_lookup_insert_ne in Hq by congruence. apply (Hk i q); [lia|exact Hq].
  - intros i j p q Hij Hj Hi' Hj'.
    destruct (decide (j = Z.to_nat (__mchkct a))) as [->|Hnej].
    + rewrite list_lookup_insert_eq in Hj' by exact Hin. injection Hj' as <-.
      destruct (decide (i = Z.to_nat (__mchkct a))) as [->|Hnei].
      * rewrite list_lookup_insert_eq in Hi' by exact Hin. injection Hi' as <-. lia.
      * rewrite list_lookup_insert_ne in Hi' by congruence.
        apply (Hk i p); [lia|exact Hi'].
    + rewrite list_lookup_insert_ne in Hj' by congruence.
      rewrite list_lookup_insert_ne in Hi' by lia.
      apply (Hs i j p q); [exact Hij|lia|exact Hi'|exact Hj'].
Qed.

Lemma lahar_temp_mpop_ok a :
  arena_ok a -> 0 < __mchkct a ->
  __mcheck a !! Z.to_nat (__mchkct a - 1) = Some (__mpos (lahar_temp_mpop a)) /\
  __mchkct (lahar_temp_mpop a) = __mchkct a - 1 /\
  __mcheck (lahar_temp_mpop a) = __mcheck a /\
  arena_ok (lahar_temp_mpop a).
Proof.
  intros (Hp & Hc & Hl & Hk & Hs) Hpos. unfold lahar_temp_mpop.
  destruct (0 <? __mchkct a) eqn:E; [|apply Z.ltb_ge in E; lia].
  cbn. unfold LAHAR_M_CHECK_CT in *.
  destruct (__mcheck a !! Z.to_nat (__mchkct a - 1)) as [q|] eqn:Hq.
  2:{ apply lookup_ge_None in Hq. lia. }
  unfold arena_ok, LAHAR_M_CHECK_CT. cbn.
  split; [reflexivity|]. split; [reflexivity|]. split; [reflexivity|].
  assert (Hq' : 0 <= q <= __mpos a) by (apply (Hk (Z.to_nat (__mchkct a - 1)) q); [lia|exact Hq]).
  split; [lia|]. split; [lia|]. split; [exact Hl|]. split.
  - intros i p Hi Hi'. split.
    + apply (Hk i p); [lia|exact Hi'].
    + apply (Hs i (Z.to_nat (__mchkct a - 1)) p q); [lia|lia|exact Hi'|exact Hq].
  - intros i j p r Hij Hj. apply Hs; [exact Hij|lia].
Qed.

(** X2.  A checkpoint, any run of allocations, and a pop: the pop puts the
    position and the number of checkpoints back to what they were before
    the checkpoint, leaves the checkpoints that were in use as they were,
    and the arena in order; so scopes nest.  The checkpoint itself is taken
    whenever fewer than [LAHAR_M_CHECK_CT] are in use. *)
Theorem temp_checkpoint_round_trip (a : Arena) (sizes : list Z) :
  arena_ok a -> __mchkct a < LAHAR_M_CHECK_CT -> Forall (fun n => 0 <= n) sizes ->
  exists a1, lahar_temp_mcheck a = Some a1 /\
    forall ps a2, temp_allocs sizes a1 = Some (ps, a2) ->
      __mpos (lahar_temp_mpop a2) = __mpos a /\
      __mchkct (lahar_temp_mpop a2) = __mchkct a /\
      (forall i, (i < Z.to_nat (__mchkct a))%nat ->
         __mcheck (lahar_temp_mpop a2) !! i = __mcheck a !! i) /\
      arena_ok (lahar_temp_mpop a2).
Proof.
  intros Ha Hlt Hs.
  destruct (lahar_temp_mcheck_Some a Ha Hlt) as (a1 & E1 & Hp1 & Hc1 & Hk1 & Ha1).
  exists a1. split; [exact E1|]. intros ps a2 E2.
  destruct (temp_allocs_Some sizes a1 ps a2 Ha1 Hs E2) as (Hp2 & Hk2 & Hc2 & Ha2 & _).
  assert (Hc : 0 <= __mchkct a) by apply Ha.
  assert (Hlen : Z.of_nat (length (__mcheck a)) = LAHAR_M_CHECK_CT) by apply Ha.
  destruct (lahar_temp_mpop_ok a2 Ha2) as (Hq & Hc3 & Hk3 & Ha3); [lia|].
  rewrite Hc2, Hc1 in Hq, Hc3. rewrite Hk2, Hk1 in Hq.
  replace (__mchkct a + 1 - 1) with (__mchkct a) in Hq, Hc3 by lia.
  rewrite list_lookup_insert_eq in Hq by lia. injection Hq as Hq.
  split; [symmetry; exact Hq|]. split; [exact Hc3|]. split; [|exact Ha3].
  intros i Hi. rewrite Hk3, Hk2, Hk1. apply list_lookup_insert_ne. lia.
Qed.

Lemma temp_checkpoint_round_trip_witness :
  exists a1, lahar_temp_mcheck arena_zero = Some a1 /\
    forall ps a2, temp_allocs [24; 0; 4096] a1 = Some (ps, a2) ->
      __mpos (lahar_temp_mpop a2) = 0 /\ __mchkct (lahar_temp_mpop a2) = 0.
Proof.
  destruct (temp_checkpoint_round_trip arena_zero [24; 0; 4096]) as (a1 & E & H).
  - exact arena_zero_ok.
  - vm_compute. reflexivity.
  - repeat constructor; lia.
  - exists a1. split; [exact E|]. intros ps a2 E2.
    destruct (H ps a2 E2) as (H1 & H2 & _). split; [exact H1|exact H2].
Defined.

(** X3.  A run of allocations from an arena in order succeeds exactly when
    the sizes together fit into what is left of the arena.  The blocks it
    returns lie one after the other from the old position on: each block is
    inside the arena, and ends where the next one, if it has any byte,
    begins or before. *)
Theorem temp_allocs_layout (a : Arena) (sizes : list Z) :
  arena_ok a -> Forall (fun n => 0 <= n) sizes ->
  (temp_allocs sizes a <> None <-> total_size sizes <= LAHAR_M_ARENA_SIZE - __mpos a) /\
  forall ps a', temp_allocs sizes a = Some (ps, a') ->
    length ps = length sizes /\
    __mpos a' = __mpos a + total_size sizes /\
    (forall i p n, ps !! i = Some p -> sizes !! i = Some n ->
       __mpos a <= p /\ p + n <= __mpos a' /\ __mpos a' <= LAHAR_M_ARENA_SIZE) /\
    (forall i j p n q, (i < j)%nat -> ps !! i = Some p -> sizes !! i = Some n ->
       ps !! j = Some q -> p + n <= q).
Proof.
  intros Ha Hs. split; [apply temp_allocs_fits; assumption|].
  intros ps a' E.
  destruct (temp_allocs_Some sizes a ps a' Ha Hs E) as (Hp & _ & _ & Ha' & Hlen & Hpos).
  split; [exact Hlen|]. split; [exact Hp|]. split.
  - intros i p n Hi Hn. rewrite (Hpos i p Hi).
    pose proof (total_size_take_le sizes i Hs) as H0.
    pose proof (total_size_take_le sizes (S i) Hs) as H1.
    rewrite (total_size_take_S sizes i n Hn) in H1.
    destruct Ha' as (Hb & _). lia.
  - intros i j p n q Hij Hi Hn Hj. rewrite (Hpos i p Hi), (Hpos j q Hj).
    pose proof (total_size_take_mono sizes (S i) j Hs) as H1.
    rewrite (total_size_take_S sizes i n Hn) in H1. lia.
Qed.

Lemma temp_allocs_layout_witness :
  temp_allocs [32768; 1] arena_zero = None /\
  exists ps a', temp_allocs [16; 8; 32744] arena_zero = Some (ps, a') /\
    ps = [0; 16; 24] /\ __mpos a' = LAHAR_M_ARENA_SIZE.
Proof.
  split.
  - destruct (temp_allocs_layout arena_zero [32768; 1]) as [[H _] _].
    + exact arena_zero_ok.
    + repeat constructor; lia.
    + destruct (temp_allocs [32768; 1] arena_zero) eqn:E; [|reflexivity].
      exfalso. assert (Hx : total_size [32768; 1] <= LAHAR_M_ARENA_SIZE - __mpos arena_zero)
        by (apply H; discriminate).
      vm_compute in Hx. apply Hx. reflexivity.
  - destruct (temp_allocs_layout arena_zero [16; 8; 32744]) as [_ H].
    + exact arena_zero_ok.
    + repeat constructor; lia.
    + eexists _, _. split; [reflexivity|].
      split; [reflexivity|]. apply (H _ _ eq_refl).
Defined.

(** ** The first window with a handle *)

Lemma find_window_first ws w : forall k i,
  find_window ws w k = Some i ->
  forall j wj, (j < i - k)%nat -> ws !! j = Some wj -> window wj <> w.
Proof.
  induction ws as [|x ws IH]; intros k i; simpl; [discriminate|].
  destruct (window x =? w) eqn:E.
  - intros [= <-] j wj Hj. lia.
  - intros H [|j] wj Hj; simpl.
    + intros [= <-]. apply Z.eqb_neq, E.
    + apply (IH (S k) i H). destruct (find_window_Some _ _ _ _ H) as [Hle _]. lia.
Qed.

Lemma find_window_None ws w : forall k,
  find_window ws w k = None <-> Forall (fun x => window x <> w) ws.
Proof.
  induction ws as [|x ws IH]; intros k; simpl.
  - split; [constructor|reflexivity].
  - destruct (window x =? w) eqn:E.
    + split; [discriminate|]. intros H. apply Forall_cons in H. destruct H as [H _].
      apply Z.eqb_eq in E. contradiction.
    + rewrite IH. apply Z.eqb_neq in E. split.
      * intros H. constructor; assumption.
      * intros H. apply Forall_cons in H. apply H.
Qed.

(** X4.  [lahar_window_state] answers with the first registered state whose
    handle is the one asked for, and with NULL exactly when no registered
    state has that handle. *)
Theorem lahar_window_state_first (l : Lahar) (w : Z) :
  match lahar_window_state l w with
  | Some i =>
      exists ws, windows l !! i = Some ws /\ window ws = w /\
        forall j wj, (j < i)%nat -> windows l !! j = Some wj -> window wj <> w
  | None => Forall (fun ws => window ws <> w) (windows l)
  end.
Proof.
  destruct (lahar_window_state l w) as [i|] eqn:E.
  - destruct (lahar_window_state_Some l w i E) as (ws & Hws & Hw).
    exists ws. split; [exact Hws|]. split; [exact Hw|].
    intros j wj Hj. apply (find_window_first _ _ _ _ E). lia.
  - apply (find_window_None _ _ 0), E.
Qed.

(** ** The default choosers *)

Lemma has_mailbox_spec modes n : forall i,
  has_mailbox modes n i = true <->
  exists j, (i <= j < i + n)%nat /\ modes !! j = Some VK_PRESENT_MODE_MAILBOX_KHR.
Proof.
  induction n as [|n IH]; intros i; simpl.
  - split; [discriminate|]. intros (j & Hj & _). lia.
  - destruct (default 0 (modes !! i) =? VK_PRESENT_MODE_MAILBOX_KHR) eqn:E.
    + split; [intros _|reflexivity]. exists i. split; [lia|].
      apply Z.eqb_eq in E. destruct (modes !! i) as [m|]; cbn in E.
      * rewrite E. reflexivity.
      * discriminate E.
    + rewrite IH. apply Z.eqb_neq in E. split.
      * intros (j & Hj & Hm). exists j. split; [lia|exact Hm].
      * intros (j & Hj & Hm). exists j. split; [|exact Hm].
        destruct (decide (j = i)) as [->|Hne]; [|lia].
        rewrite Hm in E. cbn in E. contradiction.
Qed.

(** X5.  The default present mode chooser always succeeds; it answers
    [VK_PRESENT_MODE_MAILBOX_KHR] when that mode is among the first
    [present_mode_count] entries of the device description, and
    [VK_PRESENT_MODE_FIFO_KHR] otherwise. *)
Theorem default_present_mode_chooser_spec (d : LaharDeviceInfo) :
  let offered := take (Z.to_nat (present_mode_count d)) (present_modes d) in
  (VK_PRESENT_MODE_MAILBOX_KHR ∈ offered ->
   __lahar_default_surface_present_mode_chooser d =
     (LAHAR_ERR_SUCCESS, VK_PRESENT_MODE_MAILBOX_KHR)) /\
  (VK_PRESENT_MODE_MAILBOX_KHR ∉ offered ->
   __lahar_default_surface_present_mode_chooser d =
     (LAHAR_ERR_SUCCESS, VK_PRESENT_MODE_FIFO_KHR)).
Proof.
  cbv zeta. unfold __lahar_default_surface_present_mode_chooser.
  destruct (has_mailbox (present_modes d) (Z.to_nat (present_mode_count d)) 0) eqn:E.
  - split; [reflexivity|]. intros Hn. exfalso. apply Hn.
    apply has_mailbox_spec in E. destruct E as (j & Hj & Hm).
    apply elem_of_take. exists j. split; [exact Hm|lia].
  - split; [|reflexivity]. intros Hin. exfalso.
    apply elem_of_take in Hin. destruct Hin as (j & Hm & Hj).
    assert (Ht : has_mailbox (present_modes d) (Z.to_nat (present_mode_count d)) 0 = true).
    { apply has_mailbox_spec. exists j. split; [lia|exact Hm]. }
    rewrite Ht in E. discriminate E.
Qed.

Lemma default_present_mode_chooser_spec_witness :
  __lahar_default_surface_present_mode_chooser
    (set_present_modes [VK_PRESENT_MODE_FIFO_KHR; VK_PRESENT_MODE_MAILBOX_KHR] devinfo_zero) =
    (LAHAR_ERR_SUCCESS, VK_PRESENT_MODE_FIFO_KHR).
Proof.
  apply (default_present_mode_chooser_spec
           (set_present_modes [VK_PRESENT_MODE_FIFO_KHR; VK_PRESENT_MODE_MAILBOX_KHR]
              devinfo_zero)).
  vm_compute. intros H. inversion H.
Defined.

Lemma choose_format_from_spec fmts n : forall i,
  let pref := mkVkSurfaceFormatKHR VK_FORMAT_B8G8R8A8_SRGB VK_COLORSPACE_SRGB_NONLINEAR_KHR in
  match choose_format_from fmts n i with
  | Some fmt => fmt = pref /\ exists j, (i <= j < i + n)%nat /\ fmts !! j = Some pref
  | None => forall j, (i <= j < i + n)%nat -> fmts !! j <> Some pref
  end.
Proof.
  cbv zeta. induction n as [|n IH]; intros i; simpl.
  - intros j Hj. lia.
  - destruct ((sf_format (default surface_format_zero (fmts !! i)) =? VK_FORMAT_B8G8R8A8_SRGB)
              && (sf_colorSpace (default surface_format_zero (fmts !! i))
                  =? VK_COLORSPACE_SRGB_NONLINEAR_KHR)) eqn:E.
    + apply andb_true_iff in E. destruct E as [E1 E2].
      apply Z.eqb_eq in E1, E2.
      destruct (fmts !! i) as [[f c]|] eqn:Hi; cbn in E1, E2.
      * subst f c. cbn. split; [reflexivity|]. exists i. split; [lia|exact Hi].
      * discriminate E1.
    + specialize (IH (S i)).
      destruct (choose_format_from fmts n (S i)) as [fmt|].
      * destruct IH as (-> & j & Hj & Hm). split; [reflexivity|].
        exists j. split; [lia|exact Hm].
      * intros j Hj. destruct (decide (j = i)) as [->|Hne]; [|apply IH; lia].
        intros Hm. rewrite Hm in E. cbn in E. discriminate E.
Qed.

(** X6.  The default surface format chooser always succeeds; it answers
    B8G8R8A8_SRGB in the SRGB_NONLINEAR colour space when that pair is among
    the first [surface_fmt_count] entries of the device description, and the
    entry 0 of the description otherwise. *)
Theorem default_surface_format_chooser_spec (d : LaharDeviceInfo) :
  let pref := mkVkSurfaceFormatKHR VK_FORMAT_B8G8R8A8_SRGB VK_COLORSPACE_SRGB_NONLINEAR_KHR in
  let offered := take (Z.to_nat (surface_fmt_count d)) (surface_formats d) in
  (pref ∈ offered ->
   __lahar_default_surface_format_chooser d = (LAHAR_ERR_SUCCESS, pref)) /\
  (pref ∉ offered ->
   __lahar_default_surface_format_chooser d =
     (LAHAR_ERR_SUCCESS, default surface_format_zero (surface_formats d !! 0%nat))).
Proof.
  cbv zeta. unfold __lahar_default_surface_format_chooser.
  pose proof (choose_format_from_spec (surface_formats d)
                (Z.to_nat (surface_fmt_count d)) 0) as H. cbv zeta in H.
  destruct (choose_format_from (surface_formats d) (Z.to_nat (surface_fmt_count d)) 0)
    as [fmt|].
  - destruct H as (-> & j & Hj & Hm). split; [reflexivity|].
    intros Hn. exfalso. apply Hn. apply elem_of_take. exists j. split; [exact Hm|lia].
  - split; [|reflexivity]. intros Hin. exfalso.
    apply elem_of_take in Hin. destruct Hin as (j & Hm & Hj).
    apply (H j); [lia|exact Hm].
Qed.

Lemma default_surface_format_chooser_spec_witness :
  __lahar_default_surface_format_chooser
    (set_surface_formats
       [mkVkSurfaceFormatKHR 44 0;
        mkVkSurfaceFormatKHR VK_FORMAT_B8G8R8A8_SRGB VK_COLORSPACE_SRGB_NONLINEAR_KHR]
       devinfo_zero) =
    (LAHAR_ERR_SUCCESS, mkVkSurfaceFormatKHR 44 0).
Proof.
  apply (default_surface_format_chooser_spec
           (set_surface_formats
              [mkVkSurfaceFormatKHR 44 0;
               mkVkSurfaceFormatKHR VK_FORMAT_B8G8R8A8_SRGB VK_COLORSPACE_SRGB_NONLINEAR_KHR]
              devinfo_zero)).
  vm_compute. intros H. inversion H.
Defined.

(** ** The clamps of a swapchain request *)

Lemma clamp_extent_range lo hi v :
  lo <= hi -> lo <= clamp_extent lo hi v <= hi.
Proof.
  intros H. unfold clamp_extent.
  destruct (hi <? v) eqn:E1; [lia|]. apply Z.ltb_ge in E1.
  destruct (v <? lo) eqn:E2; [lia|]. apply Z.ltb_ge in E2. lia.
Qed.

Lemma clamp_extent_inside lo hi v : lo <= v <= hi -> clamp_extent lo hi v = v.
Proof.
  intros H. unfold clamp_extent.
  destruct (hi <? v) eqn:E1; [apply Z.ltb_lt in E1; lia|].
  destruct (v <? lo) eqn:E2; [apply Z.ltb_lt in E2; lia|]. reflexivity.
Qed.

(** X7.  The swapchain request that [__lahar_build_swapchain] and
    [__lahar_default_resizer] fill in, for a surface whose limits are in
    order: its extent is within the limits of the surface and is the size of
    the window when that is within them; its image count is at least the
    minimum of the surface, at most its maximum when the surface has one (a
    maximum of 0 means none), and is the count the window asks for when that
    is within the limits. *)
Theorem swapchain_request_within_limits (l : Lahar) (ws : LaharWindowState)
    (conf : LaharAttachmentConfig) (caps : VkSurfaceCapabilitiesKHR) (wd ht pm : Z) :
  minImageExtent_width caps <= maxImageExtent_width caps ->
  minImageExtent_height caps <= maxImageExtent_height caps ->
  0 < minImageCount caps ->
  maxImageCount caps = 0 \/ minImageCount caps <= maxImageCount caps ->
  let ci := swapchain_create_info l ws conf caps wd ht pm in
  (minImageExtent_width caps <= sci_imageExtent_width ci <= maxImageExtent_width caps) /\
  (minImageExtent_height caps <= sci_imageExtent_height ci <= maxImageExtent_height caps) /\
  (minImageExtent_width caps <= wd <= maxImageExtent_width caps ->
   sci_imageExtent_width ci = wd) /\
  (minImageExtent_height caps <= ht <= maxImageExtent_height caps ->
   sci_imageExtent_height ci = ht) /\
  minImageCount caps <= sci_minImageCount ci /\
  (0 < maxImageCount caps -> sci_minImageCount ci <= maxImageCount caps) /\
  (minImageCount caps <= desired_img_count ws ->
   maxImageCount caps = 0 \/ desired_img_count ws <= maxImageCount caps ->
   sci_minImageCount ci = desired_img_count ws).
Proof.
  intros Hw Hh Hmin Hmax. cbv zeta. unfold swapchain_create_info. cbn.
  split; [apply clamp_extent_range, Hw|].
  split; [apply clamp_extent_range, Hh|].
  split; [apply clamp_extent_inside|].
  split; [apply clamp_extent_inside|].
  unfold clamp_image_count.
  destruct (0 <? maxImageCount caps) eqn:E1;
    [apply Z.ltb_lt in E1|apply Z.ltb_ge in E1];
    (destruct (maxImageCount caps <? desired_img_count ws) eqn:E2;
      [apply Z.ltb_lt in E2|apply Z.ltb_ge in E2]);
    (destruct (0 <? minImageCount caps) eqn:E3;
      [apply Z.ltb_lt in E3|apply Z.ltb_ge in E3]);
    (destruct (desired_img_count ws <? minImageCount caps) eqn:E4;
      [apply Z.ltb_lt in E4|apply Z.ltb_ge in E4]);
    cbn [andb]; repeat split; intros; lia.
Qed.

Lemma swapchain_request_within_limits_witness :
  let ci :=
    swapchain_create_info (st_lahar example_built) (first_window example_built)
      attachment_config_zero (sim_caps sim_world0) 10000 0 VK_PRESENT_MODE_FIFO_KHR in
  sci_imageExtent_width ci = 4096 /\ sci_imageExtent_height ci = 1 /\
  sci_minImageCount ci = 2.
Proof.
  pose proof (swapchain_request_within_limits (st_lahar example_built)
                (first_window example_built) attachment_config_zero (sim_caps sim_world0)
                10000 0 VK_PRESENT_MODE_FIFO_KHR) as H.
  cbv zeta in *.
  destruct H as (H1 & H2 & _ & _ & _ & _ & H7).
  - vm_compute. discriminate.
  - vm_compute. discriminate.
  - vm_compute. reflexivity.
  - right. vm_compute. discriminate.
  - split; [vm_compute; reflexivity|]. split; [vm_compute; reflexivity|].
    apply H7.
    + vm_compute. discriminate.
    + right. vm_compute. discriminate.
Defined.

(** ** Registration of a window *)

Section Registration.
Context {W : Type} (ext : forall c : extCall, W -> reply c * W).
Implicit Types (s : St W).

Lemma set_windows_twice a b (l : Lahar) : set_windows a (set_windows b l) = set_windows a l.
Proof. reflexivity. Qed.

Lemma set_windows_cap_same a (l : Lahar) :
  set_windows a l = set_windows a (set_window_cap (window_cap l) l).
Proof. reflexivity. Qed.

Lemma register_ex_cases s w conf e s' :
  lahar_builder_window_register_ex ext w (Some conf) s = Ok e s' ->
  ((w = NULL \/ wc_attachment_count conf = 0) /\ e = LAHAR_ERR_ILLEGAL_PARAMS /\ s' = s) \/
  (w <> NULL /\ wc_attachment_count conf <> 0 /\
   ((e = LAHAR_ERR_ALLOC_FAILED /\ st_lahar s' = st_lahar s) \/
    exists cap wd ht,
      (e <> LAHAR_ERR_SUCCESS /\
       last_call s' = Some (lahar_window_get_size w) /\
       st_lahar s' =
         set_windows (windows (st_lahar s) ++ [unsized_window w wd ht])
           (set_window_cap cap (st_lahar s))) \/
      (e = LAHAR_ERR_SUCCESS /\
       (Z.to_nat (wc_attachment_count conf) <= length (wc_attachments conf))%nat /\
       st_lahar s' =
         set_windows (windows (st_lahar s) ++ [registered_window w conf wd ht])
           (set_window_cap cap (st_lahar s))))).
Proof.
  unfold lahar_builder_window_register_ex, lahar_vec_expand.
  destruct ((w =? NULL) || (wc_attachment_count conf =? 0)) eqn:Eg.
  { intros H; leaf H. left. split; [|split; [symmetry; exact He|symmetry; exact Hs]].
    apply orb_true_iff in Eg. destruct Eg as [Eg|Eg]; apply Z.eqb_eq in Eg; auto. }
  apply orb_false_iff in Eg. destruct Eg as [Eg1 Eg2].
  apply Z.eqb_neq in Eg1, Eg2.
  intros H. right. split; [exact Eg1|]. split; [exact Eg2|]. revert H.
  munfold. mrun.
  all: try discriminate.
  all: intros H; leaf H; subst.
  all: cbn [st_lahar windows set_windows set_window_cap] in *.
  all: rewrite ?alter_app_last.
  all: try (left; split; reflexivity).
  all: right.
  all: unfold registered_window, unsized_window, last_call.
  all: repeat match goal with
       | H : (_ =? _) = _ |- _ => rewrite ?H; clear H
       end.
  all: rewrite ?set_windows_twice.
  all: match goal with
       | |- context [set_height ?ht (set_width ?wd (set_window _ window_zero))] =>
           first [ match goal with
                   | |- context [set_window_cap ?c (st_lahar _)] => exists c, wd, ht
                   end
                 | match goal with |- context [set_windows _ (st_lahar ?s0)] => exists (window_cap (st_lahar s0)), wd, ht end ]
       end.
  all: cbn [st_log].
  all: first
    [ left; split;
      [ match goal with H : negb (_ =? _) = true |- _ =>
          apply negb_true_iff, Z.eqb_neq in H; exact H end
      | split; [rewrite last_snoc; reflexivity
               |first [reflexivity|apply set_windows_cap_same]] ]
    | right; split; [reflexivity|]; split;
      [ match goal with H : negb (_ <=? _)%nat = false |- _ =>
          apply negb_false_iff, Nat.leb_le in H; exact H end
      | first [reflexivity|apply set_windows_cap_same] ] ].
Qed.



Lemma find_window_app ws x w : forall k,
  find_window (ws ++ [x]) w k =
    match find_window ws w k with
    | Some i => Some i
    | None => if window x =? w then Some (k + length ws)%nat else None
    end.
Proof.
  induction ws as [|y ws IH]; intros k; simpl.
  - rewrite Nat.add_0_r. reflexivity.
  - destruct (window y =? w); [reflexivity|]. rewrite IH.
    replace (S k + length ws)%nat with (k + S (length ws))%nat by lia. reflexivity.
Qed.

Lemma register_ex_stored s w conf s' :
  lahar_builder_window_register_ex ext w (Some conf) s = Ok LAHAR_ERR_SUCCESS s' ->
  w <> NULL /\ wc_attachment_count conf <> 0 /\
  (Z.to_nat (wc_attachment_count conf) <= length (wc_attachments conf))%nat /\
  exists cap wd ht,
    st_lahar s' =
      set_windows (windows (st_lahar s) ++ [registered_window w conf wd ht])
        (set_window_cap cap (st_lahar s)).
Proof.
  intros H. destruct (register_ex_cases s w conf _ s' H) as [(_ & He & _)|(Hw & Hc & H1)].
  { err_discr He. }
  split; [exact Hw|]. split; [exact Hc|].
  destruct H1 as [[He _]|(cap & wd & ht & [(He & _)|(_ & Hn & Hs)])].
  - err_discr He.
  - contradiction.
  - split; [exact Hn|]. exists cap, wd, ht. exact Hs.
Qed.


(** X9.  After a successful registration of the handle [w],
    [lahar_window_state] finds a state for [w]: the new one, at the end of
    the list, when [w] was not registered before, and the old one when it
    was (the new state is then out of reach).  What it answers for any
    other handle is what it answered before. *)
Theorem registration_then_lookup s w conf s' :
  lahar_builder_window_register_ex ext w (Some conf) s = Ok LAHAR_ERR_SUCCESS s' ->
  lahar_window_state (st_lahar s') w =
    Some (default (length (windows (st_lahar s))) (lahar_window_state (st_lahar s) w)) /\
  forall w', w' <> w ->
    lahar_window_state (st_lahar s') w' = lahar_window_state (st_lahar s) w'.
Proof.
  intros H. destruct (register_ex_success ext s w conf s' H) as (ws & Hws & Hw & _).
  unfold lahar_window_state. rewrite Hws. split.
  - rewrite find_window_app, Hw, Z.eqb_refl.
    destruct (find_window (windows (st_lahar s)) w 0); reflexivity.
  - intros w' Hne. rewrite find_window_app, Hw.
    destruct (find_window (windows (st_lahar s)) w' 0); [reflexivity|].
    destruct (w =? w') eqn:E; [|reflexivity]. apply Z.eqb_eq in E. congruence.
Qed.


(** X11.  [lahar_builder_window_register] knows two profiles and rejects
    any other with [LAHAR_ERR_ILLEGAL_PARAMS], changing nothing.  When it
    succeeds it has appended one window state with one attachment (profile
    COLOR) or two (COLOR_DEPTH, the second a D32_SFLOAT depth attachment),
    two frames in flight, two swapchain images asked for, and automatic
    swapchain recreation switched on. *)
Theorem profile_registration s w winprof e s' :
  lahar_builder_window_register ext w winprof s = Ok e s' ->
  (winprof <> LAHAR_WINPROF_COLOR -> winprof <> LAHAR_WINPROF_COLOR_DEPTH ->
   e = LAHAR_ERR_ILLEGAL_PARAMS /\ s' = s) /\
  (e = LAHAR_ERR_SUCCESS ->
   exists cap wd ht ws,
     ws = registered_window w (profile_config winprof) wd ht /\
     st_lahar s' = set_windows (windows (st_lahar s) ++ [ws]) (set_window_cap cap (st_lahar s)) /\
     attachment_count ws = (if winprof =? LAHAR_WINPROF_COLOR then 1 else 2) /\
     attachment_configs ws =
       (if winprof =? LAHAR_WINPROF_COLOR then [attachment_config_zero]
        else [attachment_config_zero; depth_attachment_config]) /\
     max_in_flight ws = 2 /\ desired_img_count ws = 2 /\ auto_recreate_swap ws = true).
Proof.
  unfold lahar_builder_window_register.
  destruct (w =? NULL) eqn:Ew.
  { intros H; leaf H. subst. split; [intros; split; reflexivity|].
    intros He. err_discr He. }
  destruct (winprof =? LAHAR_WINPROF_COLOR) eqn:E1.
  { intros H. apply Z.eqb_eq in E1. split; [intros Hn; contradiction|]. intros ->.
    destruct (register_ex_stored _ _ _ _ H) as (_ & _ & _ & cap & wd & ht & Hs).
    exists cap, wd, ht, (registered_window w (profile_config winprof) wd ht).
    unfold profile_config. rewrite (proj2 (Z.eqb_eq _ _) E1).
    split; [reflexivity|]. split; [exact Hs|]. repeat split; reflexivity. }
  destruct (winprof =? LAHAR_WINPROF_COLOR_DEPTH) eqn:E2.
  { intros H. apply Z.eqb_eq in E2. split; [intros _ Hn; contradiction|]. intros ->.
    destruct (register_ex_stored _ _ _ _ H) as (_ & _ & _ & cap & wd & ht & Hs).
    exists cap, wd, ht, (registered_window w (profile_config winprof) wd ht).
    unfold profile_config. rewrite E1.
    split; [reflexivity|]. split; [exact Hs|]. repeat split; reflexivity. }
  intros H; leaf H. subst. split; [intros; split; reflexivity|].
  intros He. err_discr He.
Qed.
End Registration.


(** The example window registered twice: the first state answers. *)
Lemma registration_then_lookup_witness :
  lahar_window_state (st_lahar example_registered_twice) example_window = Some 0%nat /\
  lahar_window_state (st_lahar example_registered) example_window = Some 0%nat /\
  length (windows (st_lahar example_registered_twice)) = 2%nat.
Proof.
  destruct (registration_then_lookup sim_ext example_registered example_window
              example_full_config example_registered_twice) as [H _].
  - vm_compute. reflexivity.
  - split; [exact H|]. split; vm_compute; reflexivity.
Defined.


Lemma profile_registration_witness :
  exists cap wd ht ws,
    ws = registered_window example_window (profile_config LAHAR_WINPROF_COLOR_DEPTH) wd ht /\
    st_lahar (state_after (lahar_builder_window_register sim_ext example_window
                             LAHAR_WINPROF_COLOR_DEPTH) example_inited) =
      set_windows (windows (st_lahar example_inited) ++ [ws])
        (set_window_cap cap (st_lahar example_inited)) /\
    attachment_count ws = 2 /\
    attachment_configs ws = [attachment_config_zero; depth_attachment_config] /\
    max_in_flight ws = 2 /\ desired_img_count ws = 2 /\ auto_recreate_swap ws = true.
Proof.
  apply (profile_registration sim_ext example_inited example_window
           LAHAR_WINPROF_COLOR_DEPTH LAHAR_ERR_SUCCESS).
  - vm_compute. reflexivity.
  - reflexivity.
Defined.

(** ** The extension tables *)

Lemma find_extension_app e names n : forall k,
  find_extension e (names ++ [n]) k =
    match find_extension e names k with
    | Some i => Some i
    | None => if String.eqb e n then Some (k + length names)%nat else None
    end.
Proof.
  induction names as [|m names IH]; intros k; simpl.
  - rewrite Nat.add_0_r. reflexivity.
  - destruct (String.eqb e m); [reflexivity|]. rewrite IH.
    replace (S k + length names)%nat with (k + S (length names))%nat by lia. reflexivity.
Qed.

Lemma find_extension_name_in e names : forall k,
  find_extension e names k = None <-> name_in names e = false.
Proof.
  unfold name_in. induction names as [|m names IH]; intros k; simpl.
  - split; reflexivity.
  - destruct (String.eqb e m); simpl; [split; discriminate|apply IH].
Qed.

Lemma find_extension_bound e names : forall k i,
  find_extension e names k = Some i -> (k <= i < k + length names)%nat.
Proof.
  induction names as [|m names IH]; intros k i; simpl; [discriminate|].
  destruct (String.eqb e m).
  - intros [= <-]. lia.
  - intros H. apply IH in H. lia.
Qed.

(** The answer of [lahar_extension_has_instance] and
    [lahar_extension_has_device], from the three tables it reads. *)
Lemma has_instance_tables l e :
  lahar_extension_has_instance l (Some e) =
    match find_extension e (opt_inst_exts (extensions l)) 0 with
    | Some i => default false (opt_inst_exts_present (extensions l) !! i)
    | None => name_in (req_inst_exts (extensions l)) e
    end.
Proof.
  unfold lahar_extension_has_instance.
  destruct (find_extension e (opt_inst_exts (extensions l)) 0); [reflexivity|].
  destruct (find_extension e (req_inst_exts (extensions l)) 0) eqn:E.
  - destruct (name_in (req_inst_exts (extensions l)) e) eqn:N; [reflexivity|].
    apply (find_extension_name_in _ _ 0) in N. congruence.
  - apply find_extension_name_in in E. rewrite E. reflexivity.
Qed.

Lemma has_device_tables l e :
  lahar_extension_has_device l (Some e) =
    match find_extension e (opt_dev_exts (extensions l)) 0 with
    | Some i => default false (opt_dev_exts_present (extensions l) !! i)
    | None => name_in (req_dev_exts (extensions l)) e
    end.
Proof.
  unfold lahar_extension_has_device.
  destruct (find_extension e (opt_dev_exts (extensions l)) 0); [reflexivity|].
  destruct (find_extension e (req_dev_exts (extensions l)) 0) eqn:E.
  - destruct (name_in (req_dev_exts (extensions l)) e) eqn:N; [reflexivity|].
    apply (find_extension_name_in _ _ 0) in N. congruence.
  - apply find_extension_name_in in E. rewrite E. reflexivity.
Qed.

Lemma name_in_app names n e :
  name_in (names ++ [n]) e = name_in names e || String.eqb e n.
Proof.
  unfold name_in. rewrite existsb_app. simpl. rewrite orb_false_r. reflexivity.
Qed.

(** The answer for [e'] once [e] was appended to the required names. *)
Lemma has_after_required (opt : list string) (present : list bool) (req : list string) e e' :
  match find_extension e' opt 0 with
  | Some i => default false (present !! i)
  | None => name_in (req ++ [e]) e'
  end =
  if String.eqb e' e && negb (name_in opt e) then true
  else match find_extension e' opt 0 with
       | Some i => default false (present !! i)
       | None => name_in req e'
       end.
Proof.
  destruct (String.eqb e' e) eqn:E; cbn [andb].
  - apply String.eqb_eq in E. subst e'.
    destruct (find_extension e opt 0) eqn:F.
    + assert (N : name_in opt e = true).
      { destruct (name_in opt e) eqn:N; [reflexivity|].
        apply (find_extension_name_in _ _ 0) in N. congruence. }
      rewrite N. reflexivity.
    + apply find_extension_name_in in F. rewrite F. cbn [negb].
      rewrite name_in_app, String.eqb_refl, orb_true_r. reflexivity.
  - destruct (find_extension e' opt 0); [reflexivity|].
    rewrite name_in_app, E, orb_false_r. reflexivity.
Qed.

(** The answer for [e'] once [e] was appended to the optional names, with
    the flag [false]. *)
Lemma has_after_optional (opt : list string) (present : list bool) (req : list string) e e' :
  length present = length opt ->
  match find_extension e' (opt ++ [e]) 0 with
  | Some i => default false ((present ++ [false]) !! i)
  | None => name_in req e'
  end =
  if String.eqb e' e && negb (name_in opt e) then false
  else match find_extension e' opt 0 with
       | Some i => default false (present !! i)
       | None => name_in req e'
       end.
Proof.
  intros Hlen. rewrite find_extension_app.
  destruct (find_extension e' opt 0) as [i|] eqn:F.
  - apply find_extension_bound in F as Hb.
    rewrite lookup_app_l by lia.
    destruct (String.eqb e' e) eqn:E; cbn [andb]; [|reflexivity].
    apply String.eqb_eq in E. subst e'.
    assert (N : name_in opt e = true).
    { destruct (name_in opt e) eqn:N; [reflexivity|].
      apply (find_extension_name_in _ _ 0) in N. congruence. }
    rewrite N. reflexivity.
  - destruct (String.eqb e' e) eqn:E; cbn [andb]; [|reflexivity].
    apply String.eqb_eq in E. subst e'.
    apply find_extension_name_in in F. rewrite F. cbn [negb].
    rewrite Nat.add_0_l, <- Hlen, lookup_app_r by lia.
    rewrite Nat.sub_diag. reflexivity.
Qed.

Section Extensions.
Context {W : Type} (ext : forall c : extCall, W -> reply c * W).
Implicit Types (s : St W).

Lemma add_required_instance_tables s e r s' :
  lahar_builder_extension_add_required_instance ext (Some e) s = Ok r s' ->
  let x := extensions (st_lahar s) in
  let x' := extensions (st_lahar s') in
  (r = LAHAR_ERR_SUCCESS \/ r = LAHAR_ERR_ALLOC_FAILED) /\
  req_inst_exts x' = (if r =? LAHAR_ERR_SUCCESS then req_inst_exts x ++ [e] else req_inst_exts x) /\
  req_dev_exts x' = req_dev_exts x /\
  opt_inst_exts x' = opt_inst_exts x /\ opt_inst_exts_present x' = opt_inst_exts_present x /\
  opt_dev_exts x' = opt_dev_exts x /\ opt_dev_exts_present x' = opt_dev_exts_present x.
Proof.
  unfold lahar_builder_extension_add_required_instance, lahar_vec_expand, lahar_strdup,
    modify_extensions.
  munfold. mrun.
  all: try discriminate.
  all: intros H; leaf H; subst.
  all: try match goal with
       | H : (LAHAR_ERR_ALLOC_FAILED =? LAHAR_ERR_SUCCESS) = true |- _ => discriminate H
       | H : (LAHAR_ERR_SUCCESS =? LAHAR_ERR_SUCCESS) = false |- _ => discriminate H
       end.
  all: cbn.
  all: split; [first [left; reflexivity|right; reflexivity]|].
  all: repeat split; reflexivity.
Qed.

Lemma add_required_device_tables s e r s' :
  lahar_builder_extension_add_required_device ext (Some e) s = Ok r s' ->
  let x := extensions (st_lahar s) in
  let x' := extensions (st_lahar s') in
  (r = LAHAR_ERR_SUCCESS \/ r = LAHAR_ERR_ALLOC_FAILED) /\
  req_dev_exts x' = (if r =? LAHAR_ERR_SUCCESS then req_dev_exts x ++ [e] else req_dev_exts x) /\
  req_inst_exts x' = req_inst_exts x /\
  opt_inst_exts x' = opt_inst_exts x /\ opt_inst_exts_present x' = opt_inst_exts_present x /\
  opt_dev_exts x' = opt_dev_exts x /\ opt_dev_exts_present x' = opt_dev_exts_present x.
Proof.
  unfold lahar_builder_extension_add_required_device, lahar_vec_expand, lahar_strdup,
    modify_extensions.
  munfold. mrun.
  all: try discriminate.
  all: intros H; leaf H; subst.
  all: try match goal with
       | H : (LAHAR_ERR_ALLOC_FAILED =? LAHAR_ERR_SUCCESS) = true |- _ => discriminate H
       | H : (LAHAR_ERR_SUCCESS =? LAHAR_ERR_SUCCESS) = false |- _ => discriminate H
       end.
  all: cbn.
  all: split; [first [left; reflexivity|right; reflexivity]|].
  all: repeat split; reflexivity.
Qed.

Lemma add_optional_instance_tables s e r s' :
  lahar_builder_extension_add_optional_instance ext (Some e) s = Ok r s' ->
  let x := extensions (st_lahar s) in
  let x' := extensions (st_lahar s') in
  (r = LAHAR_ERR_SUCCESS \/ r = LAHAR_ERR_ALLOC_FAILED) /\
  opt_inst_exts x' = (if r =? LAHAR_ERR_SUCCESS then opt_inst_exts x ++ [e] else opt_inst_exts x) /\
  opt_inst_exts_present x' =
    (if r =? LAHAR_ERR_SUCCESS then opt_inst_exts_present x ++ [false]
     else opt_inst_exts_present x) /\
  req_inst_exts x' = req_inst_exts x /\ req_dev_exts x' = req_dev_exts x /\
  opt_dev_exts x' = opt_dev_exts x /\ opt_dev_exts_present x' = opt_dev_exts_present x.
Proof.
  unfold lahar_builder_extension_add_optional_instance, lahar_vec_expand, lahar_strdup,
    modify_extensions.
  munfold. mrun.
  all: try discriminate.
  all: intros H; leaf H; subst.
  all: try match goal with
       | H : (LAHAR_ERR_ALLOC_FAILED =? LAHAR_ERR_SUCCESS) = true |- _ => discriminate H
       | H : (LAHAR_ERR_SUCCESS =? LAHAR_ERR_SUCCESS) = false |- _ => discriminate H
       end.
  all: cbn.
  all: split; [first [left; reflexivity|right; reflexivity]|].
  all: repeat split; reflexivity.
Qed.

Lemma add_optional_device_tables s e r s' :
  lahar_builder_extension_add_optional_device ext (Some e) s = Ok r s' ->
  let x := extensions (st_lahar s) in
  let x' := extensions (st_lahar s') in
  (r = LAHAR_ERR_SUCCESS \/ r = LAHAR_ERR_ALLOC_FAILED) /\
  opt_dev_exts x' = (if r =? LAHAR_ERR_SUCCESS then opt_dev_exts x ++ [e] else opt_dev_exts x) /\
  opt_dev_exts_present x' =
    (if r =? LAHAR_ERR_SUCCESS then opt_dev_exts_present x ++ [false]
     else opt_dev_exts_present x) /\
  req_inst_exts x' = req_inst_exts x /\ req_dev_exts x' = req_dev_exts x /\
  opt_inst_exts x' = opt_inst_exts x /\ opt_inst_exts_present x' = opt_inst_exts_present x.
Proof.
  unfold lahar_builder_extension_add_optional_device, lahar_vec_expand, lahar_strdup,
    modify_extensions.
  munfold. mrun.
  all: try discriminate.
  all: intros H; leaf H; subst.
  all: try match goal with
       | H : (LAHAR_ERR_ALLOC_FAILED =? LAHAR_ERR_SUCCESS) = true |- _ => discriminate H
       | H : (LAHAR_ERR_SUCCESS =? LAHAR_ERR_SUCCESS) = false |- _ => discriminate H
       end.
  all: cbn.
  all: split; [first [left; reflexivity|right; reflexivity]|].
  all: repeat split; reflexivity.
Qed.

(** X12.  Adding a required extension: the call returns
    [LAHAR_ERR_SUCCESS] or [LAHAR_ERR_ALLOC_FAILED].  After a success
    [lahar_extension_has_instance] (resp. [_device]) answers true for the
    name added unless the name is among the optional ones, whose flag goes
    first; for every other name, and after a failure for every name, both
    functions answer what they answered before. *)
Theorem required_extension_round_trip s e r s' :
  (lahar_builder_extension_add_required_instance ext (Some e) s = Ok r s' ->
   (r = LAHAR_ERR_SUCCESS \/ r = LAHAR_ERR_ALLOC_FAILED) /\
   (forall e',
      lahar_extension_has_instance (st_lahar s') (Some e') =
        if (r =? LAHAR_ERR_SUCCESS) && String.eqb e' e
           && negb (name_in (opt_inst_exts (extensions (st_lahar s))) e)
        then true else lahar_extension_has_instance (st_lahar s) (Some e')) /\
   (forall e', lahar_extension_has_device (st_lahar s') e' =
               lahar_extension_has_device (st_lahar s) e')) /\
  (lahar_builder_extension_add_required_device ext (Some e) s = Ok r s' ->
   (r = LAHAR_ERR_SUCCESS \/ r = LAHAR_ERR_ALLOC_FAILED) /\
   (forall e',
      lahar_extension_has_device (st_lahar s') (Some e') =
        if (r =? LAHAR_ERR_SUCCESS) && String.eqb e' e
           && negb (name_in (opt_dev_exts (extensions (st_lahar s))) e)
        then true else lahar_extension_has_device (st_lahar s) (Some e')) /\
   (forall e', lahar_extension_has_instance (st_lahar s') e' =
               lahar_extension_has_instance (st_lahar s) e')).
Proof.
  split; intros H.
  - destruct (add_required_instance_tables s e r s' H) as (Hr & H1 & H2 & H3 & H4 & H5 & H6).
    split; [exact Hr|]. split.
    + intros e'. rewrite !has_instance_tables, H1, H3, H4.
      destruct (r =? LAHAR_ERR_SUCCESS); cbn [andb]; [|reflexivity].
      apply has_after_required.
    + intros [e'|]; [|reflexivity]. rewrite !has_device_tables, H2, H5, H6. reflexivity.
  - destruct (add_required_device_tables s e r s' H) as (Hr & H1 & H2 & H3 & H4 & H5 & H6).
    split; [exact Hr|]. split.
    + intros e'. rewrite !has_device_tables, H1, H5, H6.
      destruct (r =? LAHAR_ERR_SUCCESS); cbn [andb]; [|reflexivity].
      apply has_after_required.
    + intros [e'|]; [|reflexivity]. rewrite !has_instance_tables, H2, H3, H4. reflexivity.
Qed.

(** X13.  Adding an optional extension, with the tables in step (one flag
    per optional name): the call returns [LAHAR_ERR_SUCCESS] or
    [LAHAR_ERR_ALLOC_FAILED] and leaves the tables in step.  After a
    success [lahar_extension_has_instance] (resp. [_device]) answers false
    for the name added when it was not optional before, also when it is a
    required name for which the answer was true; for a name that was
    optional already, for every other name, and after a failure for every
    name, both functions answer what they answered before. *)
Theorem optional_extension_round_trip s e r s' :
  tables_in_step (extensions (st_lahar s)) ->
  (lahar_builder_extension_add_optional_instance ext (Some e) s = Ok r s' ->
   (r = LAHAR_ERR_SUCCESS \/ r = LAHAR_ERR_ALLOC_FAILED) /\
   tables_in_step (extensions (st_lahar s')) /\
   (forall e',
      lahar_extension_has_instance (st_lahar s') (Some e') =
        if (r =? LAHAR_ERR_SUCCESS) && String.eqb e' e
           && negb (name_in (opt_inst_exts (extensions (st_lahar s))) e)
        then false else lahar_extension_has_instance (st_lahar s) (Some e')) /\
   (forall e', lahar_extension_has_device (st_lahar s') e' =
               lahar_extension_has_device (st_lahar s) e')) /\
  (lahar_builder_extension_add_optional_device ext (Some e) s = Ok r s' ->
   (r = LAHAR_ERR_SUCCESS \/ r = LAHAR_ERR_ALLOC_FAILED) /\
   tables_in_step (extensions (st_lahar s')) /\
   (forall e',
      lahar_extension_has_device (st_lahar s') (Some e') =
        if (r =? LAHAR_ERR_SUCCESS) && String.eqb e' e
           && negb (name_in (opt_dev_exts (extensions (st_lahar s))) e)
        then false else lahar_extension_has_device (st_lahar s) (Some e')) /\
   (forall e', lahar_extension_has_instance (st_lahar s') e' =
               lahar_extension_has_instance (st_lahar s) e')).
Proof.
  intros [Hi Hd]. split; intros H.
  - destruct (add_optional_instance_tables s e r s' H) as (Hr & H1 & H2 & H3 & H4 & H5 & H6).
    split; [exact Hr|]. split; [|split].
    + unfold tables_in_step. rewrite H1, H2, H5, H6.
      split; [|exact Hd]. destruct (r =? LAHAR_ERR_SUCCESS); [|exact Hi].
      rewrite !length_app, Hi. reflexivity.
    + intros e'. rewrite !has_instance_tables, H1, H2, H3.
      destruct (r =? LAHAR_ERR_SUCCESS); cbn [andb]; [|reflexivity].
      apply has_after_optional, Hi.
    + intros [e'|]; [|reflexivity]. rewrite !has_device_tables, H4, H5, H6. reflexivity.
  - destruct (add_optional_device_tables s e r s' H) as (Hr & H1 & H2 & H3 & H4 & H5 & H6).
    split; [exact Hr|]. split; [|split].
    + unfold tables_in_step. rewrite H1, H2, H5, H6.
      split; [exact Hi|]. destruct (r =? LAHAR_ERR_SUCCESS); [|exact Hd].
      rewrite !length_app, Hd. reflexivity.
    + intros e'. rewrite !has_device_tables, H1, H2, H4.
      destruct (r =? LAHAR_ERR_SUCCESS); cbn [andb]; [|reflexivity].
      apply has_after_optional, Hd.
    + intros [e'|]; [|reflexivity]. rewrite !has_instance_tables, H3, H5, H6. reflexivity.
Qed.
End Extensions.

(** "VK_KHR_multiview" added as a required device extension: the answer
    for it becomes true. *)
Lemma required_extension_round_trip_witness :
  lahar_extension_has_device (st_lahar example_inited) (Some "VK_KHR_multiview"%string) = false /\
  lahar_extension_has_device (st_lahar example_required_added)
    (Some "VK_KHR_multiview"%string) = true.
Proof.
  split; [vm_compute; reflexivity|].
  destruct (required_extension_round_trip sim_ext example_inited "VK_KHR_multiview"
              LAHAR_ERR_SUCCESS example_required_added) as [_ H].
  destruct H as (_ & H & _); [vm_compute; reflexivity|].
  rewrite H. vm_compute. reflexivity.
Defined.

(** The same name added as an optional device extension afterwards: the
    answer for it becomes false. *)
Lemma optional_extension_round_trip_witness :
  lahar_extension_has_device (st_lahar example_required_added)
    (Some "VK_KHR_multiview"%string) = true /\
  lahar_extension_has_device (st_lahar example_optional_added)
    (Some "VK_KHR_multiview"%string) = false.
Proof.
  split; [vm_compute; reflexivity|].
  destruct (optional_extension_round_trip sim_ext example_required_added "VK_KHR_multiview"
              LAHAR_ERR_SUCCESS example_optional_added) as [_ H].
  - split; vm_compute; reflexivity.
  - destruct H as (_ & _ & H & _); [vm_compute; reflexivity|].
    rewrite H. vm_compute. reflexivity.
Defined.

(** ** A build, and the tear-down *)

Section Lifecycle.
Context {W : Type} (ext : forall c : extCall, W -> reply c * W).
Implicit Types (s : St W).

Lemma hoare_any {A} (P : St W -> Prop) (m : M W A) : hoare P m (fun _ _ => True).
Proof. intros s _. destruct (m s); exact I. Qed.

Lemma lahar_build_steps s :
  lahar_build ext s =
  (err ← build_steps ext;
   (if negb (err =? LAHAR_ERR_SUCCESS) then lahar_deinit ext else mret tt);;
   mret err) s.
Proof. reflexivity. Qed.

(** A successful build ends where its seven steps end. *)
Lemma lahar_build_success s s' :
  lahar_build ext s = Ok LAHAR_ERR_SUCCESS s' -> build_steps ext s = Ok LAHAR_ERR_SUCCESS s'.
Proof.
  rewrite lahar_build_steps. unfold mbind at 1, M_bind at 1.
  destruct (build_steps ext s) as [e s1| |]; [|discriminate..].
  destruct (e =? LAHAR_ERR_SUCCESS) eqn:E; cbn [negb].
  - unfold mbind, M_bind, mret, M_ret. intros H; leaf H. subst. reflexivity.
  - unfold mbind, M_bind, mret, M_ret.
    destruct (lahar_deinit ext s1); [|discriminate..].
    intros H; leaf H. subst e. discriminate E.
Qed.

(** A failed build ends where the tear-down ends. *)
Lemma lahar_build_failure s e s' :
  lahar_build ext s = Ok e s' -> e <> LAHAR_ERR_SUCCESS ->
  exists s1, build_steps ext s = Ok e s1 /\ lahar_deinit ext s1 = Ok tt s'.
Proof.
  rewrite lahar_build_steps. unfold mbind at 1, M_bind at 1.
  destruct (build_steps ext s) as [e1 s1| |]; [|discriminate..].
  destruct (e1 =? LAHAR_ERR_SUCCESS) eqn:E; cbn [negb].
  - unfold mbind, M_bind, mret, M_ret. intros H; leaf H. subst.
    apply Z.eqb_eq in E. contradiction.
  - unfold mbind, M_bind, mret, M_ret.
    destruct (lahar_deinit ext s1) as [[] s2| |] eqn:D; [|discriminate..].
    intros H; leaf H. subst. intros _. exists s1. split; [reflexivity|exact D].
Qed.

Lemma build_steps_registration_key k log0 :
  inv (sinv (W := W) registration_key k (fun _ => True) log0) (build_steps ext).
Proof. unfold build_steps. repeat inv_step_build. Qed.

Lemma build_steps_settings_key k log0 :
  inv (sinv (W := W) settings_key k (fun _ => True) log0) (build_steps ext).
Proof. unfold build_steps. repeat inv_step_build. Qed.

Lemma build_success_keeps {X} (g : Lahar -> X) s s' :
  (forall k log0, inv (sinv (W := W) g k (fun _ => True) log0) (build_steps ext)) ->
  lahar_build ext s = Ok LAHAR_ERR_SUCCESS s' -> g (st_lahar s') = g (st_lahar s).
Proof.
  intros Hinv H. apply lahar_build_success in H.
  pose proof (Hinv (g (st_lahar s)) (st_log s) s (sinv_start _ _ _ _ _ eq_refl eq_refl)) as Hs.
  rewrite H in Hs. apply Hs.
Qed.









(** X15.  The user pointer: [lahar_get_user_data] returns what
    [lahar_set_user_data] stored, at once and after a successful
    [lahar_build]; storing it changes nothing else in the structure. *)
Theorem user_data_round_trip s v :
  exists s1, lahar_set_user_data v s = Ok tt s1 /\
    st_lahar s1 = set_user_data v (st_lahar s) /\
    lahar_get_user_data s1 = Ok v s1 /\
    forall s2, lahar_build ext s1 = Ok LAHAR_ERR_SUCCESS s2 ->
      lahar_get_user_data s2 = Ok v s2.
Proof.
  eexists. split; [reflexivity|]. split; [reflexivity|]. split; [reflexivity|].
  intros s2 H.
  pose proof (build_success_keeps settings_key _ s2 build_steps_settings_key H) as Hk.
  unfold lahar_get_user_data, mbind, M_bind, get_lahar, mret, M_ret.
  apply (f_equal (fun k => k.1.1.1.1.1.1.1.1.1.1.1.1)) in Hk. cbn in Hk.
  rewrite Hk. reflexivity.
Qed.

(** X16.  [lahar_build] reads the handle of the first window before
    anything else: with no window registered it does not return. *)
Theorem build_without_windows s :
  windows (st_lahar s) = [] -> lahar_build ext s = Crash.
Proof.
  intros H. unfold lahar_build, __lahar_build_inst_extensions, temp_extensions_unchecked,
    __lahar_temp_extensions, on_success.
  munfold. rewrite H. reflexivity.
Qed.

Lemma deinit_ends_zero :
  hoare (W := W) (fun _ => True) (lahar_deinit ext)
    (fun _ s => st_lahar s = lahar_zero /\ last_call s = Some backend_terminate).
Proof.
  unfold lahar_deinit.
  do 7 (apply (hoare_bind _ (fun _ _ => True)); [apply hoare_any|intros ?]).
  intros s _. munfold. destruct (ext backend_terminate (st_world s)) as [r w'].
  cbn. split; [reflexivity|]. unfold last_call. cbn. rewrite last_snoc. reflexivity.
Qed.

(** X17.  A [lahar_build] that returns an error has torn everything down
    first: the structure is all zero, the windows registered before are
    gone, and the last thing done was to shut the window backend down. *)
Theorem build_failure_tears_down s e s' :
  lahar_build ext s = Ok e s' -> e <> LAHAR_ERR_SUCCESS ->
  st_lahar s' = lahar_zero /\ last_call s' = Some backend_terminate /\
  forall w, lahar_window_state (st_lahar s') w = None.
Proof.
  intros H Hne. destruct (lahar_build_failure s e s' H Hne) as (s1 & _ & Hd).
  pose proof (deinit_ends_zero s1 I) as Hz. rewrite Hd in Hz. destruct Hz as [Hz Hl].
  split; [exact Hz|]. split; [exact Hl|]. intros w. rewrite Hz. reflexivity.
Qed.
End Lifecycle.

(** One step of a proof that the guarded destructions of [lahar_deinit]
    are given live handles. *)
Ltac inv_step_live :=
  lazymatch goal with
  | |- inv _ (if negb (?x =? ?y) then _ else _) =>
      destruct (Z.eqb_spec x y); cbn [negb]
  | |- inv (sinv ?g ?v ?P ?log0) (call_ ?ext ?c) =>
      apply (sinv_call_ g v P log0 ext c); intros; unfold destroys_live; cbn [snd];
      first [exact I | assumption]
  | |- _ => inv_step
  end.

Section TearDown.
Context {W : Type} (ext : forall c : extCall, W -> reply c * W).
Implicit Types (s : St W).

Lemma deinit_live log0 :
  inv (sinv (W := W) no_key tt destroys_live log0) (lahar_deinit ext).
Proof. repeat inv_step_live. Qed.

(** X18.  [lahar_deinit], when it returns, has left the structure all zero
    and shut the window backend down last; and every image view,
    swapchain, surface, command pool, device, debug messenger and instance
    it destroyed, and every image it handed to [free_image], was a handle
    other than [VK_NULL_HANDLE]. *)
Theorem deinit_destroys_live s s' :
  lahar_deinit ext s = Ok tt s' ->
  st_lahar s' = lahar_zero /\ last_call s' = Some backend_terminate /\
  exists new, st_log s' = st_log s ++ new /\ Forall destroys_live new.
Proof.
  intros H.
  pose proof (deinit_ends_zero ext s I) as Hz. rewrite H in Hz. destruct Hz as [Hz Hl].
  split; [exact Hz|]. split; [exact Hl|].
  pose proof (deinit_live (st_log s) s (sinv_start _ _ _ _ _ eq_refl eq_refl)) as Hi.
  rewrite H in Hi. apply Hi.
Qed.
End TearDown.

Section Stuck.
Context {W : Type} (ext : forall c : extCall, W -> reply c * W).
Implicit Types (s : St W).

Lemma bind_run {A B} (m : M W A) (f : A -> M W B) s :
  (m ≫= f) s = match m s with Ok a s1 => f a s1 | Crash => Crash | OutOfFuel => OutOfFuel end.
Proof. reflexivity. Qed.

Lemma for_loop_S (body : nat -> M W Z) n i s :
  for_loop (S n) i body s =
    match body i s with
    | Ok e s1 => if e =? LAHAR_ERR_SUCCESS then for_loop n (S i) body s1 else Ok e s1
    | Crash => Crash
    | OutOfFuel => OutOfFuel
    end.
Proof.
  cbn [for_loop]. unfold on_success. rewrite bind_run.
  destruct (body i s) as [e s1| |]; [|reflexivity..].
  destruct (e =? LAHAR_ERR_SUCCESS); reflexivity.
Qed.

Lemma for_each_stuck (Q : St W -> Prop) (body : nat -> M W unit) j : forall n i0 s,
  (i0 <= j < i0 + n)%nat ->
  (forall k, inv Q (body k)) ->
  (forall s1, Q s1 -> forall r s', body j s1 <> Ok r s') ->
  Q s -> forall r s', for_each n i0 body s <> Ok r s'.
Proof.
  intros n i0 s Hj Hinv Hstuck Hs r s'. unfold for_each. rewrite bind_run.
  destruct (for_loop n i0 (fun j0 => body j0;; mret LAHAR_ERR_SUCCESS) s) as [e s1| |] eqn:E;
    [|intros H; discriminate H..].
  intros _. revert i0 s Hj Hs E.
  induction n as [|n IH]; intros i0 s Hj Hs; [lia|].
  rewrite for_loop_S, bind_run.
  destruct (body i0 s) as [[] s2| |] eqn:B; [|intros H; discriminate H..].
  destruct (decide (i0 = j)) as [->|Hne].
  - exfalso. apply (Hstuck s Hs tt s2 B).
  - unfold mret at 1, M_ret at 1. rewrite Z.eqb_refl.
    apply (IH (S i0) s2); [lia|].
    pose proof (Hinv i0 s Hs) as H2. rewrite B in H2. exact H2.
Qed.

Lemma deinit_window_windows k ws0 log0 :
  inv (sinv (W := W) windows ws0 (fun _ => True) log0) (deinit_window ext k).
Proof. inv_auto. Qed.

Lemma deinit_window_stuck j ws s :
  windows (st_lahar s) !! j = Some ws -> attachments ws = [] ->
  forall r s', deinit_window ext j s <> Ok r s'.
Proof.
  intros Hws Hatt r s'. unfold deinit_window.
  intros H.
  apply bind_Ok in H. destruct H as (l & s1 & H1 & H).
  unfold get_lahar in H1. leaf H1. subst l s1.
  apply bind_Ok in H. destruct H as (state & s1 & H1 & H).
  unfold get_window, get_lahar, read_slot, mbind, M_bind in H1. rewrite Hws in H1.
  unfold mret, M_ret in H1. leaf H1. subst state s1.
  apply bind_Ok in H. destruct H as (? & s1 & _ & H).
  apply bind_Ok in H. destruct H as (? & s2 & _ & H).
  apply bind_Ok in H. destruct H as (? & s3 & _ & H).
  apply bind_Ok in H. destruct H as (? & s4 & _ & H).
  apply bind_Ok in H. destruct H as (? & s5 & H5 & _).
  rewrite Hatt in H5. discriminate H5.
Qed.

(** X19.  [lahar_deinit] reads the colour row of the attachments of every
    registered window: it does not return when some window has no
    attachment rows at all, which is the state that a registration failing
    in the backend leaves behind. *)
Theorem deinit_without_attachment_rows s j ws :
  windows (st_lahar s) !! j = Some ws -> attachments ws = [] ->
  forall r s', lahar_deinit ext s <> Ok r s'.
Proof.
  intros Hws Hatt r s' H. unfold lahar_deinit in H.
  apply bind_Ok in H. destruct H as (l & s1 & H1 & H).
  unfold get_lahar in H1. leaf H1. subst l s1.
  apply bind_Ok in H. destruct H as (? & s1 & H1 & H).
  apply bind_Ok in H. destruct H as (? & s2 & H2 & _).
  assert (Hq : sinv windows (windows (st_lahar s)) (fun _ => True) (st_log s) s1).
  { unfold call in H1. destruct (ext _ _) as [r0 w']. leaf H1. subst s1.
    split; [reflexivity|]. cbn. eexists. split; [reflexivity|]. repeat constructor. }
  revert H2. apply (for_each_stuck (sinv windows (windows (st_lahar s)) (fun _ => True) (st_log s))
                      (deinit_window ext) j).
  - split; [lia|]. apply lookup_lt_Some in Hws. lia.
  - intros k. apply deinit_window_windows.
  - intros s0 [Hw _]. apply (deinit_window_stuck j ws); [rewrite Hw; exact Hws|exact Hatt].
  - exact Hq.
Qed.
End Stuck.


Lemma user_data_round_trip_witness :
  lahar_get_user_data example_user_data_built = Ok 4242 example_user_data_built.
Proof.
  destruct (user_data_round_trip sim_ext
              (state_after lahar_builder_request_command_buffers example_registered) 4242)
    as (s1 & E & _ & _ & H).
  vm_compute in E. injection E as <-.
  apply H. vm_compute. reflexivity.
Defined.

Lemma build_without_windows_witness : lahar_build sim_ext example_inited = Crash.
Proof. apply build_without_windows. vm_compute. reflexivity. Defined.

(** The depth profile without an allocator: the build fails and leaves
    nothing behind. *)
Lemma build_failure_tears_down_witness :
  result_of (lahar_build sim_ext) example_depth_registered =
    Some LAHAR_ERR_INVALID_CONFIGURATION /\
  st_lahar (state_after (lahar_build sim_ext) example_depth_registered) = lahar_zero.
Proof.
  split; [vm_compute; reflexivity|].
  apply (build_failure_tears_down sim_ext example_depth_registered
           LAHAR_ERR_INVALID_CONFIGURATION).
  - vm_compute. reflexivity.
  - vm_compute. discriminate.
Defined.

Lemma deinit_destroys_live_witness :
  st_lahar (state_after (lahar_deinit sim_ext) example_built) = lahar_zero /\
  exists new,
    st_log (state_after (lahar_deinit sim_ext) example_built) = st_log example_built ++ new /\
    Forall destroys_live new.
Proof.
  destruct (deinit_destroys_live sim_ext example_built
              (state_after (lahar_deinit sim_ext) example_built)) as (H1 & _ & H3).
  - vm_compute. reflexivity.
  - split; [exact H1|exact H3].
Defined.

Lemma deinit_without_attachment_rows_witness :
  lahar_deinit sim_ext_no_size example_unsized = Crash.
Proof.
  destruct (lahar_deinit sim_ext_no_size example_unsized) as [r s'| |] eqn:E;
    [|reflexivity|vm_compute in E; discriminate E].
  exfalso.
  apply (deinit_without_attachment_rows sim_ext_no_size example_unsized 0
           (unsized_window example_window 0 0) eq_refl eq_refl r s' E).
Defined.

(** ** The device description of a build *)

Section Gathering.
Context {W : Type} (ext : forall c : extCall, W -> reply c * W).
Implicit Types (s : St W).

Lemma hoare_pure {A} (phi : Prop) (m : M W A) (Q : A -> St W -> Prop) :
  (phi -> hoare (fun _ => True) m Q) -> hoare (fun _ => phi) m Q.
Proof. intros H s Hs. apply (H Hs s I). Qed.

(** The scan of the queue families writes the queue fields only. *)
Lemma scan_queue_families_gathered surfaces fams : forall j d,
  gathered d ->
  hoare (W := W) (fun _ => True) (scan_queue_families ext surfaces fams j d)
    (fun d' _ => gathered d').
Proof.
  induction fams as [|fam rest IH]; intros j d Hd; cbn [scan_queue_families].
  - apply hoare_ret. intros; exact Hd.
  - cbv zeta.
    apply (hoare_bind _ (fun _ _ => True)); [apply hoare_any|intros b].
    match goal with |- hoare _ (if ?c then _ else _) _ => destruct c end.
    + apply hoare_ret. intros _ _.
      destruct b; destruct (negb _); exact Hd.
    + apply IH. destruct b; destruct (negb _); exact Hd.
Qed.

Lemma gather_device_info_gathered pd :
  hoare (W := W) (fun _ => True) (gather_device_info ext pd) (fun d _ => gathered d).
Proof.
  unfold gather_device_info.
  apply (hoare_bind _ (fun _ _ => True)); [apply hoare_any|intros l].
  apply (hoare_bind _ (fun _ _ => True)); [apply hoare_any|intros props].
  apply (hoare_bind _ (fun _ _ => True)); [apply hoare_any|intros feats].
  apply (hoare_bind _ (fun _ _ => True)); [apply hoare_any|intros ct].
  apply (hoare_bind _ (fun _ _ => True)); [apply hoare_any|intros fams].
  destruct (negb _); [apply hoare_crash|].
  apply (hoare_bind _ (fun d _ => gathered d)).
  { apply scan_queue_families_gathered.
    unfold gathered, LAHAR_MAX_DEVICE_ENTRIES. cbn. repeat split; lia. }
  intros d. apply hoare_conseq with (P' := fun _ => gathered d)
                                   (Q' := fun d' (_ : St W) => gathered d');
    [|intros s0 H0; exact H0|auto]. apply hoare_pure. intros Hd.
  destruct (windows l) as [|ws0 _]; [apply hoare_ret; intros; exact Hd|].
  apply (hoare_bind _ (fun _ _ => True)); [apply hoare_any|intros fct].
  apply (hoare_bind _ (fun _ _ => True)); [apply hoare_any|intros pct].
  apply (hoare_bind _ (fun _ _ => True)); [apply hoare_any|intros formats].
  destruct (negb _); [apply hoare_crash|].
  apply (hoare_bind _ (fun _ _ => True)); [apply hoare_any|intros modes].
  destruct (negb _); [apply hoare_crash|].
  apply hoare_ret. intros _ _.
  destruct Hd as (H1 & H2 & H3 & _ & _).
  unfold gathered, LAHAR_MAX_DEVICE_ENTRIES in *. cbn.
  split; [exact H1|]. split; [exact H2|]. split; [exact H3|].
  rewrite !length_take. lia.
Qed.

Lemma gather_device_infos_gathered devices :
  hoare (W := W) (fun _ => True) (gather_device_infos ext devices)
    (fun infos _ => Forall gathered infos).
Proof.
  induction devices as [|pd rest IH]; cbn [gather_device_infos].
  - apply hoare_ret. intros; constructor.
  - apply (hoare_bind _ (fun d _ => gathered d)); [apply gather_device_info_gathered|].
    intros d. apply hoare_conseq with (P' := fun _ => gathered d)
                                     (Q' := fun infos (_ : St W) => Forall gathered infos);
      [|intros s0 H0; exact H0|auto]. apply hoare_pure. intros Hd.
    apply (hoare_bind _ (fun infos _ => Forall gathered infos)); [exact IH|].
    intros infos. apply hoare_ret. intros s0 H0. constructor; assumption.
Qed.

Lemma build_physdev_gathered :
  hoare (W := W) (fun _ => True) (__lahar_build_physdev ext)
    (fun e s' => e = LAHAR_ERR_SUCCESS -> gathered (physdev_info (st_lahar s'))).
Proof.
  unfold __lahar_build_physdev.
  apply (hoare_bind _ (fun _ _ => True)); [apply hoare_any|intros l]. cbv zeta.
  apply (hoare_bind _ (fun _ _ => True)); [apply hoare_any|intros [res ct]].
  apply (hoare_bind _ (fun _ _ => True)); [apply hoare_any|intros _].
  destruct (negb _); [apply hoare_ret; intros s0 _ He; err_discr He|].
  apply (hoare_bind _ (fun _ _ => True)); [apply hoare_any|intros [res2 devices]].
  apply (hoare_bind _ (fun _ _ => True)); [apply hoare_any|intros _].
  destruct (negb _); [apply hoare_ret; intros s0 _ He; err_discr He|].
  destruct (negb _); [apply hoare_crash|].
  apply (hoare_bind _ (fun infos _ => Forall gathered infos));
    [apply gather_device_infos_gathered|].
  intros infos. apply hoare_conseq with
    (P' := fun _ => Forall gathered infos)
    (Q' := fun e (s' : St W) => e = LAHAR_ERR_SUCCESS -> gathered (physdev_info (st_lahar s')));
    [|intros s0 H0; exact H0|auto]. apply hoare_pure. intros Hinfos.
  apply (hoare_bind _ (fun _ _ => True)); [apply hoare_any|intros scores].
  destruct (_ =? -1); [apply hoare_ret; intros s0 _ He; err_discr He|].
  unfold read_slot_Z. destruct (_ <? 0); [intros s0 _; exact I|].
  unfold read_slot.
  destruct (infos !! Z.to_nat (pick_best scores)) as [info|] eqn:Hinfo;
    [|intros s0 _; exact I].
  assert (Hg : gathered info).
  { rewrite Forall_lookup in Hinfos. apply (Hinfos _ _ Hinfo). }
  apply (hoare_bind _ (fun a _ => a = info)); [apply hoare_ret; reflexivity|].
  intros a. apply hoare_pure. intros ->.
  apply (hoare_bind _ (fun _ _ => True)); [apply hoare_any|intros _].
  intros s0 _. cbn. intros _. exact Hg.
Qed.

(** X20.  The device description that a successful
    [__lahar_build_physdev] stores was filled in by its own loop, which
    writes neither the two counts nor the memory table: both counts are 0
    and the table is empty, at most [LAHAR_MAX_DEVICE_ENTRIES] formats and
    present modes are kept.  On that description the default present mode
    chooser answers [VK_PRESENT_MODE_FIFO_KHR], the default format chooser
    answers the entry 0, and the memory term of the default score is 0,
    whatever the device offers. *)
Theorem physdev_info_as_gathered s s' :
  __lahar_build_physdev ext s = Ok LAHAR_ERR_SUCCESS s' ->
  let d := physdev_info (st_lahar s') in
  gathered d /\
  __lahar_default_surface_present_mode_chooser d =
    (LAHAR_ERR_SUCCESS, VK_PRESENT_MODE_FIFO_KHR) /\
  __lahar_default_surface_format_chooser d =
    (LAHAR_ERR_SUCCESS, default surface_format_zero (surface_formats d !! 0%nat)) /\
  device_local_memory d = 0 /\ memory_bonus d = 0.
Proof.
  intros H. cbv zeta.
  pose proof (build_physdev_gathered s I) as Hg. rewrite H in Hg. specialize (Hg eq_refl).
  split; [exact Hg|]. destruct Hg as (H1 & H2 & H3 & _).
  unfold __lahar_default_surface_present_mode_chooser,
    __lahar_default_surface_format_chooser, memory_bonus, device_local_memory.
  rewrite H1, H2, H3. cbn. repeat split; reflexivity.
Qed.
End Gathering.

(** The simulated machine offers one format and FIFO; whatever it offers,
    the description kept by the build has the counts at 0. *)
Lemma physdev_info_as_gathered_witness :
  gathered (physdev_info (st_lahar example_after_physdev)) /\
  surface_formats (physdev_info (st_lahar example_after_physdev)) =
    [mkVkSurfaceFormatKHR VK_FORMAT_B8G8R8A8_SRGB VK_COLORSPACE_SRGB_NONLINEAR_KHR] /\
  surface_fmt_count (physdev_info (st_lahar example_after_physdev)) = 0.
Proof.
  destruct (physdev_info_as_gathered sim_ext example_before_physdev example_after_physdev)
    as (H & _).
  - vm_compute. reflexivity.
  - split; [exact H|]. split; [vm_compute; reflexivity|apply H].
Defined.

(** ** The synchronisation objects *)

Section Sync.
Context {W : Type} (ext : forall c : extCall, W -> reply c * W).
Implicit Types (s : St W).

(** A loop with an invariant indexed by the loop counter. *)
Lemma hoare_for_loop (J : nat -> St W -> Prop) (body : nat -> M W Z) n : forall i0,
  (forall j, hoare (J j) (body j) (fun e s => e = LAHAR_ERR_SUCCESS -> J (S j) s)) ->
  hoare (J i0) (for_loop n i0 body) (fun e s => e = LAHAR_ERR_SUCCESS -> J (i0 + n)%nat s).
Proof.
  induction n as [|n IH]; intros i0 Hb.
  - cbn [for_loop]. apply hoare_ret. intros s Hs _. rewrite Nat.add_0_r. exact Hs.
  - intros s Hs. rewrite for_loop_S. pose proof (Hb i0 s Hs) as H0.
    destruct (body i0 s) as [e s1| |]; [|exact I..].
    destruct (e =? LAHAR_ERR_SUCCESS) eqn:E.
    + apply Z.eqb_eq in E. specialize (IH (S i0) Hb s1 (H0 E)).
      destruct (for_loop n (S i0) body s1) as [e2 s2| |]; [|exact I..].
      intros He. replace (i0 + S n)%nat with (S i0 + n)%nat by lia. apply IH, He.
    + intros He. apply Z.eqb_neq in E. contradiction.
Qed.

Lemma sync_round n0 i m a b c j :
  hoare (sync_rounds n0 i m j)
    (if negb a then crash else
     l ← get_lahar;
     '(res, sem) ← call ext (vkCreateSemaphore (device l));
     modify (set_vkresult res);;
     modify_window i (fun ws => set_image_available (image_available ws ++ [sem]) ws);;
     if negb (res =? VK_SUCCESS) then mret LAHAR_ERR_VK_ERR else
     if negb b then crash else
     '(res, sem) ← call ext (vkCreateSemaphore (device l));
     modify (set_vkresult res);;
     modify_window i (fun ws => set_render_finished (render_finished ws ++ [sem]) ws);;
     if negb (res =? VK_SUCCESS) then mret LAHAR_ERR_VK_ERR else
     if negb c then crash else
     '(res, fence) ← call ext (vkCreateFence (device l) VK_FENCE_CREATE_SIGNALED_BIT);
     modify (set_vkresult res);;
     modify_window i (fun ws => set_in_flight (in_flight ws ++ [fence]) ws);;
     if negb (res =? VK_SUCCESS) then mret LAHAR_ERR_VK_ERR else
     mret LAHAR_ERR_SUCCESS)
    (fun e s => e = LAHAR_ERR_SUCCESS -> sync_rounds n0 i m (S j) s).
Proof.
  intros s (Hlen & Hprev & ws & Hws & Hm & L1 & L2 & L3).
  munfold. mrun.
  all: try exact I.
  all: try (intros He; err_discr He).
  intros _. unfold sync_rounds. cbn [st_lahar windows set_windows set_vkresult].
  split; [|split].
  - rewrite !length_alter. exact Hlen.
  - intros i' ws' Hi'. rewrite !list_lookup_alter_ne by lia. apply Hprev, Hi'.
  - rewrite !list_lookup_alter_eq, Hws. cbn.
    eexists. split; [reflexivity|].
    cbn. rewrite !length_app. cbn. repeat split; lia.
Qed.

Lemma build_sync_window_done n0 i :
  hoare (sync_done n0 i) (build_sync_window ext i)
    (fun e s => e = LAHAR_ERR_SUCCESS -> sync_done n0 (S i) s).
Proof.
  unfold build_sync_window.
  apply (hoare_bind _ (fun ws s => sync_done n0 i s /\ windows (st_lahar s) !! i = Some ws)).
  { intros s Hs. unfold get_window, get_lahar, read_slot, mbind, M_bind.
    destruct (windows (st_lahar s) !! i) eqn:E; [|exact I]. split; [exact Hs|exact E]. }
  intros ws.
  apply (hoare_bind _ (fun _ s => sync_done n0 i s /\ windows (st_lahar s) !! i = Some ws)).
  { intros s Hs. unfold call. destruct (ext _ _). exact Hs. }
  intros a.
  apply (hoare_bind _ (fun _ s => sync_done n0 i s /\ windows (st_lahar s) !! i = Some ws)).
  { intros s Hs. unfold call. destruct (ext _ _). exact Hs. }
  intros b.
  apply (hoare_bind _ (fun _ s => sync_done n0 i s /\ windows (st_lahar s) !! i = Some ws)).
  { intros s Hs. unfold call. destruct (ext _ _). exact Hs. }
  intros c.
  apply (hoare_bind _ (fun _ s => sync_rounds n0 i (max_in_flight ws) 0 s)).
  { intros s [[Hlen Hprev] Hws]. unfold modify_window, modify, sync_rounds. cbn.
    split; [rewrite length_alter; exact Hlen|]. split.
    - intros i' ws' Hi'. rewrite list_lookup_alter_ne by lia. apply Hprev, Hi'.
    - rewrite list_lookup_alter_eq, Hws. cbn. eexists. split; [reflexivity|].
      repeat split. }
  intros _.
  eapply hoare_conseq.
  - apply (hoare_for_loop (sync_rounds n0 i (max_in_flight ws))). intros j. apply sync_round.
  - intros s Hs. exact Hs.
  - intros e s H He. destruct (H He) as (Hlen & Hprev & ws' & Hws' & Hm & L1 & L2 & L3).
    split; [exact Hlen|]. intros i' ws2 Hi' Hws2.
    destruct (decide (i' = i)) as [->|Hne]; [|apply (Hprev i' ws2); [lia|exact Hws2]].
    rewrite Hws' in Hws2. injection Hws2 as <-.
    unfold good_sync. rewrite Hm, L1, L2, L3. cbn. repeat split.
Qed.

Lemma build_sync_done s :
  hoare (fun s0 => s0 = s) (__lahar_build_sync ext)
    (fun e s' => e = LAHAR_ERR_SUCCESS ->
       length (windows (st_lahar s')) = length (windows (st_lahar s)) /\
       Forall good_sync (windows (st_lahar s'))).
Proof.
  unfold __lahar_build_sync.
  apply (hoare_bind _ (fun l s0 => s0 = s /\ l = st_lahar s)).
  { intros s0 ->. split; reflexivity. }
  intros l. intros s0 [-> ->].
  pose proof (hoare_for_loop (sync_done (length (windows (st_lahar s))))
                (build_sync_window ext) (length (windows (st_lahar s))) 0
                (build_sync_window_done _) s) as H.
  destruct (for_loop _ _ _ s) as [e s'| |]; [|exact I..].
  intros He. destruct H as [Hlen Hall]; [|exact He|].
  { split; [reflexivity|]. intros i' ws Hi'. lia. }
  split; [exact Hlen|]. apply Forall_lookup. intros i' ws Hws.
  apply (Hall i' ws); [|exact Hws]. apply lookup_lt_Some in Hws. lia.
Qed.

Lemma on_success_Ok (m k : M W Z) s e s' :
  (m ;;! k) s = Ok e s' ->
  (exists s1, m s = Ok LAHAR_ERR_SUCCESS s1 /\ k s1 = Ok e s') \/
  (m s = Ok e s' /\ e <> LAHAR_ERR_SUCCESS).
Proof.
  unfold on_success. rewrite bind_run.
  destruct (m s) as [e1 s1| |]; [|discriminate..].
  destruct (e1 =? LAHAR_ERR_SUCCESS) eqn:E.
  - apply Z.eqb_eq in E. subst e1. intros H. left. exists s1. split; [reflexivity|exact H].
  - intros H; leaf H. subst. right. split; [reflexivity|]. apply Z.eqb_neq, E.
Qed.

Lemma build_steps_end s s' :
  build_steps ext s = Ok LAHAR_ERR_SUCCESS s' ->
  exists s1, __lahar_build_sync ext s1 = Ok LAHAR_ERR_SUCCESS s'.
Proof.
  unfold build_steps. intros H.
  do 6 (apply on_success_Ok in H; destruct H as [(? & _ & H)|[_ H]]; [|contradiction]).
  eexists. exact H.
Qed.

Lemma ready_key_frames (l l' : Lahar) :
  ready_key l' = ready_key l -> frames_ready l -> frames_ready l'.
Proof.
  unfold frames_ready, ready_key. intros Hk Hl.
  apply Forall_lookup. intros i ws' Hws'.
  apply (f_equal (fun ks => ks !! i)) in Hk. rewrite !list_lookup_fmap, Hws' in Hk.
  destruct (windows l !! i) as [ws|] eqn:Hws; [|discriminate Hk].
  rewrite Forall_lookup in Hl. specialize (Hl i ws Hws).
  cbn in Hk. injection Hk as K1 K2 K3 K4 K5 K6.
  destruct Hl as ((G1 & G2 & G3) & Hf & Hc).
  unfold frame_ready, good_sync. rewrite K1, K2, K3, K4, K5, K6. auto.
Qed.

(** X21.  After a successful [lahar_build] every window has its
    synchronisation objects: [max_in_flight] semaphores of each of the two
    kinds and [max_in_flight] fences.  A window whose flight index was
    within [max_in_flight] and which has no resize callback, as
    registration leaves it, is then ready for the frame loop. *)
Theorem build_creates_sync_objects s s' :
  lahar_build ext s = Ok LAHAR_ERR_SUCCESS s' ->
  Forall good_sync (windows (st_lahar s')) /\
  (Forall (fun ws => 0 <= flight_index ws < max_in_flight ws /\ resize_callback ws = NULL)
     (windows (st_lahar s)) ->
   frames_ready (st_lahar s')).
Proof.
  intros H.
  pose proof (build_success_keeps ext registration_key s s'
                (build_steps_registration_key ext) H) as Hk.
  apply lahar_build_success in H. destruct (build_steps_end s s' H) as (s1 & Hs).
  pose proof (build_sync_done s1 s1 eq_refl) as Hd. rewrite Hs in Hd.
  destruct (Hd eq_refl) as [_ Hg]. split; [exact Hg|].
  intros Hpre. apply Forall_lookup. intros i ws' Hws'.
  rewrite Forall_lookup in Hg. specialize (Hg i ws' Hws').
  unfold registration_key in Hk.
  apply (f_equal (fun ks => ks !! i)) in Hk. rewrite !list_lookup_fmap, Hws' in Hk.
  destruct (windows (st_lahar s) !! i) as [ws|] eqn:Hws; [|discriminate Hk].
  rewrite Forall_lookup in Hpre. destruct (Hpre i ws Hws) as [Hf Hc].
  cbn in Hk. injection Hk as _ K2 _ _ K5 _ K7.
  unfold frame_ready. rewrite K2, K5, K7. auto.
Qed.
End Sync.

Lemma build_creates_sync_objects_witness :
  Forall good_sync (windows (st_lahar example_user_data_built)) /\
  frames_ready (st_lahar example_user_data_built).
Proof.
  destruct (build_creates_sync_objects sim_ext example_user_data_set example_user_data_built)
    as [H1 H2].
  - vm_compute. reflexivity.
  - split; [exact H1|]. apply H2. repeat constructor; vm_compute; congruence.
Defined.

(** ** The frame loop on windows that are ready *)

Section Ready.
Context {W : Type} (ext : forall c : extCall, W -> reply c * W).
Implicit Types (s : St W).

Lemma submit_all_ready_key k log0 w cmds n :
  inv (sinv (W := W) ready_key k (fun _ => True) log0) (lahar_window_submit_all ext w cmds n).
Proof. inv_auto. Qed.

Lemma transition_ready_key k log0 w idx lay cmd :
  inv (sinv (W := W) ready_key k (fun _ => True) log0)
      (lahar_window_attachment_transition ext w idx lay cmd).
Proof. inv_auto. Qed.

Lemma wait_inactive_ready_key k log0 w :
  inv (sinv (W := W) ready_key k (fun _ => True) log0) (lahar_window_wait_inactive ext w).
Proof. inv_auto. Qed.

Lemma default_resizer_ready_key k log0 w :
  inv (sinv (W := W) ready_key k (fun _ => True) log0) (__lahar_default_resizer ext w).
Proof. inv_auto. Qed.

(** Under a key without resize callbacks, the window read has none. *)
Lemma get_window_no_callback k log0 i :
  Forall (fun e : nat * nat * nat * Z * Z * Z => e.2 = NULL) k ->
  hoare (sinv (W := W) ready_key k (fun _ => True) log0) (get_window i)
    (fun ws s => sinv ready_key k (fun _ => True) log0 s /\ resize_callback ws = NULL).
Proof.
  intros Hk s Hs. unfold get_window, get_lahar, read_slot, mbind, M_bind.
  destruct (windows (st_lahar s) !! i) as [ws|] eqn:Hws; [|exact I].
  split; [exact Hs|]. destruct Hs as [Hg _].
  rewrite Forall_lookup in Hk.
  apply (Hk i (length (image_available ws), length (render_finished ws),
               length (in_flight ws), max_in_flight ws, flight_index ws,
               resize_callback ws)).
  rewrite <- Hg. unfold ready_key. rewrite list_lookup_fmap, Hws. reflexivity.
Qed.

Lemma swapchain_resize_ready_key k log0 w :
  Forall (fun e : nat * nat * nat * Z * Z * Z => e.2 = NULL) k ->
  inv (sinv (W := W) ready_key k (fun _ => True) log0) (lahar_window_swapchain_resize ext w).
Proof.
  intros Hk. unfold lahar_window_swapchain_resize.
  apply inv_bind; [inv_step|intros l].
  destruct (lahar_window_state l w) as [i|]; [|apply inv_ret].
  apply (hoare_bind_learn _ (fun ws => resize_callback ws = NULL));
    [apply get_window_no_callback, Hk|].
  intros ws Hcb. rewrite Hcb. change (NULL =? NULL) with true. cbn [negb].
  apply default_resizer_ready_key.
Qed.

Lemma frame_begin_ready_key k log0 w fuel :
  Forall (fun e : nat * nat * nat * Z * Z * Z => e.2 = NULL) k ->
  inv (sinv (W := W) ready_key k (fun _ => True) log0) (lahar_window_frame_begin ext fuel w).
Proof.
  intros Hk. induction fuel as [|fuel IH]; cbn [lahar_window_frame_begin];
    [apply inv_out_of_fuel|].
  repeat lazymatch goal with
  | |- inv _ (lahar_window_swapchain_resize _ _) => apply swapchain_resize_ready_key, Hk
  | |- inv _ (lahar_window_frame_begin _ _ _) => exact IH
  | |- _ => inv_step
  end.
Qed.

Lemma ready_key_callbacks (l : Lahar) :
  frames_ready l -> Forall (fun e : nat * nat * nat * Z * Z * Z => e.2 = NULL) (ready_key l).
Proof.
  unfold frames_ready, ready_key. intros H. apply Forall_fmap.
  eapply Forall_impl; [exact H|]. intros ws (_ & _ & Hc). exact Hc.
Qed.

(** An operation that keeps the key keeps the windows ready. *)
Lemma ready_by_key {A} (m : M W A) s a s' :
  (forall k log0, Forall (fun e : nat * nat * nat * Z * Z * Z => e.2 = NULL) k ->
     inv (sinv (W := W) ready_key k (fun _ => True) log0) m) ->
  frames_ready (st_lahar s) -> m s = Ok a s' -> frames_ready (st_lahar s').
Proof.
  intros Hinv Hr H.
  pose proof (Hinv (ready_key (st_lahar s)) (st_log s) (ready_key_callbacks _ Hr) s
                (sinv_start _ _ _ _ _ eq_refl eq_refl)) as Hs.
  rewrite H in Hs. destruct Hs as [Hk _]. apply (ready_key_frames _ _ Hk Hr).
Qed.

Lemma frame_ready_next ws :
  frame_ready ws ->
  frame_ready (set_frame_phase LAHAR_FRAME_PHASE_BEGIN
                 (set_flight_index (wrap32 (flight_index ws + 1) mod max_in_flight ws) ws)).
Proof.
  intros (Hg & Hf & Hc). unfold frame_ready, good_sync in *. cbn.
  split; [exact Hg|]. split; [|exact Hc].
  apply Z.mod_pos_bound. lia.
Qed.

Lemma present_ready w s e s' :
  frames_ready (st_lahar s) -> lahar_window_present ext w s = Ok e s' ->
  frames_ready (st_lahar s').
Proof.
  unfold frames_ready. intros Hr. unfold lahar_window_present. munfold. mrun.
  all: try discriminate.
  all: intros H; leaf H; subst s'.
  all: cbn [st_lahar windows set_windows set_vkresult].
  all: try exact Hr.
  rewrite list_alter_alter_eq. apply Forall_alter; [exact Hr|].
  intros x Hx. match goal with H : windows (st_lahar s) !! _ = Some _ |- _ =>
    rewrite H in Hx; injection Hx as <- end.
  intros Hready. apply (frame_ready_next _ Hready).
Qed.

(** X22.  Windows that are ready for the frame loop stay ready: whatever
    [lahar_window_frame_begin], [lahar_window_submit_all],
    [lahar_window_submit], [lahar_window_present],
    [lahar_window_attachment_transition], [lahar_window_wait_inactive] and
    [lahar_window_swapchain_resize] return, every window still has its
    [max_in_flight] semaphores of each kind and fences, a flight index
    below [max_in_flight], and no resize callback. *)
Theorem frame_loop_keeps_ready s :
  frames_ready (st_lahar s) ->
  (forall fuel w e s', lahar_window_frame_begin ext fuel w s = Ok e s' ->
     frames_ready (st_lahar s')) /\
  (forall w cmds n e s', lahar_window_submit_all ext w cmds n s = Ok e s' ->
     frames_ready (st_lahar s')) /\
  (forall w cmd e s', lahar_window_submit ext w cmd s = Ok e s' ->
     frames_ready (st_lahar s')) /\
  (forall w e s', lahar_window_present ext w s = Ok e s' -> frames_ready (st_lahar s')) /\
  (forall w idx lay cmd e s',
     lahar_window_attachment_transition ext w idx lay cmd s = Ok e s' ->
     frames_ready (st_lahar s')) /\
  (forall w e s', lahar_window_wait_inactive ext w s = Ok e s' ->
     frames_ready (st_lahar s')) /\
  (forall w e s', lahar_window_swapchain_resize ext w s = Ok e s' ->
     frames_ready (st_lahar s')).
Proof.
  intros Hr. repeat match goal with |- _ /\ _ => split end.
  - intros fuel w e s'. apply ready_by_key; [|exact Hr].
    intros k log0 Hk. apply frame_begin_ready_key, Hk.
  - intros w cmds n e s'. apply ready_by_key; [|exact Hr].
    intros k log0 _. apply submit_all_ready_key.
  - intros w cmd e s'. apply ready_by_key; [|exact Hr].
    intros k log0 _. apply submit_all_ready_key.
  - intros w e s'. apply present_ready, Hr.
  - intros w idx lay cmd e s'. apply ready_by_key; [|exact Hr].
    intros k log0 _. apply transition_ready_key.
  - intros w e s'. apply ready_by_key; [|exact Hr].
    intros k log0 _. apply wait_inactive_ready_key.
  - intros w e s'. apply ready_by_key; [|exact Hr].
    intros k log0 Hk. apply swapchain_resize_ready_key, Hk.
Qed.

Lemma ready_slot {A} (arr : list A) (ws : LaharWindowState) :
  length arr = Z.to_nat (max_in_flight ws) -> 0 <= flight_index ws < max_in_flight ws ->
  exists x, arr !! Z.to_nat (flight_index ws) = Some x.
Proof.
  intros Hl Hf. apply lookup_lt_is_Some_2. lia.
Qed.

(** X23.  On a window that is registered and ready for the frame loop, the
    frame calls return, with one of their documented codes: the reads of
    the semaphore and fence arrays at the flight index are within the
    arrays, and the remainder by [max_in_flight] is defined.  This holds
    for [lahar_window_submit_all], [lahar_window_present],
    [lahar_window_wait_inactive], and for [lahar_window_frame_begin] on a
    window without automatic swapchain recreation. *)
Theorem frame_calls_return s w i ws :
  lahar_window_state (st_lahar s) w = Some i ->
  windows (st_lahar s) !! i = Some ws ->
  frame_ready ws ->
  (forall cmds n, exists e s',
     lahar_window_submit_all ext w cmds n s = Ok e s' /\
     (e = LAHAR_ERR_SUCCESS \/ e = LAHAR_ERR_VK_ERR \/
      e = LAHAR_ERR_INVALID_FRAME_STATE \/ e = LAHAR_ERR_ILLEGAL_PARAMS)) /\
  (exists e s',
     lahar_window_present ext w s = Ok e s' /\
     (e = LAHAR_ERR_SUCCESS \/ e = LAHAR_ERR_VK_ERR \/
      e = LAHAR_ERR_INVALID_FRAME_STATE \/ e = LAHAR_ERR_NO_COMMAND_BUFFER)) /\
  (exists e s',
     lahar_window_wait_inactive ext w s = Ok e s' /\
     (e = LAHAR_ERR_SUCCESS \/ e = LAHAR_ERR_VK_ERR)) /\
  (auto_recreate_swap ws = false ->
   forall fuel, exists e s',
     lahar_window_frame_begin ext (S fuel) w s = Ok e s' /\
     (e = LAHAR_ERR_SUCCESS \/ e = LAHAR_ERR_VK_ERR \/
      e = LAHAR_ERR_SWAPCHAIN_OUT_OF_DATE \/ e = LAHAR_ERR_INVALID_FRAME_STATE \/
      e = LAHAR_ERR_ILLEGAL_PARAMS)).
Proof.
  intros Hi Hws ((G1 & G2 & G3) & Hf & Hc).
  destruct (ready_slot _ ws G1 Hf) as (sem1 & S1).
  destruct (ready_slot _ ws G2 Hf) as (sem2 & S2).
  destruct (ready_slot _ ws G3 Hf) as (fence & S3).
  assert (Hneg : (flight_index ws <? 0) = false) by (apply Z.ltb_ge; lia).
  assert (Hmif : (max_in_flight ws =? 0) = false) by (apply Z.eqb_neq; lia).
  assert (Hlen : (Z.of_nat (length (in_flight ws)) <? max_in_flight ws) = false)
    by (apply Z.ltb_ge; lia).
  repeat match goal with |- _ /\ _ => split end.
  - intros cmds n. unfold lahar_window_submit_all. munfold. mrun.
    all: eexists _, _; (split; [reflexivity|]); auto.
  - unfold lahar_window_present. munfold. mrun.
    all: eexists _, _; (split; [reflexivity|]); auto.
  - unfold lahar_window_wait_inactive. munfold. mrun.
    all: eexists _, _; (split; [reflexivity|]); auto.
  - intros Hauto fuel. cbn [lahar_window_frame_begin]. munfold. mrun.
    all: eexists _, _; (split; [reflexivity|]); auto 6.
Qed.
End Ready.

Lemma example_built_ready : frames_ready (st_lahar example_built).
Proof.
  unfold frames_ready. constructor; [|constructor].
  unfold frame_ready, good_sync. vm_compute. repeat split; congruence.
Qed.

(** The example session: the window is ready once built, and still ready
    after a frame was begun. *)
Lemma frame_loop_keeps_ready_witness :
  frames_ready (st_lahar example_built) /\ frames_ready (st_lahar example_drawing).
Proof.
  split; [exact example_built_ready|].
  destruct (frame_loop_keeps_ready sim_ext example_built example_built_ready) as [H _].
  apply (H 1%nat example_window LAHAR_ERR_SUCCESS example_drawing).
  vm_compute. reflexivity.
Defined.

Lemma frame_calls_return_witness :
  exists e s',
    lahar_window_present sim_ext example_window example_built = Ok e s' /\
    (e = LAHAR_ERR_SUCCESS \/ e = LAHAR_ERR_VK_ERR \/
     e = LAHAR_ERR_INVALID_FRAME_STATE \/ e = LAHAR_ERR_NO_COMMAND_BUFFER).
Proof.
  destruct (frame_calls_return sim_ext example_built example_window 0
              (first_window example_built)) as (_ & H & _).
  - vm_compute. reflexivity.
  - vm_compute. reflexivity.
  - pose proof example_built_ready as Hr. unfold frames_ready in Hr.
    rewrite Forall_lookup in Hr. apply (Hr 0%nat). vm_compute. reflexivity.
  - exact H.
Defined.

(** ** One window at a time *)

(** The update of a window other than the one at index [j] keeps
    [other_key j]. *)
Ltac other_side :=
  intros;
  lazymatch goal with
  | H : other_key ?j ?l = ?v |- other_key ?j _ = ?v =>
      rewrite <- H; clear H; unfold other_key; cbn;
      first [ reflexivity
            | f_equal;
              [ rewrite ?list_lookup_alter_ne by assumption; reflexivity
              | first [reflexivity | apply map_alter_same; intros ?; reflexivity] ] ]
  | |- _ => first [exact I | cbn; exact I]
  end.

Section Others.
Context {W : Type} (ext : forall c : extCall, W -> reply c * W).
Implicit Types (s : St W).

Lemma get_lahar_learn {X} (g : Lahar -> X) v P log0 :
  hoare (sinv (W := W) g v P log0) get_lahar
    (fun l s => sinv g v P log0 s /\ g l = v).
Proof. intros s Hs. split; [exact Hs|apply Hs]. Qed.

Lemma other_index j (wsj : LaharWindowState) k2 (l : Lahar) w i :
  other_key j l = (Some wsj, k2) -> window wsj <> w ->
  lahar_window_state l w = Some i -> i <> j.
Proof.
  intros Hl Hne Hi ->. destruct (lahar_window_state_Some l w j Hi) as (ws & Hws & Hw).
  unfold other_key in Hl. injection Hl as Hl _. rewrite Hws in Hl. injection Hl as <-.
  contradiction.
Qed.
End Others.

(** One step of a proof that a call for the window [w] keeps
    [other_key j]; the hypotheses [Hother : window wsj <> w] is in the
    context. *)
Ltac other_step :=
  lazymatch goal with
  | |- inv (sinv (other_key ?j) (Some ?wsj, ?k2) ?P ?log0) (get_lahar ≫= ?f) =>
      apply (hoare_bind_learn _ (fun l => other_key j l = (Some wsj, k2)) _ get_lahar f);
      [ apply get_lahar_learn
      | intros ? ?;
        match goal with |- hoare ?I ?m _ => change (inv I m) end; cbv beta ]
  | Hl : other_key ?j ?l = (Some ?wsj, ?k2), Hne : window ?wsj <> ?w
    |- inv _ (match lahar_window_state ?l ?w with _ => _ end) =>
      let i := fresh "i" in
      let Hi := fresh "Hi" in
      destruct (lahar_window_state l w) as [i|] eqn:Hi;
      [ pose proof (other_index j wsj k2 l w i Hl Hne Hi) | ]
  | |- inv _ (modify _) => apply sinv_modify; other_side
  | |- inv _ (modify_window _ _) => apply sinv_modify_window; other_side
  | |- inv _ (modify_attachment _ _ _ _) => apply sinv_modify_attachment; other_side
  | |- inv _ (modify_attachment_config _ _ _) =>
      apply sinv_modify_attachment_config; other_side
  | |- _ => inv_step
  end.

Section Isolation.
Context {W : Type} (ext : forall c : extCall, W -> reply c * W).
Implicit Types (s : St W).
Variables (j : nat) (wsj : LaharWindowState) (w : Z).
Hypothesis Hother : window wsj <> w.

Lemma submit_all_other k2 log0 cmds n :
  inv (sinv (W := W) (other_key j) (Some wsj, k2) (fun _ => True) log0)
      (lahar_window_submit_all ext w cmds n).
Proof. unfold lahar_window_submit_all. repeat other_step. Qed.

Lemma present_other k2 log0 :
  inv (sinv (W := W) (other_key j) (Some wsj, k2) (fun _ => True) log0)
      (lahar_window_present ext w).
Proof. unfold lahar_window_present. repeat other_step. Qed.

Lemma transition_other k2 log0 idx lay cmd :
  inv (sinv (W := W) (other_key j) (Some wsj, k2) (fun _ => True) log0)
      (lahar_window_attachment_transition ext w idx lay cmd).
Proof. unfold lahar_window_attachment_transition. repeat other_step. Qed.

Lemma wait_inactive_other k2 log0 :
  inv (sinv (W := W) (other_key j) (Some wsj, k2) (fun _ => True) log0)
      (lahar_window_wait_inactive ext w).
Proof. unfold lahar_window_wait_inactive. repeat other_step. Qed.

Lemma default_resizer_other k2 log0 :
  inv (sinv (W := W) (other_key j) (Some wsj, k2) (fun _ => True) log0)
      (__lahar_default_resizer ext w).
Proof.
  unfold __lahar_default_resizer.
  repeat lazymatch goal with
  | |- inv _ (lahar_window_wait_inactive _ _) => apply wait_inactive_other
  | |- _ => other_step
  end.
Qed.

(** Under a key without resize callbacks, the window read has none. *)
Lemma get_window_other_no_callback k2 log0 i :
  Forall (fun e : Z * Z => e.2 = NULL) k2 ->
  hoare (sinv (W := W) (other_key j) (Some wsj, k2) (fun _ => True) log0) (get_window i)
    (fun ws s => sinv (other_key j) (Some wsj, k2) (fun _ => True) log0 s /\
                 resize_callback ws = NULL).
Proof.
  intros Hk s Hs. unfold get_window, get_lahar, read_slot, mbind, M_bind.
  destruct (windows (st_lahar s) !! i) as [ws|] eqn:Hws; [|exact I].
  split; [exact Hs|]. destruct Hs as [Hg _].
  rewrite Forall_lookup in Hk.
  apply (Hk i (window ws, resize_callback ws)).
  unfold other_key in Hg. injection Hg as _ <-.
  change (map ?f ?l) with (f <$> l). rewrite list_lookup_fmap, Hws. reflexivity.
Qed.

Lemma swapchain_resize_other k2 log0 :
  Forall (fun e : Z * Z => e.2 = NULL) k2 ->
  inv (sinv (W := W) (other_key j) (Some wsj, k2) (fun _ => True) log0)
      (lahar_window_swapchain_resize ext w).
Proof.
  intros Hk. unfold lahar_window_swapchain_resize.
  apply inv_bind; [inv_step|intros l].
  destruct (lahar_window_state l w) as [i|]; [|apply inv_ret].
  apply (hoare_bind_learn _ (fun ws => resize_callback ws = NULL));
    [apply get_window_other_no_callback, Hk|].
  intros ws Hcb. rewrite Hcb. change (NULL =? NULL) with true. cbn [negb].
  apply default_resizer_other.
Qed.

Lemma frame_begin_other k2 log0 fuel :
  Forall (fun e : Z * Z => e.2 = NULL) k2 ->
  inv (sinv (W := W) (other_key j) (Some wsj, k2) (fun _ => True) log0)
      (lahar_window_frame_begin ext fuel w).
Proof.
  intros Hk. induction fuel as [|fuel IH]; cbn [lahar_window_frame_begin];
    [apply inv_out_of_fuel|].
  repeat lazymatch goal with
  | |- inv _ (lahar_window_swapchain_resize _ _) => apply swapchain_resize_other, Hk
  | |- inv _ (lahar_window_frame_begin _ _ _) => exact IH
  | |- _ => other_step
  end.
Qed.

(** An operation that keeps the key leaves the window at index [j] as it
    was. *)
Lemma other_by_key {A} (m : M W A) s a s' :
  (forall k2 log0, Forall (fun e : Z * Z => e.2 = NULL) k2 ->
     inv (sinv (W := W) (other_key j) (Some wsj, k2) (fun _ => True) log0) m) ->
  Forall (fun ws => resize_callback ws = NULL) (windows (st_lahar s)) ->
  windows (st_lahar s) !! j = Some wsj ->
  m s = Ok a s' -> windows (st_lahar s') !! j = Some wsj.
Proof.
  intros Hinv Hcb Hj H.
  assert (Hk : Forall (fun e : Z * Z => e.2 = NULL)
                 (map (fun ws => (window ws, resize_callback ws)) (windows (st_lahar s)))).
  { change (map ?f ?l) with (f <$> l). apply Forall_fmap.
    eapply Forall_impl; [exact Hcb|]. intros ws Hc. exact Hc. }
  assert (Hg : other_key j (st_lahar s) =
               (Some wsj, map (fun ws => (window ws, resize_callback ws))
                            (windows (st_lahar s)))).
  { unfold other_key. rewrite Hj. reflexivity. }
  pose proof (Hinv _ (st_log s) Hk s (sinv_start _ _ _ _ _ Hg eq_refl)) as Hs.
  rewrite H in Hs. destruct Hs as [Hg' _]. unfold other_key in Hg'.
  injection Hg' as Hg' _. exact Hg'.
Qed.

(** An operation that keeps the key whatever the callbacks are. *)
Lemma other_by_key_any {A} (m : M W A) s a s' :
  (forall k2 log0,
     inv (sinv (W := W) (other_key j) (Some wsj, k2) (fun _ => True) log0) m) ->
  windows (st_lahar s) !! j = Some wsj ->
  m s = Ok a s' -> windows (st_lahar s') !! j = Some wsj.
Proof.
  intros Hinv Hj H.
  assert (Hg : other_key j (st_lahar s) =
               (Some wsj, map (fun ws => (window ws, resize_callback ws))
                            (windows (st_lahar s)))).
  { unfold other_key. rewrite Hj. reflexivity. }
  pose proof (Hinv _ (st_log s) s (sinv_start _ _ _ _ _ Hg eq_refl)) as Hs.
  rewrite H in Hs. destruct Hs as [Hg' _]. unfold other_key in Hg'.
  injection Hg' as Hg' _. exact Hg'.
Qed.

(** X24.  The calls of the frame loop for the window [w] leave the state of
    every other registered window as it was: whatever
    [lahar_window_submit_all], [lahar_window_submit],
    [lahar_window_present], [lahar_window_attachment_transition] and
    [lahar_window_wait_inactive] return, and, when no window has a resize
    callback, whatever [lahar_window_frame_begin] and
    [lahar_window_swapchain_resize] return. *)
Theorem frame_calls_leave_other_windows s :
  windows (st_lahar s) !! j = Some wsj ->
  (forall cmds n e s', lahar_window_submit_all ext w cmds n s = Ok e s' ->
     windows (st_lahar s') !! j = Some wsj) /\
  (forall cmd e s', lahar_window_submit ext w cmd s = Ok e s' ->
     windows (st_lahar s') !! j = Some wsj) /\
  (forall e s', lahar_window_present ext w s = Ok e s' ->
     windows (st_lahar s') !! j = Some wsj) /\
  (forall idx lay cmd e s',
     lahar_window_attachment_transition ext w idx lay cmd s = Ok e s' ->
     windows (st_lahar s') !! j = Some wsj) /\
  (forall e s', lahar_window_wait_inactive ext w s = Ok e s' ->
     windows (st_lahar s') !! j = Some wsj) /\
  (Forall (fun ws => resize_callback ws = NULL) (windows (st_lahar s)) ->
   (forall fuel e s', lahar_window_frame_begin ext fuel w s = Ok e s' ->
      windows (st_lahar s') !! j = Some wsj) /\
   (forall e s', lahar_window_swapchain_resize ext w s = Ok e s' ->
      windows (st_lahar s') !! j = Some wsj)).
Proof.
  intros Hj. repeat match goal with |- _ /\ _ => split end.
  - intros cmds n e s' H.
    apply (other_by_key_any (lahar_window_submit_all ext w cmds n) s e s');
      [|exact Hj|exact H].
    intros k2 log0. apply submit_all_other.
  - intros cmd e s' H.
    apply (other_by_key_any (lahar_window_submit ext w cmd) s e s'); [|exact Hj|exact H].
    intros k2 log0. apply submit_all_other.
  - intros e s' H.
    apply (other_by_key_any (lahar_window_present ext w) s e s'); [|exact Hj|exact H].
    intros k2 log0. apply present_other.
  - intros idx lay cmd e s' H.
    apply (other_by_key_any (lahar_window_attachment_transition ext w idx lay cmd) s e s');
      [|exact Hj|exact H].
    intros k2 log0. apply transition_other.
  - intros e s' H.
    apply (other_by_key_any (lahar_window_wait_inactive ext w) s e s'); [|exact Hj|exact H].
    intros k2 log0. apply wait_inactive_other.
  - intros Hcb. split.
    + intros fuel e s' H.
      apply (other_by_key (lahar_window_frame_begin ext fuel w) s e s');
        [|exact Hcb|exact Hj|exact H].
      intros k2 log0 Hk. apply frame_begin_other, Hk.
    + intros e s' H.
      apply (other_by_key (lahar_window_swapchain_resize ext w) s e s');
        [|exact Hcb|exact Hj|exact H].
      intros k2 log0 Hk. apply swapchain_resize_other, Hk.
Qed.
End Isolation.

Lemma frame_calls_leave_other_windows_witness :
  window example_second_window <> example_window /\
  windows (st_lahar example_two_built) !! 1%nat = Some example_second_window /\
  windows (st_lahar example_two_drawing) !! 1%nat = Some example_second_window.
Proof.
  assert (Hne : window example_second_window <> example_window)
    by (intros H; discriminate H).
  assert (Hj : windows (st_lahar example_two_built) !! 1%nat = Some example_second_window)
    by reflexivity.
  split; [exact Hne|]. split; [exact Hj|].
  destruct (frame_calls_leave_other_windows sim_ext 1%nat example_second_window
              example_window Hne example_two_built Hj) as (_ & _ & _ & _ & _ & Hf).
  destruct Hf as [Hb _].
  { vm_compute. repeat constructor. }
  apply (Hb 1%nat 0 example_two_drawing). vm_compute. reflexivity.
Defined.

(* ------------------------------------------------------------------ *)
(** * The selection of the physical device *)

(** ** The device-local memory of a description *)

Lemma sum_local_memory_total heaps n : forall i acc,
  wrap64 (sum_local_memory heaps n i acc) =
  wrap64 (acc + foldr Z.add 0
                  (map heap_size
                     (filter (fun h => Z.land (heap_flags h) VK_MEMORY_HEAP_DEVICE_LOCAL_BIT <> 0)
                        (take n (drop i heaps))))).
Proof.
  induction n as [|n IH]; intros i acc; cbn [sum_local_memory].
  - rewrite take_0. cbn. rewrite Z.add_0_r. reflexivity.
  - cbv zeta. rewrite IH. destruct (heaps !! i) as [h|] eqn:Hh.
    + rewrite (drop_S heaps h i Hh). cbn [take]. rewrite filter_cons.
      change (default heap_zero (Some h)) with h.
      destruct (Z.land (heap_flags h) VK_MEMORY_HEAP_DEVICE_LOCAL_BIT =? 0) eqn:E.
      * apply Z.eqb_eq in E. rewrite decide_False by (intros H; apply H, E). reflexivity.
      * apply Z.eqb_neq in E. rewrite decide_True by exact E. cbn [map foldr].
        unfold wrap64. rewrite Zplus_mod_idemp_l. f_equal. lia.
    + change (default heap_zero None) with heap_zero. cbn [heap_zero heap_flags].
      change (Z.land 0 VK_MEMORY_HEAP_DEVICE_LOCAL_BIT =? 0) with true. cbv iota.
      apply lookup_ge_None in Hh.
      rewrite !drop_ge by lia. rewrite !take_nil. reflexivity.
Qed.

(** The local memory the scorer counts: the sizes of the device-local heaps
    among the first [memoryHeapCount], added up in a [size_t]. *)
Lemma device_local_memory_total d : device_local_memory d = wrap64 (local_heap_total d).
Proof.
  unfold device_local_memory, local_heap_total.
  pose proof (sum_local_memory_total (memoryHeaps (memprops d))
                (Z.to_nat (memoryHeapCount (memprops d))) 0 0) as H.
  rewrite drop_0, Z.add_0_l in H. rewrite <- H.
  pose proof (device_local_memory_range d) as R. unfold device_local_memory in R.
  unfold wrap64. rewrite Z.mod_small; [reflexivity|exact R].
Qed.

(** ** The default scorer *)

(** X25.  [__lahar_default_scorer] as a function of the description it is
    given.  It returns -1 for a description without a graphics queue or
    without a present queue (the two flags of [LaharDeviceInfo]).  For any
    other it returns the sum of the type bonus (1000 discrete, 100
    integrated, 0 otherwise), 50 when the present and graphics queue
    families are equal, and the memory bonus; the sum is not negative and
    does not overflow.  The memory bonus is
    [(local_memory / 107374182400.0) * 1000] computed in binary64 and
    truncated, where [local_memory] is the sum, in a [size_t], of the sizes
    of the device-local heaps among the first [memoryHeapCount]: 0 for no
    memory, 1000 for 100 GiB, and [10 * k] or [10 * k - 1] for [k] GiB up to
    1024.  The selection loop picks -1 when every score is -1, and
    otherwise the first description among those of the highest score, which
    is not negative, so that a disqualified description is never picked
    when one with a non-negative score exists. *)
Theorem default_scoring :
  (forall d, has_graphics_queue d = false \/ has_present_queue d = false ->
     __lahar_default_scorer d = -1) /\
  (forall d, has_graphics_queue d = true -> has_present_queue d = true ->
     __lahar_default_scorer d = type_bonus d + shared_queue_bonus d + memory_bonus d /\
     memory_bonus d = remap_memory (wrap64 (local_heap_total d)) /\
     0 <= memory_bonus d) /\
  (remap_memory 0 = 0 /\ remap_memory 107374182400 = 1000 /\
   forall k, (k <= 1024)%nat ->
     10 * Z.of_nat k - 1 <= remap_memory (Z.of_nat k * 2 ^ 30) <= 10 * Z.of_nat k) /\
  (forall infos,
     (pick_best (map __lahar_default_scorer infos) = -1 /\
      Forall (fun d => __lahar_default_scorer d = -1) infos) \/
     (exists k d,
        pick_best (map __lahar_default_scorer infos) = Z.of_nat k /\
        infos !! k = Some d /\ 0 <= __lahar_default_scorer d /\
        has_graphics_queue d = true /\ has_present_queue d = true /\
        forall j dj, infos !! j = Some dj ->
          __lahar_default_scorer dj <= __lahar_default_scorer d /\
          ((j < k)%nat -> __lahar_default_scorer dj < __lahar_default_scorer d))).
Proof.
  split; [exact default_scorer_disqualified|].
  split.
  { intros d Hg Hp. split; [apply default_scorer_sum; assumption|].
    split; [|apply memory_bonus_range].
    unfold memory_bonus. rewrite device_local_memory_total. reflexivity. }
  split.
  { split; [reflexivity|]. split; [reflexivity|]. exact remap_memory_whole_GiB. }
  intros infos.
  destruct (pick_best_devices __lahar_default_scorer infos)
    as [[Hb F]|(k & d & Hb & Hd & H0 & Hall)].
  - left. split; [exact Hb|]. eapply Forall_impl; [exact F|].
    intros d Hd. cbv beta in Hd. destruct (default_scorer_cases d) as [[H _]|[H _]]; lia.
  - right. exists k, d. split; [exact Hb|]. split; [exact Hd|]. split; [exact H0|].
    destruct (default_scorer_cases d) as [[H _]|(_ & Hg & Hp)]; [lia|]. auto.
Qed.

(** A discrete GPU with 8 GiB scores 1000 + 50 + 80; the device that cannot
    present scores -1; the first of the two best devices is picked. *)
Lemma default_scoring_witness :
  __lahar_default_scorer (example_gpu VK_PHYSICAL_DEVICE_TYPE_DISCRETE_GPU 0 0 (2 ^ 33)) = 1130 /\
  __lahar_default_scorer
    (set_has_present_queue false
       (example_gpu VK_PHYSICAL_DEVICE_TYPE_DISCRETE_GPU 0 0 (3 * 2 ^ 33))) = -1 /\
  pick_best (map __lahar_default_scorer example_devices) = 1.
Proof.
  destruct default_scoring as (H1 & H2 & _ & H4).
  split; [|split].
  - destruct (H2 (example_gpu VK_PHYSICAL_DEVICE_TYPE_DISCRETE_GPU 0 0 (2 ^ 33))
                eq_refl eq_refl) as [-> _].
    vm_compute. reflexivity.
  - apply H1. right. reflexivity.
  - destruct (H4 example_devices) as [[_ F]|(k & d & Hb & _)].
    + vm_compute. reflexivity.
    + vm_compute. reflexivity.
Defined.

(** ** The memory of a device in the selection *)

(** A description as the gathering loop leaves it has no memory to count. *)
Lemma gathered_memory_bonus d : gathered d -> device_local_memory d = 0 /\ memory_bonus d = 0.
Proof.
  intros (_ & _ & H & _). unfold memory_bonus, device_local_memory. rewrite H.
  split; reflexivity.
Qed.

Lemma gathered_score d :
  gathered d -> 0 <= __lahar_default_scorer d ->
  __lahar_default_scorer d = type_bonus d + shared_queue_bonus d.
Proof.
  intros Hg H0. destruct (default_scorer_cases d) as [[H _]|(_ & G & P)]; [lia|].
  rewrite default_scorer_sum by assumption.
  destruct (gathered_memory_bonus d Hg) as [_ ->]. lia.
Qed.

(** C6.  The memory bonus of [__lahar_default_scorer] never counts.  The
    scorer sums the device-local heaps of [memprops] and rescales the sum so
    that a 100 GB GPU gets 1000 points and an 8 GB GPU about 80 (lines
    2284-2295), but the loop of [__lahar_build_physdev] that fills in the
    descriptions (lines 3310-3369) never writes [memprops], which the
    [memset] of line 3313 has zeroed.  So, on every machine, every
    description gathered has no local memory and a memory bonus of 0, and
    the device a successful build stores under the default scorer has the
    score of its type and of its queues alone.  On a machine with two
    discrete GPUs of 8 GiB and of 100 GiB the scores are 1050 and 1050 and
    the build selects the first, the 8 GiB one; with the memory of the two
    devices in their descriptions the scorer gives 1130 and 2050, and the
    selection loop picks the second. *)
Theorem memory_bonus_never_counts :
  (forall (W : Type) (ext : forall c : extCall, W -> reply c * W)
          (devices : list Z) (s : St W) infos s',
     gather_device_infos ext devices s = Ok infos s' ->
     Forall (fun d => memprops d = memprops devinfo_zero /\
                      device_local_memory d = 0 /\ memory_bonus d = 0) infos) /\
  (forall (W : Type) (ext : forall c : extCall, W -> reply c * W) (s s' : St W),
     score_func (st_lahar s) = NULL ->
     __lahar_build_physdev ext s = Ok LAHAR_ERR_SUCCESS s' ->
     let d := physdev_info (st_lahar s') in
     memory_bonus d = 0 /\
     __lahar_default_scorer d = type_bonus d + shared_queue_bonus d) /\
  result_of two_gpu_session two_gpu_state0 = Some LAHAR_ERR_SUCCESS /\
  deviceName (properties (physdev_info (st_lahar two_gpu_built))) =
    "Discrete 8 GiB"%string /\
  result_of (gather_device_infos sim_ext [201; 202]) two_gpu_before_physdev =
    Some two_gpu_infos /\
  two_gpu_infos !! 0%nat = Some (physdev_info (st_lahar two_gpu_built)) /\
  map (fun d => deviceName (properties d)) two_gpu_infos =
    ["Discrete 8 GiB"; "Discrete 100 GiB"]%string /\
  map __lahar_default_scorer two_gpu_infos = [1050; 1050] /\
  pick_best (map __lahar_default_scorer two_gpu_infos) = 0 /\
  map (fun d => __lahar_default_scorer (with_memprops (two_gpu_memory (physdev d)) d))
    two_gpu_infos = [1130; 2050] /\
  pick_best [1130; 2050] = 1.
Proof.
  split.
  { intros W ext devices s infos s' H.
    pose proof (gather_device_infos_gathered ext devices s I) as Hg. rewrite H in Hg.
    eapply Forall_impl; [exact Hg|]. intros d Hd. cbv beta.
    split; [apply Hd|apply gathered_memory_bonus, Hd]. }
  split.
  { intros W ext s s' Hsc H. cbv zeta.
    pose proof (build_physdev_gathered ext s I) as Hg. rewrite H in Hg.
    specialize (Hg eq_refl).
    split; [apply gathered_memory_bonus, Hg|]. apply gathered_score; [exact Hg|].
    destruct (build_physdev_default ext s _ s' Hsc H)
      as [He|(devices & sa & infos & sb & _ & [[He _]|(_ & Hb & Hd)])];
      [discriminate He|discriminate He|].
    destruct (pick_best_devices __lahar_default_scorer infos)
      as [[Hm _]|(k & d & Hk & Hkd & H0 & _)]; [lia|].
    rewrite Hk, Nat2Z.id, Hkd in Hd. injection Hd as <-. exact H0. }
  vm_compute. repeat split; reflexivity.
Qed.

(** ** The device that [__lahar_build_physdev] selects *)

Section Enumerated.
Context {W : Type} (ext : forall c : extCall, W -> reply c * W).
Implicit Types (s : St W).

Lemma scan_queue_families_physdev surfaces fams : forall j d,
  hoare (W := W) (fun _ => True) (scan_queue_families ext surfaces fams j d)
    (fun d' _ => physdev d' = physdev d).
Proof.
  induction fams as [|fam rest IH]; intros j d; cbn [scan_queue_families].
  - apply hoare_ret. reflexivity.
  - cbv zeta.
    apply (hoare_bind _ (fun _ _ => True)); [apply hoare_any|intros b].
    match goal with |- hoare _ (if ?c then _ else _) _ => destruct c end.
    + apply hoare_ret. intros _ _. destruct b; destruct (negb _); reflexivity.
    + eapply hoare_conseq; [apply IH|auto|].
      cbv beta. intros d' _ ->. destruct b; destruct (negb _); reflexivity.
Qed.

Lemma gather_device_info_physdev pd :
  hoare (W := W) (fun _ => True) (gather_device_info ext pd) (fun d _ => physdev d = pd).
Proof.
  unfold gather_device_info.
  apply (hoare_bind _ (fun _ _ => True)); [apply hoare_any|intros l].
  apply (hoare_bind _ (fun _ _ => True)); [apply hoare_any|intros props].
  apply (hoare_bind _ (fun _ _ => True)); [apply hoare_any|intros feats].
  apply (hoare_bind _ (fun _ _ => True)); [apply hoare_any|intros ct].
  apply (hoare_bind _ (fun _ _ => True)); [apply hoare_any|intros fams].
  destruct (negb _); [apply hoare_crash|].
  apply (hoare_bind _ (fun d _ => physdev d = pd)).
  { eapply hoare_conseq; [apply scan_queue_families_physdev|auto|].
    cbv beta. intros d' _ ->. reflexivity. }
  intros d. apply hoare_conseq with (P' := fun _ => physdev d = pd)
                                   (Q' := fun d' (_ : St W) => physdev d' = pd);
    [|intros s0 H0; exact H0|auto]. apply hoare_pure. intros Hd.
  destruct (windows l) as [|ws0 _]; [apply hoare_ret; intros; exact Hd|].
  apply (hoare_bind _ (fun _ _ => True)); [apply hoare_any|intros fct].
  apply (hoare_bind _ (fun _ _ => True)); [apply hoare_any|intros pct].
  apply (hoare_bind _ (fun _ _ => True)); [apply hoare_any|intros formats].
  destruct (negb _); [apply hoare_crash|].
  apply (hoare_bind _ (fun _ _ => True)); [apply hoare_any|intros modes].
  destruct (negb _); [apply hoare_crash|].
  apply hoare_ret. intros _ _. exact Hd.
Qed.

Lemma gather_device_infos_physdev devices :
  hoare (W := W) (fun _ => True) (gather_device_infos ext devices)
    (fun infos _ => map physdev infos = devices).
Proof.
  induction devices as [|pd rest IH]; cbn [gather_device_infos].
  - apply hoare_ret. reflexivity.
  - apply (hoare_bind _ (fun d _ => physdev d = pd)); [apply gather_device_info_physdev|].
    intros d. apply hoare_conseq with (P' := fun _ => physdev d = pd)
                 (Q' := fun infos (_ : St W) => map physdev infos = pd :: rest);
      [|intros s0 H0; exact H0|auto]. apply hoare_pure. intros Hd.
    apply (hoare_bind _ (fun infos _ => map physdev infos = rest)); [exact IH|].
    intros infos. apply hoare_ret. intros s0 H0. cbn. rewrite Hd, H0. reflexivity.
Qed.

(** X26.  Which device [__lahar_build_physdev] selects under the default
    scorer.  When both calls of [vkEnumeratePhysicalDevices] succeed and the
    descriptions of the devices they returned are gathered, one description
    per device in the order of the enumeration, the function returns
    [LAHAR_ERR_NO_SUITABLE_DEVICE] if every description lacks a graphics
    queue or a present queue, leaving the state as the gathering left it;
    otherwise it returns [LAHAR_ERR_SUCCESS] and stores the description of
    the [k]-th device, the first among those of the highest score, which
    has both queues. *)
Theorem selection_of_enumerated s cnt w1 devices w2 infos sb :
  score_func (st_lahar s) = NULL ->
  ext (vkEnumeratePhysicalDevices_count (instance (st_lahar s))) (st_world s) =
    ((VK_SUCCESS, cnt), w1) ->
  ext (vkEnumeratePhysicalDevices (instance (st_lahar s)) cnt) w1 =
    ((VK_SUCCESS, devices), w2) ->
  Z.of_nat (length devices) <= cnt ->
  gather_device_infos ext devices (after_enumeration s cnt w2) = Ok infos sb ->
  map physdev infos = devices /\
  ((Forall (fun d => has_graphics_queue d = false \/ has_present_queue d = false) infos /\
    __lahar_build_physdev ext s = Ok LAHAR_ERR_NO_SUITABLE_DEVICE sb) \/
   (exists k d s',
      infos !! k = Some d /\
      has_graphics_queue d = true /\ has_present_queue d = true /\
      (forall j dj, infos !! j = Some dj ->
         __lahar_default_scorer dj <= __lahar_default_scorer d /\
         ((j < k)%nat -> __lahar_default_scorer dj < __lahar_default_scorer d)) /\
      __lahar_build_physdev ext s = Ok LAHAR_ERR_SUCCESS s' /\
      physdev_info (st_lahar s') = d /\ devices !! k = Some (physdev d))).
Proof.
  intros Hsc H1 H2 Hlen Hg.
  assert (Hpd : map physdev infos = devices).
  { pose proof (gather_device_infos_physdev devices (after_enumeration s cnt w2) I) as H.
    rewrite Hg in H. exact H. }
  split; [exact Hpd|].
  assert (Hrun : __lahar_build_physdev ext s =
    (let best_dev := pick_best (map __lahar_default_scorer infos) in
     if best_dev =? -1 then mret LAHAR_ERR_NO_SUITABLE_DEVICE else
     info ← read_slot_Z infos best_dev;
     (if wantvalidation (st_lahar s) then
        let msgbuf :=
          String.substring 0 511 ("Selected Device: " ++ deviceName (properties info))%string in
        if negb (debug_callback (st_lahar s) =? NULL)
        then call ext (call_debug_callback (debug_callback (st_lahar s)) msgbuf)
        else __lahar_default_dbgcallback_info ext msgbuf
      else mret tt);;
     modify (set_physdev_info info);;
     mret LAHAR_ERR_SUCCESS) sb).
  { unfold __lahar_build_physdev.
    unfold mbind at 1, M_bind at 1, get_lahar at 1. cbv zeta.
    unfold mbind at 1, M_bind at 1, call at 1. rewrite H1.
    unfold mbind at 1, M_bind at 1, modify at 1. cbn [st_lahar st_world st_log].
    change (negb (VK_SUCCESS =? VK_SUCCESS)) with false. cbv iota.
    unfold mbind at 1, M_bind at 1, call at 1. cbn [st_lahar st_world st_log]. rewrite H2.
    unfold mbind at 1, M_bind at 1, modify at 1. cbn [st_lahar st_world st_log].
    change (negb (VK_SUCCESS =? VK_SUCCESS)) with false. cbv iota.
    replace (Z.of_nat (length devices) <=? cnt) with true by (symmetry; apply Z.leb_le, Hlen).
    cbn [negb]. cbv iota.
    unfold mbind at 1, M_bind at 1.
    change (gather_device_infos ext devices _) with
      (gather_device_infos ext devices (after_enumeration s cnt w2)).
    rewrite Hg.
    unfold mbind at 1, M_bind at 1. rewrite Hsc, score_devices_default. reflexivity. }
  rewrite Hrun. cbv zeta.
  destruct (pick_best_devices __lahar_default_scorer infos)
    as [[Hb F]|(k & d & Hb & Hd & H0 & Hall)].
  - left. rewrite Hb. change (-1 =? -1) with true. cbv iota.
    split; [|reflexivity].
    eapply Forall_impl; [exact F|]. intros d Hd. cbv beta in Hd.
    destruct (default_scorer_cases d) as [[_ H]|[H _]]; [exact H|lia].
  - right. rewrite Hb.
    replace (Z.of_nat k =? -1) with false by (symmetry; apply Z.eqb_neq; lia).
    cbv iota. unfold read_slot_Z.
    replace (Z.of_nat k <? 0) with false by (symmetry; apply Z.ltb_ge; lia).
    cbv iota. rewrite Nat2Z.id. unfold read_slot. rewrite Hd.
    unfold mbind at 1, M_bind at 1.
    assert (Hin : devices !! k = Some (physdev d)).
    { rewrite <- Hpd. change (map physdev infos) with (physdev <$> infos).
      rewrite list_lookup_fmap, Hd. reflexivity. }
    destruct (default_scorer_cases d) as [[H _]|(_ & G & P)]; [lia|].
    assert (Hend : forall (m : M W unit) s1 u s2, m s1 = Ok u s2 ->
              exists s', (m;; modify (set_physdev_info d);; mret LAHAR_ERR_SUCCESS) s1 =
                           Ok LAHAR_ERR_SUCCESS s' /\ physdev_info (st_lahar s') = d).
    { intros m s1 u s2 Hm. unfold mbind, M_bind. rewrite Hm.
      eexists. split; reflexivity. }
    assert (Hmsg : exists u s2,
              (if wantvalidation (st_lahar s) then
                 let msgbuf :=
                   String.substring 0 511
                     ("Selected Device: " ++ deviceName (properties d))%string in
                 if negb (debug_callback (st_lahar s) =? NULL)
                 then call ext (call_debug_callback (debug_callback (st_lahar s)) msgbuf)
                 else __lahar_default_dbgcallback_info ext msgbuf
               else mret tt) sb = Ok u s2).
    { clear Hrun H1 H2 Hg Hend.
      destruct (wantvalidation (st_lahar s)); [|eexists _, _; reflexivity].
      cbv zeta. destruct (negb _).
      - unfold call.
        match goal with |- context [ext ?c ?w0] => destruct (ext c w0) as [r w'] end.
        eexists _, _; reflexivity.
      - unfold __lahar_default_dbgcallback_info, call.
        match goal with |- context [ext ?c ?w0] => destruct (ext c w0) as [r w'] end.
        eexists _, _; reflexivity. }
    destruct Hmsg as (u & s2 & Hmsg).
    destruct (Hend _ sb u s2 Hmsg) as (s' & Hs' & Hinfo).
    exists k, d, s'. split; [exact Hd|]. split; [exact G|]. split; [exact P|].
    split; [exact Hall|]. split; [exact Hs'|]. split; [exact Hinfo|exact Hin].
Qed.
End Enumerated.

(** On the machine with the two discrete GPUs, which score alike, the first
    is selected. *)
Lemma selection_of_enumerated_witness :
  map physdev two_gpu_infos = [201; 202] /\
  exists s', __lahar_build_physdev sim_ext two_gpu_before_physdev = Ok LAHAR_ERR_SUCCESS s' /\
    deviceName (properties (physdev_info (st_lahar s'))) = "Discrete 8 GiB"%string.
Proof.
  destruct (selection_of_enumerated sim_ext two_gpu_before_physdev 2
              (st_world two_gpu_before_physdev) [201; 202]
              (st_world two_gpu_before_physdev) two_gpu_infos
              (state_after (gather_device_infos sim_ext [201; 202])
                 (after_enumeration two_gpu_before_physdev 2
                    (st_world two_gpu_before_physdev))))
    as [Hpd [[F _]|(k & d & s' & Hd & _ & _ & Hall & Hrun & Hinfo & _)]].
  - reflexivity.
  - reflexivity.
  - reflexivity.
  - vm_compute. discriminate.
  - vm_compute. reflexivity.
  - exfalso. apply Forall_cons_1 in F. destruct F as [[F|F] _]; discriminate F.
  - split; [exact Hpd|]. exists s'. split; [exact Hrun|]. rewrite Hinfo.
    destruct k as [|[|k]]; cbn in Hd.
    + injection Hd as <-. reflexivity.
    + injection Hd as <-. exfalso.
      destruct (Hall 0%nat _ eq_refl) as [_ H]. specialize (H ltac:(lia)).
      vm_compute in H. discriminate H.
    + discriminate Hd.
Defined.
